(* ===== verification/_CoqProject ===== *)
-Q . S2P
Prelude.v
Text.v
Stats.v
HistoryBuffer.v
ObjectDetection.v
ObjectSummary.v
Geometry.v
FaceDetection.v
HandTracking.v
Session.v
BasicSession.v
Overlay.v
Controller.v
Dashboard.v
PublicCam.v
Query.v
Sources.v
Page.v
Player.v
App.v
