(* ===== verification/Prelude.v ===== *)
(** * video-query: a verification development

    The repository is a Next.js application that runs detectors over a video
    frame source, aggregates what they report during a session and hands a
    summary to a question-answering endpoint.  This library models the
    session core and its consumers and proves the properties that make them
    correct; where the code departs from the design document the theorems
    state what the code does.

    ** Parts of the program and the files that model them

    - [Prelude] (this file): the JavaScript idioms every component uses and
      their laws: [slice_last] for [arr.slice(-n)], [slice_first] for
      [arr.slice(0, n)], [round_div] and [Qround] for [Math.round],
      [floor_div] for [Math.floor], the truthiness of numbers, record update
      notation, the rewrite database [js_len] and the hint database [js].
    - [Text]: [String.prototype.trim] with the white space of JavaScript in
      UTF-8 (one to three bytes a code point) and its laws, template literals as
      joined lines, and the values of a parsed JSON body ([JsVal]) with their
      truthiness and the text a template literal gives of them.
    - [Stats]: the label-count objects ([DetectionStats] of
      src/hooks/useObjectDetection.ts, [emotions], [gestureStats]) as
      [gmap string nat]; [bump] is [acc[k] = (acc[k] || 0) + 1] and [countBy]
      the [reduce]/[forEach] loops built from it.
    - [HistoryBuffer]: the bounded history of the design document as an
      abstract specification, twice: as a type class with its laws, for the
      clients of a buffer, and as the reference queue [Fifo], written from
      the document alone (one event appended at a time, the oldest evicted
      when the length would exceed the capacity).
    - [ObjectDetection], module [Obj]: the hook [useObjectDetection]
      (src/hooks/useObjectDetection.ts): its React state, refs, timers and
      in-flight [detect] calls as one [Record], one definition per handler
      ([loadModel], [startDetection], [detect] split at its [await] into
      [detectBegin], [detectResolve], [detectReject], [stopDetection]), the
      function [exec] of the events that drive it, [run] over a list of
      events and the relation [reachable].  The history ref is an instance
      of the class of [HistoryBuffer], and its batch update is compared with
      the reference queue [Fifo].
    - [ObjectSummary], module [ObjSummary]: [getDetectionSummary] and
      [exportSession] of the same hook.
    - [Geometry]: boxes and the distance between their corners, decided on
      the squares and related to the real square root.
    - [FaceDetection], module [Face]: [useAdvancedFaceDetection]
      (src/hooks/useAdvancedFaceDetection.ts): [assignFaceId],
      [detectInteractions], [startDetection], [stopDetection], [getSummary].
      The hook calls no detector; the tick of the design document that would
      call [assignFaceId] ([detectTick], [driven]) is modelled from that
      document.
    - [HandTracking], module [Hand]: [useHandTracking]
      (src/hooks/useHandTracking.ts).
    - [Session], module [Advanced]: src/components/AdvancedSessionManager.tsx
      over the three hooks: [handleStartAll], [handleStopAll],
      [handleGenerateSummary] and the guards of the rendered buttons.
    - [BasicSession], module [Basic]: src/components/SessionManager.tsx over
      the object hook.
    - [Overlay]: the canvas overlays.  Module [Canvas] is a canvas element
      as the effects use it: its size, the styles and the font of its 2D
      context, and the list of shapes drawn since the bitmap was last
      reset.  Modules [AdvancedView] and [BasicView] are the [canvasRef] of
      the two managers, the conditional rendering of the canvas element
      ([mount]) and the [useEffect] that draws on it ([effect], [paint], one
      definition per [forEach] callback), run after every event that
      changes a dependency.  [measureText] is a parameter.
    - [Controller]: module [Spec] is the session controller of the design
      document (states [Idle] and [Active], failures [AlreadyActive] and
      [NotReady]); modules [AdvancedController] and [BasicController] map
      the states and events of the two managers to its phases and calls;
      module [Quiesce] is the measure of what a stopped object hook still
      waits for.
    - [Dashboard]: the JSX the two managers return, as functions from the
      state to a view ([AdvancedDash.render], [BasicDash.render]):
      buttons, panels, cards.  Class [Entries] is [Object.entries] with the
      law that it lists every property once.  Module [Typed] is the
      well-formedness of a state of the object hook.
    - [PublicCam], module [Pub]: src/components/PublicWebcam.tsx: the
      effect that appends a hidden proxy video to the document and polls
      the thumbnail of the stream every second, its cleanup, the images in
      flight, and the session manager of [BasicSession] rendered on the
      proxy.
    - [Query], module [Api]: the answer endpoint src/app/api/query/route.ts
      ([POST]) with src/lib/gemini.ts ([analyzeImage],
      [analyzeImageWithContext]).
    - [Sources]: the regular expressions that extract a video id, and the
      forms src/components/VideoSelector.tsx (module [Selector]) and
      src/components/LiveYouTubeStream.tsx (module [Live]);
      src/lib/publicCameras.ts.  Module [Url] is [iframe.src] as
      src/app/page.tsx reads it: the attribute the component rendered,
      parsed and serialised by the browser after the URL Standard (tabs and
      newlines removed, the path split in segments at slashes and
      backslashes, dot segments resolved, path, query and fragment
      percent-encoded), for the addresses of origin
      [https://www.youtube.com] that the components render.
    - [Page]: the form src/components/QueryInterface.tsx (module [Form]) and
      [handleQuery] of src/app/page.tsx (module [Home]), composed with the
      route of [Query].
    - [Player]: src/components/VideoPlayer.tsx (module [Player]) and
      src/components/WebcamCapture.tsx (module [Webcam]).  The video element
      of the player is the browser's: [play()] can be refused, and the
      browser pauses, resumes and mutes the element without a handler of
      the component running; these are events of [Player.exec].
    - [App]: the JSX of [Home] in src/app/page.tsx: the source buttons, the
      child mounted for the selected source and unmounted when it changes,
      the document [handleQuery] reads, derived from the rendered child
      ([App.document]), and the query form settled by the promise of
      [handleQuery].

    ** What the theorems show

    - Of the object hook: the history is exactly the last 1000 detections of
      the session, in arrival order and sorted by time; the batch append
      with its one truncation gives the queue the reference buffer [Fifo]
      holds after appending the batch one event at a time; the hook reports
      detecting exactly when it holds a timer, holds at most one, and a stop
      cancels it; what [stats] holds after a tick; what a start does and
      when it does nothing; what a call in flight does after a stop.
    - Of the summary: the counts are the counts of the window, a window never
      reports more than the session, longer windows contain shorter ones, the
      timeline is the last 50 entries, the duration is rounded.
    - Of the face hook: [assignFaceId] reuses the first tracked id in range
      and otherwise mints a fresh one; ids lie between 1 and the counter;
      [detectInteractions] is the filtered list of pairs; the hook as written
      never detects.
    - Of the object hook as a typed value ([Dashboard]): every reachable
      state is well formed (no label with a zero count in [stats] or in the
      [stats] a closure captured, one timestamp per batch), and each event
      keeps it so.
    - Of a stopped hook ([Controller]): the relation of the events it can
      still see is well founded, and their number is bounded by the calls in
      flight plus one for the load of the model.
    - Of the session managers: the hooks are started and stopped together,
      stopping is idempotent, the invariants of the object hook hold through
      the component, what the published summary holds.
    - Of the managers as implementations of the design document's
      controller ([Controller]): every run of the advanced manager is a run
      of the controller in which no call fails (a forward simulation, phase
      by phase); the basic manager is the controller under a caller that
      ignores [NotReady].
    - Of the overlays ([Overlay]): the drawing loops agree with a list of
      shapes per detection, face and hand, including the font in which each
      label background is measured; the canvas of the advanced manager is
      mounted exactly during a session and shows the current detections and
      nothing else; the canvas of the basic manager is never mounted.
    - Of the dashboards ([Dashboard]): the controls a view offers are the
      clicks the machine accepts; the face panel always reads zero and the
      hand panel is never rendered; the object cards are at most six (eight
      in the basic manager), without repetition, each with the count of its
      label.
    - Of the public webcam frame ([PublicCam]): a mounted frame has exactly
      one proxy video in the document and one timer, for the current
      stream; an unmounted frame has left neither; an image that loads for
      the proxy is a thumbnail of the current stream; a running session
      survives a switch of the stream on the old proxy, and survives the
      unmount with its timer.
    - Of the route: which requests are refused, which prompt is sent, what is
      answered when the model answers and when it fails.
    - Of the forms and the page: one query at a time, trimmed questions, the
      promise of [handleQuery] on each path, the page composed with the
      route.  The round trip of a video id through the frame holds for the
      ids that are one plain segment of a path, as the ids of YouTube are;
      the parser reads every frame the components render, and the examples
      show what it makes of the other ids the form accepts (percent-encoded,
      normalised, or lost with the segment [embed]).
    - Of the player and the webcam: the buttons show the state of the
      element on the runs in which every [play()] is allowed and the browser
      leaves the element alone, a click brings its button back in step, and
      a refused [play()] or a pause by the browser leaves the button wrong;
      the format of the time; when the camera is released and when it is
      not.
    - Of the page with its children ([App]): a question is asked about the
      video the selector shows; the page never forgets a video, so a
      question after a dismissal is asked about the dismissed video; a
      camera that is on when the source is changed stays on for good; a
      query whose promise never settles leaves the form searching for
      good.

    ** Bounds

    [Obj.HISTORY_CAP] is 1000 and [ObjSummary.TIMELINE_CAP] is 50, as in the
    source.  No definition uses fuel: every loop of the source is a loop
    over a finite array and is modelled by structural recursion.  Runs are
    lists of events of any length.

    ** How state and effects are modelled

    A hook's [useState] cells and [useRef] cells are the fields of its state
    record, under the names the source gives them.  An event handler runs to
    completion, so it is one function from state to state.  An [async]
    function is cut at each [await]: the part before it is one transition,
    the continuation another, and the calls in flight are kept in the state
    together with the variables their closure captured.  This matters for
    [detect], which closes over the [stats] of the render that started the
    session.  [Date.now()] and the detector's answer are inputs of the
    transition that reads them.

    ** Numbers and strings

    JavaScript numbers are doubles.  Timestamps, pixel coordinates, counters
    and timer ids are modelled as mathematical integers ([Z], [nat],
    [positive]); this is exact while magnitudes stay below 2^53, which holds
    for [Date.now()] and for any counter a session can reach.  Confidence
    scores are rationals ([Q]); [Math.round] is rounding half up.  A
    Euclidean distance [Math.sqrt(dx^2 + dy^2) < t] is decided on the squares.
    Strings are byte strings, read as UTF-8 where it matters (the white
    space of [trim], the percent-encoding of [Url], the pictographs of the
    gesture labels); the character classes of the regular expressions are
    ASCII.  Object keys are assumed not to be names of [Object.prototype]
    members.

    ** Idealisations

    The coordinates of a box are integers and a score is a rational, so
    [Math.round(score * 100)] is exact where a double can fall on the other
    side of a half.  A video element is a record of its identity and of
    the width and height the managers read: two elements are told apart
    even when they have the same size, and the size of an element does not
    change while it is the prop of a manager.  [BasicView.paint] leaves out
    the branch for an image element, which no caller takes.  [Url.href]
    answers only for addresses of the origin of the frames; the parsing of
    scheme, credentials, host and port is not modelled.  Of the video
    element of the player the model keeps whether it is paused and muted,
    its position and its length; the refusal of [play()] and the changes
    the browser makes on its own are events, their causes (autoplay
    policy, a source that cannot be played, media keys) are not modelled.

    ** What is not modelled

    JSX markup other than what [Dashboard] and the guards of the machines
    read of it (class names, icons, fixed texts), CSS, the rasterisation of
    the shapes drawn on a canvas and the metrics of a font ([measureText]
    is a parameter), and the pixels of a thumbnail (the data URL of the
    canvas is an input of the event that loads it).  The order in which
    [Object.entries] lists the labels is a parameter with a law, since the
    finite maps of the model do not record the order of insertion.  The
    detectors themselves (coco-ssd, face-api, MediaPipe), the
    Gemini service, [fetch], [Blob], [JSON.stringify] and
    [toLocaleTimeString] are libraries the sources only call: each is a
    parameter of the definitions that use it or an input of the transition
    that awaits it. *)

From Stdlib Require Import ZArith QArith Qround Lia.
From stdpp Require Import base list gmap strings pretty sorting.

Declare Scope js_scope.
Delimit Scope js_scope with js.

(** ** Truthiness *)

(** [if (n)] for a number [n]: every number but zero (and NaN, which the
    model does not have) is truthy. *)
Definition truthyZ (n : Z) : bool := negb (n =? 0)%Z.

(** [if (o)] for a value that may be [undefined] or a number. *)
Definition truthy (o : option Z) : bool :=
  match o with Some n => truthyZ n | None => false end.

(** [x || d] for a count that may be [undefined]: a missing count and a zero
    count both give [d]. *)
Definition or_default (o : option nat) (d : nat) : nat :=
  match o with Some (S n) => S n | _ => d end.

Notation "o '|?' d" := (or_default o d) (at level 50, left associativity) : js_scope.

(** ** Record update

    A state record is updated one field at a time, as the setters of
    [useState] and the assignments to [ref.current] do.  [s <| f := v |>] is
    [s] with field [f] set to [v]; a record declares one [Setter] instance
    per field. *)

Class Setter {R T : Type} (proj : R → T) := set : (T → T) → R → R.
Arguments set {R T} proj {Setter} _ _ /.

#[warning="-postfix-notation-not-level-1"]
Notation "s <| proj := v |>" := (set proj (λ _, v) s)
  (at level 12, left associativity, format "s  <| proj  :=  v |>") : js_scope.
#[warning="-postfix-notation-not-level-1"]
Notation "s <| proj ::= f |>" := (set proj f s)
  (at level 12, left associativity, format "s  <| proj  ::=  f |>") : js_scope.

(** ** Printing numbers

    [`${n}`] for an integer [n]: its decimal digits, with a minus sign
    when negative. *)
Definition show_Z (n : Z) : string := pretty n.
Definition show_nat (n : nat) : string := pretty n.

(** ** Array slices *)

(** [l.slice(-n)] for [n > 0]: the last [n] elements, all of [l] when it
    has fewer. *)
Definition slice_last {A} (n : nat) (l : list A) : list A :=
  drop (length l - n) l.

(** [l.slice(0, n)]. *)
Definition slice_first {A} (n : nat) (l : list A) : list A := take n l.

(** ** Rounding *)

(** [Math.floor(n / d)] for integers [n] and [d > 0]. *)
Definition floor_div (n d : Z) : Z := (n / d)%Z.

(** [Math.round(n / d)] for integers [n] and [d > 0]: the nearest integer,
    a tie going up. *)
Definition round_div (n d : Z) : Z := ((2 * n + d) / (2 * d))%Z.

(** [Math.round(x)] for a rational [x]. *)
Definition Qround (x : Q) : Z := Qfloor (x + (1 # 2)).

(** ** Laws of the slices *)

Section Slices.
Context {A : Type}.
Implicit Types (l k : list A) (n m : nat).

Lemma length_slice_last n l : length (slice_last n l) = length l `min` n.
Proof. unfold slice_last. rewrite length_drop. lia. Qed.

Lemma length_slice_first n l : length (slice_first n l) = n `min` length l.
Proof. apply length_take. Qed.

Lemma slice_last_ge n l : length l ≤ n → slice_last n l = l.
Proof. intros H. unfold slice_last. by replace (length l - n) with 0 by lia. Qed.

Lemma slice_last_nil n : slice_last n (@nil A) = [].
Proof. by apply slice_last_ge; simpl; lia. Qed.

Lemma slice_last_0 l : slice_last 0 l = [].
Proof. unfold slice_last. rewrite Nat.sub_0_r. apply drop_all. Qed.

Lemma slice_last_suffix n l : slice_last n l `suffix_of` l.
Proof. apply suffix_drop. Qed.

(** The slice of a concatenation, when the second part alone fills it. *)
Lemma slice_last_app_ge n l k :
  n ≤ length k → slice_last n (l ++ k) = slice_last n k.
Proof.
  intros H. unfold slice_last. rewrite length_app, drop_app_ge by lia.
  f_equal. lia.
Qed.

(** The slice of a concatenation, when the second part fits whole. *)
Lemma slice_last_app_le n l k :
  length k ≤ n → slice_last n (l ++ k) = slice_last (n - length k) l ++ k.
Proof.
  intros H. unfold slice_last. rewrite length_app, drop_app_le by lia.
  do 2 f_equal. lia.
Qed.

(** Truncating early loses nothing: what an early truncation drops, the
    late one drops too. *)
Lemma slice_last_app_absorb n l k :
  slice_last n (slice_last n l ++ k) = slice_last n (l ++ k).
Proof.
  destruct (decide (n ≤ length k)) as [Hk|Hk].
  - by rewrite !slice_last_app_ge.
  - rewrite !slice_last_app_le by lia. f_equal.
    unfold slice_last at 1 2. rewrite drop_drop, length_drop.
    unfold slice_last. f_equal. lia.
Qed.

Lemma slice_last_idemp n l : slice_last n (slice_last n l) = slice_last n l.
Proof.
  pose proof (slice_last_app_absorb n l []) as H. by rewrite !app_nil_r in H.
Qed.

(** A shorter slice of a longer slice is the shorter slice. *)
Lemma slice_last_slice_last n m l :
  n ≤ m → slice_last n (slice_last m l) = slice_last n l.
Proof.
  intros H. unfold slice_last. rewrite drop_drop, length_drop. f_equal. lia.
Qed.

Lemma elem_of_slice_last n l x : x ∈ slice_last n l → x ∈ l.
Proof. intros H. by eapply elem_of_suffix, slice_last_suffix. Qed.

Lemma Forall_slice_last (P : A → Prop) n l :
  Forall P l → Forall P (slice_last n l).
Proof. apply Forall_drop. Qed.

(** The [i]-th element of the slice is the element [length l - n] places
    later in the array. *)
Lemma lookup_slice_last n l i :
  slice_last n l !! i = l !! (length l - n + i).
Proof. apply lookup_drop. Qed.

Lemma StronglySorted_slice_last (R : relation A) n l :
  StronglySorted R l → StronglySorted R (slice_last n l).
Proof.
  intros H. unfold slice_last.
  rewrite <-(take_drop (length l - n) l) in H.
  by apply StronglySorted_app_1_r in H.
Qed.

Lemma slice_first_ge n l : length l ≤ n → slice_first n l = l.
Proof. apply take_ge. Qed.

Lemma slice_first_prefix n l : slice_first n l `prefix_of` l.
Proof. apply prefix_take. Qed.

End Slices.

(** Mapping commutes with slicing. *)
Lemma fmap_slice_last {A B} (f : A → B) n (l : list A) :
  f <$> slice_last n l = slice_last n (f <$> l).
Proof. unfold slice_last. by rewrite fmap_drop, length_fmap. Qed.

(** ** Laws of rounding *)

Lemma round_div_spec n d :
  (0 < d)%Z →
  (2 * d * round_div n d ≤ 2 * n + d < 2 * d * (round_div n d + 1))%Z.
Proof.
  intros Hd. unfold round_div.
  pose proof (Z.div_mod (2 * n + d) (2 * d)) as Hdm.
  pose proof (Z.mod_pos_bound (2 * n + d) (2 * d)) as Hb. lia.
Qed.

(** The rounded quotient is the one integer within half a unit of [n / d],
    the upper half excluded. *)
Lemma round_div_unique n d r :
  (0 < d)%Z → (2 * d * r ≤ 2 * n + d < 2 * d * (r + 1))%Z → round_div n d = r.
Proof.
  intros Hd Hr. pose proof (round_div_spec n d Hd). nia.
Qed.

Lemma round_div_nonneg n d : (0 < d)%Z → (0 ≤ n)%Z → (0 ≤ round_div n d)%Z.
Proof. intros. unfold round_div. apply Z.div_pos; lia. Qed.

Lemma round_div_mono n m d :
  (0 < d)%Z → (n ≤ m)%Z → (round_div n d ≤ round_div m d)%Z.
Proof. intros. unfold round_div. apply Z.div_le_mono; lia. Qed.

Lemma round_div_small n d : (0 < d)%Z → (- d ≤ 2 * n < d)%Z → round_div n d = 0%Z.
Proof. intros. apply round_div_unique; lia. Qed.

Lemma Qround_mono x y : (x <= y)%Q → (Qround x ≤ Qround y)%Z.
Proof.
  intros H. unfold Qround. apply Qfloor_resp_le.
  by apply Qplus_le_l.
Qed.

Lemma Qround_Z (z : Z) : Qround (inject_Z z) = z.
Proof.
  unfold Qround, Qfloor, Qplus, inject_Z; simpl.
  symmetry. apply Z.div_unique with (r := 1%Z); lia.
Qed.

(** A rational between two integers rounds between them. *)
Lemma Qround_bounds (x : Q) (a b : Z) :
  (inject_Z a <= x)%Q → (x <= inject_Z b)%Q → (a ≤ Qround x ≤ b)%Z.
Proof.
  intros Ha Hb. rewrite <-(Qround_Z a), <-(Qround_Z b).
  split; by apply Qround_mono.
Qed.

(** On a quotient of integers the two roundings agree. *)
Lemma Qround_round_div n (d : positive) :
  Qround (n # d) = round_div n (Z.pos d).
Proof.
  unfold Qround, round_div, Qfloor, Qplus; simpl.
  f_equal; lia.
Qed.

(** ** Automation shared by the components *)

Create HintDb js discriminated.
Create Rewrite HintDb js_len.

#[export] Hint Resolve slice_last_suffix slice_first_prefix Forall_slice_last
  StronglySorted_slice_last elem_of_slice_last round_div_nonneg round_div_mono : js.

#[export] Hint Rewrite @length_slice_last @length_slice_first @length_app
  @length_fmap @length_take @length_drop @length_cons @length_nil : js_len.

(** Normalise list lengths, then finish with linear arithmetic. *)
Ltac js_len := autorewrite with js_len in *; simpl in *; lia.

(** Split the guards of a handler: every [decide], boolean test and [match]
    of the goal. *)
Ltac js_cases :=
  repeat (first [case_decide | case_bool_decide | case_match]); simplify_eq/=.
