(* ===== verification/Text.v ===== *)
(** * Text: strings as the components build and test them

    Template literals with line feeds, [Array.prototype.join],
    [String.prototype.trim] and the values a JSON request body can hold,
    with their truthiness and their conversion to a string.  A string is a
    sequence of UTF-8 bytes; [trim] removes the white space of JavaScript,
    the code points WhiteSpace and LineTerminator of the language, which
    are one to three bytes long. *)

From Stdlib Require Import ZArith Ascii String Lia.
From stdpp Require Import base list strings.
From S2P Require Import Prelude.

#[local] Open Scope string_scope.

(** The line feed of a template literal. *)
Definition nl : string := String (ascii_of_nat 10) "".

(** [lines.join('\n')] *)
Definition joinLines (lines : list string) : string := String.concat nl lines.

(** White space, as [trim] sees it: the code points WhiteSpace and
    LineTerminator of the language.  Those of the ASCII range are one
    byte. *)
Definition isSpace (a : ascii) : bool :=
  bool_decide (nat_of_ascii a ∈ [9; 10; 11; 12; 13; 32]).

(** The others are two or three bytes: U+00A0; U+1680, U+205F, U+3000 and
    U+FEFF; U+2000 to U+200A, U+2028, U+2029 and U+202F. *)
Definition wideSpace (a b c : nat) : bool :=
  bool_decide ((a, b, c) ∈ [(225, 154, 128); (226, 129, 159); (227, 128, 128);
                            (239, 187, 191)])
  || bool_decide (a = 226 ∧ b = 128 ∧
                  ((128 ≤ c ≤ 138)%nat ∨ c ∈ [168; 169; 175])).

(** The number of bytes of the white space code point [s] starts with, 0
    when it starts with none. *)
Definition spaceLen (s : string) : nat :=
  match s with
  | String a rest =>
      if isSpace a then 1 else
      match rest with
      | String b rest =>
          if bool_decide (nat_of_ascii a = 194 ∧ nat_of_ascii b = 160) then 2
          else match rest with
               | String c _ =>
                   if wideSpace (nat_of_ascii a) (nat_of_ascii b)
                        (nat_of_ascii c)
                   then 3 else 0
               | EmptyString => 0
               end
      | EmptyString => 0
      end
  | EmptyString => 0
  end.


(** [s.trimStart()], [skip] bytes of a white space code point being still
    to drop. *)
Fixpoint trimStartFrom (skip : nat) (s : string) : string :=
  match s with
  | String _ s' =>
      match skip with
      | S k => trimStartFrom k s'
      | 0 => match spaceLen s with
             | S k => trimStartFrom k s'
             | 0 => s
             end
      end
  | EmptyString => EmptyString
  end.

(** [s.trimStart()] *)
Definition trimStart (s : string) : string := trimStartFrom 0 s.

(** [s] is white space only. *)
Definition allSpace (s : string) : bool := bool_decide (trimStart s = "").

(** [s.trimEnd()]: [s] up to where white space only follows. *)
Fixpoint trimEnd (s : string) : string :=
  match s with
  | EmptyString => EmptyString
  | String a s' => if allSpace s then EmptyString else String a (trimEnd s')
  end.

(** [s.trim()] *)
Definition trim (s : string) : string := trimEnd (trimStart s).

(** [s.trim().length === 0] *)
Definition blank (s : string) : bool := bool_decide (trim s = "").

(** A string that does not start with white space: what [trimStart]
    returns. *)
Definition headed (s : string) : Prop := spaceLen s = 0.

(** The bytes of a string, for the samples. *)
Definition bytes (codes : list nat) : string :=
  string_of_list_ascii (ascii_of_nat <$> codes).

(** A value of a parsed JSON body, or [undefined] for a missing field.  An
    object is kept as its serialisation, and so is an array, with the text
    a template literal gives of it: its elements joined by commas. *)
Inductive JsVal :=
  | JUndefined
  | JNull
  | JBool (b : bool)
  | JNum (n : Z)
  | JStr (s : string)
  | JObj (json : string)
  | JArr (json text : string).

(** The truthiness of a value. *)
Definition truthyV (v : JsVal) : bool :=
  match v with
  | JUndefined | JNull => false
  | JBool b => b
  | JNum n => truthyZ n
  | JStr s => negb (bool_decide (s = ""))
  | JObj _ | JArr _ _ => true
  end.

(** [`${v}`] *)
Definition toStr (v : JsVal) : string :=
  match v with
  | JUndefined => "undefined"
  | JNull => "null"
  | JBool b => if b then "true" else "false"
  | JNum n => show_Z n
  | JStr s => s
  | JObj _ => "[object Object]"
  | JArr _ text => text
  end.

#[export] Instance JsVal_eq_dec : EqDecision JsVal.
Proof. solve_decision. Defined.

(** ** Laws of [trim] *)

Lemma spaceLen_le s : (spaceLen s ≤ String.length s)%nat.
Proof.
  destruct s as [|a [|b [|c s]]]; simpl; repeat case_match; lia.
Qed.

(** A white space code point at the start of a string is there whatever
    follows the string. *)
Lemma spaceLen_app p r k : spaceLen p = S k → spaceLen (p +:+ r) = S k.
Proof.
  destruct p as [|a [|b [|c p]]]; simpl; repeat case_match; try done;
    destruct r as [|d [|e r]]; simpl; by repeat case_match.
Qed.

Lemma trimStartFrom_idemp k s : trimStart (trimStartFrom k s) = trimStartFrom k s.
Proof.
  revert k. induction s as [|a s IH]; intros k; [done|].
  destruct k as [|k]; [|apply IH]. cbn [trimStartFrom].
  destruct (spaceLen (String a s)) as [|j] eqn:E; [|apply IH].
  unfold trimStart. cbn [trimStartFrom]. by rewrite E.
Qed.

Lemma trimStart_idemp s : trimStart (trimStart s) = trimStart s.
Proof. apply trimStartFrom_idemp. Qed.

Lemma trimStartFrom_headed k s : headed (trimStartFrom k s).
Proof.
  revert k. induction s as [|a s IH]; intros k; [done|].
  destruct k as [|k]; [|apply IH]. cbn [trimStartFrom].
  by destruct (spaceLen (String a s)) as [|j] eqn:E; [|apply IH].
Qed.

Lemma trimStart_headed s : headed (trimStart s).
Proof. apply trimStartFrom_headed. Qed.

Lemma trimStart_id s : headed s → trimStart s = s.
Proof.
  unfold headed, trimStart. destruct s as [|a s]; [done|].
  cbn [trimStartFrom]. by intros ->.
Qed.

Lemma trimStart_empty s : trimStart s = "" ↔ allSpace s = true.
Proof. unfold allSpace. by rewrite bool_decide_eq_true. Qed.

Lemma allSpace_trimStart s : allSpace (trimStart s) = allSpace s.
Proof. unfold allSpace. by rewrite trimStart_idemp. Qed.

Lemma trimEnd_empty s : trimEnd s = "" ↔ allSpace s = true.
Proof.
  destruct s as [|a s]; [done|]. cbn [trimEnd].
  by destruct (allSpace (String a s)).
Qed.

(** A string is blank exactly when it holds white space only. *)
Lemma blank_allSpace s : blank s = allSpace s.
Proof.
  unfold blank, trim.
  destruct (allSpace s) eqn:E;
    [apply bool_decide_eq_true|apply bool_decide_eq_false];
    rewrite trimEnd_empty, allSpace_trimStart; congruence.
Qed.

(** White space followed by white space is white space. *)
Lemma trimStartFrom_app k x w :
  (k ≤ String.length x)%nat → trimStartFrom k x = "" →
  trimStartFrom k (x +:+ w) = trimStart w.
Proof.
  revert k. induction x as [|a x IH]; intros k Hk.
  - simpl in Hk. by replace k with 0 by lia.
  - change (String a x +:+ w) with (String a (x +:+ w)).
    destruct k as [|k]; cbn [trimStartFrom].
    + pose proof (spaceLen_le (String a x)) as Hle.
      destruct (spaceLen (String a x)) as [|j] eqn:E; [done|].
      change (String a (x +:+ w)) with (String a x +:+ w).
      rewrite (spaceLen_app _ w _ E). apply IH. simpl in Hle. lia.
    + apply IH. simpl in Hk. lia.
Qed.

Lemma allSpace_app x w :
  allSpace x = true → allSpace w = true → allSpace (x +:+ w) = true.
Proof.
  rewrite <-!trimStart_empty. intros Hx Hw. unfold trimStart.
  rewrite trimStartFrom_app; [done|lia|done].
Qed.

(** [trimEnd] cuts white space off the end. *)
Lemma trimEnd_split s : ∃ w, s = trimEnd s +:+ w ∧ allSpace w = true.
Proof.
  induction s as [|a s (w & Hs & Hw)]; [by exists ""|]. cbn [trimEnd].
  destruct (allSpace (String a s)) eqn:E; [by exists (String a s)|].
  exists w. split; [|done]. change (String a s = String a (trimEnd s +:+ w)).
  by rewrite <-Hs.
Qed.

Lemma allSpace_trimEnd s : allSpace (trimEnd s) = allSpace s.
Proof.
  destruct (allSpace s) eqn:E.
  - by apply trimEnd_empty in E as ->.
  - destruct (allSpace (trimEnd s)) eqn:E'; [|done].
    destruct (trimEnd_split s) as (w & Hs & Hw).
    rewrite Hs, allSpace_app in E; done.
Qed.

Lemma trimEnd_headed s : headed s → headed (trimEnd s).
Proof.
  unfold headed. intros Hs. destruct (spaceLen (trimEnd s)) as [|k] eqn:E; [done|].
  destruct (trimEnd_split s) as (w & Hw & _).
  rewrite Hw, (spaceLen_app _ w _ E) in Hs. done.
Qed.

Lemma trimEnd_idemp s : trimEnd (trimEnd s) = trimEnd s.
Proof.
  induction s as [|a s IH]; [done|]. cbn [trimEnd].
  destruct (allSpace (String a s)) eqn:E; [done|]. cbn [trimEnd].
  pose proof (allSpace_trimEnd (String a s)) as H. cbn [trimEnd] in H.
  rewrite E in H. by rewrite H, IH.
Qed.

(** Trimming twice is trimming once. *)
Lemma trim_idemp s : trim (trim s) = trim s.
Proof.
  unfold trim. rewrite (trimStart_id (trimEnd _)), trimEnd_idemp; [done|].
  apply trimEnd_headed, trimStart_headed.
Qed.

(** A trimmed string that is not empty is not blank. *)
Lemma trim_not_blank s : trim s ≠ "" → blank (trim s) = false.
Proof.
  intros Hs. unfold blank. rewrite trim_idemp. by apply bool_decide_eq_false.
Qed.

(** A no-break space before a question and an em space and a space after
    it are trimmed, a question of ideographic spaces is blank; a letter
    with an accent is not white space, nor is the start of a white space
    code point that is cut short. *)
Example trim_unicode :
  trim (bytes [194; 160] +:+ "How many cars?" +:+ bytes [226; 128; 131; 32])
  = "How many cars?" ∧
  blank (bytes [227; 128; 128; 10; 227; 128; 128]) = true ∧
  trim (bytes [195; 169]) = bytes [195; 169] ∧
  blank (bytes [226; 128]) = false.
Proof. repeat split; by vm_compute. Qed.

Lemma truthyV_JStr s : truthyV (JStr s) = true ↔ s ≠ "".
Proof. simpl. by rewrite negb_true_iff, bool_decide_eq_false. Qed.
