(* ===== verification/Stats.v ===== *)
(** * Stats: label-count objects

    The objects the hooks use as counters ([DetectionStats], [emotions],
    [gestureStats]) map a label to the number of times it was seen.  They are
    modelled as [gmap string nat].  [bump] is the statement
    [acc[k] = (acc[k] || 0) + 1] and [countBy] the loop that applies it to
    every element of an array.  The lemmas give the count of every label
    after the loop, relate a count object to the multiset of labels it
    stands for, and bound the counts of a filtered array by those of the
    whole. *)

From stdpp Require Import base list gmap gmultiset strings.
From S2P Require Import Prelude.

(** [interface DetectionStats { [key: string]: number }] *)
Abbreviation DetectionStats := (gmap string nat).

(** [m[k] || 0]: the count read back, zero for a label never seen. *)
Definition count_of (m : DetectionStats) (k : string) : nat := (m !! k |? 0)%js.

(** [acc[k] = (acc[k] || 0) + 1] *)
Definition bump (k : string) (m : DetectionStats) : DetectionStats :=
  <[k := (m !! k |? 0)%js + 1]> m.

(** [l.reduce((acc, x) => { acc[key(x)] = (acc[key(x)] || 0) + 1; return acc }, base)],
    and the [forEach] loop over a copy [{ ...base }]. *)
Definition countBy {A} (key : A → string) (base : DetectionStats) (l : list A)
  : DetectionStats :=
  foldl (λ acc x, bump (key x) acc) base l.

(** The sum of all counts of an object. *)
Definition total (m : DetectionStats) : nat :=
  map_fold (λ _ v acc, v + acc) 0 m.

(** Every stored count is positive: the object has no zero entry. *)
Definition positive_counts (m : DetectionStats) : Prop :=
  map_Forall (λ _ v, 0 < v) m.

Section Counting.
Context {A : Type} (key : A → string).
Implicit Types (m base : DetectionStats) (l : list A) (k : string).

(** The number of elements of [l] labelled [k]. *)
Definition occurrences k l : nat := length (filter (λ x, key x = k) l).

Lemma count_of_empty k : count_of ∅ k = 0.
Proof. unfold count_of. by rewrite lookup_empty. Qed.

Lemma count_of_lookup_pos m k n : m !! k = Some (S n) → count_of m k = S n.
Proof. unfold count_of. by intros ->. Qed.

Lemma count_of_positive m k :
  positive_counts m → count_of m k = default 0 (m !! k).
Proof.
  intros Hm. unfold count_of. destruct (m !! k) as [[|n]|] eqn:E; try done.
Qed.

Lemma count_of_bump m k k' :
  count_of (bump k m) k' = if decide (k = k') then S (count_of m k) else count_of m k'.
Proof.
  unfold count_of, bump. case_decide as E.
  - subst. rewrite lookup_insert_eq, Nat.add_1_r. done.
  - by rewrite lookup_insert_ne.
Qed.

Lemma bump_lookup m k : bump k m !! k = Some (S (count_of m k)).
Proof. unfold bump, count_of. by rewrite lookup_insert_eq, Nat.add_1_r. Qed.

Lemma bump_lookup_ne m k k' : k ≠ k' → bump k m !! k' = m !! k'.
Proof. intros. unfold bump. by rewrite lookup_insert_ne. Qed.

Lemma bump_comm m k k' : bump k (bump k' m) = bump k' (bump k m).
Proof.
  unfold bump. destruct (decide (k = k')) as [->|Hne]; [done|].
  rewrite !(lookup_insert_ne _ k k'), !(lookup_insert_ne _ k' k) by done.
  by apply insert_insert_ne.
Qed.

Lemma positive_counts_empty : positive_counts ∅.
Proof. apply map_Forall_empty. Qed.

Lemma positive_counts_bump m k : positive_counts m → positive_counts (bump k m).
Proof. intros Hm. apply map_Forall_insert_2; [lia|done]. Qed.

Lemma countBy_nil base : countBy key base [] = base.
Proof. done. Qed.

Lemma countBy_cons base x l :
  countBy key base (x :: l) = countBy key (bump (key x) base) l.
Proof. done. Qed.

Lemma countBy_app base l1 l2 :
  countBy key base (l1 ++ l2) = countBy key (countBy key base l1) l2.
Proof. apply foldl_app. Qed.

Lemma countBy_snoc base l x :
  countBy key base (l ++ [x]) = bump (key x) (countBy key base l).
Proof. by rewrite countBy_app. Qed.

Lemma occurrences_app k l1 l2 :
  occurrences k (l1 ++ l2) = occurrences k l1 + occurrences k l2.
Proof. unfold occurrences. by rewrite filter_app, length_app. Qed.

Lemma occurrences_cons k x l :
  occurrences k (x :: l) = (if decide (key x = k) then 1 else 0) + occurrences k l.
Proof. unfold occurrences. rewrite filter_cons. by case_decide. Qed.

Lemma occurrences_le_length k l : occurrences k l ≤ length l.
Proof. apply length_filter. Qed.

(** The loop adds to each label's count the number of elements so labelled. *)
Lemma count_of_countBy base l k :
  count_of (countBy key base l) k = count_of base k + occurrences k l.
Proof.
  revert base. induction l as [|x l IH]; intros base.
  - unfold occurrences. simpl. lia.
  - rewrite countBy_cons, IH, count_of_bump, occurrences_cons.
    case_decide; subst; lia.
Qed.

Lemma positive_counts_countBy base l :
  positive_counts base → positive_counts (countBy key base l).
Proof.
  revert base. induction l as [|x l IH]; intros base Hb; [done|].
  rewrite countBy_cons. by apply IH, positive_counts_bump.
Qed.

(** What the loop stores for [k], starting from an empty object: nothing
    when no element is labelled [k], the number of such elements otherwise. *)
Lemma countBy_empty_lookup l k :
  countBy key ∅ l !! k =
    if decide (occurrences k l = 0) then None else Some (occurrences k l).
Proof.
  pose proof (count_of_countBy ∅ l k) as Hc. rewrite count_of_empty in Hc.
  pose proof (positive_counts_countBy ∅ l positive_counts_empty) as Hp.
  rewrite (count_of_positive _ _ Hp) in Hc.
  destruct (countBy key ∅ l !! k) as [n|] eqn:E; simpl in Hc.
  - apply Hp in E. case_decide; [lia|]. f_equal. lia.
  - case_decide; [done|lia].
Qed.

(** A label the loop does not meet keeps its entry. *)
Lemma countBy_lookup_absent base l k :
  occurrences k l = 0 → countBy key base l !! k = base !! k.
Proof.
  revert base. induction l as [|x l IH]; intros base; [done|].
  rewrite occurrences_cons, countBy_cons. case_decide; [lia|]. intros H0.
  rewrite IH by done. by apply bump_lookup_ne.
Qed.

(** The order of the array does not matter to the counts. *)
Lemma countBy_Permutation base l1 l2 :
  l1 ≡ₚ l2 → countBy key base l1 = countBy key base l2.
Proof.
  intros Hp. revert base.
  induction Hp as [|x l1 l2 _ IH|x y l|l1 l2 l3 _ IH1 _ IH2]; intros base.
  - done.
  - rewrite !countBy_cons. apply IH.
  - rewrite !countBy_cons. by rewrite bump_comm.
  - by rewrite IH1.
Qed.

(** Counting a filtered array never gives more than counting the whole. *)
Lemma occurrences_filter (P : A → Prop) `{!∀ x, Decision (P x)} k l :
  occurrences k (filter P l) ≤ occurrences k l.
Proof.
  induction l as [|x l IH]; [done|].
  rewrite filter_cons. case_decide; rewrite ?occurrences_cons; lia.
Qed.

Lemma count_of_countBy_filter (P : A → Prop) `{!∀ x, Decision (P x)} l k :
  count_of (countBy key ∅ (filter P l)) k ≤ count_of (countBy key ∅ l) k.
Proof. rewrite !count_of_countBy. pose proof (occurrences_filter P k l). lia. Qed.

(** A count object stands for the multiset of the labels counted. *)
Lemma count_of_multiplicity l k :
  count_of (countBy key ∅ l) k =
    multiplicity k (list_to_set_disj (key <$> l) : gmultiset string).
Proof.
  rewrite count_of_countBy, count_of_empty. simpl.
  induction l as [|x l IH]; [done|].
  rewrite occurrences_cons, fmap_cons, list_to_set_disj_cons,
    multiplicity_disj_union, multiplicity_singleton, IH.
  repeat case_decide; congruence.
Qed.

End Counting.

Section Total.
Implicit Types (m : DetectionStats) (k : string).

Lemma total_empty : total ∅ = 0.
Proof. apply map_fold_empty. Qed.

Lemma total_insert_fresh m k v : m !! k = None → total (<[k := v]> m) = v + total m.
Proof.
  intros Hk. unfold total. rewrite map_fold_insert_L; [done| |done].
  intros. lia.
Qed.

Lemma total_delete m k v : m !! k = Some v → total m = v + total (delete k m).
Proof.
  intros Hk. rewrite <-(insert_delete_id m k v) at 1 by done.
  apply total_insert_fresh, lookup_delete_eq.
Qed.

Lemma total_bump m k : positive_counts m → total (bump k m) = S (total m).
Proof.
  intros Hp. unfold bump. rewrite <-insert_delete_eq.
  rewrite total_insert_fresh by apply lookup_delete_eq.
  destruct (m !! k) as [v|] eqn:E.
  - rewrite (total_delete m k v E). apply Hp in E.
    destruct v; simpl; lia.
  - rewrite delete_id by done. simpl. lia.
Qed.

(** The counts of an object built by the loop add up to the length of the
    array. *)
Lemma total_countBy {A} (key : A → string) (l : list A) :
  total (countBy key ∅ l) = length l.
Proof.
  induction l as [|x l IH] using rev_ind; [apply total_empty|].
  rewrite countBy_snoc, total_bump, IH, length_app by
    apply positive_counts_countBy, positive_counts_empty.
  simpl. lia.
Qed.

End Total.

#[export] Hint Resolve positive_counts_empty positive_counts_bump
  positive_counts_countBy : js.
Create Rewrite HintDb js_count.
#[export] Hint Rewrite @count_of_countBy count_of_empty : js_count.
