(* ===== verification/HistoryBuffer.v ===== *)
(** * HistoryBuffer: the bounded event log, as a specification

    The design document describes each modality's history as a buffer with
    two operations: [append], which adds one event and evicts the oldest
    when the capacity is exceeded, and [snapshot], which returns the retained
    events at or after a time, in arrival order.  This file states that
    contract as a type class ([HistoryBuffer] with the laws
    [HistoryBufferLaws]) and proves, against the class alone, what a client
    may rely on: after any sequence of appends the buffer holds the most
    recent [min N C] events in arrival order, and a snapshot is a
    subsequence of the retained events.  [ObjectDetection] gives the
    instance the hook's code implements.

    Module [Fifo] is the buffer of the contract written out, with no
    reference to any code: a queue that [append] extends at the back, one
    event at a time, and from whose front it evicts the oldest event when
    the length would exceed the capacity.  It is the reference the hook's
    batch update is compared with in [ObjectDetection]. *)

From Stdlib Require Import ZArith.
From stdpp Require Import base list.
From S2P Require Import Prelude.

(** The operations of a buffer [B] of events [E]. *)
Class HistoryBuffer (E B : Type) := {
  hb_capacity : nat;
  hb_empty : B;
  hb_append : E → B → B;
  hb_events : B → list E;
  hb_time : E → Z;
}.

(** What the operations promise. *)
Class HistoryBufferLaws (E B : Type) `{HistoryBuffer E B} := {
  hb_events_empty : hb_events hb_empty = [];
  hb_events_append e b :
    hb_events (hb_append e b) = slice_last hb_capacity (hb_events b ++ [e]);
}.

(** ** The reference buffer *)

Module Fifo.
Section Fifo.
Context {E : Type} (capacity : nat).
Implicit Types (e : E) (q es : list E).

(** "If length would exceed capacity, evict oldest": the front of the
    queue goes. *)
Definition evict q : list E :=
  if decide (capacity < length q) then tail q else q.

(** [append(event)] *)
Definition append e q : list E := evict (q ++ [e]).

(** A sequence of appends, in arrival order. *)
Definition append_all es q : list E := foldl (λ acc e, append e acc) q es.

End Fifo.
End Fifo.

Section Client.
Context {E B : Type} `{HistoryBufferLaws E B}.
Implicit Types (b : B) (e : E) (es : list E).

(** Appending the events of a list, oldest first. *)
Definition hb_append_all es b : B := foldl (λ acc e, hb_append e acc) b es.

(** [snapshot(since?)]: the retained events with a timestamp at or after
    [since], all of them when [since] is omitted. *)
Definition hb_snapshot (since : option Z) b : list E :=
  match since with
  | Some t => filter (λ e, (t ≤ hb_time e)%Z) (hb_events b)
  | None => hb_events b
  end.

Lemma hb_append_all_snoc es e b :
  hb_append_all (es ++ [e]) b = hb_append e (hb_append_all es b).
Proof. unfold hb_append_all. by rewrite foldl_app. Qed.

(** Appending a batch one event at a time retains what appending it whole
    and truncating once retains. *)
Lemma hb_events_append_all es b :
  es ≠ [] →
  hb_events (hb_append_all es b) = slice_last hb_capacity (hb_events b ++ es).
Proof.
  induction es as [|e es IH] using rev_ind; [done|intros _].
  rewrite hb_append_all_snoc, hb_events_append.
  destruct (decide (es = [])) as [->|Hne]; [done|].
  by rewrite IH, slice_last_app_absorb, <-app_assoc.
Qed.

(** After [N] appends to an empty buffer, it holds the last [min N C] of
    them, in arrival order. *)
Lemma hb_events_from_empty es :
  hb_events (hb_append_all es hb_empty) = slice_last hb_capacity es.
Proof.
  destruct (decide (es = [])) as [->|Hne].
  - simpl. by rewrite hb_events_empty, slice_last_nil.
  - by rewrite hb_events_append_all, hb_events_empty.
Qed.

Lemma hb_length_from_empty es :
  length (hb_events (hb_append_all es hb_empty)) = length es `min` hb_capacity.
Proof. by rewrite hb_events_from_empty, length_slice_last. Qed.

(** A buffer built by appends never exceeds its capacity. *)
Lemma hb_length_append e b : length (hb_events (hb_append e b)) ≤ hb_capacity.
Proof. rewrite hb_events_append, length_slice_last. lia. Qed.

(** The newest event is always retained, if the capacity is not zero. *)
Lemma hb_last_append e b :
  0 < hb_capacity → last (hb_events (hb_append e b)) = Some e.
Proof.
  intros Hc. rewrite hb_events_append, slice_last_app_le by (simpl; lia).
  apply last_snoc.
Qed.

(** A snapshot is a subsequence of the retained events. *)
Lemma hb_snapshot_sublist since b : hb_snapshot since b `sublist_of` hb_events b.
Proof. destruct since; simpl; [apply sublist_filter|done]. Qed.

(** A snapshot holds only events at or after the time asked for. *)
Lemma hb_snapshot_since t b :
  Forall (λ e, (t ≤ hb_time e)%Z) (hb_snapshot (Some t) b).
Proof. apply Forall_forall. intros e [He _]%list_elem_of_filter. done. Qed.

(** An earlier bound gives a larger snapshot. *)
Lemma hb_snapshot_mono t1 t2 b :
  (t1 ≤ t2)%Z → hb_snapshot (Some t2) b `sublist_of` hb_snapshot (Some t1) b.
Proof.
  intros Ht. simpl. induction (hb_events b) as [|e l IH]; [done|].
  rewrite !filter_cons. repeat case_decide; try lia.
  - by apply sublist_skip.
  - by apply sublist_cons.
  - done.
Qed.

(** A bound no later than every retained event gives everything. *)
Lemma hb_snapshot_all t b :
  Forall (λ e, (t ≤ hb_time e)%Z) (hb_events b) →
  hb_snapshot (Some t) b = hb_snapshot None b.
Proof.
  simpl. induction 1 as [|e l He _ IH]; [done|].
  rewrite filter_cons. case_decide; [|done]. by f_equal.
Qed.

End Client.

(** ** The reference buffer retains the most recent events *)

Section FifoLaws.
Context {E : Type} (capacity : nat).
Implicit Types (e : E) (q es : list E).

(** On a queue within capacity one append keeps the last [capacity] events
    of the queue and the new one. *)
Lemma fifo_append_slice e q :
  length q ≤ capacity →
  Fifo.append capacity e q = slice_last capacity (q ++ [e]).
Proof.
  intros Hq. unfold Fifo.append, Fifo.evict.
  case_decide as Hc; [|by rewrite slice_last_ge by lia].
  rewrite length_app in Hc. simpl in Hc. unfold slice_last.
  rewrite length_app. simpl.
  replace (length q + 1 - capacity) with 1 by lia. by destruct q.
Qed.

Lemma fifo_append_length e q :
  length q ≤ capacity → length (Fifo.append capacity e q) ≤ capacity.
Proof. intros Hq. rewrite fifo_append_slice, length_slice_last by done. lia. Qed.

(** Appends one at a time retain the last [capacity] events of all that
    were in the queue or arrived. *)
Lemma fifo_append_all_slice es q :
  length q ≤ capacity →
  Fifo.append_all capacity es q = slice_last capacity (q ++ es).
Proof.
  revert q. induction es as [|e es IH]; intros q Hq; simpl.
  - rewrite app_nil_r. by rewrite slice_last_ge.
  - fold (Fifo.append_all capacity es (Fifo.append capacity e q)).
    rewrite IH by by apply fifo_append_length.
    by rewrite fifo_append_slice, slice_last_app_absorb, <-app_assoc.
Qed.

(** After [N] appends to the empty queue it holds the most recent
    [min N capacity] events, in arrival order. *)
Lemma fifo_from_empty es :
  Fifo.append_all capacity es [] = slice_last capacity es.
Proof. apply fifo_append_all_slice. simpl. lia. Qed.

Lemma fifo_length_from_empty es :
  length (Fifo.append_all capacity es []) = length es `min` capacity.
Proof. by rewrite fifo_from_empty, length_slice_last. Qed.

End FifoLaws.
