(* ===== verification/ObjectDetection.v ===== *)
(** * ObjectDetection: the hook [useObjectDetection]

    Models src/hooks/useObjectDetection.ts.  [Obj.State] holds the hook's
    [useState] cells ([model], [isLoading], [detections], [stats],
    [isDetecting]) and refs ([detectionHistoryRef], [detectionIntervalRef])
    under their names, and the part of the JavaScript runtime the hook
    drives: the live [setInterval] timers, the [detect] calls suspended at
    [await model.detect(...)] and the lines written with [console.error].

    [detect] is an [async] closure created by [startDetection].  It captures
    the [stats] of the render in which the session was started, and each run
    of it is cut at its [await]: [detectBegin] issues the request,
    [detectResolve] is the continuation on an answer and [detectReject] the
    [catch] branch.  A timer and a call in flight carry the captured
    variables as a [Closure].

    The state machine [Obj.step] has one rule per event that can reach the
    hook; [Obj.reachable] is its set of reachable states, and the invariants
    are proved by induction on it. *)

From Stdlib Require Import ZArith QArith.
From stdpp Require Import base list gmap strings sorting.
From S2P Require Import Prelude Stats HistoryBuffer.

#[local] Open Scope js_scope.

Module Obj.

(** ** Data *)

(** One prediction of the detector ([cocoSsd.DetectedObject]). *)
Record Prediction := {
  pred_class : string;
  pred_score : Q;
  pred_bbox : Z * Z * Z * Z;
}.

(** [interface Detection] *)
Record Detection := {
  class : string;
  score : Q;
  bbox : Z * Z * Z * Z;
  timestamp : Z;
}.

(** The variables of the hook's render that a [detect] closure reads after
    its creation. *)
Record Closure := { captured_stats : DetectionStats }.

(** A timer created by [window.setInterval(detect, interval)]. *)
Record Timer := { callback : Closure; period : Z }.

(** The hook's state and the runtime's. *)
Record State := {
  model : bool;
  isLoading : bool;
  detections : list Detection;
  stats : DetectionStats;
  isDetecting : bool;
  detectionHistoryRef : list Detection;
  detectionIntervalRef : option positive;
  timers : gmap positive Timer;
  nextTimer : positive;
  inflight : list Closure;
  console : list string;
}.

#[export] Instance set_model : Setter model := λ f s,
  Build_State (f (model s)) (isLoading s) (detections s) (stats s) (isDetecting s)
    (detectionHistoryRef s) (detectionIntervalRef s) (timers s) (nextTimer s)
    (inflight s) (console s).
#[export] Instance set_isLoading : Setter isLoading := λ f s,
  Build_State (model s) (f (isLoading s)) (detections s) (stats s) (isDetecting s)
    (detectionHistoryRef s) (detectionIntervalRef s) (timers s) (nextTimer s)
    (inflight s) (console s).
#[export] Instance set_detections : Setter detections := λ f s,
  Build_State (model s) (isLoading s) (f (detections s)) (stats s) (isDetecting s)
    (detectionHistoryRef s) (detectionIntervalRef s) (timers s) (nextTimer s)
    (inflight s) (console s).
#[export] Instance set_stats : Setter stats := λ f s,
  Build_State (model s) (isLoading s) (detections s) (f (stats s)) (isDetecting s)
    (detectionHistoryRef s) (detectionIntervalRef s) (timers s) (nextTimer s)
    (inflight s) (console s).
#[export] Instance set_isDetecting : Setter isDetecting := λ f s,
  Build_State (model s) (isLoading s) (detections s) (stats s) (f (isDetecting s))
    (detectionHistoryRef s) (detectionIntervalRef s) (timers s) (nextTimer s)
    (inflight s) (console s).
#[export] Instance set_detectionHistoryRef : Setter detectionHistoryRef := λ f s,
  Build_State (model s) (isLoading s) (detections s) (stats s) (isDetecting s)
    (f (detectionHistoryRef s)) (detectionIntervalRef s) (timers s) (nextTimer s)
    (inflight s) (console s).
#[export] Instance set_detectionIntervalRef : Setter detectionIntervalRef := λ f s,
  Build_State (model s) (isLoading s) (detections s) (stats s) (isDetecting s)
    (detectionHistoryRef s) (f (detectionIntervalRef s)) (timers s) (nextTimer s)
    (inflight s) (console s).
#[export] Instance set_timers : Setter timers := λ f s,
  Build_State (model s) (isLoading s) (detections s) (stats s) (isDetecting s)
    (detectionHistoryRef s) (detectionIntervalRef s) (f (timers s)) (nextTimer s)
    (inflight s) (console s).
#[export] Instance set_nextTimer : Setter nextTimer := λ f s,
  Build_State (model s) (isLoading s) (detections s) (stats s) (isDetecting s)
    (detectionHistoryRef s) (detectionIntervalRef s) (timers s) (f (nextTimer s))
    (inflight s) (console s).
#[export] Instance set_inflight : Setter inflight := λ f s,
  Build_State (model s) (isLoading s) (detections s) (stats s) (isDetecting s)
    (detectionHistoryRef s) (detectionIntervalRef s) (timers s) (nextTimer s)
    (f (inflight s)) (console s).
#[export] Instance set_console : Setter console := λ f s,
  Build_State (model s) (isLoading s) (detections s) (stats s) (isDetecting s)
    (detectionHistoryRef s) (detectionIntervalRef s) (timers s) (nextTimer s)
    (inflight s) (f (console s)).

(** The state of a freshly mounted hook: the initial values of its
    [useState] and [useRef] calls, no timer, no call in flight. *)
Definition init : State := {|
  model := false;
  isLoading := true;
  detections := [];
  stats := ∅;
  isDetecting := false;
  detectionHistoryRef := [];
  detectionIntervalRef := None;
  timers := ∅;
  nextTimer := 1%positive;
  inflight := [];
  console := [];
|}.

(** The capacity of the history: the literal [1000] of the source. *)
Definition HISTORY_CAP : nat := 1000.

(** ** Handlers *)

(** The mount effect [loadModel]: [cocoSsd.load()] resolves ([ok]) or
    rejects. *)
Definition loadModel (ok : bool) (s : State) : State :=
  if ok then s <| model := true |> <| isLoading := false |>
  else s <| console ::= (.++ ["Error loading model:"]) |> <| isLoading := false |>.

(** [detect], up to its [await]: the request to the detector is issued and
    the call is suspended. *)
Definition detectBegin (c : Closure) (s : State) : State :=
  s <| inflight ::= (.++ [c]) |>.

(** [predictions.map(pred => ({ ..., timestamp }))] *)
Definition newDetections (predictions : list Prediction) (now : Z) : list Detection :=
  (λ pred, {| class := pred_class pred; score := pred_score pred;
              bbox := pred_bbox pred; timestamp := now |}) <$> predictions.

(** The history after a batch: the batch is appended, and the result cut to
    its last [1000] entries when it is longer. *)
Definition appendHistory (batch history : list Detection) : list Detection :=
  let h := history ++ batch in
  if decide (HISTORY_CAP < length h) then slice_last HISTORY_CAP h else h.

(** [newStats]: a copy of the captured [stats] with each detection of the
    batch counted. *)
Definition tickStats (c : Closure) (batch : list Detection) : DetectionStats :=
  countBy class (captured_stats c) batch.

(** [detect], from the answer of the detector to its end.  [c] is the
    closure that was suspended, [now] the value of [Date.now()]. *)
Definition detectResolve (c : Closure) (predictions : list Prediction) (now : Z)
    (s : State) : State :=
  let batch := newDetections predictions now in
  s <| detectionHistoryRef ::= appendHistory batch |>
    <| detections := batch |>
    <| stats := tickStats c batch |>.

(** [detect], when the detector rejects: the [catch] branch logs and
    changes nothing else. *)
Definition detectReject (s : State) : State :=
  s <| console ::= (.++ ["Detection error:"]) |>.

(** [startDetection(videoElement, interval = 1000)] *)
Definition startDetection (interval : option Z) (s : State) : State :=
  if negb (model s) || isDetecting s then s
  else
    let c := {| captured_stats := stats s |} in
    let id := nextTimer s in
    let s := s <| isDetecting := true |>
               <| detectionHistoryRef := [] |>
               <| stats := ∅ |> in
    let s := s <| timers ::= <[id := {| callback := c;
                                         period := default 1000%Z interval |}]> |>
               <| nextTimer := Pos.succ id |>
               <| detectionIntervalRef := Some id |> in
    detectBegin c s.

(** [stopDetection()] *)
Definition stopDetection (s : State) : State :=
  let s := match detectionIntervalRef s with
           | Some id => s <| timers ::= delete id |> <| detectionIntervalRef := None |>
           | None => s
           end in
  s <| isDetecting := false |>.

(** ** The state machine *)

(** What can happen to a mounted hook: the model finishes loading, the
    component calls [startDetection] or [stopDetection], a timer fires, a
    suspended [detect] gets its answer or its error. *)
Inductive Event :=
| EModelLoaded (ok : bool)
| EStart (interval : option Z)
| ETimer (id : positive)
| EResolve (i : nat) (predictions : list Prediction) (now : Z)
| EReject (i : nat)
| EStop.

(** One event, when it is enabled: the model loads once; a timer fires
    only while it is live; only a call in flight can settle. *)
Definition exec (e : Event) (s : State) : option State :=
  match e with
  | EModelLoaded ok => if isLoading s then Some (loadModel ok s) else None
  | EStart interval => Some (startDetection interval s)
  | ETimer id => t ← timers s !! id; Some (detectBegin (callback t) s)
  | EResolve i predictions now =>
      c ← inflight s !! i;
      Some (detectResolve c predictions now (s <| inflight ::= delete i |>))
  | EReject i =>
      c ← inflight s !! i; Some (detectReject (s <| inflight ::= delete i |>))
  | EStop => Some (stopDetection s)
  end.

Inductive step (s : State) : Event → State → Prop :=
| step_model ok :
    isLoading s = true → step s (EModelLoaded ok) (loadModel ok s)
| step_start interval :
    step s (EStart interval) (startDetection interval s)
| step_timer id t :
    timers s !! id = Some t → step s (ETimer id) (detectBegin (callback t) s)
| step_resolve i c predictions now :
    inflight s !! i = Some c →
    step s (EResolve i predictions now)
      (detectResolve c predictions now (s <| inflight ::= delete i |>))
| step_reject i c :
    inflight s !! i = Some c →
    step s (EReject i) (detectReject (s <| inflight ::= delete i |>))
| step_stop :
    step s EStop (stopDetection s).

(** The states a mounted hook can be in. *)
Inductive reachable : State → Prop :=
| reachable_init : reachable init
| reachable_step s e s' : reachable s → step s e s' → reachable s'.

(** A run of events, stopping at the first that is not enabled. *)
Fixpoint run (es : list Event) (s : State) : option State :=
  match es with
  | [] => Some s
  | e :: es => s' ← exec e s; run es s'
  end.

Arguments startDetection : simpl never.
Arguments stopDetection : simpl never.
Arguments loadModel : simpl never.

(** ** Specification-level definitions *)

(** The history as the design document's buffer: one event appended is a
    batch of one. *)
#[export] Instance history_buffer : HistoryBuffer Detection (list Detection) := {|
  hb_capacity := HISTORY_CAP;
  hb_empty := [];
  hb_append e h := appendHistory [e] h;
  hb_events h := h;
  hb_time := timestamp;
|}.

(** What holds of every reachable state: the history is bounded; the hook
    says it is detecting exactly when it holds a timer; the live timers are
    exactly the one it holds; detection implies a loaded model; timer ids
    are fresh. *)
Record Inv (s : State) : Prop := {
  inv_history : length (detectionHistoryRef s) ≤ HISTORY_CAP;
  inv_detecting : isDetecting s = true ↔ is_Some (detectionIntervalRef s);
  inv_timers : ∀ id, is_Some (timers s !! id) ↔ detectionIntervalRef s = Some id;
  inv_model : isDetecting s = true → model s = true;
  inv_fresh : ∀ id, is_Some (timers s !! id) → (id < nextTimer s)%positive;
}.

(** The detections that arrived since the session in progress began, as an
    observer of the events would record them: a call of [startDetection]
    that passes its guard empties the record, an answer extends it. *)
Definition arrive (e : Event) (s : State) (acc : list Detection) : list Detection :=
  match e with
  | EStart _ => if negb (model s) || isDetecting s then acc else []
  | EResolve _ predictions now => acc ++ newDetections predictions now
  | _ => acc
  end.

Fixpoint arrivals (es : list Event) (s : State) (acc : list Detection)
  : list Detection :=
  match es with
  | [] => acc
  | e :: es =>
      match exec e s with
      | Some s' => arrivals es s' (arrive e s acc)
      | None => acc
      end
  end.

(** The clock readings of a run never go back, starting from [t]. *)
Fixpoint clock_monotone (t : Z) (es : list Event) : bool :=
  match es with
  | [] => true
  | EResolve _ _ now :: es => bool_decide (t ≤ now)%Z && clock_monotone now es
  | _ :: es => clock_monotone t es
  end.

Definition clock_after (t : Z) (e : Event) : Z :=
  match e with EResolve _ _ now => now | _ => t end.

(** Arrival order agrees with time order. *)
Definition by_time (d1 d2 : Detection) : Prop := (timestamp d1 ≤ timestamp d2)%Z.

Record Timed (t : Z) (s : State) : Prop := {
  timed_sorted : StronglySorted by_time (detectionHistoryRef s);
  timed_bound : Forall (λ d, (timestamp d ≤ t)%Z) (detectionHistoryRef s);
}.

(** The number of calls of [startDetection] in a run. *)
Definition is_start (e : Event) : bool :=
  match e with EStart _ => true | _ => false end.

Definition starts (es : list Event) : nat := length (filter is_start es).

(** Before any session: nothing counted, nothing scheduled. *)
Record Idle (s : State) : Prop := {
  idle_stats : stats s = ∅;
  idle_detections : detections s = [];
  idle_inflight : inflight s = [];
  idle_timers : timers s = ∅;
  idle_interval : detectionIntervalRef s = None;
}.

(** During the first session of a mounted hook: every closure captured the
    empty [stats], and [stats] counts the latest batch alone. *)
Record FirstSession (s : State) : Prop := {
  fs_inflight : Forall (λ c, captured_stats c = ∅) (inflight s);
  fs_timers : map_Forall (λ _ t, captured_stats (callback t) = ∅) (timers s);
  fs_stats : stats s = countBy class ∅ (detections s);
}.

(** ** Sample sessions *)

Definition car (p : Q) : Prediction :=
  {| pred_class := "car"; pred_score := p; pred_bbox := (10, 20, 300, 200)%Z |}.
Definition person (p : Q) : Prediction :=
  {| pred_class := "person"; pred_score := p; pred_bbox := (400, 50, 80, 240)%Z |}.

(** The model loads and a session is started: one [detect] is in flight. *)
Definition started_events : list Event := [EModelLoaded true; EStart None].

(** Three ticks: the first [detect] answers with a car, the second with a
    car and a person, the third with nothing. *)
Definition sample_events : list Event :=
  started_events ++
  [ EResolve 0 [car (9 # 10)] 1000;
    ETimer 1; EResolve 0 [car (8 # 10); person (7 # 10)] 2000;
    ETimer 1; EResolve 0 [] 3000 ].

(** Two batches of 600 detections each, one second apart: the history
    overflows. *)
Definition flood_events : list Event :=
  started_events ++
  [ EResolve 0 (replicate 600 (car (9 # 10))) 1000;
    ETimer 1; EResolve 0 (replicate 600 (person (7 # 10))) 2000 ].

(** A session is stopped while a [detect] is in flight, and restarted. *)
Definition restart_events : list Event :=
  started_events ++
  [ EResolve 0 [car (9 # 10)] 1000; ETimer 1; EStop; EStart (Some 500%Z) ].

Definition started : State := default init (run started_events init).
Definition sample : State := default init (run sample_events init).
Definition flood : State := default init (run flood_events init).
Definition restarted : State := default init (run restart_events init).

(** ** The step relation and its executable form *)

Lemma step_exec s e s' : step s e s' ↔ exec e s = Some s'.
Proof.
  split.
  - intros Hs; destruct Hs; simpl;
      repeat match goal with H : _ = _ |- _ => rewrite H end; done.
  - destruct e; simpl; intros He; repeat case_match; simplify_option_eq;
      econstructor; eauto.
Qed.

Lemma exec_timer s id t :
  timers s !! id = Some t → exec (ETimer id) s = Some (detectBegin (callback t) s).
Proof. intros H. simpl. by rewrite H. Qed.

Lemma exec_timer_None s id : timers s !! id = None → exec (ETimer id) s = None.
Proof. intros H. simpl. by rewrite H. Qed.

Lemma exec_resolve s i c predictions now :
  inflight s !! i = Some c →
  exec (EResolve i predictions now) s =
    Some (detectResolve c predictions now (s <| inflight ::= delete i |>)).
Proof. intros H. simpl. by rewrite H. Qed.

Lemma exec_reject s i c :
  inflight s !! i = Some c →
  exec (EReject i) s = Some (detectReject (s <| inflight ::= delete i |>)).
Proof. intros H. simpl. by rewrite H. Qed.

Lemma run_reachable es s s' : reachable s → run es s = Some s' → reachable s'.
Proof.
  revert s. induction es as [|e es IH]; simpl; intros s Hr Hrun;
    simplify_option_eq; [done|].
  eapply IH; [|done]. eapply reachable_step; [done|]. by apply step_exec.
Qed.

Lemma run_app es1 es2 s :
  run (es1 ++ es2) s = s' ← run es1 s; run es2 s'.
Proof.
  revert s. induction es1 as [|e es1 IH]; intros s; simpl; [done|].
  destruct (exec e s); simpl; [apply IH|done].
Qed.

Lemma started_run : run started_events init = Some started.
Proof. by vm_compute. Qed.

Lemma sample_run : run sample_events init = Some sample.
Proof. by vm_compute. Qed.

Lemma started_reachable : reachable started.
Proof. exact (run_reachable _ _ _ reachable_init started_run). Qed.

Lemma sample_reachable : reachable sample.
Proof. exact (run_reachable _ _ _ reachable_init sample_run). Qed.

Lemma exec_reachable e s s' : exec e s = Some s' → reachable s → reachable s'.
Proof. intros He%step_exec Hr. by econstructor. Qed.

Lemma startDetection_isDetecting interval s :
  isDetecting (startDetection interval s) = model s || isDetecting s.
Proof.
  unfold startDetection. destruct (model s), (isDetecting s) eqn:E; by simpl.
Qed.

Lemma flood_run : run flood_events init = Some flood.
Proof. by vm_compute. Qed.

Lemma flood_reachable : reachable flood.
Proof. exact (run_reachable _ _ _ reachable_init flood_run). Qed.

Lemma restarted_run : run restart_events init = Some restarted.
Proof. by vm_compute. Qed.

Lemma restarted_reachable : reachable restarted.
Proof. exact (run_reachable _ _ _ reachable_init restarted_run). Qed.

(** ** What [stopDetection] leaves alone *)

Lemma stopDetection_interval s : detectionIntervalRef (stopDetection s) = None.
Proof. unfold stopDetection. by destruct (detectionIntervalRef s) eqn:E. Qed.

Lemma stopDetection_inflight s : inflight (stopDetection s) = inflight s.
Proof. unfold stopDetection. by destruct (detectionIntervalRef s) eqn:E. Qed.

Lemma stopDetection_history s :
  detectionHistoryRef (stopDetection s) = detectionHistoryRef s.
Proof. unfold stopDetection. by destruct (detectionIntervalRef s) eqn:E. Qed.

(** ** The history is a bounded buffer *)

Lemma appendHistory_slice batch h :
  appendHistory batch h = slice_last HISTORY_CAP (h ++ batch).
Proof.
  unfold appendHistory. case_decide; [done|]. by rewrite slice_last_ge by lia.
Qed.

Lemma length_appendHistory batch h : length (appendHistory batch h) ≤ HISTORY_CAP.
Proof. rewrite appendHistory_slice, length_slice_last. lia. Qed.

#[export] Instance history_buffer_laws : HistoryBufferLaws Detection (list Detection).
Proof. split; [done|]. intros e h. apply appendHistory_slice. Qed.

(** ** Invariants *)

Ltac inv_split := split; simpl; try done.

Lemma Inv_init : Inv init.
Proof.
  inv_split; [unfold HISTORY_CAP; lia|..]; try intros id; rewrite ?lookup_empty;
    rewrite ?is_Some_alt; naive_solver.
Qed.

Lemma Inv_loadModel ok s : Inv s → Inv (loadModel ok s).
Proof. intros [? ? ? ? ?]. unfold loadModel. destruct ok; inv_split. Qed.

Lemma Inv_detectBegin c s : Inv s → Inv (detectBegin c s).
Proof. by intros [? ? ? ? ?]. Qed.

Lemma Inv_startDetection interval s : Inv s → Inv (startDetection interval s).
Proof.
  intros HI. unfold startDetection.
  destruct (negb (model s) || isDetecting s) eqn:G; [done|].
  apply orb_false_elim in G as [Hm%negb_false_iff Hd].
  apply Inv_detectBegin. destruct HI as [H1 H2 H3 H4 H5]. inv_split.
  - unfold HISTORY_CAP; lia.
  - intros id. rewrite lookup_insert. case_decide; subst.
    + rewrite is_Some_alt. naive_solver.
    + assert (detectionIntervalRef s = None) as Hn.
      { apply eq_None_not_Some. intros HS%H2. congruence. }
      rewrite H3, Hn. naive_solver.
  - intros id. rewrite lookup_insert. case_decide; subst; [lia|].
    intros Hi%H5. lia.
Qed.

Lemma Inv_stopDetection s : Inv s → Inv (stopDetection s).
Proof.
  intros [H1 H2 H3 H4 H5]. unfold stopDetection.
  destruct (detectionIntervalRef s) as [id0|] eqn:E; inv_split; rewrite ?E;
    try done.
  - intros id. rewrite lookup_delete. case_decide; subst.
    + rewrite is_Some_alt. naive_solver.
    + rewrite H3. naive_solver.
  - intros id. rewrite lookup_delete. case_decide; [by intros [? ?]|apply H5].
Qed.

Lemma Inv_detectResolve c predictions now s :
  Inv s → Inv (detectResolve c predictions now s).
Proof. intros [H1 H2 H3 H4 H5]. inv_split. apply length_appendHistory. Qed.

Lemma Inv_detectReject s : Inv s → Inv (detectReject s).
Proof. by intros [? ? ? ? ?]. Qed.

Lemma Inv_set_inflight f s : Inv s → Inv (s <| inflight ::= f |>).
Proof. by intros [? ? ? ? ?]. Qed.

#[export] Hint Resolve Inv_init Inv_loadModel Inv_detectBegin Inv_startDetection
  Inv_stopDetection Inv_detectResolve Inv_detectReject Inv_set_inflight : js.

Lemma Inv_step s e s' : Inv s → step s e s' → Inv s'.
Proof. intros HI []; auto with js. Qed.

Lemma Inv_reachable s : reachable s → Inv s.
Proof. induction 1; eauto using Inv_init, Inv_step. Qed.

(** C2. In every state the hook can reach, the history holds at most 1000
    detections: the truncation after each batch keeps the buffer bounded
    whatever the batches and the order in which they arrive. *)
Theorem history_bounded s :
  reachable s → length (detectionHistoryRef s) ≤ HISTORY_CAP.
Proof. intros Hr. apply Inv_reachable in Hr. apply Hr. Qed.

Lemma history_bounded_witness :
  reachable flood ∧ length (detectionHistoryRef flood) ≤ HISTORY_CAP.
Proof.
  split; [exact flood_reachable|exact (history_bounded flood flood_reachable)].
Defined.

(** C11. The hook's batch append implements the design's buffer: appending a
    batch and cutting the result once to its last 1000 entries retains what
    the reference queue of the design retains after the events of the batch
    were appended one at a time, each append evicting the oldest entry when
    the length would exceed the capacity. *)
Theorem appendHistory_refines batch h :
  length h ≤ HISTORY_CAP →
  appendHistory batch h = Fifo.append_all HISTORY_CAP batch h.
Proof.
  intros Hh. by rewrite appendHistory_slice, fifo_append_all_slice.
Qed.

Lemma appendHistory_refines_witness :
  length (detectionHistoryRef flood) ≤ HISTORY_CAP ∧
  appendHistory (newDetections [car (1 # 2); person (1 # 3)] 4000)
      (detectionHistoryRef flood) =
    Fifo.append_all HISTORY_CAP
      (newDetections [car (1 # 2); person (1 # 3)] 4000)
      (detectionHistoryRef flood).
Proof.
  assert (length (detectionHistoryRef flood) ≤ HISTORY_CAP) as H.
  { vm_compute. lia. }
  split; [exact H|]. exact (appendHistory_refines _ _ H).
Defined.

(** The history is full when the batch of the sample above arrives: the
    two oldest events are evicted. *)
Example appendHistory_evicts :
  length (detectionHistoryRef flood) = HISTORY_CAP ∧
  appendHistory (newDetections [car (1 # 2); person (1 # 3)] 4000)
      (detectionHistoryRef flood) =
    drop 2 (detectionHistoryRef flood)
      ++ newDetections [car (1 # 2); person (1 # 3)] 4000.
Proof. split; by vm_compute. Qed.

(** One event of a run keeps the history equal to the last 1000 of the
    arrivals recorded so far. *)
Lemma exec_history e s s' acc :
  exec e s = Some s' →
  detectionHistoryRef s = slice_last HISTORY_CAP acc →
  detectionHistoryRef s' = slice_last HISTORY_CAP (arrive e s acc).
Proof.
  intros He Hh. destruct e; simpl in *; repeat case_match; simplify_option_eq;
    try done.
  - unfold loadModel. by case_match.
  - unfold startDetection in *. by rewrite H.
  - unfold startDetection. rewrite H. simpl. by rewrite slice_last_nil.
  - rewrite appendHistory_slice, Hh. apply slice_last_app_absorb.
  - unfold stopDetection. by case_match.
Qed.

Lemma run_history es s s' acc :
  run es s = Some s' →
  detectionHistoryRef s = slice_last HISTORY_CAP acc →
  detectionHistoryRef s' = slice_last HISTORY_CAP (arrivals es s acc).
Proof.
  revert s acc. induction es as [|e es IH]; intros s acc Hr Hh; simpl in *.
  - by simplify_eq.
  - destruct (exec e s) as [s1|] eqn:E; [|done]. simpl in Hr.
    eapply IH; [done|]. by eapply exec_history.
Qed.

(** C1. After any run of events from the mounted hook, the history is
    exactly the most recent 1000 detections that arrived since the session
    in progress was started, in their order of arrival (all of them when
    fewer arrived). *)
Theorem history_most_recent es s :
  run es init = Some s →
  detectionHistoryRef s = slice_last HISTORY_CAP (arrivals es init []).
Proof. intros Hr. by apply (run_history es init s []). Qed.

Lemma history_most_recent_witness :
  run flood_events init = Some flood ∧
  detectionHistoryRef flood = slice_last HISTORY_CAP (arrivals flood_events init []).
Proof. split; [exact flood_run|exact (history_most_recent _ _ flood_run)]. Defined.

(** The overflowing session retains the newest 1000 of its 1200 detections:
    the last 400 cars and the 600 persons. *)
Example flood_evicts_oldest :
  length (arrivals flood_events init []) = 1200 ∧
  length (detectionHistoryRef flood) = 1000 ∧
  countBy class ∅ (detectionHistoryRef flood) = {[ "car" := 400; "person" := 600 ]}.
Proof. by vm_compute. Qed.

(** ** Timestamps *)

Lemma Timed_weaken t t' s : (t ≤ t')%Z → Timed t s → Timed t' s.
Proof.
  intros Ht [H1 H2]. split; [done|]. eapply Forall_impl; [done|]. simpl. lia.
Qed.

Lemma Timed_init t : Timed t init.
Proof. split; simpl; constructor. Qed.

Lemma Timed_same_history t s s' :
  detectionHistoryRef s' = detectionHistoryRef s → Timed t s → Timed t s'.
Proof. intros E [H1 H2]. split; by rewrite E. Qed.

Lemma newDetections_timestamp predictions now :
  Forall (λ d, timestamp d = now) (newDetections predictions now).
Proof. unfold newDetections. by apply Forall_fmap, Forall_true. Qed.

Lemma newDetections_sorted predictions now :
  StronglySorted by_time (newDetections predictions now).
Proof.
  pose proof (newDetections_timestamp predictions now) as Hb.
  induction Hb as [|d l Hd Hl IH]; constructor; [done|].
  eapply Forall_impl; [exact Hl|]. unfold by_time. simpl. lia.
Qed.

Lemma Timed_resolve t c predictions now s :
  (t ≤ now)%Z → Timed t s → Timed now (detectResolve c predictions now s).
Proof.
  intros Ht [H1 H2].
  pose proof (newDetections_timestamp predictions now) as Hb.
  split; simpl; rewrite appendHistory_slice.
  - apply StronglySorted_slice_last, StronglySorted_app_2;
      [|done|apply newDetections_sorted].
    intros d1 d2 Hd1 Hd2. rewrite Forall_forall in H2, Hb.
    unfold by_time. rewrite (Hb d2 Hd2). specialize (H2 d1 Hd1). simpl in H2. lia.
  - apply Forall_slice_last, Forall_app.
    split; (eapply Forall_impl; [done|]); simpl; lia.
Qed.

Lemma Timed_startDetection t interval s :
  Timed t s → Timed t (startDetection interval s).
Proof.
  intros HT. unfold startDetection. case_match; [done|]. split; simpl; constructor.
Qed.

Lemma Timed_stopDetection t s : Timed t s → Timed t (stopDetection s).
Proof. apply Timed_same_history, stopDetection_history. Qed.

Lemma Timed_loadModel t ok s : Timed t s → Timed t (loadModel ok s).
Proof. apply Timed_same_history. unfold loadModel. by case_match. Qed.

Lemma exec_Timed t e s s' :
  exec e s = Some s' → clock_monotone t [e] = true → Timed t s →
  Timed (clock_after t e) s'.
Proof.
  intros He Hc HT. destruct e; simpl in *; repeat case_match; simplify_option_eq;
    auto using Timed_startDetection, Timed_stopDetection, Timed_loadModel.
  all: try (eapply Timed_same_history; [|done]; done).
  apply (Timed_resolve t); [done|]. by apply (Timed_same_history t s).
Qed.

Lemma clock_monotone_cons t e es :
  clock_monotone t (e :: es) =
    clock_monotone t [e] && clock_monotone (clock_after t e) es.
Proof. destruct e; simpl; rewrite ?andb_true_r; done. Qed.

Lemma run_Timed es t s s' :
  run es s = Some s' → clock_monotone t es = true → Timed t s → ∃ t', Timed t' s'.
Proof.
  revert t s. induction es as [|e es IH]; intros t s Hr Hc HT.
  - simpl in Hr. simplify_eq. by exists t.
  - rewrite clock_monotone_cons in Hc. apply andb_prop in Hc as [Hc1 Hc2].
    simpl in Hr. destruct (exec e s) as [s1|] eqn:E; [|done].
    eapply IH; [done..|]. by eapply exec_Timed.
Qed.

(** When the clock read by successive [detect] calls does not go back,
    the history is ordered by timestamp, oldest first: the cut-off filter of
    the summary and the "last 50" of its timeline then select in time
    order. *)
Theorem history_sorted es t s :
  run es init = Some s → clock_monotone t es = true →
  StronglySorted by_time (detectionHistoryRef s).
Proof.
  intros Hr Hc. by destruct (run_Timed es t init s Hr Hc (Timed_init t)) as [t' [H _]].
Qed.

Lemma history_sorted_witness :
  run sample_events init = Some sample ∧ clock_monotone 0 sample_events = true ∧
  StronglySorted by_time (detectionHistoryRef sample).
Proof.
  assert (clock_monotone 0 sample_events = true) as Hc by (by vm_compute).
  split; [exact sample_run|]. split; [exact Hc|].
  exact (history_sorted _ 0%Z _ sample_run Hc).
Defined.

(** ** Session control *)

(** C4. The [isDetecting] flag tells the truth about polling: in every
    reachable state it is set exactly when the interval ref holds the id of
    a timer that is registered with the runtime. *)
Theorem detecting_iff_timer s :
  reachable s →
  (isDetecting s = true ↔
   ∃ id, detectionIntervalRef s = Some id ∧ is_Some (timers s !! id)).
Proof.
  intros [H1 H2 H3 H4 H5]%Inv_reachable. rewrite H2. split.
  - intros [id Hid]. exists id. split; [done|]. by apply H3.
  - intros (id & Hid & _). by rewrite Hid.
Qed.

Lemma detecting_iff_timer_witness :
  reachable started ∧
  (isDetecting started = true ↔
   ∃ id, detectionIntervalRef started = Some id ∧ is_Some (timers started !! id)).
Proof.
  split; [exact started_reachable|exact (detecting_iff_timer _ started_reachable)].
Defined.

(** No timer is leaked: the only timer that can be registered is the one
    the interval ref names, so at most one polling loop runs and
    [stopDetection] can always reach it. *)
Theorem no_leaked_timer s id :
  reachable s → is_Some (timers s !! id) →
  detectionIntervalRef s = Some id ∧ isDetecting s = true.
Proof.
  intros [H1 H2 H3 H4 H5]%Inv_reachable Ht. apply H3 in Ht. split; [done|].
  apply H2. by rewrite Ht.
Qed.

Lemma no_leaked_timer_witness :
  reachable restarted ∧ is_Some (timers restarted !! 2%positive) ∧
  detectionIntervalRef restarted = Some 2%positive ∧ isDetecting restarted = true.
Proof.
  assert (is_Some (timers restarted !! 2%positive)) as Ht
    by (eexists; by vm_compute).
  split; [exact restarted_reachable|]. split; [exact Ht|].
  exact (no_leaked_timer _ _ restarted_reachable Ht).
Defined.

(** Stopping is idempotent: a second [stopDetection] changes nothing. *)
Theorem stopDetection_idempotent s :
  stopDetection (stopDetection s) = stopDetection s.
Proof.
  unfold stopDetection.
  destruct (detectionIntervalRef s) eqn:E; simpl; rewrite ?E; reflexivity.
Qed.

(** C5. After [stopDetection] no timer callback can run: polling has
    stopped, whatever id the runtime would fire. *)
Theorem stop_cancels_polling s id :
  reachable s → exec (ETimer id) (stopDetection s) = None.
Proof.
  intros Hr. pose proof (Inv_stopDetection s (Inv_reachable s Hr)) as [_ _ H3 _ _].
  apply exec_timer_None, eq_None_not_Some. intros HS%H3.
  by rewrite stopDetection_interval in HS.
Qed.

Lemma stop_cancels_polling_witness :
  reachable started ∧ is_Some (exec (ETimer 1) started) ∧
  exec (ETimer 1) (stopDetection started) = None.
Proof.
  split; [exact started_reachable|]. split; [eexists; by vm_compute|].
  exact (stop_cancels_polling _ 1%positive started_reachable).
Defined.

(** C24. A [detect] call that is waiting for the model when the session is
    stopped is not discarded: when the model answers, its detections are
    appended to the history and the statistics are overwritten, although
    [isDetecting] is false. *)
Theorem inflight_applied_after_stop s i c predictions now :
  inflight s !! i = Some c →
  ∃ s', exec (EResolve i predictions now) (stopDetection s) = Some s' ∧
        isDetecting s' = false ∧
        detectionHistoryRef s' =
          appendHistory (newDetections predictions now) (detectionHistoryRef s) ∧
        stats s' = tickStats c (newDetections predictions now).
Proof.
  intros Hi. eexists. split.
  - apply exec_resolve. by rewrite stopDetection_inflight.
  - cbn. by rewrite stopDetection_history.
Qed.

Lemma inflight_applied_after_stop_witness :
  inflight started !! 0 = Some {| captured_stats := ∅ |} ∧
  ∃ s', exec (EResolve 0 [car (9 # 10)] 1000) (stopDetection started) = Some s' ∧
        isDetecting s' = false ∧
        detectionHistoryRef s' =
          appendHistory (newDetections [car (9 # 10)] 1000)
            (detectionHistoryRef started) ∧
        stats s' = tickStats {| captured_stats := ∅ |}
                     (newDetections [car (9 # 10)] 1000).
Proof.
  assert (inflight started !! 0 = Some {| captured_stats := ∅ |}) as Hi
    by (by vm_compute).
  split; [exact Hi|]. exact (inflight_applied_after_stop _ _ _ _ _ Hi).
Defined.

(** Ticks are not serialised: a timer that fires while earlier [detect]
    calls are still waiting starts one more, so the calls in flight grow by
    one at every tick the detector has not answered. *)
Theorem ticks_overlap s id t :
  timers s !! id = Some t →
  ∃ s', exec (ETimer id) s = Some s' ∧ length (inflight s') = S (length (inflight s)).
Proof.
  intros Ht. eexists. split; [by apply exec_timer|].
  simpl. rewrite length_app. simpl. lia.
Qed.

Lemma ticks_overlap_witness :
  timers started !! 1%positive =
    Some {| callback := {| captured_stats := ∅ |}; period := 1000 |} ∧
  ∃ s', exec (ETimer 1) started = Some s' ∧
        length (inflight s') = S (length (inflight started)).
Proof.
  assert (timers started !! 1%positive =
    Some {| callback := {| captured_stats := ∅ |}; period := 1000 |}) as Ht
    by (by vm_compute).
  split; [exact Ht|]. exact (ticks_overlap _ _ _ Ht).
Defined.

(** A [detect] call that fails is logged and changes nothing else: the
    session, its history, its statistics and its timer are as before and
    polling goes on. *)
Theorem reject_keeps_session s i c :
  inflight s !! i = Some c →
  ∃ s', exec (EReject i) s = Some s' ∧
        detectionHistoryRef s' = detectionHistoryRef s ∧ stats s' = stats s ∧
        detections s' = detections s ∧ isDetecting s' = isDetecting s ∧
        timers s' = timers s ∧ detectionIntervalRef s' = detectionIntervalRef s ∧
        console s' = console s ++ ["Detection error:"].
Proof. intros Hi. eexists. split; [by eapply exec_reject|done]. Qed.

Lemma reject_keeps_session_witness :
  inflight started !! 0 = Some {| captured_stats := ∅ |} ∧
  ∃ s', exec (EReject 0) started = Some s' ∧
        detectionHistoryRef s' = detectionHistoryRef started ∧
        stats s' = stats started ∧ detections s' = detections started ∧
        isDetecting s' = isDetecting started ∧ timers s' = timers started ∧
        detectionIntervalRef s' = detectionIntervalRef started ∧
        console s' = console started ++ ["Detection error:"].
Proof.
  assert (inflight started !! 0 = Some {| captured_stats := ∅ |}) as Hi
    by (by vm_compute).
  split; [exact Hi|]. exact (reject_keeps_session _ _ _ Hi).
Defined.

(** [startDetection] does nothing at all when the model is not loaded or
    a session is running: no error is reported, and the running session
    keeps its history and its timer. *)
Theorem start_guard interval s :
  model s = false ∨ isDetecting s = true → startDetection interval s = s.
Proof.
  intros [H|H]; unfold startDetection; rewrite H; simpl; rewrite ?orb_true_r; done.
Qed.

Lemma start_guard_witness :
  (model sample = false ∨ isDetecting sample = true) ∧
  startDetection (Some 250%Z) sample = sample.
Proof.
  assert (model sample = false ∨ isDetecting sample = true) as H
    by (right; by vm_compute).
  split; [exact H|]. exact (start_guard _ _ H).
Defined.

(** With the model loaded and no session running, [startDetection]
    begins a session: the flag is set, history and statistics are emptied, a
    timer with the requested period (1000 ms when none is given) is
    registered under the id kept in the interval ref, and a first [detect]
    is issued at once.  The timer's callback and that first call captured
    the statistics of before the reset. *)
Theorem start_effect interval s :
  model s = true → isDetecting s = false →
  let s' := startDetection interval s in
  isDetecting s' = true ∧ detectionHistoryRef s' = [] ∧ stats s' = ∅ ∧
  detectionIntervalRef s' = Some (nextTimer s) ∧
  timers s' !! nextTimer s =
    Some {| callback := {| captured_stats := stats s |};
            period := default 1000%Z interval |} ∧
  inflight s' = inflight s ++ [{| captured_stats := stats s |}] ∧
  detections s' = detections s.
Proof.
  intros Hm Hd. unfold startDetection. rewrite Hm, Hd. simpl.
  by rewrite lookup_insert_eq.
Qed.

Lemma start_effect_witness :
  model (stopDetection sample) = true ∧ isDetecting (stopDetection sample) = false ∧
  let s' := startDetection (Some 500%Z) (stopDetection sample) in
  isDetecting s' = true ∧ detectionHistoryRef s' = [] ∧ stats s' = ∅ ∧
  detectionIntervalRef s' = Some (nextTimer (stopDetection sample)) ∧
  timers s' !! nextTimer (stopDetection sample) =
    Some {| callback := {| captured_stats := stats (stopDetection sample) |};
            period := default 1000%Z (Some 500%Z) |} ∧
  inflight s' = inflight (stopDetection sample) ++
                [{| captured_stats := stats (stopDetection sample) |}] ∧
  detections s' = detections (stopDetection sample).
Proof.
  assert (model (stopDetection sample) = true) as Hm by (by vm_compute).
  assert (isDetecting (stopDetection sample) = false) as Hd by (by vm_compute).
  split; [exact Hm|]. split; [exact Hd|]. exact (start_effect _ _ Hm Hd).
Defined.

(** ** Statistics *)

(** What [stats] holds after a tick, label by label: the count the
    closure captured when the session was started plus the number of
    detections of that label in this tick's batch.  Earlier ticks of the
    session contribute nothing. *)
Theorem resolve_counts s i c predictions now k :
  inflight s !! i = Some c →
  ∃ s', exec (EResolve i predictions now) s = Some s' ∧
        detections s' = newDetections predictions now ∧
        count_of (stats s') k =
          count_of (captured_stats c) k +
          occurrences class k (newDetections predictions now).
Proof.
  intros Hi. eexists. split; [by apply exec_resolve|]. split; [done|].
  apply count_of_countBy.
Qed.

Lemma resolve_counts_witness :
  inflight started !! 0 = Some {| captured_stats := ∅ |} ∧
  ∃ s', exec (EResolve 0 [car (9 # 10); car (1 # 2)] 1000) started = Some s' ∧
        detections s' = newDetections [car (9 # 10); car (1 # 2)] 1000 ∧
        count_of (stats s') "car" =
          count_of (captured_stats {| captured_stats := ∅ |}) "car" +
          occurrences class "car" (newDetections [car (9 # 10); car (1 # 2)] 1000).
Proof.
  assert (inflight started !! 0 = Some {| captured_stats := ∅ |}) as Hi
    by (by vm_compute).
  split; [exact Hi|]. exact (resolve_counts _ _ _ _ _ _ Hi).
Defined.

Lemma Idle_init : Idle init.
Proof. by split. Qed.

Lemma Idle_FirstSession s : Idle s → FirstSession s.
Proof.
  intros [H1 H2 H3 H4 H5]. split.
  - by rewrite H3.
  - rewrite H4. apply map_Forall_empty.
  - by rewrite H1, H2.
Qed.

Lemma Idle_exec e s s' :
  is_start e = false → exec e s = Some s' → Idle s → Idle s'.
Proof.
  intros He Hx [H1 H2 H3 H4 H5]. destruct e; try done; simpl in Hx.
  - case_match; simplify_eq. unfold loadModel. by case_match.
  - by rewrite H4, lookup_empty in Hx.
  - by rewrite H3 in Hx.
  - by rewrite H3 in Hx.
  - simplify_eq. unfold stopDetection. rewrite H5. by split.
Qed.

Lemma FirstSession_start interval s :
  Idle s → FirstSession (startDetection interval s).
Proof.
  intros HI. pose proof HI as [H1 H2 H3 H4 H5]. unfold startDetection.
  case_match; [by apply Idle_FirstSession|]. split; simpl.
  - rewrite H1, H3. by repeat constructor.
  - rewrite H1, H4. by apply map_Forall_insert_2; [|apply map_Forall_empty].
  - by rewrite H2.
Qed.

Lemma FirstSession_exec e s s' :
  is_start e = false → exec e s = Some s' → FirstSession s → FirstSession s'.
Proof.
  intros He Hx [H1 H2 H3]. destruct e; try done; simpl in Hx;
    repeat case_match; simplify_option_eq.
  - unfold loadModel. by case_match.
  - split; simpl; [|done..]. apply Forall_app. split; [done|].
    repeat constructor. by eapply (H2 id).
  - split; simpl; [by apply Forall_delete|done|].
    unfold tickStats. f_equal. by eapply Forall_lookup_1 in H1.
  - split; simpl; [by apply Forall_delete|done..].
  - unfold stopDetection. case_match; split; simpl; try done.
    by apply map_Forall_delete.
Qed.

Lemma starts_cons e es :
  starts (e :: es) = (if is_start e then 1 else 0) + starts es.
Proof. unfold starts. rewrite filter_cons. by destruct (is_start e). Qed.

(** A property kept by every event but a start holds at the end of a run
    without starts. *)
Lemma run_no_start (P : State → Prop) es s s' :
  (∀ e s s', is_start e = false → exec e s = Some s' → P s → P s') →
  starts es = 0 → run es s = Some s' → P s → P s'.
Proof.
  intros Hstep. revert s. induction es as [|e es IH]; intros s Hn Hr HP; simpl in *.
  - by simplify_eq.
  - rewrite starts_cons in Hn. destruct (is_start e) eqn:He; [done|].
    destruct (exec e s) as [s1|] eqn:E; [|done]. eauto.
Qed.

Lemma run_first_session es s s' :
  starts es ≤ 1 → run es s = Some s' → Idle s → FirstSession s'.
Proof.
  revert s. induction es as [|e es IH]; intros s Hn Hr HI; simpl in *.
  - simplify_eq. by apply Idle_FirstSession.
  - rewrite starts_cons in Hn.
    destruct (exec e s) as [s1|] eqn:E; [|done]. simpl in Hr.
    destruct (is_start e) eqn:Hs.
    + destruct e; try done. simpl in E. simplify_eq.
      eapply (run_no_start FirstSession); [apply FirstSession_exec| |done|].
      * lia.
      * by apply FirstSession_start.
    + eapply IH; [done..|]. by eapply Idle_exec.
Qed.

(** C3. During the first session of a mounted hook, [stats] is the count of
    the latest batch alone, i.e. of [detections]: the closure captured the
    empty statistics, so nothing is carried from one tick to the next and
    the counts are not lifetime counts of the session. *)
Theorem stats_count_last_batch es s :
  run es init = Some s → starts es ≤ 1 →
  stats s = countBy class ∅ (detections s).
Proof. intros Hr Hn. by apply fs_stats, (run_first_session es init), Idle_init. Qed.

Lemma stats_count_last_batch_witness :
  run sample_events init = Some sample ∧ starts sample_events ≤ 1 ∧
  stats sample = countBy class ∅ (detections sample).
Proof.
  assert (starts sample_events ≤ 1) as Hn by (vm_compute; lia).
  split; [exact sample_run|]. split; [exact Hn|].
  exact (stats_count_last_batch _ _ sample_run Hn).
Defined.

(** The scenario of the design document: a session of three ticks that
    see a car, a car and a person, and nothing.  The document expects the
    lifetime counts [{car: 2, person: 1}]; the hook ends with empty
    statistics, while its history still holds the three detections. *)
Theorem lifetime_counts_lost :
  stats sample = ∅ ∧
  countBy class ∅ (detectionHistoryRef sample) = {[ "car" := 2; "person" := 1 ]} ∧
  length (detectionHistoryRef sample) = 3.
Proof. repeat split; by vm_compute. Qed.

End Obj.
