(* ===== verification/ObjectSummary.v ===== *)
(** * ObjectSummary: the summary and the export of [useObjectDetection]

    Models [getDetectionSummary] and [exportSession] of
    src/hooks/useObjectDetection.ts, which read the history kept by the hook
    ([Obj.detectionHistoryRef]) and its statistics.  Both read the clock:
    [Date.now()] is an argument [now].  The time of a timeline entry is
    printed by [toLocaleTimeString], which depends on the browser's locale
    and is a section variable.  [JSON.stringify], the [Blob] and the click on
    the anchor are the browser's; [exportSession] returns the document that
    is serialised and the attributes of the download.

    The theorems give the counts and the timeline of a summary in terms of
    the history, relate a windowed summary to the history buffer's snapshot
    and to the summary of the whole session, and state what the export holds
    when no session was ever started. *)

From Stdlib Require Import ZArith QArith Qround Lqa.
From stdpp Require Import base list gmap strings sorting.
From S2P Require Import Prelude Stats HistoryBuffer ObjectDetection.
Import Obj.

#[local] Open Scope js_scope.

Module ObjSummary.

(** One entry of [timeline]. *)
Record TimelineEntry := {
  time : string;
  object : string;
  confidence : Z;
}.

(** The object [getDetectionSummary] returns. *)
Record Summary := {
  totalDetections : nat;
  objectCounts : DetectionStats;
  timeline : list TimelineEntry;
  timeRange : string;
  sessionDuration : string;
}.

(** The document [exportSession] serialises, and the file it is saved as. *)
Record ExportData := {
  exp_detections : list Detection;
  exp_stats : DetectionStats;
  exp_summary : Summary;
}.

Record Download := {
  content : ExportData;
  mimeType : string;
  download : string;
}.

(** The length of the timeline: the literal [50] of the source. *)
Definition TIMELINE_CAP : nat := 50.

(** [cutoffTime = Date.now() - timeRangeMinutes * 60 * 1000] *)
Definition cutoffTime (timeRangeMinutes now : Z) : Z :=
  (now - timeRangeMinutes * 60 * 1000)%Z.

(** The bound of the buffer snapshot a summary reads: the cutoff when a
    truthy window is given, none otherwise. *)
Definition since (timeRangeMinutes : option Z) (now : Z) : option Z :=
  if truthy timeRangeMinutes
  then Some (cutoffTime (default 0%Z timeRangeMinutes) now) else None.

(** [filteredHistory]: with a truthy [timeRangeMinutes], the detections at or
    after the cutoff; otherwise the whole history. *)
Definition filteredHistory (timeRangeMinutes : option Z) (now : Z)
    (history : list Detection) : list Detection :=
  if truthy timeRangeMinutes then
    filter (λ d, (cutoffTime (default 0%Z timeRangeMinutes) now ≤ timestamp d)%Z)
      history
  else history.

(** [summary]: the [reduce] that counts the filtered detections by class. *)
Definition countClasses (filtered : list Detection) : DetectionStats :=
  countBy class ∅ filtered.

(** [timeRange] *)
Definition timeRangeLabel (timeRangeMinutes : option Z) : string :=
  if truthy timeRangeMinutes
  then show_Z (default 0%Z timeRangeMinutes) +:+ " minutes"
  else "entire session".

(** The number printed in [sessionDuration]: the rounded number of minutes
    since the oldest retained detection, from the unfiltered history. *)
Definition durationMinutes (now : Z) (history : list Detection) : Z :=
  match history with
  | d :: _ => round_div (now - timestamp d) 60000
  | [] => 0
  end.

(** [sessionDuration] *)
Definition durationLabel (now : Z) (history : list Detection) : string :=
  match history with
  | _ :: _ => show_Z (durationMinutes now history) +:+ " minutes"
  | [] => "0 minutes"
  end.

Section Summary.
(** [new Date(t).toLocaleTimeString()] *)
Context (toLocaleTimeString : Z → string).

(** The entry of the timeline for one detection. *)
Definition timelineEntry (d : Detection) : TimelineEntry := {|
  time := toLocaleTimeString (timestamp d);
  object := class d;
  confidence := Qround (score d * 100);
|}.

(** [getDetectionSummary(timeRangeMinutes?)]; [now] is [Date.now()]. *)
Definition getDetectionSummary (timeRangeMinutes : option Z) (now : Z) (s : State)
  : Summary :=
  let history := detectionHistoryRef s in
  let filtered := filteredHistory timeRangeMinutes now history in
  {| totalDetections := length filtered;
     objectCounts := countClasses filtered;
     timeline := slice_last TIMELINE_CAP (timelineEntry <$> filtered);
     timeRange := timeRangeLabel timeRangeMinutes;
     sessionDuration := durationLabel now history |}.

(** [exportSession()]: [now] is the clock read by the summary, [now'] the
    clock read for the file name. *)
Definition exportSession (now now' : Z) (s : State) : Download := {|
  content := {| exp_detections := detectionHistoryRef s;
                exp_stats := stats s;
                exp_summary := getDetectionSummary None now s |};
  mimeType := "application/json";
  download := "detection-session-" +:+ show_Z now' +:+ ".json";
|}.

End Summary.

(** ** The filter *)

Lemma filteredHistory_snapshot w now h :
  filteredHistory w now h = hb_snapshot (since w now) h.
Proof. unfold filteredHistory, since. by case_match. Qed.

Lemma filteredHistory_sublist w now h : filteredHistory w now h `sublist_of` h.
Proof.
  rewrite filteredHistory_snapshot. exact (hb_snapshot_sublist (since w now) h).
Qed.

Lemma filteredHistory_None now h : filteredHistory None now h = h.
Proof. done. Qed.

Lemma truthy_Some_ne w : w ≠ 0%Z → truthy (Some w) = true.
Proof. intros Hw. unfold truthy, truthyZ. by destruct (Z.eqb_spec w 0). Qed.

Lemma filteredHistory_truthy w now h :
  w ≠ 0%Z →
  filteredHistory (Some w) now h =
    filter (λ d, (cutoffTime w now ≤ timestamp d)%Z) h.
Proof. intros Hw. unfold filteredHistory. by rewrite truthy_Some_ne. Qed.

Lemma since_truthy w now : w ≠ 0%Z → since (Some w) now = Some (cutoffTime w now).
Proof. intros Hw. unfold since. by rewrite truthy_Some_ne. Qed.

Lemma filteredHistory_all w now h :
  Forall (λ d, (cutoffTime (default 0%Z w) now ≤ timestamp d)%Z) h →
  filteredHistory w now h = h.
Proof.
  intros Hall. unfold filteredHistory. case_match; [|done].
  exact (hb_snapshot_all _ h Hall).
Qed.

(** ** The summary *)

Section Properties.
(** [tl] stands for [toLocaleTimeString]. *)
Context (tl : Z → string).

(** C6. The count a summary reports for a label is the number of retained
    detections of that label inside the window. *)
Theorem summary_counts w now s k :
  count_of (objectCounts (getDetectionSummary tl w now s)) k =
    occurrences class k (filteredHistory w now (detectionHistoryRef s)).
Proof. simpl. unfold countClasses. by rewrite count_of_countBy, count_of_empty. Qed.

(** The per-label counts of a summary add up to its [totalDetections]. *)
Theorem summary_total w now s :
  total (objectCounts (getDetectionSummary tl w now s)) =
  totalDetections (getDetectionSummary tl w now s).
Proof. unfold getDetectionSummary. simpl. apply total_countBy. Qed.

(** A windowed summary never reports more than the summary of the whole
    session: neither for any label nor in total. *)
Theorem windowed_within_session w now s k :
  count_of (objectCounts (getDetectionSummary tl w now s)) k ≤
    count_of (objectCounts (getDetectionSummary tl None now s)) k ∧
  totalDetections (getDetectionSummary tl w now s) ≤
  totalDetections (getDetectionSummary tl None now s).
Proof.
  simpl. unfold countClasses, filteredHistory. case_match; [|done]. split.
  - apply count_of_countBy_filter.
  - apply length_filter.
Qed.

(** A window of zero minutes is not an empty window: [0] is falsy, so
    [getDetectionSummary(0)] is the summary of the entire session, label
    included. *)
Theorem window_zero_is_entire_session now s :
  getDetectionSummary tl (Some 0%Z) now s = getDetectionSummary tl None now s.
Proof. unfold getDetectionSummary, filteredHistory, timeRangeLabel. by simpl. Qed.

(** A longer window sees at least what a shorter one sees: the
    detections inside a window of [w1] minutes are a subsequence of those
    inside a window of [w2 ≥ w1] minutes. *)
Theorem window_monotone w1 w2 now h :
  (0 < w1 ≤ w2)%Z →
  filteredHistory (Some w1) now h `sublist_of` filteredHistory (Some w2) now h.
Proof.
  intros Hw. rewrite !filteredHistory_snapshot, !since_truthy by lia.
  apply (hb_snapshot_mono (cutoffTime w2 now) (cutoffTime w1 now) h).
  unfold cutoffTime. lia.
Qed.

Lemma window_monotone_witness :
  (0 < 1 ≤ 2)%Z ∧
  filteredHistory (Some 1%Z) 100000 (detectionHistoryRef sample) `sublist_of`
    filteredHistory (Some 2%Z) 100000 (detectionHistoryRef sample).
Proof.
  assert (0 < 1 ≤ 2)%Z as H by lia.
  split; [exact H|]. exact (window_monotone 1 2 100000 _ H).
Defined.

(** A window that reaches back beyond the oldest retained detection
    gives the summary of the whole session, except for the label of the
    time range. *)
Theorem window_converges w now s :
  Forall (λ d, (cutoffTime w now ≤ timestamp d)%Z) (detectionHistoryRef s) →
  let sw := getDetectionSummary tl (Some w) now s in
  let sa := getDetectionSummary tl None now s in
  totalDetections sw = totalDetections sa ∧ objectCounts sw = objectCounts sa ∧
  timeline sw = timeline sa ∧ sessionDuration sw = sessionDuration sa.
Proof.
  intros Hall. simpl.
  by rewrite (filteredHistory_all (Some w) now (detectionHistoryRef s) Hall).
Qed.

(** The timeline is the last 50 detections of the window in their order
    of arrival, one entry each, and every entry has the class of its
    detection; it has [min(totalDetections, 50)] entries. *)
Theorem timeline_recent w now s :
  let sm := getDetectionSummary tl w now s in
  timeline sm =
    timelineEntry tl <$>
      slice_last TIMELINE_CAP (filteredHistory w now (detectionHistoryRef s)) ∧
  length (timeline sm) = totalDetections sm `min` TIMELINE_CAP.
Proof.
  simpl. split; [by rewrite fmap_slice_last|].
  by rewrite length_slice_last, length_fmap.
Qed.

(** The confidence of a timeline entry is a whole percentage: for a
    score between 0 and 1, [Math.round(score * 100)] lies between 0 and
    100. *)
Theorem confidence_percent d :
  (0 <= score d)%Q → (score d <= 1)%Q →
  (0 ≤ confidence (timelineEntry tl d) ≤ 100)%Z.
Proof. intros H0 H1. apply Qround_bounds; unfold inject_Z; lra. Qed.

(** [sessionDuration] is measured from the oldest retained detection
    and rounded to the nearest minute, half a minute rounding up: the number
    printed is within 30 seconds of the elapsed time, and is not the number
    of whole minutes elapsed. *)
Theorem duration_minutes w now s d h :
  detectionHistoryRef s = d :: h → (timestamp d ≤ now)%Z →
  ∃ m, sessionDuration (getDetectionSummary tl w now s) = show_Z m +:+ " minutes" ∧
       (0 ≤ m)%Z ∧
       (60000 * m - 30000 ≤ now - timestamp d < 60000 * m + 30000)%Z.
Proof.
  intros Hh Ht. exists (round_div (now - timestamp d) 60000).
  split; [simpl; by rewrite Hh|].
  pose proof (round_div_spec (now - timestamp d) 60000).
  split; [apply round_div_nonneg|]; lia.
Qed.

(** The export never fails: on a hook that never ran a session it
    produces a document with no detections, empty statistics and the
    summary of an empty session, saved under a name made from the clock. *)
Theorem export_without_session now now' :
  let f := exportSession tl now now' init in
  exp_detections (content f) = [] ∧ exp_stats (content f) = ∅ ∧
  totalDetections (exp_summary (content f)) = 0 ∧
  objectCounts (exp_summary (content f)) = ∅ ∧
  timeline (exp_summary (content f)) = [] ∧
  sessionDuration (exp_summary (content f)) = "0 minutes" ∧
  timeRange (exp_summary (content f)) = "entire session" ∧
  download f = "detection-session-" +:+ show_Z now' +:+ ".json".
Proof. unfold exportSession, getDetectionSummary. by simpl. Qed.

(** C25. After any run of the hook, the summary of the entire session reports
    [min(n, 1000)] detections, where [n] is the number of detections that
    arrived since the session was started: beyond 1000 the summary silently
    forgets the oldest. *)
Theorem summary_after_run es s now :
  run es init = Some s →
  totalDetections (getDetectionSummary tl None now s) =
    length (arrivals es init []) `min` HISTORY_CAP.
Proof.
  intros Hr. simpl. rewrite (run_history es init s [] Hr) by done.
  apply length_slice_last.
Qed.

End Properties.

Lemma window_converges_witness :
  Forall (λ d, (cutoffTime 1 60500 ≤ timestamp d)%Z) (detectionHistoryRef sample) ∧
  let sw := getDetectionSummary show_Z (Some 1%Z) 60500 sample in
  let sa := getDetectionSummary show_Z None 60500 sample in
  totalDetections sw = totalDetections sa ∧ objectCounts sw = objectCounts sa ∧
  timeline sw = timeline sa ∧ sessionDuration sw = sessionDuration sa.
Proof.
  assert (Forall (λ d, (cutoffTime 1 60500 ≤ timestamp d)%Z)
            (detectionHistoryRef sample)) as H.
  { apply Forall_forall. intros d Hd. vm_compute in Hd.
    repeat (apply elem_of_cons in Hd as [->|Hd]; [by vm_compute|]).
    by apply elem_of_nil in Hd. }
  split; [exact H|]. exact (window_converges show_Z 1 60500 sample H).
Defined.

Lemma confidence_percent_witness :
  (0 <= 87 # 100)%Q ∧ (87 # 100 <= 1)%Q ∧
  (0 ≤ confidence (timelineEntry show_Z
         {| class := "car"; score := 87 # 100; bbox := (0, 0, 10, 10)%Z;
            timestamp := 1000 |}) ≤ 100)%Z.
Proof.
  assert (0 <= 87 # 100)%Q as H0 by (by vm_compute).
  assert (87 # 100 <= 1)%Q as H1 by (by vm_compute).
  split; [exact H0|]. split; [exact H1|].
  exact (confidence_percent show_Z
    {| class := "car"; score := 87 # 100; bbox := (0, 0, 10, 10)%Z;
       timestamp := 1000 |} H0 H1).
Defined.

Lemma duration_minutes_witness :
  detectionHistoryRef sample =
    newDetections [car (9 # 10)] 1000 ++
    newDetections [car (8 # 10); person (7 # 10)] 2000 ∧
  (1000 ≤ 91000)%Z ∧
  ∃ m, sessionDuration (getDetectionSummary show_Z None 91000 sample) =
         show_Z m +:+ " minutes" ∧
       (0 ≤ m)%Z ∧ (60000 * m - 30000 ≤ 91000 - 1000 < 60000 * m + 30000)%Z.
Proof.
  assert (1000 ≤ 91000)%Z as Ht by lia.
  split; [by vm_compute|]. split; [exact Ht|].
  exact (duration_minutes show_Z None 91000 sample _ _ eq_refl Ht).
Defined.

Lemma summary_after_run_witness :
  run flood_events init = Some flood ∧
  totalDetections (getDetectionSummary show_Z None 5000 flood) =
    length (arrivals flood_events init []) `min` HISTORY_CAP.
Proof.
  split; [exact flood_run|]. exact (summary_after_run show_Z _ _ 5000 flood_run).
Defined.

(** The summary of the sample session one minute and a half after its first
    detection, over the last minute: the two detections of the second tick
    are inside the window, and the duration rounds up to 2 minutes. *)
Example sample_summary :
  let sm := getDetectionSummary show_Z (Some 1%Z) 61500 sample in
  totalDetections sm = 2 ∧ objectCounts sm = {[ "car" := 1; "person" := 1 ]} ∧
  timeRange sm = "1 minutes" ∧
  sessionDuration (getDetectionSummary show_Z None 91000 sample) = "2 minutes".
Proof. by vm_compute. Qed.

End ObjSummary.
