(* ===== verification/Geometry.v ===== *)
(** * Geometry: boxes and the distance test of the face hook

    [assignFaceId] and [detectInteractions] of
    src/hooks/useAdvancedFaceDetection.ts compare the Euclidean distance of
    the top-left corners of two boxes with a threshold:
    [Math.sqrt(Math.pow(dx, 2) + Math.pow(dy, 2)) < threshold].  Coordinates
    are pixels, modelled as integers.  [distance] is that expression over the
    real numbers; [within] decides the comparison on the squares, without a
    square root, and [within_distance] shows that the two agree for every
    threshold that is not negative.  The hooks are modelled with [within], so
    that they compute. *)

From Stdlib Require Import ZArith Reals Lia Lra.

#[local] Open Scope Z_scope.

(** [box: { x, y, width, height }] *)
Record Box := { x : Z; y : Z; width : Z; height : Z }.

(** [Math.pow(a.x - b.x, 2) + Math.pow(a.y - b.y, 2)] *)
Definition distance2 (a b : Box) : Z :=
  (x a - x b) ^ 2 + (y a - y b) ^ 2.

(** [Math.sqrt(Math.pow(a.x - b.x, 2) + Math.pow(a.y - b.y, 2))] *)
Definition distance (a b : Box) : R := sqrt (IZR (distance2 a b)).

(** [distance < threshold] *)
Definition within (threshold : Z) (a b : Box) : bool :=
  (0 <? threshold) && (distance2 a b <? threshold ^ 2).

Lemma distance2_nonneg a b : 0 <= distance2 a b.
Proof. unfold distance2. nia. Qed.

Lemma distance2_sym a b : distance2 a b = distance2 b a.
Proof. unfold distance2. ring. Qed.

Lemma distance2_refl a : distance2 a a = 0.
Proof. unfold distance2. ring. Qed.

Lemma within_sym t a b : within t a b = within t b a.
Proof. unfold within. now rewrite distance2_sym. Qed.

Lemma within_refl t a : 0 < t -> within t a a = true.
Proof.
  intros Ht. unfold within. rewrite distance2_refl.
  apply andb_true_intro. split; [now apply Z.ltb_lt|]. apply Z.ltb_lt. nia.
Qed.

Lemma within_spec t a b :
  within t a b = true <-> 0 < t /\ distance2 a b < t ^ 2.
Proof.
  unfold within. rewrite Bool.andb_true_iff, !Z.ltb_lt. reflexivity.
Qed.

(** A larger threshold accepts more. *)
Lemma within_mono t t' a b : t <= t' -> within t a b = true -> within t' a b = true.
Proof. rewrite !within_spec. nia. Qed.

Lemma distance_nonneg a b : (0 <= distance a b)%R.
Proof. apply sqrt_pos. Qed.

Lemma sqrt_IZR_square t : 0 <= t -> sqrt (IZR (t ^ 2)) = IZR t.
Proof.
  intros Ht. replace (t ^ 2) with (t * t) by ring.
  rewrite mult_IZR. apply sqrt_square. now apply IZR_le.
Qed.

(** The test on squares is the comparison of the distance with the
    threshold. *)
Lemma within_distance t a b :
  within t a b = true <-> (distance a b < IZR t)%R.
Proof.
  rewrite within_spec. unfold distance. split.
  - intros [Ht Hd]. rewrite <-(sqrt_IZR_square t) by lia.
    apply sqrt_lt_1_alt. split; [apply IZR_le, distance2_nonneg|now apply IZR_lt].
  - intros Hd. pose proof (sqrt_pos (IZR (distance2 a b))) as Hp.
    assert (0 < t) as Ht by (apply lt_IZR; lra). split; [assumption|].
    rewrite <-(sqrt_IZR_square t) in Hd by lia.
    apply sqrt_lt_0_alt in Hd. now apply lt_IZR.
Qed.
