(* ===== verification/FaceDetection.v ===== *)
(** * FaceDetection: the hook [useAdvancedFaceDetection]

    Models src/hooks/useAdvancedFaceDetection.ts.  [Face.State] holds the
    hook's [useState] cells and refs under their names.  [trackedFacesRef]
    is a JavaScript [Map], which is iterated in insertion order:
    [assignFaceId] returns the first tracked face it meets within the
    threshold, so the map is an association list.

    The hook as written has two handlers that change state,
    [startDetection] and [stopDetection]; nothing in it calls [assignFaceId]
    or [detectInteractions], writes the tracked faces or schedules a timer.
    [Face.exec] is the machine of the two handlers.  The tick that the
    design document describes for faces (identity assignment against the
    faces of the previous tick, wholesale replacement of the tracked faces,
    interaction log) is [Face.detectTick]; it is written from the design
    document, composes the hook's [assignFaceId] and [detectInteractions],
    and is used to state what these two functions guarantee when they are
    driven. *)

From Stdlib Require Import ZArith QArith.
From stdpp Require Import base list gmap strings.
From S2P Require Import Prelude Stats Geometry.

#[local] Open Scope js_scope.

Module Face.

(** ** Data *)

(** [interface FaceDetection] *)
Record FaceDetection := {
  id : nat;
  box : Box;
  expressions : gmap string Q;
  dominantEmotion : string;
  age : option Z;
  gender : option string;
  timestamp : Z;
}.

(** [interface PersonStats] *)
Record PersonStats := {
  uniquePeople : nat;
  emotions : DetectionStats;
  interactions : list string;
}.

(** The hook's state. *)
Record State := {
  modelsLoaded : bool;
  isDetecting : bool;
  faces : list FaceDetection;
  stats : PersonStats;
  facesHistoryRef : list FaceDetection;
  detectionIntervalRef : option positive;
  personIdCounterRef : nat;
  trackedFacesRef : list (nat * FaceDetection);
}.

(** The object [getSummary] returns. *)
Record FaceSummary := {
  sum_uniquePeople : nat;
  sum_totalDetections : nat;
  sum_emotions : DetectionStats;
  sum_interactions : list string;
  sum_currentFaces : nat;
}.

(** [{ uniquePeople: 0, emotions: {}, interactions: [] }] *)
Definition noStats : PersonStats :=
  {| uniquePeople := 0; emotions := ∅; interactions := [] |}.

(** The state of a freshly mounted hook. *)
Definition init : State := {|
  modelsLoaded := true;
  isDetecting := false;
  faces := [];
  stats := noStats;
  facesHistoryRef := [];
  detectionIntervalRef := None;
  personIdCounterRef := 0;
  trackedFacesRef := [];
|}.

(** [const threshold = 100] *)
Definition threshold : Z := 100.

(** ** Identity *)

(** The [for ... of] loop of [assignFaceId]: the id of the first tracked
    face, in the order of the map, that is closer than the threshold. *)
Fixpoint firstTracked (b : Box) (tracked : list (nat * FaceDetection))
  : option nat :=
  match tracked with
  | [] => None
  | (i, trackedFace) :: rest =>
      if within threshold b (box trackedFace) then Some i
      else firstTracked b rest
  end.

(** [assignFaceId(box)]: the id found by the loop, or
    [++personIdCounterRef.current]. *)
Definition assignFaceId (b : Box) (s : State) : nat * State :=
  match firstTracked b (trackedFacesRef s) with
  | Some i => (i, s)
  | None =>
      let n := S (personIdCounterRef s) in
      (n, {| modelsLoaded := modelsLoaded s; isDetecting := isDetecting s;
             faces := faces s; stats := stats s;
             facesHistoryRef := facesHistoryRef s;
             detectionIntervalRef := detectionIntervalRef s;
             personIdCounterRef := n;
             trackedFacesRef := trackedFacesRef s |})
  end.

(** ** Interactions *)

(** The template literals of [detectInteractions]. *)
Definition smiling (a b : nat) : string :=
  "Person #" +:+ show_nat a +:+ " and #" +:+ show_nat b +:+ " both smiling".
Definition interacting (a b : nat) : string :=
  "Person #" +:+ show_nat a +:+ " and #" +:+ show_nat b +:+ " interacting".

(** The body of the inner loop: what a pair of faces pushes. *)
Definition interaction (face1 face2 : FaceDetection) : option string :=
  if within 300 (box face1) (box face2) then
    if bool_decide (dominantEmotion face1 = "happy")
       && bool_decide (dominantEmotion face2 = "happy")
    then Some (smiling (id face1) (id face2))
    else Some (interacting (id face1) (id face2))
  else None.

(** [for (let j = i + 1; j < faces.length; j++)] *)
Definition innerLoop (fs : list FaceDetection) (i : nat) : list string :=
  omap (λ j, face1 ← fs !! i; face2 ← fs !! j; interaction face1 face2)
       (seq (S i) (length fs - S i)).

(** [detectInteractions(faces)] *)
Definition detectInteractions (fs : list FaceDetection) : list string :=
  if decide (2 ≤ length fs)
  then mjoin (innerLoop fs <$> seq 0 (length fs - 1))
  else [].

(** ** Handlers *)

(** [startDetection(videoElement, interval = 500)] *)
Definition startDetection (s : State) : State := {|
  modelsLoaded := modelsLoaded s;
  isDetecting := true;
  faces := faces s;
  stats := noStats;
  facesHistoryRef := [];
  detectionIntervalRef := detectionIntervalRef s;
  personIdCounterRef := 0;
  trackedFacesRef := [];
|}.

(** [stopDetection()] *)
Definition stopDetection (s : State) : State := {|
  modelsLoaded := modelsLoaded s;
  isDetecting := false;
  faces := faces s;
  stats := stats s;
  facesHistoryRef := facesHistoryRef s;
  detectionIntervalRef :=
    if detectionIntervalRef s is Some _ then None else detectionIntervalRef s;
  personIdCounterRef := personIdCounterRef s;
  trackedFacesRef := trackedFacesRef s;
|}.

(** [getSummary()] *)
Definition getSummary (s : State) : FaceSummary := {|
  sum_uniquePeople := uniquePeople (stats s);
  sum_totalDetections := length (facesHistoryRef s);
  sum_emotions := emotions (stats s);
  sum_interactions := interactions (stats s);
  sum_currentFaces := length (faces s);
|}.

(** ** The machine of the hook *)

Inductive Event :=
  | EStart
  | EStop.

Definition exec (e : Event) (s : State) : State :=
  match e with
  | EStart => startDetection s
  | EStop => stopDetection s
  end.

Definition run (es : list Event) (s : State) : State := foldl (flip exec) s es.

Inductive reachable : State → Prop :=
  | reachable_init : reachable init
  | reachable_step e s : reachable s → reachable (exec e s).

(** ** The tick of the design document *)

(** One face as a detector reports it. *)
Record RawFace := {
  raw_box : Box;
  raw_expressions : gmap string Q;
  raw_emotion : string;
  raw_age : option Z;
  raw_gender : option string;
}.

(** [Map.prototype.set]: the value of an existing key is replaced where it
    stands, a new key is added at the end. *)
Fixpoint mapSet (k : nat) (v : FaceDetection) (m : list (nat * FaceDetection))
  : list (nat * FaceDetection) :=
  match m with
  | [] => [(k, v)]
  | (k', v') :: rest =>
      if decide (k = k') then (k, v) :: rest else (k', v') :: mapSet k v rest
  end.

(** The identity pass of a tick: every detection gets its id from
    [assignFaceId], against the faces tracked by the previous tick. *)
Fixpoint identify (raws : list RawFace) (now : Z) (s : State)
  : list FaceDetection * State :=
  match raws with
  | [] => ([], s)
  | r :: rest =>
      let '(i, s1) := assignFaceId (raw_box r) s in
      let '(fs, s2) := identify rest now s1 in
      ({| id := i; box := raw_box r; expressions := raw_expressions r;
          dominantEmotion := raw_emotion r; age := raw_age r;
          gender := raw_gender r; timestamp := now |} :: fs, s2)
  end.

(** The tracked faces after a tick: those of the tick alone. *)
Definition retrack (fs : list FaceDetection) : list (nat * FaceDetection) :=
  foldl (λ m f, mapSet (id f) f m) [] fs.

(** One tick: identity, history, statistics, interactions, tracked faces. *)
Definition detectTick (raws : list RawFace) (now : Z) (s : State) : State :=
  let '(fs, s1) := identify raws now s in
  {| modelsLoaded := modelsLoaded s1;
     isDetecting := isDetecting s1;
     faces := fs;
     stats := {| uniquePeople := personIdCounterRef s1;
                 emotions := countBy dominantEmotion (emotions (stats s1)) fs;
                 interactions :=
                   interactions (stats s1) ++ detectInteractions fs |};
     facesHistoryRef := slice_last 1000 (facesHistoryRef s1 ++ fs);
     detectionIntervalRef := detectionIntervalRef s1;
     personIdCounterRef := personIdCounterRef s1;
     trackedFacesRef := retrack fs |}.

(** The states of a hook whose session is driven by ticks. *)
Inductive driven : State → Prop :=
  | driven_init : driven init
  | driven_step e s : driven s → driven (exec e s)
  | driven_tick raws now s : driven s → driven (detectTick raws now s).

(** ** Specification devices *)

(** All pairs [(l[i], l[j])] with [i < j], in the order of the loops. *)
Fixpoint pairs {A} (l : list A) : list (A * A) :=
  match l with
  | [] => []
  | a :: rest => ((a ,.) <$> rest) ++ pairs rest
  end.

(** The two nested loops, without the guard on the length. *)
Definition loops (fs : list FaceDetection) : list string :=
  mjoin (innerLoop fs <$> seq 0 (length fs - 1)).

(** The record a pair in range pushes. *)
Definition record (p : FaceDetection * FaceDetection) : string :=
  if bool_decide (dominantEmotion p.1 = "happy")
     && bool_decide (dominantEmotion p.2 = "happy")
  then smiling (id p.1) (id p.2) else interacting (id p.1) (id p.2).

Definition inRange (p : FaceDetection * FaceDetection) : Prop :=
  within 300 (box p.1) (box p.2) = true.

(** Ids are minted from the counter: every id in use is between 1 and the
    counter, and a tracked face is stored under its own id. *)
Record Minted (s : State) : Prop := {
  minted_tracked :
    Forall (λ kf, 1 ≤ kf.1 ≤ personIdCounterRef s ∧ id kf.2 = kf.1)
           (trackedFacesRef s);
  minted_history :
    Forall (λ f, 1 ≤ id f ≤ personIdCounterRef s) (facesHistoryRef s);
  minted_people : uniquePeople (stats s) = personIdCounterRef s;
}.

(** What identity assignment leaves alone: everything but the counter,
    which can only grow. *)
Record frame (s s' : State) : Prop := {
  fr_tracked : trackedFacesRef s' = trackedFacesRef s;
  fr_history : facesHistoryRef s' = facesHistoryRef s;
  fr_stats : stats s' = stats s;
  fr_detecting : isDetecting s' = isDetecting s;
  fr_loaded : modelsLoaded s' = modelsLoaded s;
  fr_interval : detectionIntervalRef s' = detectionIntervalRef s;
  fr_counter : personIdCounterRef s ≤ personIdCounterRef s';
}.

(** A tracked face is out of reach of a box. *)
Definition far (b : Box) (kf : nat * FaceDetection) : Prop :=
  within threshold b (box kf.2) = false.

(** ** Samples *)

Definition at_(px py : Z) : Box := {| x := px; y := py; width := 80; height := 80 |}.

Definition raw (px py : Z) (emotion : string) : RawFace :=
  {| raw_box := at_ px py; raw_expressions := ∅; raw_emotion := emotion;
     raw_age := None; raw_gender := None |}.

Definition face (i : nat) (px py : Z) (emotion : string) : FaceDetection :=
  {| id := i; box := at_ px py; expressions := ∅; dominantEmotion := emotion;
     age := None; gender := None; timestamp := 500 |}.

(** The scenario of the design document: one face at (10,10), then at
    (15,12), then at (500,500). *)
Definition walk : State :=
  detectTick [raw 500 500 "neutral"] 1500
    (detectTick [raw 15 12 "happy"] 1000
       (detectTick [raw 10 10 "happy"] 500 (startDetection init))).

(** A state in which two faces are tracked, 50 pixels apart. *)
Definition two_tracked : State :=
  detectTick [raw 0 0 "happy"; raw 50 0 "happy"] 500 (startDetection init).

(** ** The loops of [detectInteractions] *)

Lemma omap_fmap {A B C} (f : B → option C) (g : A → B) (l : list A) :
  omap f (g <$> l) = omap (f ∘ g) l.
Proof. induction l as [|a l IH]; csimpl; [done|]. by rewrite IH. Qed.

Lemma length_omap_le {A B} (f : A → option B) (l : list A) :
  length (omap f l) ≤ length l.
Proof.
  induction l as [|a l IH]; csimpl; [done|]. destruct (f a); simpl; lia.
Qed.

Lemma omap_lookup_seq {A B} (g : A → option B) (l : list A) :
  omap (λ j, l !! j ≫= g) (seq 0 (length l)) = omap g l.
Proof.
  induction l as [|a l IH]; [done|].
  simpl length. rewrite <-cons_seq, <-fmap_S_seq. simpl.
  rewrite omap_fmap. simpl. unfold compose. simpl. by rewrite IH.
Qed.

Lemma omap_filter_fmap {A B} (P : A → Prop) `{!∀ x, Decision (P x)}
    (g : A → B) (f : A → option B) (l : list A) :
  (∀ x, f x = if decide (P x) then Some (g x) else None) →
  omap f l = g <$> filter P l.
Proof.
  intros Hf. induction l as [|a l IH]; [done|].
  csimpl. rewrite Hf, filter_cons. case_decide; csimpl; by rewrite IH.
Qed.

Lemma length_pairs {A} (l : list A) :
  2 * length (pairs l) = length l * (length l - 1).
Proof.
  induction l as [|a l IH]; [done|].
  simpl. rewrite length_app, length_fmap. destruct l; simpl in *; lia.
Qed.

Lemma elem_of_pairs {A} (l : list A) a b :
  (a, b) ∈ pairs l ↔ ∃ i j, i < j ∧ l !! i = Some a ∧ l !! j = Some b.
Proof.
  induction l as [|c l IH]; simpl.
  - split; [by intros ?%elem_of_nil|]. by intros (i & j & _ & ? & _).
  - rewrite elem_of_app, list_elem_of_fmap, IH. split.
    + intros [(b' & ? & Hb)|(i & j & ? & ? & ?)]; simplify_eq.
      * apply list_elem_of_lookup in Hb as [j Hj].
        exists 0, (S j). split; [lia|done].
      * exists (S i), (S j). split; [lia|done].
    + intros (i & j & Hij & Hi & Hj).
      destruct i as [|i], j as [|j]; simpl in *; try lia.
      * left. simplify_eq. exists b. split; [done|].
        by eapply list_elem_of_lookup_2.
      * right. exists i, j. split; [lia|done].
Qed.

Lemma innerLoop_0 f l : innerLoop (f :: l) 0 = omap (interaction f) l.
Proof.
  unfold innerLoop. simpl length. rewrite Nat.sub_succ, Nat.sub_0_r.
  rewrite <-fmap_S_seq, omap_fmap. apply omap_lookup_seq.
Qed.

Lemma innerLoop_S f l i : innerLoop (f :: l) (S i) = innerLoop l i.
Proof.
  unfold innerLoop. simpl length. rewrite Nat.sub_succ.
  by rewrite <-fmap_S_seq, omap_fmap.
Qed.

Lemma loops_cons f l : loops (f :: l) = omap (interaction f) l ++ loops l.
Proof.
  unfold loops. destruct l as [|g l]; [done|].
  simpl length. rewrite !Nat.sub_succ, !Nat.sub_0_r.
  rewrite <-cons_seq, <-fmap_S_seq. simpl. rewrite innerLoop_0. f_equal.
  rewrite <-list_fmap_compose. f_equal. apply list_fmap_ext. intros _ i _.
  apply innerLoop_S.
Qed.

Lemma loops_pairs fs : loops fs = omap (uncurry interaction) (pairs fs).
Proof.
  induction fs as [|f l IH]; [done|].
  rewrite loops_cons, IH. simpl. by rewrite omap_app, omap_fmap.
Qed.

(** The guard on the length is redundant: the loops push nothing on fewer
    than two faces. *)
Lemma detectInteractions_loops fs : detectInteractions fs = loops fs.
Proof.
  unfold detectInteractions. case_decide as H; [done|].
  destruct fs as [|f [|g l]]; simpl in H; try done. lia.
Qed.

Lemma interaction_record f g :
  interaction f g =
    if decide (inRange (f, g)) then Some (record (f, g)) else None.
Proof.
  unfold interaction, inRange, record. simpl.
  destruct (within 300 (box f) (box g)); case_decide; try done; by case_match.
Qed.

(** C33. [detectInteractions] pushes exactly one record for every pair of
    faces [i < j] whose corners are closer than 300 pixels, in the order of
    the pairs, and nothing else: the index loops agree with the list of
    pairs filtered by range. *)
Theorem detectInteractions_pairs fs :
  detectInteractions fs = record <$> filter inRange (pairs fs).
Proof.
  rewrite detectInteractions_loops, loops_pairs.
  apply omap_filter_fmap. intros [f g]. apply interaction_record.
Qed.

(** Two faces in range that both report "happy" give the record
    "Person #a and #b both smiling", with the ids in the order of the
    array. *)
Theorem mutual_smile fs i j f g :
  i < j → fs !! i = Some f → fs !! j = Some g →
  dominantEmotion f = "happy" → dominantEmotion g = "happy" →
  within 300 (box f) (box g) = true →
  smiling (id f) (id g) ∈ detectInteractions fs.
Proof.
  intros Hij Hi Hj Hf Hg Hw. rewrite detectInteractions_loops, loops_pairs.
  apply list_elem_of_omap. exists (f, g). split.
  - apply elem_of_pairs. by exists i, j.
  - simpl. unfold interaction. by rewrite Hw, Hf, Hg.
Qed.

(** [n] faces give at most [n (n - 1) / 2] records. *)
Theorem interactions_bound fs :
  2 * length (detectInteractions fs) ≤ length fs * (length fs - 1).
Proof.
  rewrite detectInteractions_loops, loops_pairs, <-length_pairs.
  pose proof (length_omap_le (uncurry interaction) (pairs fs)). lia.
Qed.

Lemma mutual_smile_witness :
  0 < 1 ∧
  [face 1 0 0 "happy"; face 2 50 0 "happy"] !! 0 = Some (face 1 0 0 "happy") ∧
  [face 1 0 0 "happy"; face 2 50 0 "happy"] !! 1 = Some (face 2 50 0 "happy") ∧
  dominantEmotion (face 1 0 0 "happy") = "happy" ∧
  dominantEmotion (face 2 50 0 "happy") = "happy" ∧
  within 300 (box (face 1 0 0 "happy")) (box (face 2 50 0 "happy")) = true ∧
  smiling (id (face 1 0 0 "happy")) (id (face 2 50 0 "happy")) ∈
    detectInteractions [face 1 0 0 "happy"; face 2 50 0 "happy"].
Proof.
  assert (0 < 1) as H by lia. repeat (split; [done|]).
  exact (mutual_smile [face 1 0 0 "happy"; face 2 50 0 "happy"] 0 1 _ _
           H eq_refl eq_refl eq_refl eq_refl eq_refl).
Defined.

(** ** Identity *)

Lemma firstTracked_None b tracked :
  firstTracked b tracked = None ↔ Forall (far b) tracked.
Proof.
  unfold far. induction tracked as [|[i f] rest IH]; simpl.
  - split; [constructor|done].
  - rewrite Forall_cons. simpl.
    destruct (within threshold b (box f)); naive_solver.
Qed.

Lemma firstTracked_Some b tracked i :
  firstTracked b tracked = Some i ↔
  ∃ k f, tracked !! k = Some (i, f) ∧ within threshold b (box f) = true ∧
         Forall (far b) (take k tracked).
Proof.
  unfold far. induction tracked as [|[i' f'] rest IH]; simpl.
  - split; [done|]. by intros (k & f & ? & _).
  - destruct (within threshold b (box f')) eqn:E.
    + split.
      * intros [= ->]. exists 0, f'. by repeat split; [|constructor].
      * intros ([|k] & f & Hk & Hw & Hall); simpl in *; [by simplify_eq|].
        apply Forall_cons in Hall as [Hf _]. simpl in Hf. congruence.
    + rewrite IH. split.
      * intros (k & f & Hk & Hw & Hall). exists (S k), f. simpl.
        by repeat split; [..|constructor].
      * intros ([|k] & f & Hk & Hw & Hall); simpl in *;
          [simplify_eq; congruence|].
        apply Forall_cons in Hall as [_ Hall]. by exists k, f.
Qed.

(** C9. [assignFaceId] reuses the id of the first tracked face, in the
    order of the map, that is closer than 100 pixels to the box, and leaves
    the counter alone. *)
Theorem assignFaceId_reuse b s k i f :
  trackedFacesRef s !! k = Some (i, f) →
  within threshold b (box f) = true →
  Forall (far b) (take k (trackedFacesRef s)) →
  assignFaceId b s = (i, s).
Proof.
  intros Hk Hw Hall. unfold assignFaceId.
  assert (firstTracked b (trackedFacesRef s) = Some i) as ->; [|done].
  apply firstTracked_Some. by exists k, f.
Qed.

(** C32. In a state whose ids were all minted from the counter ([Minted]:
    every id in use lies between 1 and the counter), a box that is not
    closer than 100 pixels to any tracked face gets a new id: the counter
    is incremented and its new value returned, and that id is held by no
    tracked face and by no face of the history. *)
Theorem assignFaceId_fresh b s :
  Minted s → Forall (far b) (trackedFacesRef s) →
  ∃ s', assignFaceId b s = (S (personIdCounterRef s), s') ∧
        personIdCounterRef s' = S (personIdCounterRef s) ∧
        trackedFacesRef s' = trackedFacesRef s ∧
        (S (personIdCounterRef s) ∉ fst <$> trackedFacesRef s) ∧
        (S (personIdCounterRef s) ∉ id <$> facesHistoryRef s).
Proof.
  intros [Ht Hh _] Hfar%firstTracked_None. unfold assignFaceId. rewrite Hfar.
  eexists. split; [done|]. repeat split.
  - intros ([k f] & Hk & Hin)%list_elem_of_fmap. rewrite Forall_forall in Ht.
    specialize (Ht _ Hin). simpl in *. lia.
  - intros (f & Hk & Hin)%list_elem_of_fmap. rewrite Forall_forall in Hh.
    specialize (Hh _ Hin). simpl in *. lia.
Qed.

#[export] Instance frame_preorder : PreOrder frame.
Proof.
  split.
  - by intros s.
  - intros s1 s2 s3 [] []. split; try congruence. lia.
Qed.

Lemma assignFaceId_frame b s : frame s (assignFaceId b s).2.
Proof. unfold assignFaceId. case_match; [done|]. split; simpl; try done. lia. Qed.

Lemma assignFaceId_bound b s :
  Forall (λ kf, 1 ≤ kf.1 ≤ personIdCounterRef s) (trackedFacesRef s) →
  1 ≤ (assignFaceId b s).1 ≤ personIdCounterRef (assignFaceId b s).2.
Proof.
  intros Ht. unfold assignFaceId.
  destruct (firstTracked _ _) as [i|] eqn:E; simpl; [|lia].
  apply firstTracked_Some in E as (k & f & Hk & _).
  rewrite Forall_forall in Ht. by apply list_elem_of_lookup_2, Ht in Hk.
Qed.

Lemma identify_frame raws now s : frame s (identify raws now s).2.
Proof.
  revert s. induction raws as [|r rest IH]; intros s; simpl; [done|].
  pose proof (assignFaceId_frame (raw_box r) s) as Ha.
  destruct (assignFaceId (raw_box r) s) as [i s1]. specialize (IH s1).
  destruct (identify rest now s1) as [fs s2]. simpl in *. by trans s1.
Qed.

Lemma identify_length raws now s : length (identify raws now s).1 = length raws.
Proof.
  revert s. induction raws as [|r rest IH]; intros s; simpl; [done|].
  destruct (assignFaceId (raw_box r) s) as [i s1]. specialize (IH s1).
  destruct (identify rest now s1) as [fs s2]. simpl in *. by rewrite IH.
Qed.

Lemma identify_bound raws now s :
  Forall (λ kf, 1 ≤ kf.1 ≤ personIdCounterRef s) (trackedFacesRef s) →
  Forall (λ f, 1 ≤ id f ≤ personIdCounterRef (identify raws now s).2)
         (identify raws now s).1.
Proof.
  revert s. induction raws as [|r rest IH]; intros s Ht; simpl; [constructor|].
  pose proof (assignFaceId_frame (raw_box r) s) as Ha.
  pose proof (assignFaceId_bound (raw_box r) s Ht) as Hb.
  destruct (assignFaceId (raw_box r) s) as [i s1]. simpl in *.
  pose proof (identify_frame rest now s1) as Hf. specialize (IH s1).
  destruct (identify rest now s1) as [fs s2]. simpl in *.
  pose proof (fr_counter _ _ Hf). constructor; simpl; [lia|]. apply IH.
  rewrite (fr_tracked _ _ Ha). pose proof (fr_counter _ _ Ha).
  eapply Forall_impl; [done|]. simpl. lia.
Qed.

Lemma mapSet_Forall (P : nat * FaceDetection → Prop) k v m :
  P (k, v) → Forall P m → Forall P (mapSet k v m).
Proof.
  intros Hk. induction 1 as [|[k' v'] rest Hx Hr IH]; simpl.
  - by repeat constructor.
  - case_decide; by constructor.
Qed.

Lemma retrack_Forall (P : nat * FaceDetection → Prop) fs :
  Forall (λ f, P (id f, f)) fs → Forall P (retrack fs).
Proof.
  unfold retrack. assert (Forall P []) as H by constructor. revert H.
  generalize (@nil (nat * FaceDetection)) as m.
  induction fs as [|f fs IH]; intros m Hm Hfs; simpl; [done|].
  apply Forall_cons in Hfs as [Hf Hfs]. by apply IH; [apply mapSet_Forall|].
Qed.

Lemma Minted_init : Minted init.
Proof. split; simpl; by try constructor. Qed.

Lemma Minted_startDetection s : Minted (startDetection s).
Proof. split; simpl; by try constructor. Qed.

Lemma Minted_stopDetection s : Minted s → Minted (stopDetection s).
Proof. intros [H1 H2 H3]. by split. Qed.

Lemma Minted_detectTick raws now s : Minted s → Minted (detectTick raws now s).
Proof.
  intros [H1 H2 H3]. unfold detectTick.
  assert (Forall (λ kf, 1 ≤ kf.1 ≤ personIdCounterRef s) (trackedFacesRef s))
    as Ht by (eapply Forall_impl; [done|]; naive_solver).
  pose proof (identify_bound raws now s Ht) as Hb.
  pose proof (identify_frame raws now s) as [_ Hh Hs _ _ _ Hc].
  destruct (identify raws now s) as [fs s1]. simpl in *. split; simpl; [| |done].
  - apply retrack_Forall. eapply Forall_impl; [done|]. naive_solver.
  - apply Forall_slice_last, Forall_app. split; [|done]. rewrite Hh.
    eapply Forall_impl; [done|]. simpl. lia.
Qed.

Lemma Minted_driven s : driven s → Minted s.
Proof.
  induction 1 as [|[] s _ IH|raws now s _ IH];
    auto using Minted_init, Minted_startDetection, Minted_stopDetection,
      Minted_detectTick.
Qed.

Lemma driven_walk : driven walk.
Proof. repeat (apply driven_tick). apply (driven_step EStart), driven_init. Qed.

Lemma driven_two_tracked : driven two_tracked.
Proof. apply driven_tick, (driven_step EStart), driven_init. Qed.

(** In a session driven by ticks every id was minted from the counter:
    the id of every face of the history and of every tracked face lies
    between 1 and the counter, and [uniquePeople] is the counter.  Ids are
    therefore never reused for a new person within a session. *)
Theorem ids_minted s :
  driven s →
  Forall (λ f, 1 ≤ id f ≤ personIdCounterRef s) (facesHistoryRef s) ∧
  Forall (λ kf, 1 ≤ kf.1 ≤ personIdCounterRef s) (trackedFacesRef s) ∧
  uniquePeople (stats s) = personIdCounterRef s.
Proof.
  intros [Ht Hh Hp]%Minted_driven. split; [done|]. split; [|done].
  eapply Forall_impl; [done|]. naive_solver.
Qed.

Lemma ids_minted_witness :
  driven walk ∧
  Forall (λ f, 1 ≤ id f ≤ personIdCounterRef walk) (facesHistoryRef walk) ∧
  Forall (λ kf, 1 ≤ kf.1 ≤ personIdCounterRef walk) (trackedFacesRef walk) ∧
  uniquePeople (stats walk) = personIdCounterRef walk.
Proof. split; [exact driven_walk|exact (ids_minted walk driven_walk)]. Defined.

Lemma assignFaceId_reuse_witness :
  trackedFacesRef two_tracked !! 1 = Some (2, face 2 50 0 "happy") ∧
  within threshold (at_ 140 0) (box (face 2 50 0 "happy")) = true ∧
  Forall (far (at_ 140 0)) (take 1 (trackedFacesRef two_tracked)) ∧
  assignFaceId (at_ 140 0) two_tracked = (2, two_tracked).
Proof.
  assert (trackedFacesRef two_tracked !! 1 = Some (2, face 2 50 0 "happy"))
    as Hk by (by vm_compute).
  assert (Forall (far (at_ 140 0)) (take 1 (trackedFacesRef two_tracked)))
    as Hfar by (by repeat constructor).
  split; [exact Hk|]. split; [done|]. split; [exact Hfar|].
  exact (assignFaceId_reuse (at_ 140 0) two_tracked 1 2 _ Hk eq_refl Hfar).
Defined.

Lemma assignFaceId_fresh_witness :
  Minted two_tracked ∧ Forall (far (at_ 500 500)) (trackedFacesRef two_tracked) ∧
  ∃ s', assignFaceId (at_ 500 500) two_tracked =
          (S (personIdCounterRef two_tracked), s') ∧
        personIdCounterRef s' = S (personIdCounterRef two_tracked) ∧
        trackedFacesRef s' = trackedFacesRef two_tracked ∧
        (S (personIdCounterRef two_tracked) ∉ fst <$> trackedFacesRef two_tracked) ∧
        (S (personIdCounterRef two_tracked) ∉ id <$> facesHistoryRef two_tracked).
Proof.
  pose proof (Minted_driven _ driven_two_tracked) as Hm.
  assert (Forall (far (at_ 500 500)) (trackedFacesRef two_tracked)) as Hfar
    by (by repeat constructor).
  split; [exact Hm|]. split; [exact Hfar|].
  exact (assignFaceId_fresh (at_ 500 500) two_tracked Hm Hfar).
Defined.

(** The scenario of the design document: a face seen at (10,10), then
    at (15,12), then at (500,500) is given the ids 1, 1 and 2. *)
Theorem walk_ids :
  id <$> facesHistoryRef walk = [1; 1; 2] ∧ personIdCounterRef walk = 2 ∧
  fst <$> trackedFacesRef walk = [2].
Proof. repeat split; by vm_compute. Qed.

(** The match is the first in the order of the map, not the nearest:
    with faces 1 at (0,0) and 2 at (50,0) tracked, a box at (60,0) is given
    id 1, at 60 pixels, although face 2 is 10 pixels away. *)
Theorem first_match_not_nearest :
  fst <$> trackedFacesRef two_tracked = [1; 2] ∧
  (assignFaceId (at_ 60 0) two_tracked).1 = 1 ∧
  distance2 (at_ 60 0) (at_ 50 0) = 100%Z ∧
  distance2 (at_ 60 0) (at_ 0 0) = 3600%Z.
Proof. repeat split; by vm_compute. Qed.

(** The threshold is strict: at exactly 100 pixels from the only tracked
    face a box gets a new id, at 99 pixels it gets the tracked id. *)
Example threshold_strict :
  let s := detectTick [raw 10 10 "happy"] 500 (startDetection init) in
  (assignFaceId (at_ 110 10) s).1 = 2 ∧ (assignFaceId (at_ 109 10) s).1 = 1.
Proof. split; by vm_compute. Qed.

(** Two faces of one tick can be given the same id: both are matched
    against the faces of the previous tick. *)
Example id_shared :
  let s := detectTick [raw 12 10 "happy"; raw 14 10 "sad"] 1000
             (detectTick [raw 10 10 "happy"] 500 (startDetection init)) in
  id <$> faces s = [1; 1] ∧ length (trackedFacesRef s) = 1 ∧
  uniquePeople (stats s) = 1 ∧
  interactions (stats s) = ["Person #1 and #1 interacting"].
Proof. repeat split; by vm_compute. Qed.

(** ** The hook as written *)

Lemma face_run_reachable es : reachable (run es init).
Proof.
  induction es as [|e es IH] using rev_ind; [constructor|].
  unfold run. rewrite foldl_app. by constructor.
Qed.

Lemma face_inert s :
  reachable s →
  faces s = [] ∧ facesHistoryRef s = [] ∧ trackedFacesRef s = [] ∧
  personIdCounterRef s = 0 ∧ stats s = noStats ∧
  detectionIntervalRef s = None ∧ modelsLoaded s = true.
Proof.
  induction 1 as [|[] s _ (Hf & Hh & Ht & Hc & Hs & Hi & Hm)]; simpl;
    rewrite ?Hi; done.
Qed.

(** C34. The hook as written never detects a face: whatever handlers are
    called, no face is current, the history and the tracked faces are empty,
    the counter is 0, the statistics are the initial ones and no timer is
    held, so that [getSummary] reports zeros. *)
Theorem hook_inert s :
  reachable s →
  faces s = [] ∧ facesHistoryRef s = [] ∧ trackedFacesRef s = [] ∧
  personIdCounterRef s = 0 ∧ stats s = noStats ∧
  detectionIntervalRef s = None ∧ modelsLoaded s = true ∧
  getSummary s = {| sum_uniquePeople := 0; sum_totalDetections := 0;
                    sum_emotions := ∅; sum_interactions := [];
                    sum_currentFaces := 0 |}.
Proof.
  intros (Hf & Hh & Ht & Hc & Hs & Hi & Hm)%face_inert.
  unfold getSummary. by rewrite Hf, Hh, Hs.
Qed.

Lemma hook_inert_witness :
  reachable (run [EStart; EStop; EStart] init) ∧
  faces (run [EStart; EStop; EStart] init) = [] ∧
  facesHistoryRef (run [EStart; EStop; EStart] init) = [] ∧
  trackedFacesRef (run [EStart; EStop; EStart] init) = [] ∧
  personIdCounterRef (run [EStart; EStop; EStart] init) = 0 ∧
  stats (run [EStart; EStop; EStart] init) = noStats ∧
  detectionIntervalRef (run [EStart; EStop; EStart] init) = None ∧
  modelsLoaded (run [EStart; EStop; EStart] init) = true ∧
  getSummary (run [EStart; EStop; EStart] init) =
    {| sum_uniquePeople := 0; sum_totalDetections := 0; sum_emotions := ∅;
       sum_interactions := []; sum_currentFaces := 0 |}.
Proof.
  pose proof (face_run_reachable [EStart; EStop; EStart]) as Hr.
  split; [exact Hr|]. exact (hook_inert _ Hr).
Defined.

(** The flag is set by the last handler called. *)
Lemma isDetecting_last es e :
  isDetecting (run (es ++ [e]) init) = if e is EStart then true else false.
Proof. unfold run. rewrite foldl_app. by destruct e. Qed.

(** Stopping the face hook twice is stopping it once, and starting it
    while it runs is not refused: the session is reset again. *)
Theorem face_stop_start_idempotent s :
  stopDetection (stopDetection s) = stopDetection s ∧
  startDetection (startDetection s) = startDetection s ∧
  isDetecting (startDetection s) = true.
Proof.
  split; [|done]. unfold stopDetection. simpl.
  by destruct (detectionIntervalRef s).
Qed.

End Face.
