(* ===== verification/HandTracking.v ===== *)
(** * HandTracking: the hook [useHandTracking]

    Models src/hooks/useHandTracking.ts: the state of the hook, the mount
    effect [loadMediaPipe], [countFingers], [recognizeGesture] and the two
    handlers.  A gesture label of the source is a pictograph followed by a
    name; [Gesture] has one constructor per [case] of the [switch],
    [gestureName] gives the name and [gestureLabel] the label, with the
    pictograph as the bytes the source file holds.  [fingerCount] is
    a JavaScript number, modelled as an integer; the coordinates of a
    landmark are fractions of the frame, modelled as rationals.

    As written the hook never produces a hand: [startDetection] only sets
    the flag, and [countFingers] returns 0 whatever the landmarks. *)

From Stdlib Require Import ZArith QArith Lia.
From stdpp Require Import base list gmap strings.
From S2P Require Import Prelude Text Stats.

#[local] Open Scope js_scope.

Module Hand.

(** [{ x, y, z }] *)
Record Landmark := { lx : Q; ly : Q; lz : Q }.

(** ['Left' | 'Right'] *)
Inductive Handedness := Left | Right.

(** The labels [recognizeGesture] returns. *)
Inductive Gesture :=
  | Fist
  | Pointing
  | Peace
  | OKSign
  | Rock
  | OpenHand
  | Fingers (fingerCount : Z).

(** [interface HandDetection] *)
Record HandDetection := {
  landmarks : list Landmark;
  gesture : Gesture;
  fingerCount : Z;
  handedness : Handedness;
  timestamp : Z;
}.

(** The hook's state. *)
Record State := {
  isReady : bool;
  isDetecting : bool;
  hands : list HandDetection;
  gestureStats : DetectionStats;
  handsInstanceRef : option unit;
  detectionIntervalRef : option positive;
  console : list string;
}.

Definition init : State := {|
  isReady := false;
  isDetecting := false;
  hands := [];
  gestureStats := ∅;
  handsInstanceRef := None;
  detectionIntervalRef := None;
  console := [];
|}.

#[export] Instance gesture_eq_dec : EqDecision Gesture.
Proof. solve_decision. Defined.

(** The name in a label. *)
Definition gestureName (g : Gesture) : string :=
  match g with
  | Fist => "Fist"
  | Pointing => "Pointing"
  | Peace => "Peace"
  | OKSign => "OK Sign"
  | Rock => "Rock"
  | OpenHand => "Open Hand"
  | Fingers n => show_Z n +:+ " Fingers"
  end.

(** The pictograph of a label and the space after it, in the bytes of the
    source file. *)
Definition pictograph (g : Gesture) : string :=
  match g with
  | Fist => bytes [195; 162; 197; 147; 197; 160; 32]
  | Pointing => bytes [195; 162; 203; 156; 195; 175; 194; 184; 32]
  | Peace => bytes [195; 162; 197; 147; 197; 146; 195; 175; 194; 184; 32]
  | OKSign => bytes [195; 176; 197; 184; 226; 128; 152; 197; 146; 32]
  | Rock => bytes [195; 176; 197; 184; 194; 164; 203; 156; 32]
  | OpenHand => bytes [195; 162; 197; 147; 226; 128; 185; 32]
  | Fingers _ => ""
  end.

(** The string [recognizeGesture] returns. *)
Definition gestureLabel (g : Gesture) : string := pictograph g +:+ gestureName g.

(** The mount effect [loadMediaPipe]: both branches of the [try] set
    [isReady]; the [catch] branch logs first. *)
Definition loadMediaPipe (ok : bool) (s : State) : State :=
  {| isReady := true; isDetecting := isDetecting s; hands := hands s;
     gestureStats := gestureStats s; handsInstanceRef := handsInstanceRef s;
     detectionIntervalRef := detectionIntervalRef s;
     console := if ok then console s
                else console s ++ ["MediaPipe loading error:"] |}.

(** [countFingers(landmarks)] *)
Definition countFingers (l : list Landmark) : Z := 0.

(** [recognizeGesture(fingerCount)] *)
Definition recognizeGesture (fingerCount : Z) : Gesture :=
  match fingerCount with
  | 0 => Fist
  | 1 => Pointing
  | 2 => Peace
  | 3 => OKSign
  | 4 => Rock
  | 5 => OpenHand
  | _ => Fingers fingerCount
  end%Z.

(** [startDetection(videoElement, interval = 100)] *)
Definition startDetection (s : State) : State :=
  {| isReady := isReady s; isDetecting := true; hands := hands s;
     gestureStats := gestureStats s; handsInstanceRef := handsInstanceRef s;
     detectionIntervalRef := detectionIntervalRef s; console := console s |}.

(** [stopDetection()] *)
Definition stopDetection (s : State) : State :=
  {| isReady := isReady s; isDetecting := false; hands := hands s;
     gestureStats := gestureStats s; handsInstanceRef := handsInstanceRef s;
     detectionIntervalRef :=
       if detectionIntervalRef s is Some _ then None else detectionIntervalRef s;
     console := console s |}.

Inductive Event :=
  | ELoaded (ok : bool)
  | EStart
  | EStop.

Definition exec (e : Event) (s : State) : State :=
  match e with
  | ELoaded ok => loadMediaPipe ok s
  | EStart => startDetection s
  | EStop => stopDetection s
  end.

Definition run (es : list Event) (s : State) : State := foldl (flip exec) s es.

Inductive reachable : State → Prop :=
  | reachable_init : reachable init
  | reachable_step e s : reachable s → reachable (exec e s).

(** The counts for which the [switch] has a [case]. *)
Definition named (n : Z) : Prop := (0 ≤ n ≤ 5)%Z.

Lemma hand_run_reachable es : reachable (run es init).
Proof.
  induction es as [|e es IH] using rev_ind; [constructor|].
  unfold run. rewrite foldl_app. by constructor.
Qed.

Lemma recognizeGesture_default n :
  ¬ named n → recognizeGesture n = Fingers n.
Proof.
  unfold named. intros Hn.
  destruct n as [|p|p]; [lia| |done].
  do 3 (destruct p as [p|p|]; try done; try lia).
Qed.

Lemma recognizeGesture_named n :
  named n → ∀ m, recognizeGesture n ≠ Fingers m.
Proof.
  unfold named. intros Hn m.
  assert (n = 0 ∨ n = 1 ∨ n = 2 ∨ n = 3 ∨ n = 4 ∨ n = 5)%Z as H by lia.
  by destruct H as [->|[->|[->|[->|[->| ->]]]]].
Qed.

(** [recognizeGesture] gives different labels to different finger
    counts: the six named gestures are distinct, and every other count is
    labelled with the count itself. *)
Theorem recognizeGesture_inj n m :
  recognizeGesture n = recognizeGesture m → n = m.
Proof.
  intros H. destruct (decide (named n)) as [Hn|Hn], (decide (named m)) as [Hm|Hm].
  - unfold named in *.
    assert (n = 0 ∨ n = 1 ∨ n = 2 ∨ n = 3 ∨ n = 4 ∨ n = 5)%Z as Hn' by lia.
    assert (m = 0 ∨ m = 1 ∨ m = 2 ∨ m = 3 ∨ m = 4 ∨ m = 5)%Z as Hm' by lia.
    destruct Hn' as [->|[->|[->|[->|[->| ->]]]]];
      destruct Hm' as [->|[->|[->|[->|[->| ->]]]]]; done.
  - rewrite (recognizeGesture_default m Hm) in H.
    by destruct (recognizeGesture_named n Hn m).
  - rewrite (recognizeGesture_default n Hn) in H.
    by destruct (recognizeGesture_named m Hm n).
  - rewrite (recognizeGesture_default n Hn), (recognizeGesture_default m Hm) in H.
    congruence.
Qed.

Lemma recognizeGesture_inj_witness :
  recognizeGesture 7 = recognizeGesture 7 ∧ 7%Z = 7%Z.
Proof. split; [done|]. exact (recognizeGesture_inj 7 7 eq_refl). Defined.

(** Whatever the landmarks, the gesture recognised for a hand is the
    fist: [countFingers] is a stub that returns 0. *)
Theorem gesture_always_fist l :
  recognizeGesture (countFingers l) = Fist ∧
  gestureName (recognizeGesture (countFingers l)) = "Fist".
Proof. unfold countFingers. by split. Qed.

Lemma hand_inert s :
  reachable s →
  hands s = [] ∧ gestureStats s = ∅ ∧ detectionIntervalRef s = None ∧
  handsInstanceRef s = None.
Proof.
  induction 1 as [|[] s _ (Hh & Hg & Hi & Hr)]; simpl; rewrite ?Hi; done.
Qed.

Lemma hand_run_snoc es e : run (es ++ [e]) init = exec e (run es init).
Proof. unfold run. by rewrite foldl_app. Qed.

(** The hook is ready exactly when the mount effect has run. *)
Lemma isReady_loaded es :
  isReady (run es init) = true ↔ ∃ ok, ELoaded ok ∈ es.
Proof.
  induction es as [|e es IH] using rev_ind.
  - split; [done|]. by intros [ok ?%elem_of_nil].
  - rewrite hand_run_snoc. setoid_rewrite elem_of_app.
    setoid_rewrite list_elem_of_singleton. destruct e; simpl.
    + split; [eauto|done].
    + rewrite IH. naive_solver.
    + rewrite IH. naive_solver.
Qed.

(** The hook as written never reports a hand: in every reachable state
    [hands] and [gestureStats] are empty and no timer is held; after the
    mount effect has run the hook is ready, whether loading failed or
    not. *)
Theorem hand_hook_inert es :
  let s := run es init in
  hands s = [] ∧ gestureStats s = ∅ ∧ detectionIntervalRef s = None ∧
  handsInstanceRef s = None ∧
  (isReady s = true ↔ ∃ ok, ELoaded ok ∈ es).
Proof.
  simpl. destruct (hand_inert _ (hand_run_reachable es)) as (-> & -> & -> & ->).
  repeat split; [apply isReady_loaded..].
Qed.


Lemma hand_stop_idempotent s : stopDetection (stopDetection s) = stopDetection s.
Proof. unfold stopDetection. simpl. by destruct (detectionIntervalRef s). Qed.

End Hand.
