(* ===== verification/Session.v ===== *)
(** * Session: the advanced session manager

    Models the logic of src/components/AdvancedSessionManager.tsx (module
    [Advanced]): the component that owns the three detection hooks, starts
    and stops them together and publishes a summary text through
    [onSessionSummary].  The definitions before the module are shared with
    BasicSession.v, the manager of src/components/SessionManager.tsx.

    A manager's state is the state of the hooks it calls, the [videoElement]
    prop, and the texts it has passed to [onSessionSummary].  Its events are
    the clicks on its buttons, each guarded by the condition under which the
    button is rendered and enabled, the change of the [videoElement] prop,
    and the events of the hooks that do not come from the manager (model
    loading, timers, answers of the detector).

    [JSON.stringify(counts, null, 2)] is a section variable [stringify]; the
    locale-dependent [toLocaleTimeString] is [tl]. *)

From Stdlib Require Import ZArith QArith.
From stdpp Require Import base list gmap strings.
From S2P Require Import Prelude Text Stats HistoryBuffer ObjectDetection.
From S2P Require Import ObjectSummary Geometry FaceDetection HandTracking.

#[local] Open Scope js_scope.

(** [videoElement]: the element, told from every other by [element], and
    the properties of it the managers read. *)
Record Video := { element : nat; videoWidth : Z; videoHeight : Z }.

(** The events of the object hook that do not come from a manager. *)
Definition internal (e : Obj.Event) : bool :=
  match e with
  | Obj.EStart _ | Obj.EStop => false
  | _ => true
  end.

Module Advanced.

(** The component's state: its three hooks, its prop, and the summaries it
    has published. *)
Record State := {
  objects : Obj.State;
  faceHook : Face.State;
  handHook : Hand.State;
  videoElement : option Video;
  onSessionSummary : list string;
}.

#[export] Instance set_objects : Setter objects := λ f s,
  Build_State (f (objects s)) (faceHook s) (handHook s) (videoElement s)
    (onSessionSummary s).
#[export] Instance set_faceHook : Setter faceHook := λ f s,
  Build_State (objects s) (f (faceHook s)) (handHook s) (videoElement s)
    (onSessionSummary s).
#[export] Instance set_handHook : Setter handHook := λ f s,
  Build_State (objects s) (faceHook s) (f (handHook s)) (videoElement s)
    (onSessionSummary s).
#[export] Instance set_videoElement : Setter videoElement := λ f s,
  Build_State (objects s) (faceHook s) (handHook s) (f (videoElement s))
    (onSessionSummary s).
#[export] Instance set_onSessionSummary : Setter onSessionSummary := λ f s,
  Build_State (objects s) (faceHook s) (handHook s) (videoElement s)
    (f (onSessionSummary s)).

Definition init : State := {|
  objects := Obj.init;
  faceHook := Face.init;
  handHook := Hand.init;
  videoElement := None;
  onSessionSummary := [];
|}.

(** [isSessionActive = objectsDetecting || facesDetecting || handsDetecting] *)
Definition isSessionActive (s : State) : bool :=
  Obj.isDetecting (objects s) || Face.isDetecting (faceHook s)
  || Hand.isDetecting (handHook s).

(** [handleStartAll] *)
Definition handleStartAll (s : State) : State :=
  match videoElement s with
  | None => s
  | Some _ =>
      s <| objects ::= Obj.startDetection (Some 1000%Z) |>
        <| faceHook ::= λ f, if Face.modelsLoaded f then Face.startDetection f
                             else f |>
        <| handHook ::= λ h, if Hand.isReady h then Hand.startDetection h
                             else h |>
  end.

(** [handleStopAll] *)
Definition handleStopAll (s : State) : State :=
  s <| objects ::= Obj.stopDetection |>
    <| faceHook ::= Face.stopDetection |>
    <| handHook ::= Hand.stopDetection |>.

(** The [disabled] attribute of the start button. *)
Definition startDisabled (s : State) : bool :=
  Obj.isLoading (objects s) || negb (Face.modelsLoaded (faceHook s))
  || negb (Hand.isReady (handHook s))
  || negb (bool_decide (is_Some (videoElement s))).

Section Summary.
Context (tl : Z → string) (stringify : DetectionStats → string).

(** The template literal of [handleGenerateSummary], trimmed. *)
Definition summaryText (now : Z) (s : State) : string :=
  let objectSummary := ObjSummary.getDetectionSummary tl None now (objects s) in
  let faceSummary := Face.getSummary (faceHook s) in
  joinLines [
    "🎯 Complete Session Analytics:";
    "";
    "📦 Objects Detected:";
    stringify (ObjSummary.objectCounts objectSummary);
    "";
    "👤 People Analysis:";
    "- Unique People: " +:+ show_nat (Face.sum_uniquePeople faceSummary);
    "- Total Face Detections: "
      +:+ show_nat (Face.sum_totalDetections faceSummary);
    "- Current People in Frame: "
      +:+ show_nat (Face.sum_currentFaces faceSummary);
    "";
    "😊 Emotions:";
    stringify (Face.sum_emotions faceSummary);
    "";
    "🤝 Interactions:";
    joinLines (Face.sum_interactions faceSummary);
    "";
    "✋ Gestures Detected:";
    stringify (Hand.gestureStats (handHook s));
    "";
    "⏱️ Session Duration: " +:+ ObjSummary.sessionDuration objectSummary
  ].

(** [handleGenerateSummary]; [now] is the clock read by the summary. *)
Definition handleGenerateSummary (now : Z) (s : State) : State :=
  s <| onSessionSummary ::= (.++ [summaryText now s]) |>.

(** What reaches the component. *)
Inductive Event :=
  | EObject (e : Obj.Event)
  | EHandsLoaded (ok : bool)
  | EVideo (v : option Video)
  | EClickStart
  | EClickStop
  | EClickSummary (now : Z).

(** One event; [None] when it cannot happen: a hook event that the hook
    refuses, a click on a button that is not rendered or is disabled. *)
Definition exec (e : Event) (s : State) : option State :=
  match e with
  | EObject e =>
      if internal e
      then o ← Obj.exec e (objects s); Some (s <| objects := o |>)
      else None
  | EHandsLoaded ok => Some (s <| handHook ::= Hand.loadMediaPipe ok |>)
  | EVideo v => Some (s <| videoElement := v |>)
  | EClickStart =>
      if negb (isSessionActive s) && negb (startDisabled s)
      then Some (handleStartAll s) else None
  | EClickStop =>
      if isSessionActive s then Some (handleStopAll s) else None
  | EClickSummary now =>
      if isSessionActive s then Some (handleGenerateSummary now s) else None
  end.

Fixpoint run (es : list Event) (s : State) : option State :=
  match es with
  | [] => Some s
  | e :: es => s' ← exec e s; run es s'
  end.

End Summary.

(** The hooks of a component state are in states they can reach. *)
Record Hooks (s : State) : Prop := {
  hooks_objects : Obj.reachable (objects s);
  hooks_faces : Face.reachable (faceHook s);
  hooks_hands : Hand.reachable (handHook s);
}.

(** The flags of the face and hand hooks move together, and objects are
    detected only while they are set. *)
Record Flags (s : State) : Prop := {
  flags_hands : Hand.isDetecting (handHook s) = Face.isDetecting (faceHook s);
  flags_objects :
    Obj.isDetecting (objects s) = true → Face.isDetecting (faceHook s) = true;
}.

(** A video element, and a session started after the object model failed
    to load. *)
Definition camera : Video :=
  {| element := 0; videoWidth := 1280; videoHeight := 720 |}.

(** The component once its models are loaded and a video is attached. *)
Definition ready : State :=
  init <| videoElement := Some camera |>
       <| objects ::= Obj.loadModel true |>
       <| handHook ::= Hand.loadMediaPipe true |>.

Definition failed_load : list Event :=
  [EObject (Obj.EModelLoaded false); EHandsLoaded true; EVideo (Some camera);
   EClickStart].

(** A session in which the model loads and one tick sees a car. *)
Definition one_car : list Event :=
  [EObject (Obj.EModelLoaded true); EHandsLoaded true; EVideo (Some camera);
   EClickStart; EObject (Obj.EResolve 0 [Obj.car (9 # 10)] 1000)].

(** A serialiser for the samples: it prints the number of labels. *)
Definition labels (m : DetectionStats) : string := show_nat (size m).

(** The state after a run of the samples. *)
Definition after (es : list Event) : State :=
  default init (run show_Z labels es init).

(** ** Handlers *)

Lemma internal_isDetecting e o o' :
  internal e = true → Obj.exec e o = Some o' →
  Obj.isDetecting o' = Obj.isDetecting o.
Proof.
  intros Hi He. destruct e; try done; simpl in He; repeat case_match;
    simplify_option_eq; try done.
  unfold Obj.loadModel. by case_match.
Qed.

Lemma start_guard_spec s :
  negb (isSessionActive s) && negb (startDisabled s) = true ↔
  Obj.isDetecting (objects s) = false ∧ Face.isDetecting (faceHook s) = false ∧
  Hand.isDetecting (handHook s) = false ∧ Obj.isLoading (objects s) = false ∧
  Face.modelsLoaded (faceHook s) = true ∧ Hand.isReady (handHook s) = true ∧
  is_Some (videoElement s).
Proof.
  unfold isSessionActive, startDisabled.
  rewrite andb_true_iff, !negb_true_iff, !orb_false_iff, !negb_false_iff,
    bool_decide_eq_true. naive_solver.
Qed.

(** Stopping the session is idempotent, and leaves no hook detecting:
    a second [handleStopAll] changes nothing. *)
Theorem stop_all_idempotent s :
  handleStopAll (handleStopAll s) = handleStopAll s ∧
  isSessionActive (handleStopAll s) = false.
Proof.
  split; [|done]. destruct s as [o f h v l].
  cbv [handleStopAll set set_objects set_faceHook set_handHook objects faceHook
       handHook videoElement onSessionSummary].
  by rewrite Obj.stopDetection_idempotent, Hand.hand_stop_idempotent,
    (proj1 (Face.face_stop_start_idempotent f)).
Qed.

(** C8. With a video element, the object model loaded, the face models
    loaded, the hand tracker ready and no session running,
    [handleStartAll] starts the three hooks: every flag is set and the
    object hook polls every 1000 ms. *)
Theorem start_all_effect s v :
  videoElement s = Some v → Obj.model (objects s) = true →
  Obj.isDetecting (objects s) = false →
  Face.modelsLoaded (faceHook s) = true → Hand.isReady (handHook s) = true →
  let s' := handleStartAll s in
  Obj.isDetecting (objects s') = true ∧ Face.isDetecting (faceHook s') = true ∧
  Hand.isDetecting (handHook s') = true ∧
  Obj.period <$> (Obj.timers (objects s') !! Obj.nextTimer (objects s))
    = Some 1000%Z.
Proof.
  intros Hv Hm Hd Hf Hh. unfold handleStartAll. rewrite Hv. cbn.
  rewrite Hf, Hh, Obj.startDetection_isDetecting, Hm.
  unfold Obj.startDetection. rewrite Hm, Hd. cbn.
  by rewrite lookup_insert_eq.
Qed.

Lemma start_all_effect_witness :
  videoElement ready = Some camera ∧ Obj.model (objects ready) = true ∧
  Obj.isDetecting (objects ready) = false ∧
  Face.modelsLoaded (faceHook ready) = true ∧
  Hand.isReady (handHook ready) = true ∧
  let s' := handleStartAll ready in
  Obj.isDetecting (objects s') = true ∧ Face.isDetecting (faceHook s') = true ∧
  Hand.isDetecting (handHook s') = true ∧
  Obj.period <$> (Obj.timers (objects s') !! Obj.nextTimer (objects ready))
    = Some 1000%Z.
Proof.
  do 5 (split; [reflexivity|]).
  exact (start_all_effect ready camera eq_refl eq_refl eq_refl eq_refl eq_refl).
Defined.

(** ** The component's machine *)

Section Machine.
Context (tl : Z → string) (stringify : DetectionStats → string).

(** A property kept by every event holds at the end of a run. *)
Lemma run_invariant (P : State → Prop) es s s' :
  (∀ e s s', exec tl stringify e s = Some s' → P s → P s') →
  run tl stringify es s = Some s' → P s → P s'.
Proof.
  intros Hstep. revert s. induction es as [|e es IH]; intros s Hr HP; simpl in Hr.
  - by simplify_eq.
  - destruct (exec tl stringify e s) as [s1|] eqn:E; [|done]. eauto.
Qed.

Lemma Hooks_init : Hooks init.
Proof. split; constructor. Qed.

Lemma Hooks_exec e s s' : exec tl stringify e s = Some s' → Hooks s → Hooks s'.
Proof.
  intros He [Ho Hf Hh].
  destruct e; simpl in He; repeat case_match; simplify_option_eq.
  - split; [|done..]. by eapply Obj.exec_reachable.
  - split; [done..|]. apply (Hand.reachable_step (Hand.ELoaded ok)), Hh.
  - by split.
  - unfold handleStartAll. case_match; [|done]. split; cbn.
    + by eapply (Obj.exec_reachable (Obj.EStart _)).
    + case_match; [apply (Face.reachable_step Face.EStart)|]; done.
    + case_match; [apply (Hand.reachable_step Hand.EStart)|]; done.
  - split; cbn.
    + by eapply (Obj.exec_reachable Obj.EStop).
    + apply (Face.reachable_step Face.EStop), Hf.
    + apply (Hand.reachable_step Hand.EStop), Hh.
  - by split.
Qed.

Lemma Flags_init : Flags init.
Proof. by split. Qed.

Lemma Flags_exec e s s' : exec tl stringify e s = Some s' → Flags s → Flags s'.
Proof.
  intros He [H1 H2].
  destruct e; simpl in He; repeat case_match; simplify_option_eq;
    try (by split).
  - split; [done|]. cbn. by erewrite internal_isDetecting.
  - apply start_guard_spec in H as (_ & _ & _ & _ & Hm & Hr & [v Hv]).
    unfold handleStartAll. rewrite Hv. split; cbn; by rewrite Hm, ?Hr.
Qed.

(** C31. Through the component's buttons the three hooks are started and
    stopped together: in every state of a run, the session is active
    exactly when the face hook is detecting, and the object hook detects
    only in an active session. *)
Theorem active_iff_faces es s :
  run tl stringify es init = Some s →
  isSessionActive s = Face.isDetecting (faceHook s) ∧
  Hand.isDetecting (handHook s) = Face.isDetecting (faceHook s) ∧
  (Obj.isDetecting (objects s) = true → isSessionActive s = true).
Proof.
  intros Hr.
  destruct (run_invariant Flags es init s Flags_exec Hr Flags_init) as [H1 H2].
  unfold isSessionActive. rewrite H1.
  destruct (Obj.isDetecting _) eqn:E; [by rewrite H2|]. simpl.
  by rewrite orb_diag.
Qed.

(** Whatever happens to the component, its object hook keeps its
    invariants: the history holds at most 1000 detections, and the object
    hook reports detecting exactly when it holds a timer. *)
Theorem session_history_bounded es s :
  run tl stringify es init = Some s →
  length (Obj.detectionHistoryRef (objects s)) ≤ Obj.HISTORY_CAP ∧
  (Obj.isDetecting (objects s) = true ↔
   is_Some (Obj.detectionIntervalRef (objects s))).
Proof.
  intros Hr.
  destruct (run_invariant Hooks es init s Hooks_exec Hr Hooks_init) as [Ho _ _].
  apply Obj.Inv_reachable in Ho as [Hh Hd _ _ _]. done.
Qed.

(** The summary the component publishes never reports a person, an
    emotion, an interaction or a gesture: the face and hand hooks it reads
    never detect anything. *)
Theorem summary_people_zero es s :
  run tl stringify es init = Some s →
  Face.getSummary (faceHook s) =
    {| Face.sum_uniquePeople := 0; Face.sum_totalDetections := 0;
       Face.sum_emotions := ∅; Face.sum_interactions := [];
       Face.sum_currentFaces := 0 |} ∧
  Hand.gestureStats (handHook s) = ∅.
Proof.
  intros Hr.
  destruct (run_invariant Hooks es init s Hooks_exec Hr Hooks_init) as [_ Hf Hh].
  apply Face.face_inert in Hf as (Hf1 & Hf2 & _ & _ & Hf3 & _).
  apply Hand.hand_inert in Hh as (_ & Hh & _).
  unfold Face.getSummary. by rewrite Hf1, Hf2, Hf3, Hh.
Qed.

End Machine.

Lemma one_car_run : run show_Z labels one_car init = Some (after one_car).
Proof. by vm_compute. Qed.

Lemma failed_load_run :
  run show_Z labels failed_load init = Some (after failed_load).
Proof. by vm_compute. Qed.

Lemma active_iff_faces_witness :
  run show_Z labels one_car init = Some (after one_car) ∧
  isSessionActive (after one_car) = Face.isDetecting (faceHook (after one_car)) ∧
  Hand.isDetecting (handHook (after one_car)) =
    Face.isDetecting (faceHook (after one_car)) ∧
  (Obj.isDetecting (objects (after one_car)) = true →
   isSessionActive (after one_car) = true).
Proof.
  split; [exact one_car_run|].
  exact (active_iff_faces show_Z labels one_car _ one_car_run).
Defined.

Lemma session_history_bounded_witness :
  run show_Z labels one_car init = Some (after one_car) ∧
  length (Obj.detectionHistoryRef (objects (after one_car))) ≤ Obj.HISTORY_CAP ∧
  (Obj.isDetecting (objects (after one_car)) = true ↔
   is_Some (Obj.detectionIntervalRef (objects (after one_car)))).
Proof.
  split; [exact one_car_run|].
  exact (session_history_bounded show_Z labels one_car _ one_car_run).
Defined.

Lemma summary_people_zero_witness :
  run show_Z labels one_car init = Some (after one_car) ∧
  Face.getSummary (faceHook (after one_car)) =
    {| Face.sum_uniquePeople := 0; Face.sum_totalDetections := 0;
       Face.sum_emotions := ∅; Face.sum_interactions := [];
       Face.sum_currentFaces := 0 |} ∧
  Hand.gestureStats (handHook (after one_car)) = ∅.
Proof.
  split; [exact one_car_run|].
  exact (summary_people_zero show_Z labels one_car _ one_car_run).
Defined.

(** When the object model fails to load, the start button is enabled
    all the same; a click makes the session active, with the stop button
    shown, while the object hook is not detecting and holds no timer: the
    session never detects anything. *)
Theorem active_without_objects :
  run show_Z labels failed_load init = Some (after failed_load) ∧
  isSessionActive (after failed_load) = true ∧
  Obj.isDetecting (objects (after failed_load)) = false ∧
  Obj.timers (objects (after failed_load)) = ∅ ∧
  Obj.inflight (objects (after failed_load)) = [] ∧
  Obj.console (objects (after failed_load)) = ["Error loading model:"].
Proof. repeat split; by vm_compute. Qed.

End Advanced.
