(* ===== verification/BasicSession.v ===== *)
(** * BasicSession: the object-only session manager

    Models the logic of src/components/SessionManager.tsx (module [Basic]):
    the component that owns one [useObjectDetection] hook, starts and stops
    it and publishes a summary text through [onSessionSummary].  State and
    events are as for the advanced manager of Session.v.  The summary and
    export buttons of this component are rendered on a condition of their
    own, [summaryVisible]. *)

From Stdlib Require Import ZArith QArith.
From stdpp Require Import base list gmap strings.
From S2P Require Import Prelude Text Stats HistoryBuffer ObjectDetection.
From S2P Require Import ObjectSummary Session.

#[local] Open Scope js_scope.

Module Basic.

(** The component's state: its hook, its prop, and the summaries it has
    published. *)
Record State := {
  hook : Obj.State;
  videoElement : option Video;
  onSessionSummary : list string;
}.

#[export] Instance set_hook : Setter hook := λ f s,
  Build_State (f (hook s)) (videoElement s) (onSessionSummary s).
#[export] Instance set_videoElement : Setter videoElement := λ f s,
  Build_State (hook s) (f (videoElement s)) (onSessionSummary s).
#[export] Instance set_onSessionSummary : Setter onSessionSummary := λ f s,
  Build_State (hook s) (videoElement s) (f (onSessionSummary s)).

Definition init : State :=
  {| hook := Obj.init; videoElement := None; onSessionSummary := [] |}.

(** [handleStart] *)
Definition handleStart (s : State) : State :=
  if videoElement s is Some _
  then s <| hook ::= Obj.startDetection (Some 1000%Z) |> else s.

(** [handleStop] *)
Definition handleStop (s : State) : State := s <| hook ::= Obj.stopDetection |>.

(** The [disabled] attribute of the start button. *)
Definition startDisabled (s : State) : bool :=
  Obj.isLoading (hook s) || negb (bool_decide (is_Some (videoElement s))).

(** [stats && Object.keys(stats).length > 0]: the condition under which the
    summary and export buttons are rendered. *)
Definition summaryVisible (s : State) : bool :=
  bool_decide (0 < size (Obj.stats (hook s))).

Section Summary.
Context (tl : Z → string) (stringify : DetectionStats → string).

(** [summary.timeline.slice(-10).map(t => `${t.time}: ${t.object}`).join(', ')] *)
Definition recentActivity (timeline : list ObjSummary.TimelineEntry) : string :=
  String.concat ", "
    ((λ t, ObjSummary.time t +:+ ": " +:+ ObjSummary.object t)
       <$> slice_last 10 timeline).

(** The template literal of [handleGenerateSummary], trimmed. *)
Definition summaryText (now : Z) (s : State) : string :=
  let summary := ObjSummary.getDetectionSummary tl None now (hook s) in
  joinLines [
    "Session Analytics:";
    "- Duration: " +:+ ObjSummary.sessionDuration summary;
    "- Total Detections: " +:+ show_nat (ObjSummary.totalDetections summary);
    "- Object Counts: " +:+ stringify (ObjSummary.objectCounts summary);
    "- Recent Activity: " +:+ recentActivity (ObjSummary.timeline summary)
  ].

(** [handleGenerateSummary] *)
Definition handleGenerateSummary (now : Z) (s : State) : State :=
  s <| onSessionSummary ::= (.++ [summaryText now s]) |>.

Inductive Event :=
  | EHook (e : Obj.Event)
  | EVideo (v : option Video)
  | EClickStart
  | EClickStop
  | EClickSummary (now : Z).

Definition exec (e : Event) (s : State) : option State :=
  match e with
  | EHook e =>
      if internal e
      then o ← Obj.exec e (hook s); Some (s <| hook := o |>)
      else None
  | EVideo v => Some (s <| videoElement := v |>)
  | EClickStart =>
      if negb (Obj.isDetecting (hook s)) && negb (startDisabled s)
      then Some (handleStart s) else None
  | EClickStop =>
      if Obj.isDetecting (hook s) then Some (handleStop s) else None
  | EClickSummary now =>
      if summaryVisible s then Some (handleGenerateSummary now s) else None
  end.

Fixpoint run (es : list Event) (s : State) : option State :=
  match es with
  | [] => Some s
  | e :: es => s' ← exec e s; run es s'
  end.

End Summary.

(** A video element. *)
Definition tv : Video :=
  {| element := 0; videoWidth := 640; videoHeight := 480 |}.

(** The session of three ticks of the design document, through the
    component. *)
Definition three_ticks : list Event :=
  [EHook (Obj.EModelLoaded true); EVideo (Some tv);
   EClickStart;
   EHook (Obj.EResolve 0 [Obj.car (9 # 10)] 1000);
   EHook (Obj.ETimer 1);
   EHook (Obj.EResolve 0 [Obj.car (8 # 10); Obj.person (7 # 10)] 2000);
   EHook (Obj.ETimer 1);
   EHook (Obj.EResolve 0 [] 3000)].

Definition after (es : list Event) : State :=
  default init (run show_Z (λ m, show_nat (size m)) es init).

(** The recent activity of a published summary lists the last ten
    detections of the history, oldest first, each as its time and class. *)
Theorem recent_activity_last_ten (tl : Z → string) now o :
  recentActivity
    (ObjSummary.timeline (ObjSummary.getDetectionSummary tl None now o)) =
  String.concat ", "
    ((λ d, tl (Obj.timestamp d) +:+ ": " +:+ Obj.class d)
       <$> slice_last 10 (Obj.detectionHistoryRef o)).
Proof.
  unfold recentActivity. simpl.
  rewrite slice_last_slice_last by (unfold ObjSummary.TIMELINE_CAP; lia).
  by rewrite <-fmap_slice_last, <-list_fmap_compose.
Qed.

(** The summary and export buttons are rendered only while the
    statistics are not empty, and the statistics hold the latest tick
    alone: after the three ticks of the design document's scenario, the last
    of which sees nothing, the history holds three detections and the
    buttons are gone; a click on either cannot happen. *)
Theorem summary_hidden_after_empty_tick :
  length (Obj.detectionHistoryRef (hook (after three_ticks))) = 3 ∧
  Obj.isDetecting (hook (after three_ticks)) = true ∧
  summaryVisible (after three_ticks) = false ∧
  exec show_Z (λ m, show_nat (size m)) (EClickSummary 4000) (after three_ticks)
    = None.
Proof. repeat split; by vm_compute. Qed.

(** When the model failed to load, the start button is enabled and a click
    on it does nothing: the button stays. *)
Example start_after_failed_load :
  let s := init <| hook ::= Obj.loadModel false |>
                <| videoElement := Some tv |> in
  startDisabled s = false ∧ handleStart s = s.
Proof. split; by vm_compute. Qed.

End Basic.
