(* ===== verification/Overlay.v ===== *)
(** * Overlay: the canvas the session managers draw on

    Models the effects that draw the detections over the video:
    src/components/AdvancedSessionManager.tsx, lines 52-135 (module
    [AdvancedView]) and src/components/SessionManager.tsx, lines 31-72
    (module [BasicView]), together with the rendering of the canvas element
    they draw on.

    A canvas ([Canvas.Canvas]) is its size, the state of its 2D context
    (styles, line width, font) and the shapes drawn since it was last
    cleared, in the order of the calls.  Assigning [width] or [height]
    resets the context and clears the bitmap, as the browser does.  The
    width of a text is a parameter, [measureText], of the font and the text.

    An effect is a function on the canvas, written call by call as in the
    source, so that what a call reads of the context is what the earlier
    calls left there.  The theorems compare it with a list of shapes given
    per detection.

    The component with its canvas is the manager's state and the element
    behind [canvasRef].  After every event, the canvas is mounted or
    unmounted by the condition of the JSX, then the effect runs if one of
    its dependencies was set. *)

From Stdlib Require Import ZArith QArith Qround.
From stdpp Require Import base list gmap strings.
From S2P Require Import Prelude Text Stats HistoryBuffer ObjectDetection.
From S2P Require Import ObjectSummary Geometry FaceDetection HandTracking.
From S2P Require Import Session BasicSession.

#[local] Open Scope js_scope.
#[local] Open Scope Z_scope.
#[local] Coercion inject_Z : Z >-> Q.

#[export] Instance Video_eq_dec : EqDecision Video.
Proof. solve_decision. Defined.

Module Canvas.

(** What a drawing call leaves on the bitmap, with the styles it used. *)
Inductive Shape :=
  | StrokeRect (style : string) (thickness : Z) (x y w h : Q)
  | FillRect (style : string) (x y w h : Q)
  | FillText (style face text : string) (x y : Q)
  | Disc (style : string) (x y radius : Q).

(** A canvas element and its 2D context. *)
Record Canvas := {
  width : Z;
  height : Z;
  context2d : bool;
  strokeStyle : string;
  fillStyle : string;
  lineWidth : Z;
  font : string;
  drawn : list Shape;
}.

#[export] Instance set_strokeStyle : Setter strokeStyle := λ f c,
  Build_Canvas (width c) (height c) (context2d c) (f (strokeStyle c))
    (fillStyle c) (lineWidth c) (font c) (drawn c).
#[export] Instance set_fillStyle : Setter fillStyle := λ f c,
  Build_Canvas (width c) (height c) (context2d c) (strokeStyle c)
    (f (fillStyle c)) (lineWidth c) (font c) (drawn c).
#[export] Instance set_lineWidth : Setter lineWidth := λ f c,
  Build_Canvas (width c) (height c) (context2d c) (strokeStyle c)
    (fillStyle c) (f (lineWidth c)) (font c) (drawn c).
#[export] Instance set_font : Setter font := λ f c,
  Build_Canvas (width c) (height c) (context2d c) (strokeStyle c)
    (fillStyle c) (lineWidth c) (f (font c)) (drawn c).
#[export] Instance set_drawn : Setter drawn := λ f c,
  Build_Canvas (width c) (height c) (context2d c) (strokeStyle c)
    (fillStyle c) (lineWidth c) (font c) (f (drawn c)).

(** The font of a context that was never given one. *)
Definition defaultFont : string := "10px sans-serif".

(** A canvas of the given size with a fresh context and an empty bitmap. *)
Definition reset (w h : Z) (ctx : bool) : Canvas :=
  {| width := w; height := h; context2d := ctx;
     strokeStyle := "#000000"; fillStyle := "#000000"; lineWidth := 1;
     font := defaultFont; drawn := [] |}.

(** A canvas element as it is created: 300 by 150. *)
Definition blank (ctx : bool) : Canvas := reset 300 150 ctx.

(** [canvas.width = w] and [canvas.height = h] *)
Definition setWidth (w : Z) (c : Canvas) : Canvas :=
  reset w (height c) (context2d c).
Definition setHeight (h : Z) (c : Canvas) : Canvas :=
  reset (width c) h (context2d c).

(** [ctx.clearRect(0, 0, canvas.width, canvas.height)] *)
Definition clearRect (c : Canvas) : Canvas := c <| drawn := [] |>.

(** [ctx.strokeRect(x, y, w, h)] *)
Definition strokeRect (x y w h : Q) (c : Canvas) : Canvas :=
  c <| drawn ::= (.++ [StrokeRect (strokeStyle c) (lineWidth c) x y w h]) |>.

(** [ctx.fillRect(x, y, w, h)] *)
Definition fillRect (x y w h : Q) (c : Canvas) : Canvas :=
  c <| drawn ::= (.++ [FillRect (fillStyle c) x y w h]) |>.

(** [ctx.fillText(text, x, y)] *)
Definition fillText (text : string) (x y : Q) (c : Canvas) : Canvas :=
  c <| drawn ::= (.++ [FillText (fillStyle c) (font c) text x y]) |>.

(** [ctx.beginPath(); ctx.arc(x, y, r, 0, 2 * Math.PI); ctx.fill()] *)
Definition fillCircle (x y r : Q) (c : Canvas) : Canvas :=
  c <| drawn ::= (.++ [Disc (fillStyle c) x y r]) |>.

(** [n || d] on a dimension. *)
Definition orZ (n d : Z) : Z := if truthyZ n then n else d.

(** [`${detection.class} ${Math.round(detection.score * 100)}%`] *)
Definition objectLabel (d : Obj.Detection) : string :=
  Obj.class d +:+ " " +:+ show_Z (Qround (Obj.score d * 100)) +:+ "%".

(** The shapes of a list of items of which the first is measured in the
    font [face0] and the others in the font [rest]. *)
Definition firstThen {A} (shapes : string → A → list Shape)
    (face0 rest : string) (l : list A) : list Shape :=
  match l with
  | [] => []
  | a :: l => shapes face0 a ++ (l ≫= shapes rest)
  end.

(** The font of the context after a loop whose body sets [rest]. *)
Definition fontAfter {A} (face0 rest : string) (l : list A) : string :=
  match l with [] => face0 | _ => rest end.

(** A canvas of the given size, with or without a 2D context. *)
Definition shaped (W H : Z) (ctx : bool) (c : Canvas) : Prop :=
  width c = W ∧ height c = H ∧ context2d c = ctx.

End Canvas.

Import Canvas.

Module AdvancedView.

Section Draw.
Context (measureText : string → string → Q).

(** The body of [detections.forEach]. *)
Definition drawObject (c : Canvas) (detection : Obj.Detection) : Canvas :=
  let '(x, y, width, height) := Obj.bbox detection in
  let c := c <| strokeStyle := "#3b82f6" |> in
  let c := c <| lineWidth := 2 |> in
  let c := strokeRect x y width height c in
  let c := c <| fillStyle := "#3b82f6" |> in
  let c := fillRect x (y - 20) width 20 c in
  let c := c <| fillStyle := "#fff" |> in
  let c := c <| font := "12px Arial" |> in
  fillText (objectLabel detection) (x + 5) (y - 5) c.

(** [`${dominantEmotion} ${age ? `(${Math.round(age)}y, ${gender})` : ''}`] *)
Definition faceCaption (face : Face.FaceDetection) : string :=
  Face.dominantEmotion face +:+ " " +:+
  (if truthy (Face.age face)
   then "(" +:+ show_Z (default 0 (Face.age face)) +:+ "y, "
        +:+ default "undefined" (Face.gender face) +:+ ")"
   else "").

(** The body of [faces.forEach]. *)
Definition drawFace (c : Canvas) (face : Face.FaceDetection) : Canvas :=
  let box := Face.box face in
  let c := c <| strokeStyle := "#10b981" |> in
  let c := c <| lineWidth := 3 |> in
  let c := strokeRect (x box) (y box) (Geometry.width box)
             (Geometry.height box) c in
  let label := "Person #" +:+ show_nat (Face.id face) +:+ " - "
               +:+ Face.dominantEmotion face in
  let labelWidth := (measureText (font c) label + 10)%Q in
  let c := c <| fillStyle := "#10b981" |> in
  let c := fillRect (x box) (y box - 50) labelWidth 50 c in
  let c := c <| fillStyle := "#fff" |> in
  let c := c <| font := "bold 14px Arial" |> in
  let c := fillText ("Person #" +:+ show_nat (Face.id face))
             (x box + 5) (y box - 30) c in
  let c := c <| font := "12px Arial" |> in
  fillText (faceCaption face) (x box + 5) (y box - 10) c.

(** The body of [hand.landmarks.forEach]. *)
Definition drawLandmark (c : Canvas) (landmark : Hand.Landmark) : Canvas :=
  let x := (Hand.lx landmark * Canvas.width c)%Q in
  let y := (Hand.ly landmark * Canvas.height c)%Q in
  let c := c <| fillStyle := "#f59e0b" |> in
  fillCircle x y 5 c.

(** [hand.handedness] as a string. *)
Definition handednessName (h : Hand.Handedness) : string :=
  match h with Hand.Left => "Left" | Hand.Right => "Right" end.

(** The body of [hands.forEach]. *)
Definition drawHand (c : Canvas) (hand : Hand.HandDetection) : Canvas :=
  match Hand.landmarks hand with
  | [] => c
  | wrist :: _ =>
      let c := foldl drawLandmark c (Hand.landmarks hand) in
      let x := (Hand.lx wrist * Canvas.width c)%Q in
      let y := (Hand.ly wrist * Canvas.height c)%Q in
      let label := handednessName (Hand.handedness hand) +:+ ": "
                   +:+ Hand.gestureName (Hand.gesture hand) in
      let labelWidth := (measureText (font c) label + 10)%Q in
      let c := c <| fillStyle := "#f59e0b" |> in
      let c := fillRect x (y - 30)%Q labelWidth 25 c in
      let c := c <| fillStyle := "#000" |> in
      let c := c <| font := "bold 12px Arial" |> in
      fillText label (x + 5)%Q (y - 10)%Q c
  end.

(** The effect, from the assignment of the size on: [canvas] is the element
    behind the ref. *)
Definition paint (videoElement : Video) (detections : list Obj.Detection)
    (faces : list Face.FaceDetection) (hands : list Hand.HandDetection)
    (canvas : Canvas) : Canvas :=
  let c := setWidth (orZ (videoWidth videoElement) 640) canvas in
  let c := setHeight (orZ (videoHeight videoElement) 480) c in
  let c := clearRect c in
  let c := foldl drawObject c detections in
  let c := foldl drawFace c faces in
  foldl drawHand c hands.

(** The effect: it returns at once without a canvas, a video or a
    context. *)
Definition effect (s : Advanced.State) (canvasRef : option Canvas)
    : option Canvas :=
  match canvasRef, Advanced.videoElement s with
  | Some canvas, Some videoElement =>
      if context2d canvas
      then Some (paint videoElement (Obj.detections (Advanced.objects s))
                   (Face.faces (Advanced.faceHook s))
                   (Hand.hands (Advanced.handHook s)) canvas)
      else canvasRef
  | _, _ => canvasRef
  end.

End Draw.

(** The component and the element behind [canvasRef]. *)
Record State := { manager : Advanced.State; canvasRef : option Canvas }.

Definition init : State := {| manager := Advanced.init; canvasRef := None |}.

(** [{isSessionActive && <canvas ref={canvasRef} />}]: the element is
    created when the condition becomes true, kept while it stays true and
    removed when it becomes false.  [ctx] says whether a canvas of this
    browser gives a 2D context. *)
Definition mount (ctx : bool) (s : Advanced.State) (canvasRef : option Canvas)
    : option Canvas :=
  if Advanced.isSessionActive s then Some (default (blank ctx) canvasRef)
  else None.

(** Whether an event sets one of the dependencies
    [[detections, faces, hands, videoElement]] of the effect: an answer of
    the detector sets [detections] to a new array, the parent may pass
    another element; nothing sets [faces] or [hands]. *)
Definition depsChanged (e : Advanced.Event) (s : Advanced.State) : bool :=
  match e with
  | Advanced.EObject (Obj.EResolve _ _ _) => true
  | Advanced.EVideo v => bool_decide (v ≠ Advanced.videoElement s)
  | _ => false
  end.

Section Machine.
Context (tl : Z → string) (stringify : DetectionStats → string).
Context (measureText : string → string → Q) (ctx : bool).

(** One event: the manager handles it, the canvas is mounted or unmounted,
    and the effect runs if a dependency was set. *)
Definition exec (e : Advanced.Event) (s : State) : option State :=
  m ← Advanced.exec tl stringify e (manager s);
  let ref := mount ctx m (canvasRef s) in
  Some {| manager := m;
          canvasRef := if depsChanged e (manager s)
                       then effect measureText m ref else ref |}.

Fixpoint run (es : list Advanced.Event) (s : State) : option State :=
  match es with
  | [] => Some s
  | e :: es => s' ← exec e s; run es s'
  end.

End Machine.

(** What the effect draws for one detection, one face and one hand, given
    the font of the context when the label is measured and the size of the
    canvas. *)
Definition objectShapes (d : Obj.Detection) : list Shape :=
  let '(x, y, width, height) := Obj.bbox d in
  [StrokeRect "#3b82f6" 2 x y width height;
   FillRect "#3b82f6" x (y - 20) width 20;
   FillText "#fff" "12px Arial" (objectLabel d) (x + 5) (y - 5)].

Definition faceShapes (measureText : string → string → Q) (face0 : string)
    (f : Face.FaceDetection) : list Shape :=
  let box := Face.box f in
  let person := "Person #" +:+ show_nat (Face.id f) in
  [StrokeRect "#10b981" 3 (x box) (y box) (Geometry.width box)
     (Geometry.height box);
   FillRect "#10b981" (x box) (y box - 50)
     (measureText face0 (person +:+ " - " +:+ Face.dominantEmotion f) + 10)%Q
     50;
   FillText "#fff" "bold 14px Arial" person (x box + 5) (y box - 30);
   FillText "#fff" "12px Arial" (faceCaption f) (x box + 5) (y box - 10)].

(** [hand.landmarks && hand.landmarks.length !== 0] *)
Definition hasLandmarks (h : Hand.HandDetection) : bool :=
  match Hand.landmarks h with [] => false | _ => true end.

Definition handShapes (measureText : string → string → Q) (W H : Z)
    (face0 : string) (h : Hand.HandDetection) : list Shape :=
  match Hand.landmarks h with
  | [] => []
  | wrist :: _ =>
      let label := handednessName (Hand.handedness h) +:+ ": "
                   +:+ Hand.gestureName (Hand.gesture h) in
      let x := (Hand.lx wrist * W)%Q in
      let y := (Hand.ly wrist * H)%Q in
      ((λ l, Disc "#f59e0b" (Hand.lx l * W)%Q (Hand.ly l * H)%Q 5)
         <$> Hand.landmarks h)
      ++ [FillRect "#f59e0b" x (y - 30)%Q (measureText face0 label + 10)%Q 25;
          FillText "#000" "bold 12px Arial" label (x + 5)%Q (y - 10)%Q]
  end.

(** What holds of the canvas [c] of the component in the state [s]: it has
    a context if the browser gives one, nothing is drawn on a canvas without
    a context and, while there is a video, the canvas is empty or shows the
    current detections. *)
Record Shows (ctx : bool) (s : Advanced.State) (c : Canvas) : Prop := {
  shows_context : context2d c = ctx;
  shows_nothing : ctx = false → drawn c = [];
  shows_detections :
    is_Some (Advanced.videoElement s) →
    drawn c = [] ∨
    drawn c = Obj.detections (Advanced.objects s) ≫= objectShapes;
}.

(** What holds of the component and its canvas in every state: the hooks
    are in states they can reach, and the canvas is there exactly while the
    session is active. *)
Record Shown (ctx : bool) (s : State) : Prop := {
  shown_hooks : Advanced.Hooks (manager s);
  shown_mounted :
    is_Some (canvasRef s) ↔ Advanced.isSessionActive (manager s) = true;
  shown_canvas : ∀ c, canvasRef s = Some c → Shows ctx (manager s) c;
}.

(** A width for the samples: five units a character in the default font,
    seven in the others. *)
Definition chars (face text : string) : Q :=
  (if bool_decide (face = defaultFont) then 5 else 7)
  * Z.of_nat (String.length text).

(** A session is started on the camera. *)
Definition started : list Advanced.Event :=
  [Advanced.EObject (Obj.EModelLoaded true); Advanced.EHandsLoaded true;
   Advanced.EVideo (Some Advanced.camera); Advanced.EClickStart].

(** The state after a run of the samples. *)
Definition after (es : list Advanced.Event) : State :=
  default init (run show_Z Advanced.labels chars true es init).

End AdvancedView.

Module BasicView.

Section Draw.
Context (measureText : string → string → Q).

(** The body of [detections.forEach]. *)
Definition drawDetection (c : Canvas) (detection : Obj.Detection) : Canvas :=
  let '(x, y, width, height) := Obj.bbox detection in
  let c := c <| strokeStyle := "#00ff00" |> in
  let c := c <| lineWidth := 3 |> in
  let c := strokeRect x y width height c in
  let label := objectLabel detection in
  let textMetrics := measureText (font c) label in
  let textHeight := 20 in
  let c := c <| fillStyle := "#00ff00" |> in
  let c := fillRect x (y - textHeight - 4) (textMetrics + 10)%Q
             (textHeight + 4) c in
  let c := c <| fillStyle := "#000" |> in
  let c := c <| font := "bold 14px Arial" |> in
  fillText label (x + 5) (y - 8) c.

(** The effect, from the assignment of the size on.  The element is a
    video: no caller passes an image. *)
Definition paint (videoElement : Video) (detections : list Obj.Detection)
    (canvas : Canvas) : Canvas :=
  let c := setWidth (orZ (videoWidth videoElement) 640) canvas in
  let c := setHeight (orZ (videoHeight videoElement) 480) c in
  let c := clearRect c in
  foldl drawDetection c detections.

(** The effect: it returns at once without a canvas, a video, a detection
    or a context. *)
Definition effect (s : Basic.State) (canvasRef : option Canvas)
    : option Canvas :=
  match canvasRef, Basic.videoElement s with
  | Some canvas, Some videoElement =>
      if bool_decide (Obj.detections (Basic.hook s) = []) then canvasRef
      else if context2d canvas
      then Some (paint videoElement (Obj.detections (Basic.hook s)) canvas)
      else canvasRef
  | _, _ => canvasRef
  end.

End Draw.

(** The component and the element behind [canvasRef]. *)
Record State := { manager : Basic.State; canvasRef : option Canvas }.

Definition init : State := {| manager := Basic.init; canvasRef := None |}.

(** [{isDetecting && canvasRef.current && <canvas ref={canvasRef} />}]: the
    condition reads the ref as the last commit left it, and the element is
    rendered only if there was one. *)
Definition mount (s : Basic.State) (canvasRef : option Canvas)
    : option Canvas :=
  if Obj.isDetecting (Basic.hook s) && bool_decide (is_Some canvasRef)
  then canvasRef else None.

(** Whether an event sets one of the dependencies
    [[detections, videoElement]] of the effect. *)
Definition depsChanged (e : Basic.Event) (s : Basic.State) : bool :=
  match e with
  | Basic.EHook (Obj.EResolve _ _ _) => true
  | Basic.EVideo v => bool_decide (v ≠ Basic.videoElement s)
  | _ => false
  end.

Section Machine.
Context (tl : Z → string) (stringify : DetectionStats → string).
Context (measureText : string → string → Q).

Definition exec (e : Basic.Event) (s : State) : option State :=
  m ← Basic.exec tl stringify e (manager s);
  let ref := mount m (canvasRef s) in
  Some {| manager := m;
          canvasRef := if depsChanged e (manager s)
                       then effect measureText m ref else ref |}.

Fixpoint run (es : list Basic.Event) (s : State) : option State :=
  match es with
  | [] => Some s
  | e :: es => s' ← exec e s; run es s'
  end.

End Machine.

(** What the effect draws for one detection, given the font of the context
    when the label is measured. *)
Definition detectionShapes (measureText : string → string → Q)
    (face0 : string) (d : Obj.Detection) : list Shape :=
  let '(x, y, width, height) := Obj.bbox d in
  [StrokeRect "#00ff00" 3 x y width height;
   FillRect "#00ff00" x (y - 20 - 4)
     (measureText face0 (objectLabel d) + 10)%Q (20 + 4);
   FillText "#000" "bold 14px Arial" (objectLabel d) (x + 5) (y - 8)].

(** The state after a run of the samples. *)
Definition after (es : list Basic.Event) : State :=
  default init
    (run show_Z (λ m, show_nat (size m)) AdvancedView.chars es init).

End BasicView.

(** ** Loops that draw *)

Section Fold.
Context {A : Type} (draw : Canvas → A → Canvas).
Context (shapes : string → A → list Shape) (rest : string).
Context (I : Canvas → Prop) (P : A → Prop).
Context (Hkeep : ∀ c a, I c → P a → I (draw c a)).
Context (Hdrawn : ∀ c a, I c → P a →
  drawn (draw c a) = drawn c ++ shapes (font c) a).
Context (Hfont : ∀ c a, I c → P a → font (draw c a) = rest).

Lemma foldl_rest c l :
  I c → Forall P l → font c = rest →
  I (foldl draw c l) ∧ font (foldl draw c l) = rest ∧
  drawn (foldl draw c l) = drawn c ++ (l ≫= shapes rest).
Proof using Hkeep Hdrawn Hfont.
  intros Hc Hl. revert c Hc.
  induction Hl as [|a l Ha _ IH]; intros c Hc Hf; simpl.
  { by rewrite app_nil_r. }
  destruct (IH (draw c a)) as (? & ? & ->); auto.
  by rewrite Hdrawn, Hf, <-app_assoc.
Qed.

Lemma foldl_firstThen c l :
  I c → Forall P l →
  I (foldl draw c l) ∧ font (foldl draw c l) = fontAfter (font c) rest l ∧
  drawn (foldl draw c l) = drawn c ++ firstThen shapes (font c) rest l.
Proof using Hkeep Hdrawn Hfont.
  intros Hc Hl. destruct Hl as [|a l Ha Hl]; simpl; [by rewrite app_nil_r|].
  destruct (foldl_rest (draw c a) l) as (? & ? & ->); auto.
  by rewrite Hdrawn, <-app_assoc.
Qed.

End Fold.

Lemma firstThen_const {A} (shapes : A → list Shape) face0 rest l :
  firstThen (λ _, shapes) face0 rest l = l ≫= shapes.
Proof. by destruct l. Qed.

Lemma shaped_reset W H ctx : shaped W H ctx (reset W H ctx).
Proof. done. Qed.

(** ** The effect of the advanced manager *)

Section AdvancedPaint.
Context (measureText : string → string → Q).
#[local] Abbreviation drawFace := (AdvancedView.drawFace measureText).
#[local] Abbreviation drawHand := (AdvancedView.drawHand measureText).
#[local] Abbreviation faceShapes := (AdvancedView.faceShapes measureText).
#[local] Abbreviation handShapes := (AdvancedView.handShapes measureText).

Lemma drawObject_spec W H b c d :
  shaped W H b c →
  shaped W H b (AdvancedView.drawObject c d) ∧
  font (AdvancedView.drawObject c d) = "12px Arial" ∧
  drawn (AdvancedView.drawObject c d) = drawn c ++ AdvancedView.objectShapes d.
Proof.
  unfold AdvancedView.drawObject, AdvancedView.objectShapes.
  destruct (Obj.bbox d) as [[[??]?]?]. simpl. by rewrite <-!app_assoc.
Qed.

Lemma drawFace_spec W H b c f :
  shaped W H b c →
  shaped W H b (drawFace c f) ∧ font (drawFace c f) = "12px Arial" ∧
  drawn (drawFace c f) = drawn c ++ faceShapes (font c) f.
Proof. intros. simpl. by rewrite <-!app_assoc. Qed.

Lemma foldl_drawLandmark c ls :
  shaped (width c) (height c) (context2d c)
    (foldl AdvancedView.drawLandmark c ls) ∧
  font (foldl AdvancedView.drawLandmark c ls) = font c ∧
  drawn (foldl AdvancedView.drawLandmark c ls) =
    drawn c ++ ((λ l, Disc "#f59e0b" (Hand.lx l * width c)%Q
                        (Hand.ly l * height c)%Q 5) <$> ls).
Proof.
  revert c. induction ls as [|l ls IH]; intros c; simpl.
  { by rewrite app_nil_r. }
  destruct (IH (AdvancedView.drawLandmark c l)) as (Hs & Hf & Hd).
  rewrite Hf, Hd. simpl. by rewrite <-app_assoc.
Qed.

Lemma drawHand_spec W H b c h :
  shaped W H b c → AdvancedView.hasLandmarks h = true →
  shaped W H b (drawHand c h) ∧ font (drawHand c h) = "bold 12px Arial" ∧
  drawn (drawHand c h) = drawn c ++ handShapes W H (font c) h.
Proof.
  intros (<- & <- & <-). unfold AdvancedView.hasLandmarks, AdvancedView.drawHand,
    AdvancedView.handShapes.
  destruct (Hand.landmarks h) as [|wrist ls] eqn:E; [done|intros _].
  destruct (foldl_drawLandmark c (wrist :: ls)) as ((Hw & Hh & Hb) & Hf & Hd).
  simpl in *. rewrite Hw, Hh, Hf, Hd. by rewrite <-!app_assoc.
Qed.

Lemma drawHand_skip c h :
  AdvancedView.hasLandmarks h = false → drawHand c h = c.
Proof.
  unfold AdvancedView.hasLandmarks, AdvancedView.drawHand.
  by destruct (Hand.landmarks h).
Qed.

Lemma foldl_drawHand_filter c hs :
  foldl drawHand c hs = foldl drawHand c (filter AdvancedView.hasLandmarks hs).
Proof.
  revert c. induction hs as [|h hs IH]; intros c; [done|].
  rewrite filter_cons. case_decide as E; simpl; [done|].
  rewrite drawHand_skip; [done|]. by destruct (AdvancedView.hasLandmarks h).
Qed.

Lemma foldl_drawObject W H b c ds :
  shaped W H b c →
  shaped W H b (foldl AdvancedView.drawObject c ds) ∧
  font (foldl AdvancedView.drawObject c ds) = fontAfter (font c) "12px Arial" ds ∧
  drawn (foldl AdvancedView.drawObject c ds) =
    drawn c ++ (ds ≫= AdvancedView.objectShapes).
Proof.
  intros. rewrite <-(firstThen_const _ (font c) "12px Arial").
  apply (foldl_firstThen _ _ _ (shaped W H b) (λ _, True));
    [intros; by eapply drawObject_spec..|done|by apply Forall_true].
Qed.

Lemma foldl_drawFace W H b c fs :
  shaped W H b c →
  shaped W H b (foldl drawFace c fs) ∧
  font (foldl drawFace c fs) = fontAfter (font c) "12px Arial" fs ∧
  drawn (foldl drawFace c fs) =
    drawn c ++ firstThen faceShapes (font c) "12px Arial" fs.
Proof.
  intros. apply (foldl_firstThen _ _ _ (shaped W H b) (λ _, True));
    [intros; by eapply drawFace_spec..|done|by apply Forall_true].
Qed.

Lemma foldl_drawHand W H b c hs :
  shaped W H b c →
  drawn (foldl drawHand c hs) =
    drawn c ++ firstThen (handShapes W H) (font c) "bold 12px Arial"
                 (filter AdvancedView.hasLandmarks hs).
Proof.
  intros. rewrite foldl_drawHand_filter.
  apply (foldl_firstThen _ _ _ (shaped W H b)
           (λ h, AdvancedView.hasLandmarks h = true));
    [intros; by eapply drawHand_spec..|done|].
  apply Forall_forall. intros h [Hh _]%list_elem_of_filter.
  by destruct (AdvancedView.hasLandmarks h).
Qed.

(** C16. The effect of the advanced manager draws, in this order, three
    shapes for every detection, four for every face and, for every hand
    with landmarks, a disc per landmark and a label.  The background of a
    label has the width of the text in the font the context holds when it
    is measured, which is the font the previous item left there: the
    default font for the first item drawn on the canvas. *)
Theorem paint_shapes v ds fs hs c :
  let W := orZ (videoWidth v) 640 in
  let H := orZ (videoHeight v) 480 in
  let f1 := fontAfter defaultFont "12px Arial" ds in
  let f2 := fontAfter f1 "12px Arial" fs in
  drawn (AdvancedView.paint measureText v ds fs hs c) =
    (ds ≫= AdvancedView.objectShapes)
    ++ firstThen faceShapes f1 "12px Arial" fs
    ++ firstThen (handShapes W H) f2 "bold 12px Arial"
         (filter AdvancedView.hasLandmarks hs).
Proof.
  intros W H f1 f2. unfold AdvancedView.paint. set (c0 := clearRect _).
  assert (Hc0 : shaped W H (context2d c) c0) by done.
  destruct (foldl_drawObject _ _ _ c0 ds Hc0) as (H1 & Hf1 & Hd1).
  destruct (foldl_drawFace _ _ _ _ fs H1) as (H2 & Hf2 & Hd2).
  rewrite (foldl_drawHand W H (context2d c)) by done.
  by rewrite Hf2, Hd2, Hf1, Hd1, <-!app_assoc.
Qed.

(** With no face and no hand, the effect leaves a canvas of the size of
    the video on which the detections are drawn. *)
Lemma paint_objects v ds c :
  shaped (orZ (videoWidth v) 640) (orZ (videoHeight v) 480) (context2d c)
    (AdvancedView.paint measureText v ds [] [] c) ∧
  drawn (AdvancedView.paint measureText v ds [] [] c) =
    ds ≫= AdvancedView.objectShapes.
Proof.
  unfold AdvancedView.paint. simpl. set (c0 := clearRect _).
  by destruct (foldl_drawObject _ _ _ c0 ds
    (ltac:(done) : shaped _ _ (context2d c) c0)) as (? & _ & ->).
Qed.

End AdvancedPaint.

(** ** The advanced manager with its canvas *)

Section AdvancedMachine.
Context (tl : Z → string) (stringify : DetectionStats → string).
Context (measureText : string → string → Q) (ctx : bool).
#[local] Abbreviation exec := (AdvancedView.exec tl stringify measureText ctx).
#[local] Abbreviation run := (AdvancedView.run tl stringify measureText ctx).
#[local] Abbreviation effect := (AdvancedView.effect measureText).

Lemma mount_is_Some s r :
  is_Some (AdvancedView.mount ctx s r) ↔ Advanced.isSessionActive s = true.
Proof.
  unfold AdvancedView.mount. destruct (Advanced.isSessionActive s); [|by split; [intros []|]].
  by split.
Qed.

Lemma effect_is_Some s r : is_Some (effect s r) ↔ is_Some r.
Proof.
  unfold AdvancedView.effect.
  destruct r as [c|], (Advanced.videoElement s); try done.
  destruct (context2d c); by split.
Qed.

(** An event that sets no dependency of the effect leaves the detections and
    the video as they are. *)
Lemma exec_deps e s m :
  Advanced.exec tl stringify e s = Some m →
  AdvancedView.depsChanged e s = false →
  Obj.detections (Advanced.objects m) = Obj.detections (Advanced.objects s) ∧
  Advanced.videoElement m = Advanced.videoElement s.
Proof.
  intros He Hd. destruct e as [e0|ok|v| | |now]; simpl in *.
  - destruct e0; try done; simpl in He; repeat case_match;
      simplify_option_eq; try done.
    unfold Obj.loadModel. by case_match.
  - by simplify_eq.
  - apply bool_decide_eq_false, dec_stable in Hd. by simplify_eq.
  - case_match; simplify_eq. unfold Advanced.handleStartAll.
    case_match; [|done]. simpl. unfold Obj.startDetection. by case_match.
  - case_match; simplify_eq.
    unfold Advanced.handleStopAll, Obj.stopDetection. simpl. by case_match.
  - case_match; by simplify_eq.
Qed.

Lemma blank_Shows s : AdvancedView.Shows ctx s (blank ctx).
Proof. split; [done|done|by left]. Qed.

(** The canvas after the mount: a new one, or the one that was there. *)
Lemma mount_cases m r c :
  AdvancedView.mount ctx m r = Some c → c = blank ctx ∨ r = Some c.
Proof.
  unfold AdvancedView.mount. case_match; [|done].
  destruct r; simpl; intros; simplify_eq; auto.
Qed.

Lemma Shows_same s m c :
  Obj.detections (Advanced.objects m) = Obj.detections (Advanced.objects s) ∧
  Advanced.videoElement m = Advanced.videoElement s →
  AdvancedView.Shows ctx s c → AdvancedView.Shows ctx m c.
Proof. intros [Hd Hv] []. split; [done..|by rewrite Hd, Hv]. Qed.

(** The effect on a canvas that has the context of the browser and is empty
    without one: it paints the detections, or leaves an empty canvas. *)
Lemma effect_Shows m r c :
  Advanced.Hooks m →
  (∀ c0, r = Some c0 → context2d c0 = ctx ∧ (ctx = false → drawn c0 = [])) →
  effect m r = Some c → AdvancedView.Shows ctx m c.
Proof.
  intros [_ Hf Hh] Hr.
  apply Face.face_inert in Hf as [Hf _]. apply Hand.hand_inert in Hh as [Hh _].
  unfold AdvancedView.effect. rewrite Hf, Hh.
  destruct r as [c0|]; [|done]. destruct (Hr c0) as [Hc Hn]; [done|].
  destruct (Advanced.videoElement m) as [v|] eqn:Hv.
  2: { intros; simplify_eq. split; [done..|]. rewrite Hv. by intros []. }
  destruct (context2d c0) eqn:Hc0; intros; simplify_eq.
  - destruct (paint_objects measureText v
      (Obj.detections (Advanced.objects m)) c0) as [(_ & _ & Hb) Hd].
    split; [congruence|congruence|by right].
  - split; [done..|]. left. by apply Hn.
Qed.

Lemma Shown_init : AdvancedView.Shown ctx AdvancedView.init.
Proof.
  split; [apply Advanced.Hooks_init| |done]. by split; [intros []|].
Qed.

Lemma Shown_exec e s s' :
  exec e s = Some s' → AdvancedView.Shown ctx s → AdvancedView.Shown ctx s'.
Proof.
  unfold AdvancedView.exec. intros He [Hh Hm Hc].
  destruct (Advanced.exec _ _ e _) as [m|] eqn:E; simplify_eq/=.
  pose proof (Advanced.Hooks_exec _ _ _ _ _ E Hh) as Hh'.
  split; simpl; [done| |].
  - rewrite <-(mount_is_Some m (AdvancedView.canvasRef s)).
    case_match; [apply effect_is_Some|done].
  - intros c. destruct (AdvancedView.depsChanged _ _) eqn:D.
    + apply effect_Shows; [done|]. intros c0 [->| Hc0%Hc]%mount_cases;
        [done|by destruct Hc0].
    + intros [->| Hc0%Hc]%mount_cases; [apply blank_Shows|].
      eauto using Shows_same, exec_deps.
Qed.

Lemma Shown_run es s s' :
  run es s = Some s' → AdvancedView.Shown ctx s → AdvancedView.Shown ctx s'.
Proof.
  revert s. induction es as [|e es IH]; intros s Hr ?; simplify_option_eq;
    eauto using Shown_exec.
Qed.

(** C15. In every state of the advanced manager, the overlay canvas is there
    exactly while the session is active and, while the manager has a video,
    it is empty or shows the boxes and labels of the current detections,
    three shapes for each, and nothing else. *)
Theorem overlay_shows_detections es s :
  run es AdvancedView.init = Some s →
  (is_Some (AdvancedView.canvasRef s) ↔
   Advanced.isSessionActive (AdvancedView.manager s) = true) ∧
  ∀ c, AdvancedView.canvasRef s = Some c →
       is_Some (Advanced.videoElement (AdvancedView.manager s)) →
       drawn c = [] ∨
       drawn c = Obj.detections (Advanced.objects (AdvancedView.manager s))
                   ≫= AdvancedView.objectShapes.
Proof.
  intros [_ Hm Hc]%Shown_run; [|apply Shown_init].
  split; [done|]. intros c Hs. by destruct (Hc c Hs).
Qed.

(** When the detector answers during a session whose manager has a
    video, the canvas is given the size of the video (640 by 480 for a
    dimension that is 0) and shows exactly the detections of the answer. *)
Theorem resolve_repaints es s s' c0 v i predictions now :
  run es AdvancedView.init = Some s →
  AdvancedView.canvasRef s = Some c0 →
  Advanced.videoElement (AdvancedView.manager s) = Some v →
  context2d c0 = true →
  exec (Advanced.EObject (Obj.EResolve i predictions now)) s = Some s' →
  ∃ c, AdvancedView.canvasRef s' = Some c ∧
       shaped (orZ (videoWidth v) 640) (orZ (videoHeight v) 480) true c ∧
       drawn c = Obj.newDetections predictions now ≫= AdvancedView.objectShapes.
Proof.
  intros Hs%Shown_run Hc0 Hv Hctx He; [|apply Shown_init].
  destruct Hs as [[_ Hf Hh] Hm _].
  apply Face.face_inert in Hf as [Hf _]. apply Hand.hand_inert in Hh as [Hh _].
  assert (Ha : Advanced.isSessionActive (AdvancedView.manager s) = true)
    by (apply Hm; by rewrite Hc0).
  unfold AdvancedView.exec in He. simpl in He.
  destruct (Obj.inflight _ !! i) as [cl|]; simplify_eq/=.
  unfold AdvancedView.mount, AdvancedView.effect, Advanced.isSessionActive
    in *. simpl in *.
  rewrite Ha, Hc0, Hv. simpl. rewrite Hctx, Hf, Hh.
  eexists; split; [done|]. rewrite <-Hctx at 1. apply paint_objects.
Qed.

End AdvancedMachine.

(** ** The basic manager with its canvas *)

Section BasicMachine.
Context (tl : Z → string) (stringify : DetectionStats → string).
Context (measureText : string → string → Q).

Lemma drawDetection_spec W H b c d :
  shaped W H b c →
  shaped W H b (BasicView.drawDetection measureText c d) ∧
  font (BasicView.drawDetection measureText c d) = "bold 14px Arial" ∧
  drawn (BasicView.drawDetection measureText c d) =
    drawn c ++ BasicView.detectionShapes measureText (font c) d.
Proof.
  unfold BasicView.drawDetection, BasicView.detectionShapes.
  destruct (Obj.bbox d) as [[[??]?]?]. simpl. by rewrite <-!app_assoc.
Qed.

(** The effect of the basic manager draws three shapes for every
    detection, in the order of the detections.  The background of a label
    has the width of the label in the font the context holds when it is
    measured: the default font for the first detection, since the size of
    the canvas was just assigned, and the bold font of the labels for the
    others. *)
Theorem basic_paint_shapes v ds c :
  drawn (BasicView.paint measureText v ds c) =
  firstThen (BasicView.detectionShapes measureText) defaultFont
    "bold 14px Arial" ds.
Proof.
  unfold BasicView.paint. set (c0 := clearRect _).
  destruct (foldl_firstThen (BasicView.drawDetection measureText)
    (BasicView.detectionShapes measureText) "bold 14px Arial"
    (shaped (width c0) (height c0) (context2d c0)) (λ _, True)) with c0 ds
    as (_ & _ & ->); [intros; by eapply drawDetection_spec..|done| |done].
  by apply Forall_true.
Qed.

Lemma basic_exec_unmounted e s s' :
  BasicView.exec tl stringify measureText e s = Some s' →
  BasicView.canvasRef s = None → BasicView.canvasRef s' = None.
Proof.
  unfold BasicView.exec. intros He Hc. rewrite Hc in He.
  destruct (Basic.exec _ _ e _) as [m|]; simplify_eq/=.
  unfold BasicView.mount. rewrite andb_false_r. by case_match.
Qed.

(** C20. The basic manager never shows its overlay: the canvas is rendered
    only if [canvasRef] already holds an element, and the ref is set only
    when the canvas is rendered, so that in every state the ref is null and
    the effect returns before it draws. *)
Theorem basic_overlay_never_mounted es s :
  BasicView.run tl stringify measureText es BasicView.init = Some s →
  BasicView.canvasRef s = None ∧
  BasicView.effect measureText (BasicView.manager s) (BasicView.canvasRef s)
    = None.
Proof.
  assert (Hi : BasicView.canvasRef BasicView.init = None) by done.
  revert Hi. generalize BasicView.init. induction es as [|e es IH];
    intros s0 Hs0 Hr; simplify_option_eq; [by rewrite Hs0|].
  eauto using basic_exec_unmounted.
Qed.

End BasicMachine.

(** ** Samples *)

Lemma overlay_shows_detections_witness :
  (is_Some (AdvancedView.canvasRef (AdvancedView.after Advanced.one_car)) ↔
   Advanced.isSessionActive
     (AdvancedView.manager (AdvancedView.after Advanced.one_car)) = true) ∧
  ∀ c, AdvancedView.canvasRef (AdvancedView.after Advanced.one_car) = Some c →
       is_Some (Advanced.videoElement
                  (AdvancedView.manager (AdvancedView.after Advanced.one_car))) →
       drawn c = [] ∨
       drawn c = Obj.detections (Advanced.objects
                   (AdvancedView.manager (AdvancedView.after Advanced.one_car)))
                   ≫= AdvancedView.objectShapes.
Proof.
  apply (overlay_shows_detections show_Z Advanced.labels AdvancedView.chars
           true Advanced.one_car).
  by vm_compute.
Defined.

Lemma resolve_repaints_witness :
  ∃ c, AdvancedView.canvasRef (AdvancedView.after Advanced.one_car) = Some c ∧
       shaped 1280 720 true c ∧
       drawn c = Obj.newDetections [Obj.car (9 # 10)] 1000
                   ≫= AdvancedView.objectShapes.
Proof.
  apply (resolve_repaints show_Z Advanced.labels AdvancedView.chars true
           AdvancedView.started (AdvancedView.after AdvancedView.started)
           (AdvancedView.after Advanced.one_car) (blank true)
           Advanced.camera 0 [Obj.car (9 # 10)] 1000); by vm_compute.
Defined.

Lemma basic_overlay_never_mounted_witness :
  BasicView.canvasRef (BasicView.after Basic.three_ticks) = None ∧
  BasicView.effect AdvancedView.chars
    (BasicView.manager (BasicView.after Basic.three_ticks))
    (BasicView.canvasRef (BasicView.after Basic.three_ticks)) = None.
Proof.
  apply (basic_overlay_never_mounted show_Z (λ m, show_nat (size m))
           AdvancedView.chars Basic.three_ticks).
  by vm_compute.
Defined.

(** One car in a session of the advanced manager: a blue box, the
    background of the label above it and the label. *)
Example one_car_overlay :
  drawn <$> AdvancedView.canvasRef (AdvancedView.after Advanced.one_car) =
  Some (let '(x, y, w, h) := Obj.pred_bbox (Obj.car (9 # 10)) in
        [StrokeRect "#3b82f6" 2 x y w h;
            FillRect "#3b82f6" x (y - 20) w 20;
            FillText "#fff" "12px Arial" "car 90%" (x + 5) (y - 5)]).
Proof. by vm_compute. Qed.

(** Two detections with the same label, painted by the effect of the basic
    manager: the background of the first label is narrower than that of the
    second, because it was measured in the default font. *)
Example first_label_narrower :
  let d := {| Obj.class := "car"; Obj.score := 9 # 10;
              Obj.bbox := (0, 40, 100, 50); Obj.timestamp := 0 |} in
  drawn (BasicView.paint AdvancedView.chars Advanced.camera [d; d] (blank true))
    !! 1%nat = Some (FillRect "#00ff00" 0 16 45 24) ∧
  drawn (BasicView.paint AdvancedView.chars Advanced.camera [d; d] (blank true))
    !! 4%nat = Some (FillRect "#00ff00" 0 16 59 24).
Proof. split; by vm_compute. Qed.
