(* ===== verification/Controller.v ===== *)
(** * Controller: the session controller of the design document

    The design document describes the session controller as a machine with
    two states, [Idle] and [Active]: [start] fails with [AlreadyActive] in
    an active session and with [NotReady] before the detectors are ready,
    [stop] is idempotent, and the polling ticks leave the state alone.
    Module [Spec] is that machine.

    Modules [AdvancedController] and [BasicController] read the two
    managers of the source (src/components/AdvancedSessionManager.tsx,
    src/components/SessionManager.tsx, modelled in Session.v and
    BasicSession.v) as implementations of it: the state of a manager is
    abstracted to a phase, and each event to the call of the controller it
    stands for.  The theorems are simulations: every step of a manager is
    the step of the controller on the abstractions.  For the advanced
    manager no call ever fails, because the conditions under which the
    buttons are rendered and enabled are the preconditions of the calls; for
    the basic manager a [start] before the model is loaded is the call that
    fails with [NotReady], and the manager stays as it is without a word.

    Module [Quiesce] is about what goes on after [stopDetection] in the
    hook of src/hooks/useObjectDetection.ts: the calls of [detect] in flight
    still settle, and the load of the model may still finish, but nothing
    else happens; the number of these is a measure that every such event
    decreases. *)

From Stdlib Require Import ZArith QArith Wellfounded.
From stdpp Require Import base list gmap strings.
From S2P Require Import Prelude Text Stats HistoryBuffer ObjectDetection.
From S2P Require Import ObjectSummary Geometry FaceDetection HandTracking.
From S2P Require Import Session BasicSession.

Module Spec.

(** The states of the controller. *)
Inductive Phase := Idle | Active.

(** The failures of [start]. *)
Inductive InvalidState := AlreadyActive | NotReady.

#[export] Instance Phase_eq_dec : EqDecision Phase.
Proof. solve_decision. Defined.

(** [start()], when the detectors it requires are [ready] or not. *)
Definition start (ready : bool) (p : Phase) : InvalidState + Phase :=
  match p with
  | Active => inl AlreadyActive
  | Idle => if ready then inr Active else inl NotReady
  end.

(** [stop()] *)
Definition stop (p : Phase) : Phase := Idle.

(** What is asked of the controller, or happens inside it. *)
Inductive Call := Start (ready : bool) | Stop | Tick.

Definition call (c : Call) (p : Phase) : InvalidState + Phase :=
  match c with
  | Start ready => start ready p
  | Stop => inr (stop p)
  | Tick => inr p
  end.

(** A sequence of calls, up to the first that fails. *)
Fixpoint calls (cs : list Call) (p : Phase) : InvalidState + Phase :=
  match cs with
  | [] => inr p
  | c :: cs => match call c p with inr p' => calls cs p' | inl e => inl e end
  end.

(** A caller that ignores the failures. *)
Definition lenient (c : Call) (p : Phase) : Phase :=
  match call c p with inr p' => p' | inl _ => p end.

End Spec.

Module AdvancedController.

(** The phase of the advanced manager. *)
Definition phase (s : Advanced.State) : Spec.Phase :=
  if Advanced.isSessionActive s then Spec.Active else Spec.Idle.

(** The detectors are ready when the start button is enabled. *)
Definition ready (s : Advanced.State) : bool :=
  negb (Advanced.startDisabled s).

(** The call an event stands for. *)
Definition callOf (e : Advanced.Event) (s : Advanced.State) : Spec.Call :=
  match e with
  | Advanced.EClickStart => Spec.Start (ready s)
  | Advanced.EClickStop => Spec.Stop
  | _ => Spec.Tick
  end.

Section Trace.
Context (tl : Z → string) (stringify : DetectionStats → string).

(** The calls a run of events stands for. *)
Fixpoint callsOf (es : list Advanced.Event) (s : Advanced.State)
    : list Spec.Call :=
  match es with
  | [] => []
  | e :: es =>
      callOf e s ::
      match Advanced.exec tl stringify e s with
      | Some s' => callsOf es s'
      | None => []
      end
  end.

End Trace.

End AdvancedController.

Module BasicController.

(** The phase of the basic manager. *)
Definition phase (s : Basic.State) : Spec.Phase :=
  if Obj.isDetecting (Basic.hook s) then Spec.Active else Spec.Idle.

(** The detector is ready when the model is loaded and there is a video. *)
Definition ready (s : Basic.State) : bool :=
  Obj.model (Basic.hook s) && bool_decide (is_Some (Basic.videoElement s)).

(** The call an event stands for. *)
Definition callOf (e : Basic.Event) (s : Basic.State) : Spec.Call :=
  match e with
  | Basic.EClickStart => Spec.Start (ready s)
  | Basic.EClickStop => Spec.Stop
  | _ => Spec.Tick
  end.

(** The manager after the model failed to load, with a video. *)
Definition unready : Basic.State :=
  {| Basic.hook := Obj.loadModel false Obj.init;
     Basic.videoElement := Some Basic.tv; Basic.onSessionSummary := [] |}.

End BasicController.

Module Quiesce.

(** What a stopped hook still waits for: the calls of [detect] in flight
    and the load of the model. *)
Definition pending (s : Obj.State) : nat :=
  length (Obj.inflight s) + (if Obj.isLoading s then 1 else 0).

(** [settles s' s]: the stopped hook [s] becomes [s'] by an event that no
    manager causes. *)
Definition settles (s' s : Obj.State) : Prop :=
  Obj.reachable s ∧ Obj.isDetecting s = false ∧
  ∃ e, internal e = true ∧ Obj.exec e s = Some s'.

(** A hook stopped with two calls in flight. *)
Definition draining : list Obj.Event :=
  [Obj.EModelLoaded true; Obj.EStart (Some 1000%Z); Obj.ETimer 1; Obj.EStop].

Definition drained : Obj.State := default Obj.init (Obj.run draining Obj.init).

End Quiesce.

(** ** The advanced manager implements the controller *)

Section Advanced.
Context (tl : Z → string) (stringify : DetectionStats → string).

Lemma phase_Active s :
  AdvancedController.phase s = Spec.Active ↔ Advanced.isSessionActive s = true.
Proof. unfold AdvancedController.phase. by case_match. Qed.

(** An event that is not a click leaves the phase as it is. *)
Lemma tick_phase e s s' :
  Advanced.exec tl stringify e s = Some s' →
  AdvancedController.callOf e s = Spec.Tick →
  AdvancedController.phase s' = AdvancedController.phase s.
Proof.
  unfold AdvancedController.phase, Advanced.isSessionActive.
  destruct e as [e0|ok|v| | |now]; simpl; intros He Hc; try done.
  - destruct (internal e0) eqn:Hi; [|done].
    destruct (Obj.exec e0 _) as [o|] eqn:E; simplify_eq/=.
    by rewrite (Advanced.internal_isDetecting _ _ _ Hi E).
  - simplify_eq/=. unfold Hand.loadMediaPipe. by destruct ok.
  - by simplify_eq/=.
  - case_match; by simplify_eq/=.
Qed.

(** The advanced manager implements the session controller of the
    design document: every event it accepts is a call of the controller
    that does not fail, and takes the phase of the manager where the
    controller goes.  A start is accepted only in an idle session whose
    detectors are ready, so that [AlreadyActive] and [NotReady] cannot
    arise through the rendered controls. *)
Theorem advanced_refines_controller e s s' :
  Advanced.exec tl stringify e s = Some s' →
  Spec.call (AdvancedController.callOf e s) (AdvancedController.phase s)
  = inr (AdvancedController.phase s').
Proof.
  intros He. destruct (AdvancedController.callOf e s) eqn:Hc.
  - destruct e; try done. simpl in *. simplify_eq.
    destruct (negb _ && negb _) eqn:Hg; simplify_eq.
    pose proof Hg as (Ho & Hf & Hh & _ & Hm & Hr & [v Hv])%Advanced.start_guard_spec.
    apply andb_true_iff in Hg as [Ha Hd].
    unfold AdvancedController.phase, AdvancedController.ready.
    rewrite Hd. apply negb_true_iff in Ha. rewrite Ha. simpl. f_equal.
    unfold Advanced.handleStartAll, Advanced.isSessionActive.
    rewrite Hv. simpl. rewrite Hm. simpl. by rewrite orb_true_r.
  - destruct e; try done. simpl in *. case_match; simplify_eq.
    unfold AdvancedController.phase.
    by destruct (Advanced.stop_all_idempotent s) as [_ ->].
  - simpl. f_equal. symmetry. by eapply tick_phase.
Qed.

Lemma advanced_run_calls es s s' :
  Advanced.run tl stringify es s = Some s' →
  Spec.calls (AdvancedController.callsOf tl stringify es s)
    (AdvancedController.phase s) = inr (AdvancedController.phase s').
Proof.
  revert s. induction es as [|e es IH]; intros s Hr; simpl in *.
  { by simplify_eq. }
  destruct (Advanced.exec tl stringify e s) as [s1|] eqn:E; [|done].
  rewrite (advanced_refines_controller e s s1 E). by apply IH.
Qed.

(** C12. Every run of the advanced manager from its first render is a run of
    the controller from [Idle] in which no call fails, and the manager ends
    in the phase the controller ends in. *)
Theorem advanced_run_refines es s :
  Advanced.run tl stringify es Advanced.init = Some s →
  Spec.calls (AdvancedController.callsOf tl stringify es Advanced.init)
    Spec.Idle = inr (AdvancedController.phase s).
Proof. apply advanced_run_calls. Qed.

End Advanced.

Lemma advanced_refines_controller_witness :
  Spec.call (AdvancedController.callOf Advanced.EClickStart Advanced.ready)
    (AdvancedController.phase Advanced.ready)
  = inr (AdvancedController.phase (Advanced.handleStartAll Advanced.ready)).
Proof.
  apply (advanced_refines_controller show_Z Advanced.labels
           Advanced.EClickStart Advanced.ready).
  by vm_compute.
Defined.

Lemma advanced_run_refines_witness :
  Spec.calls
    (AdvancedController.callsOf show_Z Advanced.labels Advanced.one_car
       Advanced.init) Spec.Idle
  = inr (AdvancedController.phase (Advanced.after Advanced.one_car)).
Proof.
  apply (advanced_run_refines show_Z Advanced.labels Advanced.one_car).
  apply Advanced.one_car_run.
Defined.

(** ** The basic manager implements the controller, without its failures *)

Section Basic.
Context (tl : Z → string) (stringify : DetectionStats → string).

(** C28. The basic manager implements the session controller of the design
    document for a caller that ignores failures: every event it accepts
    takes the phase of the manager where the call of the controller goes,
    or leaves it where it is when the call fails.  The one call that can
    fail is a start before the model is loaded. *)
Theorem basic_refines_lenient e s s' :
  Basic.exec tl stringify e s = Some s' →
  BasicController.phase s'
  = Spec.lenient (BasicController.callOf e s) (BasicController.phase s).
Proof.
  unfold BasicController.phase, Spec.lenient.
  destruct e as [e0|v| | |now]; simpl; intros He.
  - destruct (internal e0) eqn:Hi; [|done].
    destruct (Obj.exec e0 _) as [o|] eqn:E; simplify_eq/=.
    by rewrite (Advanced.internal_isDetecting _ _ _ Hi E).
  - by simplify_eq/=.
  - destruct (negb _ && negb _) eqn:Hg; simplify_eq.
    unfold Basic.startDisabled, BasicController.ready, Basic.handleStart in *.
    destruct (Basic.videoElement s) as [v|]; simpl in *;
      [|by rewrite orb_true_r, andb_false_r in Hg].
    rewrite Obj.startDetection_isDetecting.
    by destruct (Obj.isDetecting _), (Obj.model _).
  - by destruct (Obj.isDetecting (Basic.hook s)) eqn:Hd; simplify_eq/=.
  - case_match; by simplify_eq/=.
Qed.

End Basic.

Lemma basic_refines_lenient_witness :
  BasicController.phase (Basic.handleStart BasicController.unready)
  = Spec.lenient
      (BasicController.callOf Basic.EClickStart BasicController.unready)
      (BasicController.phase BasicController.unready).
Proof.
  by apply (basic_refines_lenient show_Z (λ m, show_nat (size m))
              Basic.EClickStart BasicController.unready).
Defined.

(** After the model failed to load, the start of the controller fails with
    [NotReady]; the start button of the basic manager is enabled, and a
    click leaves the manager as it is. *)
Example start_not_ready :
  Spec.call (BasicController.callOf Basic.EClickStart BasicController.unready)
    (BasicController.phase BasicController.unready) = inl Spec.NotReady ∧
  Basic.exec show_Z (λ m, show_nat (size m)) Basic.EClickStart
    BasicController.unready = Some BasicController.unready.
Proof. split; by vm_compute. Qed.

(** ** A stopped hook quiesces *)

(** Every event of a stopped hook settles one of the things it waits for. *)
Lemma settles_pending s' s :
  Quiesce.settles s' s → Quiesce.pending s' < Quiesce.pending s.
Proof.
  intros (Hr%Obj.Inv_reachable & Hd & e & Hi & He). unfold Quiesce.pending.
  destruct e; try done; simpl in He.
  - destruct (Obj.isLoading s) eqn:Hl; simplify_eq.
    unfold Obj.loadModel. case_match; simpl; lia.
  - destruct (Obj.timers s !! id) eqn:Ht; [|done].
    destruct Hr as [_ Hdet Htim _ _].
    assert (is_Some (Obj.detectionIntervalRef s)) as Hs
      by (eexists; by apply Htim).
    apply Hdet in Hs. congruence.
  - destruct (Obj.inflight s !! i) eqn:Hc; simplify_eq/=.
    rewrite length_delete by done. apply lookup_lt_Some in Hc. lia.
  - destruct (Obj.inflight s !! i) eqn:Hc; simplify_eq/=.
    rewrite length_delete by done. apply lookup_lt_Some in Hc. lia.
Qed.

(** C13. After [stopDetection], the hook comes to rest: there is no infinite
    sequence of timer callbacks, answers and failures of the detector and
    loads of the model from a stopped hook.  No timer fires any more, and
    each other event settles a call in flight or the load of the model. *)
Theorem stopped_hook_quiesces : well_founded Quiesce.settles.
Proof.
  apply (well_founded_lt_compat _ Quiesce.pending). apply settles_pending.
Qed.

(** A stopped hook sees at most as many further events as it has calls
    in flight, and one more if its model is still loading. *)
Theorem stopped_run_bound es s s' :
  Obj.reachable s → Obj.isDetecting s = false →
  Forall (λ e, internal e = true) es → Obj.run es s = Some s' →
  length es + Quiesce.pending s' ≤ Quiesce.pending s.
Proof.
  intros Hr Hd Hes. revert s Hr Hd.
  induction Hes as [|e es Hi _ IH]; intros s Hr Hd Hrun; simpl in *.
  { by simplify_eq. }
  destruct (Obj.exec e s) as [s1|] eqn:E; [|done]. simpl in Hrun.
  assert (Quiesce.settles s1 s) as Hlt%settles_pending by (split; eauto).
  specialize (IH s1). rewrite (Advanced.internal_isDetecting _ _ _ Hi E) in IH.
  pose proof (IH (Obj.exec_reachable _ _ _ E Hr) Hd Hrun). lia.
Qed.

Lemma stopped_run_bound_witness :
  length [Obj.EResolve 1 [] 2000; Obj.EReject 0]
  + Quiesce.pending
      (default Obj.init
         (Obj.run [Obj.EResolve 1 [] 2000; Obj.EReject 0] Quiesce.drained))
  ≤ Quiesce.pending Quiesce.drained.
Proof.
  apply (stopped_run_bound [Obj.EResolve 1 [] 2000; Obj.EReject 0]
           Quiesce.drained); [|done|by repeat constructor|by vm_compute].
  apply (Obj.run_reachable Quiesce.draining Obj.init); [constructor|].
  by vm_compute.
Defined.

(** A hook stopped with two calls in flight waits for two events. *)
Example drained_pending : Quiesce.pending Quiesce.drained = 2.
Proof. by vm_compute. Qed.
