(* ===== verification/Dashboard.v ===== *)
(** * Dashboard: what the session managers render

    Models the JSX of src/components/AdvancedSessionManager.tsx (lines
    181-326) and of src/components/SessionManager.tsx (lines 97-193) as
    functions from the state of the component to a view: which button is
    rendered and whether it is enabled, which panels are rendered and what
    numbers and cards they show.  The markup (class names, icons, fixed
    texts of the headings) is not part of a view.

    [Object.entries] lists the properties of an object in the order in
    which the program created them.  The statistics of the hooks are
    finite maps, which do not record that order; class [Entries] therefore
    takes the listing as a parameter and assumes that it lists every
    property once.  What is proved of a view holds for every such order.

    Module [Typed] states what the types of the hook promise of a state of
    useObjectDetection and the code has to keep: a label is a key of
    [stats], or of the [stats] a closure captured, only with a count that is
    positive, and the detections of the state are one batch with one
    timestamp. *)

From Stdlib Require Import ZArith QArith.
From stdpp Require Import base list gmap strings.
From S2P Require Import Prelude Text Stats HistoryBuffer ObjectDetection.
From S2P Require Import ObjectSummary Geometry FaceDetection HandTracking.
From S2P Require Import Session BasicSession Overlay.

#[local] Open Scope js_scope.

(** [Object.entries(o)], for an object used as a table of counts. *)
Class Entries := {
  entries : DetectionStats → list (string * nat);
  entries_perm m : entries m ≡ₚ map_to_list m;
}.

(** The listing in the order of the keys, for the samples. *)
#[export, refine] Instance entries_by_key : Entries :=
  {| entries := map_to_list |}.
Proof. done. Defined.

(** The button of a manager: the start button, enabled or not, or the stop
    button. *)
Inductive Button := StartButton (disabled : bool) | StopButton.

#[export] Instance Button_eq_dec : EqDecision Button.
Proof. solve_decision. Defined.

Module Typed.

(** The [stats] a closure captured are well formed. *)
Definition closure_ok (c : Obj.Closure) : Prop :=
  positive_counts (Obj.captured_stats c).

(** A state of the hook is well formed. *)
Record WellFormed (s : Obj.State) : Prop := {
  wf_stats : positive_counts (Obj.stats s);
  wf_inflight : Forall closure_ok (Obj.inflight s);
  wf_timers : map_Forall (λ _ t, closure_ok (Obj.callback t)) (Obj.timers s);
  wf_batch : ∀ d d', d ∈ Obj.detections s → d' ∈ Obj.detections s →
                     Obj.timestamp d = Obj.timestamp d';
}.

End Typed.

Module AdvancedDash.

(** The panel of the faces. *)
Record FacePanel := {
  uniquePeople : nat;
  inFrameNow : nat;
  emotionCards : list (string * nat);
  lastInteraction : option string;
}.

(** The card of a hand. *)
Record HandCard := {
  card_title : string;
  card_gesture : string;
  card_fingers : string;
}.

(** What the component renders. *)
Record View := {
  loadingModels : bool;
  button : Button;
  canvas : bool;
  faces : option FacePanel;
  hands : option (list HandCard);
  objects : option (list (string * nat));
  actions : bool;
}.

Section Render.
Context `{Entries}.

(** The panel "Face Analysis". *)
Definition facePanel (f : Face.State) : FacePanel := {|
  uniquePeople := Face.uniquePeople (Face.stats f);
  inFrameNow := length (Face.faces f);
  emotionCards := take 2 (entries (Face.emotions (Face.stats f)));
  lastInteraction := last (Face.interactions (Face.stats f));
|}.

(** A card of the panel "Hand Gestures". *)
Definition handCard (hand : Hand.HandDetection) : HandCard := {|
  card_title := AdvancedView.handednessName (Hand.handedness hand) +:+ " Hand";
  card_gesture := Hand.gestureLabel (Hand.gesture hand);
  card_fingers := "Fingers: " +:+ show_Z (Hand.fingerCount hand);
|}.

(** The cards of the panel "Objects Detected". *)
Definition objectCards (stats : DetectionStats) : list (string * nat) :=
  take 6 (entries stats).

(** The render of the component. *)
Definition render (s : Advanced.State) : View :=
  let active := Advanced.isSessionActive s in
  let h := Hand.hands (Advanced.handHook s) in
  let stats := Obj.stats (Advanced.objects s) in
  {| loadingModels := Obj.isLoading (Advanced.objects s);
     button := if active then StopButton
               else StartButton (Advanced.startDisabled s);
     canvas := active;
     faces := if active then Some (facePanel (Advanced.faceHook s)) else None;
     hands := if active && bool_decide (0 < length h)
              then Some (handCard <$> h) else None;
     objects := if active && bool_decide (0 < size stats)
                then Some (objectCards stats) else None;
     actions := active |}.

End Render.

Section Export.
Context (tl : Z → string).

(** A click on "Export All Data", when the button is rendered. *)
Definition clickExport `{Entries} (now now' : Z) (s : Advanced.State)
    : option ObjSummary.Download :=
  if actions (render s)
  then Some (ObjSummary.exportSession tl now now' (Advanced.objects s))
  else None.

End Export.

(** An answer of the detector with seven classes. *)
Definition crowded : list Obj.Prediction :=
  (λ c, {| Obj.pred_class := c; Obj.pred_score := 9 # 10;
           Obj.pred_bbox := (0, 0, 10, 10)%Z |})
  <$> ["bus"; "car"; "cat"; "dog"; "person"; "truck"; "zebra"].

Definition busy : list Advanced.Event :=
  [Advanced.EObject (Obj.EModelLoaded true); Advanced.EHandsLoaded true;
   Advanced.EVideo (Some Advanced.camera); Advanced.EClickStart;
   Advanced.EObject (Obj.EResolve 0 crowded 1000)].

(** The cards of the objects after [busy]. *)
Definition busyCards : list (string * nat) :=
  objectCards (Obj.stats (Advanced.objects (Advanced.after busy))).

End AdvancedDash.

Module BasicDash.

(** What the component renders. *)
Record View := {
  subtitle : string;
  button : Button;
  status : option nat;
  liveStats : option (list (string * nat));
  actions : bool;
}.

Section Render.
Context `{Entries}.

(** The cards of the live statistics. *)
Definition statCards (stats : DetectionStats) : list (string * nat) :=
  take 8 (entries stats).

(** The render of the component. *)
Definition render (s : Basic.State) : View :=
  let o := Basic.hook s in
  {| subtitle := if Obj.isLoading o then "Loading AI model..."
                 else "Real-time object detection with YOLO/COCO-SSD";
     button := if Obj.isDetecting o then StopButton
               else StartButton (Basic.startDisabled s);
     status := if Obj.isDetecting o then Some (length (Obj.detections o))
               else None;
     liveStats := if Obj.isDetecting o && bool_decide (0 < size (Obj.stats o))
                  then Some (statCards (Obj.stats o)) else None;
     actions := Basic.summaryVisible s |}.

End Render.

Section Export.
Context (tl : Z → string).

(** A click on "Export Data", when the button is rendered. *)
Definition clickExport `{Entries} (now now' : Z) (s : Basic.State)
    : option ObjSummary.Download :=
  if actions (render s)
  then Some (ObjSummary.exportSession tl now now' (Basic.hook s))
  else None.

End Export.

(** A session that saw a car is stopped and another is started. *)
Definition restart : list Basic.Event :=
  [Basic.EHook (Obj.EModelLoaded true); Basic.EVideo (Some Basic.tv);
   Basic.EClickStart; Basic.EHook (Obj.EResolve 0 [Obj.car (9 # 10)] 1000);
   Basic.EClickStop; Basic.EClickStart].

End BasicDash.

(** ** Laws of [Object.entries] *)

Section EntriesLaws.
Context `{Entries}.

Lemma entries_lookup m l n : (l, n) ∈ entries m ↔ m !! l = Some n.
Proof. rewrite entries_perm. apply elem_of_map_to_list. Qed.

Lemma entries_NoDup m : NoDup (entries m).*1.
Proof. rewrite entries_perm. apply NoDup_fst_map_to_list. Qed.

Lemma entries_length m : length (entries m) = size m.
Proof. rewrite entries_perm. apply length_map_to_list. Qed.

Lemma entries_empty : entries ∅ = [].
Proof. apply Permutation_nil_r. by rewrite entries_perm, map_to_list_empty. Qed.

(** The first [k] cards of a table of counts: there are [k] of them, or as
    many as the table has labels when it has fewer; no label has two cards;
    a card shows the count of its label, which is not zero. *)
Lemma cards_sound k m :
  positive_counts m →
  length (take k (entries m)) = k `min` size m ∧
  NoDup (take k (entries m)).*1 ∧
  ∀ l n, (l, n) ∈ take k (entries m) → m !! l = Some n ∧ 0 < n.
Proof.
  intros Hm. split_and!.
  - by rewrite length_take, entries_length.
  - rewrite fmap_take.
    eapply sublist_NoDup; [apply entries_NoDup|apply sublist_take].
  - intros l n Hl. eapply elem_of_sublist in Hl; [|apply sublist_take].
    apply entries_lookup in Hl. eauto.
Qed.

End EntriesLaws.

(** ** The state of the hook is well formed *)

Lemma WellFormed_init : Typed.WellFormed Obj.init.
Proof.
  split; simpl; [apply positive_counts_empty|done|apply map_Forall_empty|].
  by intros d d' ?%elem_of_nil.
Qed.

Lemma WellFormed_start interval s :
  Typed.WellFormed s → Typed.WellFormed (Obj.startDetection interval s).
Proof.
  intros [Hs Hi Ht Hb]. unfold Obj.startDetection. case_match; [done|].
  split; simpl; [apply positive_counts_empty| | |done].
  - apply Forall_app; split; [done|]. by apply Forall_singleton.
  - by apply map_Forall_insert_2.
Qed.

Lemma WellFormed_stop s :
  Typed.WellFormed s → Typed.WellFormed (Obj.stopDetection s).
Proof.
  intros [Hs Hi Ht Hb]. unfold Obj.stopDetection.
  destruct (Obj.detectionIntervalRef s); split; simpl; try done.
  by apply map_Forall_delete.
Qed.

Lemma WellFormed_resolve c predictions now s :
  Typed.closure_ok c → Typed.WellFormed s →
  Typed.WellFormed (Obj.detectResolve c predictions now s).
Proof.
  intros Hc [Hs Hi Ht Hb]. split; simpl; [|done|done|].
  - by apply positive_counts_countBy.
  - unfold Obj.newDetections.
    by intros d d' (p & -> & _)%list_elem_of_fmap (p' & -> & _)%list_elem_of_fmap.
Qed.

Lemma WellFormed_settle i s :
  Typed.WellFormed s → Typed.WellFormed (Obj.set_inflight (delete i) s).
Proof. intros [Hs Hi Ht Hb]. split; simpl; try done. by apply Forall_delete. Qed.

(** Every event keeps the state well formed. *)
Lemma WellFormed_exec e s s' :
  Obj.exec e s = Some s' → Typed.WellFormed s → Typed.WellFormed s'.
Proof.
  destruct e as [ok|interval|id|i predictions now|i|]; simpl; intros He Hwf.
  - case_match; simplify_eq. destruct Hwf. unfold Obj.loadModel.
    by destruct ok; split.
  - simplify_eq. by apply WellFormed_start.
  - destruct (Obj.timers s !! id) as [t|] eqn:E; simplify_eq/=.
    destruct Hwf as [Hs Hi Ht Hb]. split; simpl; try done.
    apply Forall_app; split; [done|]. apply Forall_singleton. by eapply Ht.
  - destruct (Obj.inflight s !! i) as [c|] eqn:E; simplify_eq/=.
    apply WellFormed_resolve; [|by apply WellFormed_settle].
    destruct Hwf as [_ Hi _ _]. by eapply Forall_lookup_1 in Hi.
  - destruct (Obj.inflight s !! i) as [c|] eqn:E; simplify_eq/=.
    by destruct (WellFormed_settle i s Hwf).
  - simplify_eq. by apply WellFormed_stop.
Qed.

Lemma WellFormed_reachable s : Obj.reachable s → Typed.WellFormed s.
Proof.
  induction 1 as [|s e s' _ IH Hs%Obj.step_exec];
    eauto using WellFormed_init, WellFormed_exec.
Qed.

(** C14. The states of useObjectDetection are well formed: whatever happens
    to a mounted hook, a label is a key of [stats], and of the [stats] that
    a timer or a call in flight captured, only with a count that is not
    zero, and the detections shown are one batch, with one timestamp. *)
Theorem hook_well_formed es s :
  Obj.run es Obj.init = Some s → Typed.WellFormed s.
Proof.
  intros Hr. eapply WellFormed_reachable, Obj.run_reachable; [|done].
  constructor.
Qed.

(** ** The dashboard of the advanced manager *)

Section AdvancedDashboard.
Context `{Entries} (tl : Z → string) (stringify : DetectionStats → string).
#[local] Abbreviation arun := (Advanced.run tl stringify).
#[local] Abbreviation aexec := (Advanced.exec tl stringify).

Lemma run_Hooks es s : arun es Advanced.init = Some s → Advanced.Hooks s.
Proof.
  intros Hr. eapply (Advanced.run_invariant tl stringify);
    [apply Advanced.Hooks_exec|done|apply Advanced.Hooks_init].
Qed.

(** The controls the view offers are the clicks the machine accepts. *)
Lemma advanced_controls s now :
  (is_Some (aexec Advanced.EClickStart s) ↔
   AdvancedDash.button (AdvancedDash.render s) = StartButton false) ∧
  (is_Some (aexec Advanced.EClickStop s) ↔
   AdvancedDash.button (AdvancedDash.render s) = StopButton) ∧
  (is_Some (aexec (Advanced.EClickSummary now) s) ↔
   AdvancedDash.actions (AdvancedDash.render s) = true).
Proof.
  simpl. destruct (Advanced.isSessionActive s), (Advanced.startDisabled s);
    simpl; unfold is_Some; naive_solver.
Qed.

(** C29. The dashboard of a running session never shows a person or a hand:
    its face panel reads 0 unique people and 0 in frame, with no emotion
    and no interaction, and the panel of the hands is not rendered, since
    neither hook ever detects. *)
Theorem dashboard_no_people es s :
  arun es Advanced.init = Some s → Advanced.isSessionActive s = true →
  AdvancedDash.faces (AdvancedDash.render s)
  = Some {| AdvancedDash.uniquePeople := 0; AdvancedDash.inFrameNow := 0;
            AdvancedDash.emotionCards := [];
            AdvancedDash.lastInteraction := None |} ∧
  AdvancedDash.hands (AdvancedDash.render s) = None.
Proof.
  intros [_ Hf Hh]%run_Hooks Ha.
  apply Face.face_inert in Hf as (Hf & _ & _ & _ & Hs & _).
  apply Hand.hand_inert in Hh as [Hh _].
  unfold AdvancedDash.render, AdvancedDash.facePanel.
  rewrite Ha, Hf, Hs, Hh. simpl. by rewrite entries_empty.
Qed.

(** C30. When the panel of the objects is rendered the session is active and
    the panel holds between one and six cards, as many as [stats] has
    labels if these are fewer than six; no label has two cards, and a card
    shows the count [stats] holds for its label, which is not zero. *)
Theorem object_cards_sound es s cards :
  arun es Advanced.init = Some s →
  AdvancedDash.objects (AdvancedDash.render s) = Some cards →
  Advanced.isSessionActive s = true ∧
  0 < length cards ∧
  length cards = 6 `min` size (Obj.stats (Advanced.objects s)) ∧
  NoDup cards.*1 ∧
  ∀ l n, (l, n) ∈ cards →
         Obj.stats (Advanced.objects s) !! l = Some n ∧ 0 < n.
Proof.
  intros [[Hs _ _ _]%WellFormed_reachable _ _]%run_Hooks Hc.
  unfold AdvancedDash.render in Hc. simpl in Hc.
  destruct (Advanced.isSessionActive s); [|done].
  case_bool_decide as Hn; simplify_eq/=.
  destruct (cards_sound 6 _ Hs) as (Hl & ? & ?).
  unfold AdvancedDash.objectCards. rewrite Hl. split_and!; try done. lia.
Qed.

End AdvancedDashboard.

(** ** The dashboard of the basic manager *)

Section BasicDashboard.
Context `{Entries} (tl : Z → string) (stringify : DetectionStats → string).

Lemma basic_exec_reachable e s s' :
  Basic.exec tl stringify e s = Some s' →
  Obj.reachable (Basic.hook s) → Obj.reachable (Basic.hook s').
Proof.
  destruct e as [e0|v| | |now]; simpl; intros He Hr;
    repeat case_match; simplify_option_eq; try done.
  - by eapply Obj.exec_reachable.
  - unfold Basic.handleStart. case_match; [|done].
    by apply (Obj.exec_reachable (Obj.EStart (Some 1000%Z)) (Basic.hook s)).
  - by apply (Obj.exec_reachable Obj.EStop (Basic.hook s)).
Qed.

Lemma basic_run_reachable es s s' :
  Basic.run tl stringify es s = Some s' →
  Obj.reachable (Basic.hook s) → Obj.reachable (Basic.hook s').
Proof.
  revert s. induction es as [|e es IH]; intros s Hr ?; simplify_option_eq;
    eauto using basic_exec_reachable.
Qed.

(** The controls the view offers are the clicks the machine accepts. *)
Lemma basic_controls s now :
  (is_Some (Basic.exec tl stringify Basic.EClickStart s) ↔
   BasicDash.button (BasicDash.render s) = StartButton false) ∧
  (is_Some (Basic.exec tl stringify Basic.EClickStop s) ↔
   BasicDash.button (BasicDash.render s) = StopButton) ∧
  (is_Some (Basic.exec tl stringify (Basic.EClickSummary now) s) ↔
   BasicDash.actions (BasicDash.render s) = true).
Proof.
  simpl. destruct (Obj.isDetecting (Basic.hook s)), (Basic.startDisabled s),
    (Basic.summaryVisible s); simpl; unfold is_Some; naive_solver.
Qed.

(** When the detector answers, the status line of a running session shows
    the number of objects of the answer; that of a stopped session is not
    rendered. *)
Theorem status_counts_answer i predictions now s s' :
  Basic.exec tl stringify (Basic.EHook (Obj.EResolve i predictions now)) s
  = Some s' →
  BasicDash.status (BasicDash.render s')
  = if Obj.isDetecting (Basic.hook s) then Some (length predictions) else None.
Proof.
  simpl. destruct (Obj.inflight (Basic.hook s) !! i); intros; simplify_eq/=.
  unfold Obj.newDetections. by rewrite length_fmap.
Qed.

(** The live statistics of the basic manager: at most eight cards, each
    the count of a label. *)
Theorem live_stats_sound es s cards :
  Basic.run tl stringify es Basic.init = Some s →
  BasicDash.liveStats (BasicDash.render s) = Some cards →
  length cards = 8 `min` size (Obj.stats (Basic.hook s)) ∧
  NoDup cards.*1 ∧
  ∀ l n, (l, n) ∈ cards → Obj.stats (Basic.hook s) !! l = Some n ∧ 0 < n.
Proof.
  intros Hr%basic_run_reachable Hc; [|constructor].
  apply WellFormed_reachable in Hr as [Hs _ _ _].
  unfold BasicDash.render in Hc. simpl in Hc.
  repeat case_match; simplify_eq. by apply cards_sound.
Qed.

End BasicDashboard.

(** ** Samples *)

Lemma hook_well_formed_witness : Typed.WellFormed Obj.restarted.
Proof. apply (hook_well_formed Obj.restart_events). by vm_compute. Defined.

Lemma dashboard_no_people_witness :
  AdvancedDash.faces (AdvancedDash.render (Advanced.after Advanced.one_car))
  = Some {| AdvancedDash.uniquePeople := 0; AdvancedDash.inFrameNow := 0;
            AdvancedDash.emotionCards := [];
            AdvancedDash.lastInteraction := None |} ∧
  AdvancedDash.hands (AdvancedDash.render (Advanced.after Advanced.one_car))
  = None.
Proof.
  apply (dashboard_no_people show_Z Advanced.labels Advanced.one_car);
    by vm_compute.
Defined.

Lemma object_cards_sound_witness :
  Advanced.isSessionActive (Advanced.after AdvancedDash.busy) = true ∧
  0 < length AdvancedDash.busyCards ∧
  length AdvancedDash.busyCards
  = 6 `min` size (Obj.stats (Advanced.objects (Advanced.after AdvancedDash.busy))) ∧
  NoDup AdvancedDash.busyCards.*1 ∧
  ∀ l n, (l, n) ∈ AdvancedDash.busyCards →
         Obj.stats (Advanced.objects (Advanced.after AdvancedDash.busy)) !! l
         = Some n ∧ 0 < n.
Proof.
  apply (object_cards_sound show_Z Advanced.labels AdvancedDash.busy);
    by vm_compute.
Defined.

(** An answer with seven classes: [stats] holds seven labels and the panel
    shows six cards, so that one class of the frame is not on the
    dashboard. *)
Example seventh_class_hidden :
  size (Obj.stats (Advanced.objects (Advanced.after AdvancedDash.busy))) = 7 ∧
  length AdvancedDash.busyCards = 6.
Proof. by vm_compute. Qed.

(** [startDetection] empties the history and [stats] and leaves
    [detections] alone: when a session is started after another, the status
    line reads one object in the current frame before the detector has
    answered, and there are no statistics and no summary button. *)
Example restart_shows_stale :
  let v := BasicDash.render (Basic.after BasicDash.restart) in
  BasicDash.status v = Some 1 ∧ BasicDash.liveStats v = None ∧
  BasicDash.actions v = false ∧
  Obj.detectionHistoryRef (Basic.hook (Basic.after BasicDash.restart)) = [].
Proof. by vm_compute. Qed.
