(* ===== verification/PublicCam.v ===== *)
(** * PublicCam: the public webcam frame

    Models src/components/PublicWebcam.tsx: the component that shows a
    YouTube stream in a frame and feeds a hidden video element, the proxy,
    from the thumbnail of the stream, for the session manager of
    BasicSession.v to detect on.

    The state ([Pub.State]) is the prop and the [useState] cells of the
    component, the part of the document and of the browser its effect works
    on (the video elements appended to the body, the [src] of every video
    it created, the live timers, the images that are loading) and the state
    of the session manager it renders.  A timer and an image keep what their
    callback closes over: the video and the [youtubeId] of the run of the
    effect that created them.  The cleanup of the effect keeps the timer and
    the video of its run.

    The effect runs after the first render and after every render in which
    [youtubeId] has changed, its cleanup before it and at unmount.  An image
    is an event of its own: it loads, with the pixels the server sent, or
    fails.  The proxy has no frames: the managers read 0 for its width and
    its height.

    The session manager is rendered on the proxy.  Its clicks need the
    component to be mounted; the timer and the promises of its hook do not,
    since useObjectDetection has no cleanup.  [detectsOn] is the video that
    the [detect] of the session closed over when [handleStart] passed the
    proxy of that render to [startDetection]. *)

From Stdlib Require Import ZArith QArith.
From stdpp Require Import base list gmap strings.
From S2P Require Import Prelude Text Stats HistoryBuffer ObjectDetection.
From S2P Require Import ObjectSummary Session BasicSession Dashboard.

#[local] Open Scope js_scope.

Module Pub.

(** What the callback of a timer closes over. *)
Record Poll := { poll_video : nat; poll_youtubeId : string }.

(** What the cleanup of the effect closes over. *)
Record Cleanup := { interval : positive; video : nat }.

(** An image that is loading: the video its [onload] closes over and its
    [src]. *)
Record Image := { img_video : nat; img_src : string }.

Record State := {
  youtubeId : string;
  proxyVideo : option nat;
  sessionSummary : string;
  body : list nat;
  videos : gmap nat (option string);
  nextVideo : nat;
  intervals : gmap positive Poll;
  nextTimer : positive;
  cleanup : option Cleanup;
  loading : list Image;
  mounted : bool;
  manager : Basic.State;
  detectsOn : option nat;
}.

#[export] Instance set_youtubeId : Setter youtubeId := λ f s,
  Build_State (f (youtubeId s)) (proxyVideo s) (sessionSummary s) (body s)
    (videos s) (nextVideo s) (intervals s) (nextTimer s) (cleanup s)
    (loading s) (mounted s) (manager s) (detectsOn s).
#[export] Instance set_proxyVideo : Setter proxyVideo := λ f s,
  Build_State (youtubeId s) (f (proxyVideo s)) (sessionSummary s) (body s)
    (videos s) (nextVideo s) (intervals s) (nextTimer s) (cleanup s)
    (loading s) (mounted s) (manager s) (detectsOn s).
#[export] Instance set_sessionSummary : Setter sessionSummary := λ f s,
  Build_State (youtubeId s) (proxyVideo s) (f (sessionSummary s)) (body s)
    (videos s) (nextVideo s) (intervals s) (nextTimer s) (cleanup s)
    (loading s) (mounted s) (manager s) (detectsOn s).
#[export] Instance set_body : Setter body := λ f s,
  Build_State (youtubeId s) (proxyVideo s) (sessionSummary s) (f (body s))
    (videos s) (nextVideo s) (intervals s) (nextTimer s) (cleanup s)
    (loading s) (mounted s) (manager s) (detectsOn s).
#[export] Instance set_videos : Setter videos := λ f s,
  Build_State (youtubeId s) (proxyVideo s) (sessionSummary s) (body s)
    (f (videos s)) (nextVideo s) (intervals s) (nextTimer s) (cleanup s)
    (loading s) (mounted s) (manager s) (detectsOn s).
#[export] Instance set_nextVideo : Setter nextVideo := λ f s,
  Build_State (youtubeId s) (proxyVideo s) (sessionSummary s) (body s)
    (videos s) (f (nextVideo s)) (intervals s) (nextTimer s) (cleanup s)
    (loading s) (mounted s) (manager s) (detectsOn s).
#[export] Instance set_intervals : Setter intervals := λ f s,
  Build_State (youtubeId s) (proxyVideo s) (sessionSummary s) (body s)
    (videos s) (nextVideo s) (f (intervals s)) (nextTimer s) (cleanup s)
    (loading s) (mounted s) (manager s) (detectsOn s).
#[export] Instance set_nextTimer : Setter nextTimer := λ f s,
  Build_State (youtubeId s) (proxyVideo s) (sessionSummary s) (body s)
    (videos s) (nextVideo s) (intervals s) (f (nextTimer s)) (cleanup s)
    (loading s) (mounted s) (manager s) (detectsOn s).
#[export] Instance set_cleanup : Setter cleanup := λ f s,
  Build_State (youtubeId s) (proxyVideo s) (sessionSummary s) (body s)
    (videos s) (nextVideo s) (intervals s) (nextTimer s) (f (cleanup s))
    (loading s) (mounted s) (manager s) (detectsOn s).
#[export] Instance set_loading : Setter loading := λ f s,
  Build_State (youtubeId s) (proxyVideo s) (sessionSummary s) (body s)
    (videos s) (nextVideo s) (intervals s) (nextTimer s) (cleanup s)
    (f (loading s)) (mounted s) (manager s) (detectsOn s).
#[export] Instance set_mounted : Setter mounted := λ f s,
  Build_State (youtubeId s) (proxyVideo s) (sessionSummary s) (body s)
    (videos s) (nextVideo s) (intervals s) (nextTimer s) (cleanup s)
    (loading s) (f (mounted s)) (manager s) (detectsOn s).
#[export] Instance set_manager : Setter manager := λ f s,
  Build_State (youtubeId s) (proxyVideo s) (sessionSummary s) (body s)
    (videos s) (nextVideo s) (intervals s) (nextTimer s) (cleanup s)
    (loading s) (mounted s) (f (manager s)) (detectsOn s).
#[export] Instance set_detectsOn : Setter detectsOn := λ f s,
  Build_State (youtubeId s) (proxyVideo s) (sessionSummary s) (body s)
    (videos s) (nextVideo s) (intervals s) (nextTimer s) (cleanup s)
    (loading s) (mounted s) (manager s) (f (detectsOn s)).

(** The first render, before its effect. *)
Definition rendered (id : string) : State := {|
  youtubeId := id; proxyVideo := None; sessionSummary := ""; body := [];
  videos := ∅; nextVideo := 0; intervals := ∅; nextTimer := 1;
  cleanup := None; loading := []; mounted := true; manager := Basic.init;
  detectsOn := None;
|}.

(** The proxy as the managers see it: a video without frames. *)
Definition proxy (video : nat) : Video :=
  {| element := video; videoWidth := 0; videoHeight := 0 |}.

(** [`https://i.ytimg.com/vi/${youtubeId}/maxresdefault.jpg?t=${Date.now()}`] *)
Definition thumbnail (id : string) (now : Z) : string :=
  "https://i.ytimg.com/vi/" +:+ id +:+ "/maxresdefault.jpg?t=" +:+ show_Z now.

(** The [src] of the frame. *)
Definition iframeSrc (s : State) : string :=
  "https://www.youtube.com/embed/" +:+ youtubeId s
  +:+ "?autoplay=1&mute=0&controls=1".

(** The body of the effect: a hidden video is created and appended to the
    document, the timer is set, the video goes to the state, and with it to
    the session manager. *)
Definition effect (s : State) : State :=
  let video := nextVideo s in
  let interval := nextTimer s in
  s <| nextVideo := S video |>
    <| videos ::= <[video := None]> |>
    <| body ::= (.++ [video]) |>
    <| nextTimer := Pos.succ interval |>
    <| intervals ::= <[interval := {| poll_video := video;
                                      poll_youtubeId := youtubeId s |}]> |>
    <| proxyVideo := Some video |>
    <| manager ::= Basic.set_videoElement (λ _, Some (proxy video)) |>
    <| cleanup := Some {| interval := interval; video := video |} |>.

(** The cleanup of the effect: [clearInterval(interval)] and
    [document.body.removeChild(video)]. *)
Definition runCleanup (s : State) : State :=
  match cleanup s with
  | Some c =>
      s <| intervals ::= delete (interval c) |>
        <| body ::= filter (λ v, v ≠ video c) |>
        <| cleanup := None |>
  | None => s
  end.

(** The component mounts: the effect runs on the first render. *)
Definition init (id : string) : State := effect (rendered id).

(** The parent passes another [youtubeId]: the cleanup of the last run,
    then the effect. *)
Definition setYoutubeId (id : string) (s : State) : State :=
  effect (runCleanup s <| youtubeId := id |>).

(** The component unmounts. *)
Definition unmount (s : State) : State := runCleanup s <| mounted := false |>.

(** The callback of the timer, to the assignment of [img.src]. *)
Definition tick (p : Poll) (now : Z) (s : State) : State :=
  s <| loading ::= (.++ [{| img_video := poll_video p;
                            img_src := thumbnail (poll_youtubeId p) now |}]) |>.

(** [img.onload]: the image is drawn on a canvas of its size and the video
    is given the data URL of the canvas, if the canvas has a context.
    [dataUrl] is what [canvas.toDataURL()] gives. *)
Definition onload (i : Image) (context2d : bool) (dataUrl : string)
    (s : State) : State :=
  if context2d then s <| videos ::= <[img_video i := Some dataUrl]> |> else s.

(** [{sessionSummary && (<pre>{sessionSummary}</pre>)}]: the panel of the
    session analytics, rendered while the summary is not empty. *)
Definition summaryPanel (s : State) : option string :=
  if bool_decide (sessionSummary s = "") then None else Some (sessionSummary s).

(** [handleSessionSummary(summary)] *)
Definition handleSessionSummary (summary : string) (s : State) : State :=
  s <| sessionSummary := summary |>.

Inductive Event :=
  | EYoutubeId (id : string)
  | EUnmount
  | ETimer (t : positive) (now : Z)
  | ELoad (i : nat) (context2d : bool) (dataUrl : string)
  | EError (i : nat)
  | EManager (e : Basic.Event).

(** The events of the manager that can happen: its video is the proxy and
    no other; a click needs the manager to be rendered; the timer and the
    promises of its hook need nothing, and go on after the unmount, since
    the hook has no cleanup. *)
Definition manages (e : Basic.Event) (s : State) : bool :=
  match e with
  | Basic.EVideo _ => false
  | Basic.EHook _ => true
  | _ => mounted s
  end.

(** The video the [detect] of the session closes over: [handleStart]
    passes the proxy of the render to [startDetection], which keeps it when
    it passes its guard. *)
Definition startedOn (e : Basic.Event) (s : State) : option nat :=
  match e with
  | Basic.EClickStart =>
      let o := Basic.hook (manager s) in
      if Obj.model o && negb (Obj.isDetecting o) then proxyVideo s
      else detectsOn s
  | _ => detectsOn s
  end.

(** What the manager publishes goes to [sessionSummary]. *)
Definition publish (e : Basic.Event) (m : Basic.State) (s : State) : State :=
  match e, last (Basic.onSessionSummary m) with
  | Basic.EClickSummary _, Some summary => handleSessionSummary summary s
  | _, _ => s
  end.

(** The component after an event [e] that took its manager to [m]. *)
Definition managed (e : Basic.Event) (m : Basic.State) (s : State) : State :=
  publish e m (s <| detectsOn := startedOn e s |> <| manager := m |>).

Section Machine.
Context (tl : Z → string) (stringify : DetectionStats → string).

(** One event, when it can happen.  The parent passes a new prop or
    unmounts a mounted component; a live timer fires; an image that is
    loading loads or fails, and there is no [onerror]; the session manager
    handles its own events. *)
Definition exec (e : Event) (s : State) : option State :=
  match e with
  | EYoutubeId id =>
      if mounted s && negb (bool_decide (id = youtubeId s))
      then Some (setYoutubeId id s) else None
  | EUnmount => if mounted s then Some (unmount s) else None
  | ETimer t now => p ← intervals s !! t; Some (tick p now s)
  | ELoad i context2d dataUrl =>
      img ← loading s !! i;
      Some (onload img context2d dataUrl (s <| loading ::= delete i |>))
  | EError i =>
      _ ← loading s !! i; Some (s <| loading ::= delete i |>)
  | EManager e =>
      if manages e s
      then m ← Basic.exec tl stringify e (manager s); Some (managed e m s)
      else None
  end.

Fixpoint run (es : list Event) (s : State) : option State :=
  match es with
  | [] => Some s
  | e :: es => s' ← exec e s; run es s'
  end.

End Machine.

(** What holds of a mounted component: one proxy in the document, which is
    the video of the state, and one timer, which polls for that video and
    the current [youtubeId]; the cleanup in force is theirs. *)
Record Mounted (s : State) (v : nat) (t : positive) : Prop := {
  mounted_proxy : proxyVideo s = Some v;
  mounted_body : body s = [v];
  mounted_timer :
    intervals s = {[ t := {| poll_video := v;
                             poll_youtubeId := youtubeId s |} ]};
  mounted_cleanup : cleanup s = Some {| interval := t; video := v |};
  mounted_manager : Basic.videoElement (manager s) = Some (proxy v);
}.

(** What holds of every state: a mounted component is as [Mounted] says and
    an unmounted one has left nothing behind; the videos in the document
    are videos that were created; an image that loads for the video of the
    state is a thumbnail of the current [youtubeId]; the hook of the
    manager is in a state it can reach, and while it detects, it detects on
    a video that was created. *)
Record Inv (s : State) : Prop := {
  inv_mounted : mounted s = true → ∃ v t, Mounted s v t;
  inv_unmounted : mounted s = false → body s = [] ∧ intervals s = ∅;
  inv_fresh : ∀ v, proxyVideo s = Some v → v < nextVideo s;
  inv_loading : ∀ img, img ∈ loading s →
    img_video img < nextVideo s ∧
    (proxyVideo s = Some (img_video img) →
     ∃ now, img_src img = thumbnail (youtubeId s) now);
  inv_hook : Obj.reachable (Basic.hook (manager s));
  inv_session :
    Obj.isDetecting (Basic.hook (manager s)) = true → is_Some (detectsOn s);
  inv_detects : ∀ v, detectsOn s = Some v → v < nextVideo s;
}.

(** A visit to one stream, then to another while a thumbnail of the first
    is loading, which loads afterwards. *)
Definition switch : list Event :=
  [ETimer 1 1000; EYoutubeId "stream-b"; ELoad 0 true "data:a"; ETimer 2 2000;
   ELoad 0 true "data:b"].

(** A session is started on the proxy of the stream. *)
Definition recording : list Event :=
  [EManager (Basic.EHook (Obj.EModelLoaded true)); EManager Basic.EClickStart].

(** A session on the proxy sees a car, and its summary is asked for. *)
Definition asked : list Event :=
  [EManager (Basic.EHook (Obj.EModelLoaded true)); EManager Basic.EClickStart;
   EManager (Basic.EHook (Obj.EResolve 0 [Obj.car (9 # 10)] 1000));
   EManager (Basic.EClickSummary 2000)].

Definition after (es : list Event) : State :=
  default (init "stream-a")
    (run show_Z (λ m, show_nat (size m)) es (init "stream-a")).

End Pub.

(** ** The effect and its cleanup *)

Lemma cleanup_Mounted s v t :
  Pub.Mounted s v t →
  Pub.body (Pub.runCleanup s) = [] ∧ Pub.intervals (Pub.runCleanup s) = ∅.
Proof.
  intros [_ Hb Ht Hc _]. unfold Pub.runCleanup. rewrite Hc. simpl.
  rewrite Hb, Ht. split; [|by rewrite delete_singleton_eq].
  by rewrite filter_cons_False by naive_solver.
Qed.

(** The effect, on a state whose last run was cleaned up. *)
Lemma effect_Mounted s :
  Pub.body s = [] → Pub.intervals s = ∅ →
  Pub.Mounted (Pub.effect s) (Pub.nextVideo s) (Pub.nextTimer s).
Proof.
  intros Hb Ht. split; simpl; try done.
  - by rewrite Hb.
  - by rewrite Ht, insert_empty.
Qed.

Lemma PubInv_init id : Pub.Inv (Pub.init id).
Proof.
  split; simpl; try done.
  - intros _. eexists _, _. by apply effect_Mounted.
  - intros v [= <-]. lia.
  - by intros img ?%elem_of_nil.
  - constructor.
Qed.

(** [Mounted] reads six things of the state. *)
Lemma Mounted_same s s' v t :
  Pub.proxyVideo s' = Pub.proxyVideo s → Pub.body s' = Pub.body s →
  Pub.intervals s' = Pub.intervals s → Pub.youtubeId s' = Pub.youtubeId s →
  Pub.cleanup s' = Pub.cleanup s →
  Basic.videoElement (Pub.manager s') = Basic.videoElement (Pub.manager s) →
  Pub.Mounted s v t → Pub.Mounted s' v t.
Proof. intros ?????? []. split; congruence. Qed.

Lemma Mounted_ex_same s s' :
  Pub.proxyVideo s' = Pub.proxyVideo s → Pub.body s' = Pub.body s →
  Pub.intervals s' = Pub.intervals s → Pub.youtubeId s' = Pub.youtubeId s →
  Pub.cleanup s' = Pub.cleanup s →
  Basic.videoElement (Pub.manager s') = Basic.videoElement (Pub.manager s) →
  (∃ v t, Pub.Mounted s v t) → ∃ v t, Pub.Mounted s' v t.
Proof. intros ?????? (v & t & ?). eauto using Mounted_same. Qed.

(** What the cleanup and the effect leave alone. *)
Lemma setYoutubeId_frame id s :
  Pub.loading (Pub.setYoutubeId id s) = Pub.loading s ∧
  Pub.nextVideo (Pub.setYoutubeId id s) = S (Pub.nextVideo s) ∧
  Pub.proxyVideo (Pub.setYoutubeId id s) = Some (Pub.nextVideo s) ∧
  Pub.mounted (Pub.setYoutubeId id s) = Pub.mounted s ∧
  Basic.hook (Pub.manager (Pub.setYoutubeId id s)) = Basic.hook (Pub.manager s) ∧
  Pub.detectsOn (Pub.setYoutubeId id s) = Pub.detectsOn s.
Proof. unfold Pub.setYoutubeId, Pub.runCleanup. by destruct (Pub.cleanup s). Qed.

Lemma unmount_frame s :
  Pub.loading (Pub.unmount s) = Pub.loading s ∧
  Pub.nextVideo (Pub.unmount s) = Pub.nextVideo s ∧
  Pub.proxyVideo (Pub.unmount s) = Pub.proxyVideo s ∧
  Pub.youtubeId (Pub.unmount s) = Pub.youtubeId s ∧
  Pub.manager (Pub.unmount s) = Pub.manager s ∧
  Pub.detectsOn (Pub.unmount s) = Pub.detectsOn s.
Proof. unfold Pub.unmount, Pub.runCleanup. by destruct (Pub.cleanup s). Qed.

Lemma PubInv_setYoutubeId id s :
  Pub.mounted s = true → Pub.Inv s → Pub.Inv (Pub.setYoutubeId id s).
Proof.
  intros Hm [Hmo _ Hf Hl Hh Hs Hd].
  destruct (setYoutubeId_frame id s) as (El & En & Ep & Em & Eh & Ed).
  destruct (Hmo Hm) as (v & t & HM). apply cleanup_Mounted in HM as [Hb Ht].
  split; rewrite ?El, ?En, ?Ep, ?Em, ?Eh, ?Ed; try done.
  - intros _. eexists _, _. by apply effect_Mounted.
  - congruence.
  - intros ? [= <-]. lia.
  - intros img [Hi _]%Hl. split; [lia|]. intros [= ?]. lia.
  - intros v' ?%Hd. lia.
Qed.

Lemma PubInv_unmount s :
  Pub.mounted s = true → Pub.Inv s → Pub.Inv (Pub.unmount s).
Proof.
  intros Hm [Hmo _ Hf Hl Hh Hs Hd]. destruct (Hmo Hm) as (v & t & HM).
  pose proof (cleanup_Mounted _ _ _ HM) as [Hb Ht].
  destruct (unmount_frame s) as (El & En & Ep & Ey & Ea & Ed).
  split; rewrite ?El, ?En, ?Ep, ?Ey, ?Ea, ?Ed; done.
Qed.

Lemma PubInv_tick t p now s :
  Pub.intervals s !! t = Some p → Pub.Inv s → Pub.Inv (Pub.tick p now s).
Proof.
  intros Ht [Hmo Hun Hf Hl Hh Hs Hd]. split; simpl; try done.
  { intros Hm. by apply (Mounted_ex_same s), Hmo. }
  intros img [?| ->%list_elem_of_singleton]%elem_of_app; [by apply Hl|]. simpl.
  destruct (Pub.mounted s) eqn:Hm;
    [|destruct (Hun eq_refl) as [_ He]; by rewrite He in Ht].
  destruct (Hmo eq_refl) as (v & t' & [Hp _ Hi _ _]).
  rewrite Hi in Ht. apply lookup_singleton_Some in Ht as [_ <-]. simpl.
  split; [by apply Hf|]. by exists now.
Qed.

(** An image settles: it leaves the list, and the rest is as it was. *)
Lemma PubInv_settle (i : nat) s :
  Pub.Inv s → Pub.Inv (Pub.set_loading (delete i) s).
Proof.
  intros [Hmo Hun Hf Hl Hh Hs Hd]. split; simpl; try done.
  - intros Hm. by apply (Mounted_ex_same s), Hmo.
  - intros img Hi. apply Hl. eapply elem_of_sublist, sublist_delete. exact Hi.
Qed.

Lemma PubInv_onload img b url s :
  Pub.Inv s → Pub.Inv (Pub.onload img b url s).
Proof.
  intros [Hmo Hun Hf Hl Hh Hs Hd]. unfold Pub.onload. destruct b; [|done].
  split; simpl; try done.
  intros Hm. by apply (Mounted_ex_same s), Hmo.
Qed.

Lemma PubInv_publish e m s : Pub.Inv s → Pub.Inv (Pub.publish e m s).
Proof.
  intros [Hmo Hun Hf Hl Hh Hs Hd]. unfold Pub.publish.
  repeat case_match; try done. split; simpl; try done.
  intros Hm. by apply (Mounted_ex_same s), Hmo.
Qed.

Section Machine.
Context (tl : Z → string) (stringify : DetectionStats → string).
#[local] Abbreviation exec := (Pub.exec tl stringify).
#[local] Abbreviation run := (Pub.run tl stringify).

(** The session manager keeps the video it was given: it has no event that
    sets its prop. *)
Lemma manager_video e m s :
  Pub.manages e s = true →
  Basic.exec tl stringify e (Pub.manager s) = Some m →
  Basic.videoElement m = Basic.videoElement (Pub.manager s).
Proof.
  destruct e as [e0|v| | |now]; simpl; intros Hv He;
    repeat case_match; simplify_option_eq; try done.
  unfold Basic.handleStart. by case_match.
Qed.

(** A manager that detects after an event detected before it, or was
    started by it on the proxy. *)
Lemma manager_session e m s :
  Pub.manages e s = true →
  Basic.exec tl stringify e (Pub.manager s) = Some m →
  Pub.Inv s → Obj.isDetecting (Basic.hook m) = true →
  is_Some (Pub.startedOn e s).
Proof.
  intros Hg He [Hmo _ _ _ _ Hs _].
  destruct e as [e0|v| | |now]; simpl in *; try done.
  - destruct (internal e0) eqn:Hi; [|done].
    destruct (Obj.exec e0 _) as [o|] eqn:E; simplify_eq/=.
    by rewrite (Advanced.internal_isDetecting _ _ _ Hi E).
  - destruct (Hmo Hg) as (v & t & [Hp _ _ _ Hv]).
    destruct (negb _ && negb _) eqn:Hc; simplify_eq.
    apply andb_true_iff in Hc as [Hd%negb_true_iff _].
    unfold Basic.handleStart. rewrite Hv, Hd, Hp. simpl.
    rewrite Obj.startDetection_isDetecting, Hd, orb_false_r. by intros ->.
  - case_match; simplify_eq/=. unfold Obj.stopDetection.
    by destruct (Obj.detectionIntervalRef (Basic.hook (Pub.manager s))).
  - case_match; by simplify_eq/=.
Qed.

Lemma startedOn_fresh e s v :
  Pub.Inv s → Pub.startedOn e s = Some v → v < Pub.nextVideo s.
Proof.
  intros [_ _ Hf _ _ _ Hd]. destruct e; simpl; repeat case_match; eauto.
Qed.

Lemma PubInv_managed e m s :
  Pub.manages e s = true →
  Basic.exec tl stringify e (Pub.manager s) = Some m →
  Pub.Inv s → Pub.Inv (Pub.managed e m s).
Proof.
  intros Hg He HI. apply PubInv_publish.
  pose proof (manager_video e m s Hg He) as Hv.
  pose proof (manager_session e m s Hg He HI) as Hs.
  pose proof (λ v, startedOn_fresh e s v HI) as Hd.
  destruct HI as [Hmo Hun Hf Hl Hh _ _]. split; simpl; try done.
  - intros Hm. by apply (Mounted_ex_same s), Hmo.
  - by eapply basic_exec_reachable.
Qed.

(** The events of the hook do not ask whether the component is mounted. *)
Lemma exec_hook e s :
  exec (Pub.EManager (Basic.EHook e)) s
  = m ← Basic.exec tl stringify (Basic.EHook e) (Pub.manager s);
    Some (Pub.managed (Basic.EHook e) m s).
Proof. done. Qed.

Lemma PubInv_exec e s s' : exec e s = Some s' → Pub.Inv s → Pub.Inv s'.
Proof.
  destruct e as [id| |t now|i b url|i|e]; simpl; intros He HI.
  - destruct (Pub.mounted s) eqn:Hm; [|done]. case_match; simplify_eq.
    by apply PubInv_setYoutubeId.
  - destruct (Pub.mounted s) eqn:Hm; simplify_eq. by apply PubInv_unmount.
  - destruct (Pub.intervals s !! t) eqn:Ht; simplify_eq/=. by eapply PubInv_tick.
  - destruct (Pub.loading s !! i); simplify_eq/=.
    by apply PubInv_onload, PubInv_settle.
  - destruct (Pub.loading s !! i); simplify_eq/=. by apply PubInv_settle.
  - destruct (Pub.manages e s) eqn:Hg; [|done].
    destruct (Basic.exec _ _ e _) as [m|] eqn:E; simplify_eq/=.
    by apply PubInv_managed.
Qed.

Lemma PubInv_run es s s' : run es s = Some s' → Pub.Inv s → Pub.Inv s'.
Proof.
  revert s. induction es as [|e es IH]; intros s Hr ?; simplify_option_eq;
    eauto using PubInv_exec.
Qed.

End Machine.

(** ** What a visit guarantees *)

Section Visit.
Context (tl : Z → string) (stringify : DetectionStats → string).
#[local] Abbreviation run := (Pub.run tl stringify).

(** C17. However the stream is switched, whatever the timers, the images and
    the session manager do, a mounted frame has exactly one proxy in the
    document, the one of its state, exactly one timer, which polls the
    thumbnail of the current [youtubeId] for that proxy, and its session
    manager detects on the proxy. *)
Theorem proxy_is_single es id s :
  run es (Pub.init id) = Some s → Pub.mounted s = true →
  ∃ v t, Pub.proxyVideo s = Some v ∧ Pub.body s = [v] ∧
         Pub.intervals s = {[ t := {| Pub.poll_video := v;
                                      Pub.poll_youtubeId := Pub.youtubeId s |} ]} ∧
         Basic.videoElement (Pub.manager s) = Some (Pub.proxy v).
Proof.
  intros Hr Hm. eapply PubInv_run in Hr as [Hmo _ _ _]; [|apply PubInv_init].
  destruct (Hmo Hm) as (v & t & []). eauto 10.
Qed.

(** After the frame is unmounted, none of the videos its effect created
    is in the document and none of the timers its effect set is live. *)
Theorem unmount_cleans_up es id s :
  run es (Pub.init id) = Some s → Pub.mounted s = false →
  Pub.body s = [] ∧ Pub.intervals s = ∅.
Proof.
  intros Hr Hm. eapply PubInv_run in Hr as [_ Hun _ _]; [|apply PubInv_init]. auto.
Qed.

(** An image that is loading for the proxy of the state is a thumbnail
    of the current stream: what was requested for an earlier stream loads
    into the video of that stream, which is no longer the proxy. *)
Theorem thumbnails_current es id s img :
  run es (Pub.init id) = Some s → img ∈ Pub.loading s →
  Pub.proxyVideo s = Some (Pub.img_video img) →
  ∃ now, Pub.img_src img = Pub.thumbnail (Pub.youtubeId s) now.
Proof.
  intros Hr Hi Hp. eapply PubInv_run in Hr as [_ _ _ Hl]; [|apply PubInv_init].
  by apply Hl.
Qed.

(** C18. A session that runs when the stream is switched goes on, and it goes
    on detecting on the proxy of the stream it was started on: that video
    is no longer the proxy, it has left the document, and no timer requests
    a thumbnail for it. *)
Theorem session_keeps_old_proxy es id id' s s' :
  run es (Pub.init id) = Some s →
  Obj.isDetecting (Basic.hook (Pub.manager s)) = true →
  Pub.exec tl stringify (Pub.EYoutubeId id') s = Some s' →
  Obj.isDetecting (Basic.hook (Pub.manager s')) = true ∧
  ∃ v, Pub.detectsOn s' = Some v ∧ (v ∉ Pub.body s') ∧
       Pub.proxyVideo s' ≠ Some v ∧
       ∀ t p, Pub.intervals s' !! t = Some p → Pub.poll_video p ≠ v.
Proof.
  intros HI%PubInv_run Hd He; [|apply PubInv_init]. simpl in He.
  destruct (Pub.mounted s) eqn:Hm; [|done]. case_match; simplify_eq.
  pose proof (PubInv_setYoutubeId id' s Hm HI) as [Hmo' _ _ _ _ _ _].
  destruct (setYoutubeId_frame id' s) as (El & En & Ep & Em & Eh & Ed).
  destruct HI as [_ _ _ _ _ Hs Hdt]. destruct (Hs Hd) as [v Hv].
  rewrite Eh, Ed. split; [done|]. exists v. split; [done|]. apply Hdt in Hv.
  destruct Hmo' as (v' & t' & [Hp Hb Hi _ _]); [congruence|].
  rewrite Ep in Hp. simplify_eq. rewrite Hb, Hi, Ep. split_and!.
  - rewrite list_elem_of_singleton. lia.
  - intros [= ?]. lia.
  - intros t p [_ <-]%lookup_singleton_Some. simpl. lia.
Qed.

(** C19. A session that runs when the frame is unmounted is not stopped: the
    hook has no cleanup, so its timer stays registered and fires, and the
    detector goes on being called for a component that is gone. *)
Theorem session_outlives_frame es id s s' :
  run es (Pub.init id) = Some s →
  Obj.isDetecting (Basic.hook (Pub.manager s)) = true →
  Pub.exec tl stringify Pub.EUnmount s = Some s' →
  ∃ t, Obj.detectionIntervalRef (Basic.hook (Pub.manager s')) = Some t ∧
       is_Some (Pub.exec tl stringify
                  (Pub.EManager (Basic.EHook (Obj.ETimer t))) s').
Proof.
  intros HI%PubInv_run Hd He; [|apply PubInv_init]. simpl in He.
  destruct (Pub.mounted s) eqn:Hm; simplify_eq.
  destruct (unmount_frame s) as (_ & _ & _ & _ & Ea & _).
  destruct HI as [_ _ _ _ Hh%Obj.Inv_reachable _ _].
  destruct Hh as [_ Hdet Htim _ _]. apply Hdet in Hd as [t Ht].
  exists t. rewrite Ea. split; [done|].
  apply Htim in Ht as [timer Ht]. rewrite exec_hook, Ea. simpl.
  rewrite Ht. by eexists.
Qed.

End Visit.

(** ** Samples *)

Lemma proxy_is_single_witness :
  ∃ v t, Pub.proxyVideo (Pub.after Pub.switch) = Some v ∧
         Pub.body (Pub.after Pub.switch) = [v] ∧
         Pub.intervals (Pub.after Pub.switch) =
           {[ t := {| Pub.poll_video := v;
                      Pub.poll_youtubeId :=
                        Pub.youtubeId (Pub.after Pub.switch) |} ]} ∧
         Basic.videoElement (Pub.manager (Pub.after Pub.switch))
         = Some (Pub.proxy v).
Proof.
  apply (proxy_is_single show_Z (λ m, show_nat (size m)) Pub.switch
           "stream-a"); by vm_compute.
Defined.

Lemma unmount_cleans_up_witness :
  Pub.body (Pub.after (Pub.switch ++ [Pub.EUnmount])) = [] ∧
  Pub.intervals (Pub.after (Pub.switch ++ [Pub.EUnmount])) = ∅.
Proof.
  apply (unmount_cleans_up show_Z (λ m, show_nat (size m))
           (Pub.switch ++ [Pub.EUnmount]) "stream-a"); by vm_compute.
Defined.

Lemma thumbnails_current_witness :
  ∃ now,
    "https://i.ytimg.com/vi/stream-a/maxresdefault.jpg?t=1000"%string
    = Pub.thumbnail (Pub.youtubeId (Pub.after [Pub.ETimer 1 1000])) now.
Proof.
  apply (thumbnails_current show_Z (λ m, show_nat (size m))
           [Pub.ETimer 1 1000] "stream-a" (Pub.after [Pub.ETimer 1 1000])
           {| Pub.img_video := 0;
              Pub.img_src :=
                "https://i.ytimg.com/vi/stream-a/maxresdefault.jpg?t=1000" |});
    [by vm_compute| |by vm_compute].
  apply list_elem_of_lookup. exists 0. by vm_compute.
Defined.

(** The thumbnail that was requested for the first stream loads after the
    switch: it goes to the video of the first stream, which has left the
    document; the proxy gets the thumbnail of the second. *)
Example stale_load_detached :
  Pub.videos (Pub.after Pub.switch) !! 0 = Some (Some "data:a"%string) ∧
  Pub.videos (Pub.after Pub.switch) !! 1 = Some (Some "data:b"%string) ∧
  Pub.body (Pub.after Pub.switch) = [1].
Proof. by vm_compute. Qed.

(** The timer polls whether or not a session is running: no session was
    started, and two thumbnails were requested. *)
Example polls_while_idle :
  Obj.isDetecting (Basic.hook (Pub.manager
    (Pub.after [Pub.ETimer 1 1000; Pub.ETimer 1 2000]))) = false ∧
  length (Pub.loading (Pub.after [Pub.ETimer 1 1000; Pub.ETimer 1 2000])) = 2.
Proof. by vm_compute. Qed.

(** An image that is still loading when the frame is unmounted loads
    afterwards, into a video that is no longer in the document. *)
Example load_after_unmount :
  let s := Pub.after [Pub.ETimer 1 1000; Pub.EUnmount;
                      Pub.ELoad 0 true "data:a"] in
  Pub.mounted s = false ∧ Pub.body s = [] ∧
  Pub.videos s !! 0 = Some (Some "data:a"%string).
Proof. by vm_compute. Qed.

(** The summary the session manager publishes is the text of the panel. *)
Example summary_reaches_panel :
  Pub.summaryPanel (Pub.after []) = None ∧
  Pub.summaryPanel (Pub.after Pub.asked)
  = last (Basic.onSessionSummary (Pub.manager (Pub.after Pub.asked))) ∧
  is_Some (Pub.summaryPanel (Pub.after Pub.asked)).
Proof. split_and!; [done|by vm_compute|]. vm_compute. by eexists. Qed.

Lemma session_keeps_old_proxy_witness :
  let s' := Pub.after (Pub.recording ++ [Pub.EYoutubeId "stream-b"]) in
  Obj.isDetecting (Basic.hook (Pub.manager s')) = true ∧
  ∃ v, Pub.detectsOn s' = Some v ∧ (v ∉ Pub.body s') ∧
       Pub.proxyVideo s' ≠ Some v ∧
       ∀ t p, Pub.intervals s' !! t = Some p → Pub.poll_video p ≠ v.
Proof.
  apply (session_keeps_old_proxy show_Z (λ m, show_nat (size m))
           Pub.recording "stream-a" "stream-b" (Pub.after Pub.recording));
    by vm_compute.
Defined.

Lemma session_outlives_frame_witness :
  let s' := Pub.after (Pub.recording ++ [Pub.EUnmount]) in
  ∃ t, Obj.detectionIntervalRef (Basic.hook (Pub.manager s')) = Some t ∧
       is_Some (Pub.exec show_Z (λ m, show_nat (size m))
                  (Pub.EManager (Basic.EHook (Obj.ETimer t))) s').
Proof.
  apply (session_outlives_frame show_Z (λ m, show_nat (size m))
           Pub.recording "stream-a" (Pub.after Pub.recording));
    by vm_compute.
Defined.
