(* ===== verification/Query.v ===== *)
(** * Query: the API route and the Gemini client

    Models src/app/api/query/route.ts ([Api.POST]) and src/lib/gemini.ts
    ([Api.analyzeImage], [Api.analyzeImageWithContext], [Api.loadGemini]).

    The route reads a JSON body, validates it, sends one prompt to the
    generative model and answers with a status and a JSON payload.  The
    body is a [Body]: either it does not parse, or it gives the four fields
    the route destructures, each a [JsVal].  The model is a section variable
    [generate] that answers a prompt with a text or throws; the clock is
    [toISOString] and [JSON.stringify(sessionData, null, 2)] is
    [stringify].  An exception is a [Thrown] value carrying the message of
    an [Error], or nothing for a value that is not an [Error].  The reply of
    the route is its response together with what it wrote to the console
    and the prompts it sent, so that theorems can speak of them. *)

From Stdlib Require Import ZArith.
From stdpp Require Import base list strings sets.
From S2P Require Import Prelude Text.

Module Api.

(** The fields the route destructures from the body. *)
Record Request := {
  imageData : JsVal;
  query : JsVal;
  cameraName : JsVal;
  sessionData : JsVal;
}.

(** [await req.json()]: a parsed body, or the exception of the parser. *)
Inductive Body :=
  | Malformed (message : option string)
  | Parsed (r : Request).

(** The argument of [model.generateContent]. *)
Inductive Prompt :=
  | TextPrompt (text : string)
  | ImagePrompt (text : string) (data : JsVal) (mimeType : string).

(** What a call of the model gives. *)
Inductive Outcome :=
  | Text (answer : string)
  | Thrown (message : option string).

(** The result object of a query. *)
Record QueryResult := {
  answer : string;
  confidence : string;
  timestamp : string;
}.

(** The JSON payload of a response. *)
Inductive Payload :=
  | Failure (error : string) (details : option string)
  | Success (result : QueryResult).

Record Response := { status : nat; payload : Payload }.

(** A response, the console lines written and the prompts sent. *)
Record Reply := {
  response : Response;
  console : list string;
  sent : list Prompt;
}.

(** A computation that returns or throws, with its console lines. *)
Inductive Try (A : Type) :=
  | Return (a : A) (log : list string)
  | Throw (message : option string) (log : list string).
Arguments Return {A} a log.
Arguments Throw {A} message log.

(** The module body of gemini.ts: it throws when the key is not set. *)
Definition loadGemini (GEMINI_API_KEY : option string) : Try unit :=
  match GEMINI_API_KEY with
  | Some k =>
      if bool_decide (k = "")
      then Throw (Some "GEMINI_API_KEY is not defined in environment variables") []
      else Return () []
  | None => Throw (Some "GEMINI_API_KEY is not defined in environment variables") []
  end.

(** [NextResponse.json({ error }, { status: 400 })] *)
Definition badRequest (error : string) : Reply :=
  {| response := {| status := 400; payload := Failure error None |};
     console := []; sent := [] |}.

(** [error instanceof Error ? error.message : 'Unknown error'] *)
Definition detailsOf (message : option string) : string :=
  default "Unknown error" message.

(** The [catch] of the route. *)
Definition serverError (message : option string) (log : list string)
    (prompts : list Prompt) : Reply :=
  {| response :=
       {| status := 500;
          payload := Failure "Failed to process query"
                       (Some (detailsOf message)) |};
     console := log ++ ["API Route Error:"]; sent := prompts |}.

(** [NextResponse.json({ success: true, result })] *)
Definition ok (result : QueryResult) (prompts : list Prompt) : Reply :=
  {| response := {| status := 200; payload := Success result |};
     console := []; sent := prompts |}.

(** The template literal of [analyzeImageWithContext]. *)
Definition contextualQuery (cameraName : JsVal) (q : string) : string :=
  if truthyV cameraName then
    "You are analyzing a live camera feed from " +:+ toStr cameraName +:+ ". "
      +:+ q +:+ nl +:+ nl
      +:+ "Provide a detailed, accurate answer based on what you see in the image."
  else q.

Section Route.
Context (generate : Prompt → Outcome) (toISOString : string)
        (stringify : JsVal → string).

(** [analyzeImage(imageData, query)] *)
Definition analyzeImage (data : JsVal) (q : string) : Try string :=
  match generate (ImagePrompt q data "image/jpeg") with
  | Text a => Return a []
  | Thrown _ =>
      Throw (Some "Failed to analyze image with AI") ["Gemini API Error:"]
  end.

(** [analyzeImageWithContext(imageData, query, cameraName)] *)
Definition analyzeImageWithContext (data : JsVal) (q : string)
    (camera : JsVal) : Try QueryResult :=
  match analyzeImage data (contextualQuery camera q) with
  | Return a log =>
      Return {| answer := a; confidence := "High"; timestamp := toISOString |}
             log
  | Throw m log => Throw m log
  end.

(** The prompt of a session analytics query: the template literal of the
    route, trimmed. *)
Definition sessionPrompt (data : JsVal) (q : string) : string :=
  joinLines [
    "You are analyzing real-time object detection data from a video surveillance system.";
    "";
    "Session Data:";
    stringify data;
    "";
    "User Question: " +:+ q;
    "";
    "Please provide a detailed, accurate answer based on the detection data provided."
  ].

(** The part of [POST] after validation: the choice of the analysis. *)
Definition dispatch (r : Request) (q : string) : Reply :=
  if truthyV (sessionData r) && negb (truthyV (imageData r)) then
    let p := TextPrompt (sessionPrompt (sessionData r) q) in
    match generate p with
    | Text a =>
        ok {| answer := a; confidence := "High"; timestamp := toISOString |} [p]
    | Thrown m => serverError m [] [p]
    end
  else if truthyV (imageData r) then
    let p := ImagePrompt (contextualQuery (cameraName r) q) (imageData r)
               "image/jpeg" in
    match analyzeImageWithContext (imageData r) q (cameraName r) with
    | Return result _ => ok result [p]
    | Throw m log => serverError m log [p]
    end
  else badRequest "Must provide either imageData or sessionData".

(** [POST(req)] *)
Definition POST (body : Body) : Reply :=
  match body with
  | Malformed m => serverError m [] []
  | Parsed r =>
      if negb (truthyV (query r)) then
        badRequest "Missing required field: query"
      else
        match query r with
        | JStr q =>
            if blank q then badRequest "Query must be a non-empty string"
            else dispatch r q
        | _ => badRequest "Query must be a non-empty string"
        end
  end.

End Route.

(** A request passes the validation of the route: the query is a string
    that is not blank, and an image or session data is given. *)
Definition valid (r : Request) : Prop :=
  (∃ q, query r = JStr q ∧ blank q = false) ∧
  (truthyV (imageData r) = true ∨ truthyV (sessionData r) = true).

#[export] Instance valid_dec r : Decision (valid r).
Proof.
  unfold valid. apply and_dec; [|apply _].
  destruct (query r) as [| | | |q| |];
    try (right; intros (q' & ? & _); congruence).
  destruct (blank q) eqn:E; [right|left]; [|by exists q].
  intros (q' & ? & ?). congruence.
Defined.

(** Sample requests and a model that answers every prompt. *)
Definition imageRequest : Request :=
  {| imageData := JStr "aGVsbG8="; query := JStr "How many cars?";
     cameraName := JStr "WEBCAM"; sessionData := JUndefined |}.

Definition sessionRequest : Request :=
  {| imageData := JUndefined; query := JStr "How many cars?";
     cameraName := JUndefined; sessionData := JObj "{ car: 2 }" |}.

Definition bothRequest : Request :=
  {| imageData := JStr "aGVsbG8="; query := JStr "How many cars?";
     cameraName := JStr "WEBCAM"; sessionData := JObj "{ car: 2 }" |}.

Definition blankRequest : Request :=
  {| imageData := JStr "aGVsbG8="; query := JStr "   ";
     cameraName := JUndefined; sessionData := JUndefined |}.

Definition echo (p : Prompt) : Outcome := Text "Two cars.".

Definition down (p : Prompt) : Outcome := Thrown (Some "503 Service Unavailable").

Definition jsonOf (v : JsVal) : string :=
  match v with JObj j | JArr j _ => j | _ => toStr v end.

(** ** The route *)

Section RouteLaws.
Context (generate : Prompt → Outcome) (toISOString : string)
        (stringify : JsVal → string).
#[local] Abbreviation post := (POST generate toISOString stringify).
#[local] Abbreviation choose := (dispatch generate toISOString stringify).

Lemma truthyV_query_blank q : truthyV (JStr q) = false → blank q = true.
Proof. simpl. rewrite negb_false_iff, bool_decide_eq_true. by intros ->. Qed.

Lemma query_cases r :
  (∃ q, query r = JStr q ∧ blank q = false) ∨
  (∀ q, query r = JStr q → blank q = true).
Proof.
  destruct (query r) as [| | | |q| |]; try (right; intros; congruence).
  destruct (blank q) eqn:E; [right; intros; congruence|left; eauto].
Qed.

(** With a query that is a string and not blank, the route goes on to the
    choice of the analysis. *)
Lemma POST_query r q :
  query r = JStr q → blank q = false → post (Parsed r) = choose r q.
Proof.
  intros Hq Hb. simpl. rewrite Hq.
  destruct (truthyV (JStr q)) eqn:E; simpl; [by rewrite Hb|].
  apply truthyV_query_blank in E. congruence.
Qed.

(** With any other query, it answers 400 at once. *)
Lemma POST_bad_query r :
  (∀ q, query r = JStr q → blank q = true) →
  ∃ error, post (Parsed r) = badRequest error.
Proof.
  intros Hq. simpl. destruct (truthyV (query r)); simpl; [|by eexists].
  destruct (query r) as [| | | |q| |] eqn:E; try by eexists.
  rewrite (Hq q eq_refl). by eexists.
Qed.

Lemma dispatch_status r q :
  status (response (choose r q)) = 400 ↔
  truthyV (imageData r) = false ∧ truthyV (sessionData r) = false.
Proof.
  unfold dispatch, analyzeImageWithContext, analyzeImage.
  destruct (truthyV (sessionData r)), (truthyV (imageData r)); simpl;
    repeat case_match; simpl; naive_solver.
Qed.

(** C7. The route answers 400 exactly to the requests that fail its
    validation: a query that is missing, not a string or blank, or neither
    an image nor session data. *)
Theorem POST_validation r :
  status (response (post (Parsed r))) = 400 ↔ ¬ valid r.
Proof.
  unfold valid. destruct (query_cases r) as [(q & Hq & Hb)|Hbad].
  - rewrite (POST_query r q Hq Hb), dispatch_status. split.
    + intros [H1 H2] [_ [H|H]]; congruence.
    + intros Hn. split; apply not_true_is_false; intros ?; apply Hn; eauto.
  - destruct (POST_bad_query r Hbad) as [e ->]. split; [|done].
    intros _ [(q & Hq & Hb) _]. rewrite (Hbad q Hq) in Hb. done.
Qed.

(** A request that fails validation costs nothing: no prompt is sent
    to the model and nothing is logged. *)
Theorem POST_invalid_silent r :
  ¬ valid r → sent (post (Parsed r)) = [] ∧ console (post (Parsed r)) = [].
Proof.
  intros Hn. destruct (query_cases r) as [(q & Hq & Hb)|Hbad].
  - rewrite (POST_query r q Hq Hb). unfold dispatch.
    destruct (truthyV (sessionData r)) eqn:Es, (truthyV (imageData r)) eqn:Ei;
      simpl; try done; destruct Hn; split; eauto.
  - by destruct (POST_bad_query r Hbad) as [e ->].
Qed.

(** A request with an image is analysed as an image, whether it
    carries session data or not: one image prompt is sent, made of the
    query in its camera context. *)
Theorem POST_image_wins r q :
  query r = JStr q → blank q = false → truthyV (imageData r) = true →
  sent (post (Parsed r)) =
    [ImagePrompt (contextualQuery (cameraName r) q) (imageData r) "image/jpeg"].
Proof.
  intros Hq Hb Hi. rewrite (POST_query r q Hq Hb). unfold dispatch.
  rewrite Hi, andb_false_r. by case_match.
Qed.

(** C26. A valid request sends exactly one prompt; when the model answers,
    the route answers 200 with that text, the confidence "High" and the
    time of the clock, and logs nothing. *)
Theorem POST_answers r :
  valid r →
  ∃ p, sent (post (Parsed r)) = [p] ∧
       ∀ a, generate p = Text a →
            post (Parsed r) =
              ok {| answer := a; confidence := "High";
                    timestamp := toISOString |} [p].
Proof.
  intros [(q & Hq & Hb) Hd]. rewrite (POST_query r q Hq Hb).
  unfold dispatch, analyzeImageWithContext, analyzeImage.
  destruct (truthyV (sessionData r)), (truthyV (imageData r)); simpl;
    [| | |naive_solver]; eexists; (split; [by case_match|]);
    by intros a ->.
Qed.

(** C27. When the model fails on a valid request the route answers 500.  On
    the session path the details are the message of the failure; on the
    image path they are always "Failed to analyze image with AI": the
    message of the failure is logged and lost. *)
Theorem POST_model_failure r m :
  valid r →
  (∀ p, generate p = Thrown m) →
  response (post (Parsed r)) =
    {| status := 500;
       payload := Failure "Failed to process query"
         (Some (if truthyV (imageData r)
                then "Failed to analyze image with AI"
                else detailsOf m)) |} ∧
  console (post (Parsed r)) =
    (if truthyV (imageData r) then ["Gemini API Error:"] else [])
    ++ ["API Route Error:"].
Proof.
  intros [(q & Hq & Hb) Hd] Hg. rewrite (POST_query r q Hq Hb).
  unfold dispatch, analyzeImageWithContext, analyzeImage. rewrite !Hg.
  destruct (truthyV (sessionData r)), (truthyV (imageData r)); simpl;
    naive_solver.
Qed.

(** The route answers 200, 400 or 500, and its payload is a result
    exactly when the status is 200. *)
Theorem POST_status body :
  status (response (post body)) ∈ [200; 400; 500] ∧
  (status (response (post body)) = 200 ↔
   ∃ result, payload (response (post body)) = Success result).
Proof.
  destruct body as [m|r]; [split; [set_solver|naive_solver]|].
  destruct (query_cases r) as [(q & Hq & Hb)|Hbad].
  - rewrite (POST_query r q Hq Hb).
    unfold dispatch, analyzeImageWithContext, analyzeImage.
    destruct (truthyV (sessionData r)), (truthyV (imageData r)); simpl;
      repeat case_match; simpl; (split; [set_solver|naive_solver]).
  - destruct (POST_bad_query r Hbad) as [e ->].
    split; [set_solver|naive_solver].
Qed.

End RouteLaws.

Lemma POST_invalid_silent_witness :
  ¬ valid blankRequest ∧
  sent (POST echo "now" jsonOf (Parsed blankRequest)) = [] ∧
  console (POST echo "now" jsonOf (Parsed blankRequest)) = [].
Proof.
  assert (¬ valid blankRequest) as H
    by (intros [(q & [= <-] & Hb) _]; by vm_compute in Hb).
  split; [exact H|]. exact (POST_invalid_silent echo "now" jsonOf _ H).
Defined.

Lemma POST_image_wins_witness :
  query bothRequest = JStr "How many cars?" ∧
  blank "How many cars?" = false ∧
  truthyV (imageData bothRequest) = true ∧
  sent (POST echo "now" jsonOf (Parsed bothRequest)) =
    [ImagePrompt (contextualQuery (cameraName bothRequest) "How many cars?")
       (imageData bothRequest) "image/jpeg"].
Proof.
  do 3 (split; [by vm_compute|]).
  exact (POST_image_wins echo "now" jsonOf bothRequest "How many cars?"
           eq_refl eq_refl eq_refl).
Defined.

Lemma sessionRequest_valid : valid sessionRequest.
Proof. split; [by eexists|by right]. Qed.

Lemma imageRequest_valid : valid imageRequest.
Proof. split; [by eexists|by left]. Qed.

Lemma POST_answers_witness :
  valid sessionRequest ∧
  ∃ p, sent (POST echo "now" jsonOf (Parsed sessionRequest)) = [p] ∧
       ∀ a, echo p = Text a →
            POST echo "now" jsonOf (Parsed sessionRequest) =
              ok {| answer := a; confidence := "High"; timestamp := "now" |} [p].
Proof.
  split; [exact sessionRequest_valid|].
  exact (POST_answers echo "now" jsonOf sessionRequest sessionRequest_valid).
Defined.

Lemma POST_model_failure_witness :
  valid imageRequest ∧ (∀ p, down p = Thrown (Some "503 Service Unavailable")) ∧
  response (POST down "now" jsonOf (Parsed imageRequest)) =
    {| status := 500;
       payload := Failure "Failed to process query"
         (Some (if truthyV (imageData imageRequest)
                then "Failed to analyze image with AI"
                else detailsOf (Some "503 Service Unavailable"))) |} ∧
  console (POST down "now" jsonOf (Parsed imageRequest)) =
    (if truthyV (imageData imageRequest) then ["Gemini API Error:"] else [])
    ++ ["API Route Error:"].
Proof.
  split; [exact imageRequest_valid|]. split; [done|].
  exact (POST_model_failure down "now" jsonOf imageRequest _
           imageRequest_valid (λ p, eq_refl)).
Defined.

(** The prompt of a session query holds the data and the question. *)
Example session_prompt :
  sent (POST echo "now" jsonOf (Parsed sessionRequest)) =
    [TextPrompt (joinLines [
       "You are analyzing real-time object detection data from a video surveillance system.";
       ""; "Session Data:"; "{ car: 2 }"; ""; "User Question: How many cars?";
       "";
       "Please provide a detailed, accurate answer based on the detection data provided."])].
Proof. by vm_compute. Qed.

End Api.
