(* ===== verification/Sources.v ===== *)
(** * Sources: the video sources

    Models src/components/VideoSelector.tsx (module [Selector]),
    src/components/LiveYouTubeStream.tsx (module [Live]) and
    src/lib/publicCameras.ts ([publicCameras]): the forms in which the user
    names a YouTube video or uploads a file, and the regular expressions
    that take a video id out of what was typed.

    A regular expression of the source is modelled by the function that
    computes its first capture group.  The expressions used are an
    alternative of literal prefixes followed by a run of characters of a
    class, searched from the left ([capture]), and a whole-string test
    ([bareId]).  [alert] is a list of messages in the state.

    The page reads the id back from [iframe.src], which is not the
    attribute the component rendered but that attribute parsed as a URL
    and serialised again.  Module [Url] models the parser and the
    serialiser of the browser, after the URL Standard, for the addresses
    the components render, [https://www.youtube.com] followed by a path
    and a query: the removal of tabs and line breaks, the segments of the
    path with their dot segments and backslashes, and the percent-encoding
    of path, query and fragment.  A string is a sequence of UTF-8 bytes, so
    that a character outside ASCII is percent-encoded byte by byte, as the
    parser does.  The parsing of scheme, credentials, host and port is not
    modelled: [Url.href] answers [None] for an attribute of another
    origin, which no component renders ([live_href_defined]). *)

From Stdlib Require Import ZArith Ascii String.
From stdpp Require Import base list strings.
From S2P Require Import Prelude Text.

#[local] Open Scope string_scope.

(** ** Matching *)

(** [s] without its prefix [p], when it has it. *)
Fixpoint stripPrefix (p s : string) : option string :=
  match p, s with
  | EmptyString, _ => Some s
  | String a p', String b s' =>
      if bool_decide (a = b) then stripPrefix p' s' else None
  | String _ _, EmptyString => None
  end.

(** The longest prefix of [s] made of characters of a class. *)
Fixpoint takeClass (class : ascii → bool) (s : string) : string :=
  match s with
  | String a s' => if class a then String a (takeClass class s') else ""
  | EmptyString => ""
  end.

(** Every character of [s] is of the class. *)
Fixpoint allClass (class : ascii → bool) (s : string) : bool :=
  match s with
  | String a s' => class a && allClass class s'
  | EmptyString => true
  end.

(** [(?:p1|p2|...)([class]+)] at the start of [s]: the alternatives are
    tried in order, and one matches when it is followed by at least one
    character of the class; the group takes all it can. *)
Fixpoint captureAt (prefixes : list string) (class : ascii → bool) (s : string)
  : option string :=
  match prefixes with
  | [] => None
  | p :: rest =>
      match stripPrefix p s with
      | Some t =>
          match takeClass class t with
          | EmptyString => captureAt rest class s
          | c => Some c
          end
      | None => captureAt rest class s
      end
  end.

(** The same expression anywhere in [s]: the leftmost match. *)
Fixpoint capture (prefixes : list string) (class : ascii → bool) (s : string)
  : option string :=
  match captureAt prefixes class s with
  | Some c => Some c
  | None =>
      match s with
      | String _ s' => capture prefixes class s'
      | EmptyString => None
      end
  end.

(** [[^&\n?#]] *)
Definition idChar (a : ascii) : bool :=
  negb (bool_decide (nat_of_ascii a ∈ [38; 10; 63; 35])).

(** [[^?]] *)
Definition notQuestion (a : ascii) : bool :=
  negb (bool_decide (nat_of_ascii a = 63)).

(** [[a-zA-Z0-9_-]] *)
Definition wordChar (a : ascii) : bool :=
  let n := nat_of_ascii a in
  (bool_decide (97 ≤ n ≤ 122) || bool_decide (65 ≤ n ≤ 90)
   || bool_decide (48 ≤ n ≤ 57) || bool_decide (n = 95)
   || bool_decide (n = 45))%nat.

(** [/^([a-zA-Z0-9_-]{11})$/] *)
Definition bareId (url : string) : option string :=
  if bool_decide (String.length url = 11) && allClass wordChar url
  then Some url else None.

(** [for (const pattern of patterns) { ... if (match) return match[1] }] *)
Definition firstMatch (prefixes : list string) (url : string) : option string :=
  match capture prefixes idChar url with
  | Some c => Some c
  | None => bareId url
  end.

(** [/embed\/([^?]+)/], the expression the page applies to the [src] of the
    frame. *)
Definition embedId (src : string) : option string :=
  capture ["embed/"] notQuestion src.

(** ** The [src] of a frame, read back *)

Module Url.

Definition oneOf (codes : list nat) (a : ascii) : bool :=
  bool_decide (nat_of_ascii a ∈ codes).

(** An ASCII tab or newline; a C0 control or space. *)
Definition tabOrNewline : ascii → bool := oneOf [9; 10; 13].
Definition c0OrSpace (a : ascii) : bool :=
  bool_decide (nat_of_ascii a ≤ 32)%nat.

(** The percent-encode sets: C0 controls and all that lies above [~], then
    what the fragment, the query of a special scheme and the path add. *)
Definition c0Set (a : ascii) : bool :=
  bool_decide (nat_of_ascii a < 32)%nat || bool_decide (126 < nat_of_ascii a)%nat.
Definition fragmentSet (a : ascii) : bool :=
  c0Set a || oneOf [32; 34; 60; 62; 96] a.
Definition querySet (a : ascii) : bool :=
  c0Set a || oneOf [32; 34; 35; 60; 62] a.
Definition specialQuerySet (a : ascii) : bool := querySet a || oneOf [39] a.
Definition pathSet (a : ascii) : bool :=
  querySet a || oneOf [63; 94; 96; 123; 125] a.

(** A byte percent-encoded: [%] and two upper-case hexadecimal digits. *)
Definition hexDigit (n : nat) : ascii :=
  ascii_of_nat (if bool_decide (n < 10)%nat then 48 + n else 55 + n)%nat.

Definition percent (a : ascii) : string :=
  String "%" (String (hexDigit (nat_of_ascii a / 16)%nat)
                (String (hexDigit (nat_of_ascii a mod 16)%nat) "")).

Definition encode (set : ascii → bool) (a : ascii) : string :=
  if set a then percent a else String a "".

Fixpoint encodeAll (set : ascii → bool) (s : string) : string :=
  match s with
  | String a s' => encode set a +:+ encodeAll set s'
  | EmptyString => ""
  end.

(** [s] without the characters of a class. *)
Fixpoint remove (class : ascii → bool) (s : string) : string :=
  match s with
  | String a s' => if class a then remove class s' else String a (remove class s')
  | EmptyString => ""
  end.

(** [s] without its leading and without its trailing characters of a
    class. *)
Fixpoint stripStart (class : ascii → bool) (s : string) : string :=
  match s with
  | String a s' => if class a then stripStart class s' else s
  | EmptyString => ""
  end.

Fixpoint stripEnd (class : ascii → bool) (s : string) : string :=
  match s with
  | String a s' =>
      match stripEnd class s' with
      | EmptyString => if class a then "" else String a ""
      | t => String a t
      end
  | EmptyString => ""
  end.

(** A single-dot and a double-dot segment, [%2e] standing for the dot in
    either case. *)
Definition singleDot (buffer : string) : bool :=
  bool_decide (buffer ∈ ["."; "%2e"; "%2E"]).

Definition doubleDot (buffer : string) : bool :=
  bool_decide (buffer ∈ [".."; ".%2e"; ".%2E"; "%2e."; "%2E."; "%2e%2e";
                         "%2e%2E"; "%2E%2e"; "%2E%2E"]).

(** What the parser keeps of an address after its host. *)
Record Parsed := {
  path : list string;
  query : option string;
  fragment : option string;
}.

(** The end of a segment of the path: a double-dot segment shortens the
    path, a single-dot segment is dropped, and either leaves an empty last
    segment when no slash follows; any other segment is appended. *)
Definition endSegment (buffer : string) (slash : bool) (p : list string)
  : list string :=
  if doubleDot buffer then
    (if slash then removelast p else removelast p ++ [""])
  else if singleDot buffer then (if slash then p else p ++ [""])
  else p ++ [buffer].

(** Fragment state. *)
Definition fragmentState (input : string) : string :=
  encodeAll fragmentSet input.

(** Query state, of a special scheme: up to the hash. *)
Fixpoint queryState (input : string) : string * option string :=
  match input with
  | String c rest =>
      if oneOf [35] c then ("", Some (fragmentState rest))
      else let '(q, f) := queryState rest in
           (encode specialQuerySet c +:+ q, f)
  | EmptyString => ("", None)
  end.

(** Path state, of a special scheme: a slash or a backslash ends a
    segment, a question mark or a hash ends the path. *)
Fixpoint pathState (input buffer : string) (p : list string) : Parsed :=
  match input with
  | String c rest =>
      if oneOf [47; 92] c then pathState rest "" (endSegment buffer true p)
      else if oneOf [63] c then
        let '(q, f) := queryState rest in
        {| path := endSegment buffer false p; query := Some q; fragment := f |}
      else if oneOf [35] c then
        {| path := endSegment buffer false p; query := None;
           fragment := Some (fragmentState rest) |}
      else pathState rest (buffer +:+ encode pathSet c) p
  | EmptyString =>
      {| path := endSegment buffer false p; query := None; fragment := None |}
  end.

(** Path start state: the slash after the host is not part of a
    segment. *)
Definition pathStart (input : string) : Parsed :=
  match input with
  | String c rest =>
      if oneOf [47; 92] c then pathState rest "" [] else pathState input "" []
  | EmptyString => pathState "" "" []
  end.

(** The host ends where the input ends or at a slash, a backslash, a
    question mark or a hash. *)
Definition hostEnds (input : string) : bool :=
  match input with
  | String c _ => oneOf [47; 92; 63; 35] c
  | EmptyString => true
  end.

(** The serialiser, after the host. *)
Definition serialise (u : Parsed) : string :=
  String.concat "" ((λ segment, "/" +:+ segment) <$> path u)
  +:+ from_option (λ q, "?" +:+ q) "" (query u)
  +:+ from_option (λ f, "#" +:+ f) "" (fragment u).

(** The origin of the frames the components render. *)
Definition origin : string := "https://www.youtube.com".

(** [iframe.src]: the attribute without its leading and trailing C0
    controls and spaces and without its tabs and newlines, parsed and
    serialised. *)
Definition href (attribute : string) : option string :=
  let input :=
    remove tabOrNewline (stripEnd c0OrSpace (stripStart c0OrSpace attribute)) in
  rest ← stripPrefix origin input;
  if hostEnds rest then Some (origin +:+ serialise (pathStart rest)) else None.

(** [iframe.src] of the frame a component renders, when it renders one:
    [attribute] is the [src] of the JSX. *)
Definition srcOf (attribute : option string) : option string :=
  attribute ≫= href.

(** The characters the parser leaves alone in a segment of the path, and
    in a query. *)
Definition plainChar (a : ascii) : bool := negb (pathSet a || oneOf [47; 92] a).
Definition queryChar (a : ascii) : bool := negb (specialQuerySet a).

(** An id that is one segment the parser leaves as it is. *)
Definition plain (i : string) : bool :=
  allClass plainChar i && negb (singleDot i || doubleDot i).

End Url.

(** ['youtube' | 'upload'] and ['file' | 'youtube'] *)
Inductive InputMode := ModeYoutube | ModeUpload.
Inductive VideoType := TypeFile | TypeYoutube.

(** [publicCameras] *)
Record PublicCamera := {
  cam_id : string;
  cam_name : string;
  youtubeId : string;
  cam_type : VideoType;
}.

(** A string between double quotes. *)
Definition quoted (s : string) : string :=
  String (ascii_of_nat 34) s +:+ String (ascii_of_nat 34) "".

Definition publicCameras : list PublicCamera := [
  {| cam_id := "youtube-1";
     cam_name := "Search YouTube for: " +:+ quoted "Shibuya crossing live 24/7";
     youtubeId := ""; cam_type := TypeYoutube |};
  {| cam_id := "youtube-2";
     cam_name := "Search YouTube for: " +:+ quoted "Times Square live 24/7";
     youtubeId := ""; cam_type := TypeYoutube |};
  {| cam_id := "youtube-3";
     cam_name := "Search YouTube for: " +:+ quoted "Tokyo live camera";
     youtubeId := ""; cam_type := TypeYoutube |}
].

Module Selector.

(** The component's state, the calls of [onVideoSelect] and the alerts. *)
Record State := {
  youtubeUrl : string;
  uploadedVideo : option string;
  youtubeVideoId : option string;
  inputMode : InputMode;
  onVideoSelect : list (string * VideoType);
  alerts : list string;
  revoked : list string;
}.

Definition init : State := {|
  youtubeUrl := ""; uploadedVideo := None; youtubeVideoId := None;
  inputMode := ModeYoutube; onVideoSelect := []; alerts := []; revoked := [];
|}.

(** [extractYoutubeId(url)] *)
Definition extractYoutubeId (url : string) : option string :=
  firstMatch ["youtube.com/watch?v="; "youtu.be/"; "youtube.com/embed/"] url.

(** [handleYoutubeSubmit] *)
Definition handleYoutubeSubmit (s : State) : State :=
  match extractYoutubeId (youtubeUrl s) with
  | Some videoId =>
      {| youtubeUrl := youtubeUrl s; uploadedVideo := uploadedVideo s;
         youtubeVideoId := Some videoId; inputMode := inputMode s;
         onVideoSelect := onVideoSelect s ++ [(videoId, TypeYoutube)];
         alerts := alerts s; revoked := revoked s |}
  | None =>
      {| youtubeUrl := youtubeUrl s; uploadedVideo := uploadedVideo s;
         youtubeVideoId := youtubeVideoId s; inputMode := inputMode s;
         onVideoSelect := onVideoSelect s;
         alerts := alerts s ++ ["Invalid YouTube URL. Please try again."];
         revoked := revoked s |}
  end.

(** [handleFileUpload]: [file] is the first chosen file, as its MIME type
    and the object URL the browser makes for it. *)
Definition handleFileUpload (file : option (string * string)) (s : State)
  : State :=
  match file with
  | Some (type, url) =>
      if String.prefix "video/" type then
        {| youtubeUrl := youtubeUrl s; uploadedVideo := Some url;
           youtubeVideoId := None; inputMode := inputMode s;
           onVideoSelect := onVideoSelect s ++ [(url, TypeFile)];
           alerts := alerts s; revoked := revoked s |}
      else s
  | None => s
  end.

(** [handleReset] *)
Definition handleReset (s : State) : State :=
  {| youtubeUrl := ""; uploadedVideo := None; youtubeVideoId := None;
     inputMode := inputMode s; onVideoSelect := onVideoSelect s;
     alerts := alerts s;
     revoked := match uploadedVideo s with
                | Some url => revoked s ++ [url]
                | None => revoked s
                end |}.

(** The [src] of the frame the component renders. *)
Definition iframeSrc (s : State) : option string :=
  (λ i, "https://www.youtube.com/embed/" +:+ i +:+ "?enablejsapi=1")
    <$> youtubeVideoId s.

(** What the user does. *)
Inductive Event :=
  | EInput (url : string)
  | EMode (m : InputMode)
  | ESubmit
  | EUpload (file : option (string * string))
  | EReset.

Definition exec (e : Event) (s : State) : State :=
  match e with
  | EInput url =>
      {| youtubeUrl := url; uploadedVideo := uploadedVideo s;
         youtubeVideoId := youtubeVideoId s; inputMode := inputMode s;
         onVideoSelect := onVideoSelect s; alerts := alerts s;
         revoked := revoked s |}
  | EMode m =>
      {| youtubeUrl := youtubeUrl s; uploadedVideo := uploadedVideo s;
         youtubeVideoId := youtubeVideoId s; inputMode := m;
         onVideoSelect := onVideoSelect s; alerts := alerts s;
         revoked := revoked s |}
  | ESubmit => handleYoutubeSubmit s
  | EUpload file => handleFileUpload file s
  | EReset => handleReset s
  end.

Definition run (es : list Event) (s : State) : State := foldl (flip exec) s es.

End Selector.

Module Live.

Record State := {
  inputUrl : string;
  videoId : option string;
  alerts : list string;
}.

Definition init : State := {| inputUrl := ""; videoId := None; alerts := [] |}.

(** [extractVideoId(url)] *)
Definition extractVideoId (url : string) : option string :=
  firstMatch ["youtube.com/watch?v="; "youtu.be/"; "youtube.com/embed/";
              "youtube.com/live/"] url.

(** [handleSubmit] *)
Definition handleSubmit (s : State) : State :=
  match extractVideoId (inputUrl s) with
  | Some i => {| inputUrl := inputUrl s; videoId := Some i; alerts := alerts s |}
  | None =>
      {| inputUrl := inputUrl s; videoId := videoId s;
         alerts := alerts s ++ ["Invalid YouTube URL. Please try again."] |}
  end.

(** [handleReset] *)
Definition handleReset (s : State) : State :=
  {| inputUrl := ""; videoId := None; alerts := alerts s |}.

(** The [src] of the frame the component renders. *)
Definition iframeSrc (s : State) : option string :=
  (λ i, "https://www.youtube.com/embed/" +:+ i
        +:+ "?autoplay=1&mute=0&controls=1") <$> videoId s.

(** What the user does: typing, submitting, resetting. *)
Inductive Event :=
  | EInput (url : string)
  | ESubmit
  | EReset.

Definition exec (e : Event) (s : State) : State :=
  match e with
  | EInput url => {| inputUrl := url; videoId := videoId s; alerts := alerts s |}
  | ESubmit => handleSubmit s
  | EReset => handleReset s
  end.

Definition run (es : list Event) (s : State) : State := foldl (flip exec) s es.

(** The sample: the address of a live stream is typed. *)
Definition typed : State :=
  exec (EInput "https://youtube.com/live/jfKfPfyJRdk?feature=share") init.

End Live.

(** ** Laws of matching *)

Lemma append_String a s t : String a s +:+ t = String a (s +:+ t).
Proof. done. Qed.

Lemma append_empty t : "" +:+ t = t.
Proof. done. Qed.

Lemma takeClass_allClass cls s : allClass cls (takeClass cls s) = true.
Proof.
  induction s as [|a s IH]; simpl; [done|].
  destruct (cls a) eqn:E; simpl; [|done]. by rewrite E.
Qed.

Lemma takeClass_app cls c a rest :
  allClass cls c = true → cls a = false →
  takeClass cls (c +:+ String a rest) = c.
Proof.
  intros Hc Ha. induction c as [|b c IH]; simpl in *; [by rewrite Ha|].
  apply andb_prop in Hc as [-> Hc]. by rewrite IH.
Qed.

Lemma allClass_impl (f g : ascii → bool) s :
  (∀ a, f a = true → g a = true) → allClass f s = true → allClass g s = true.
Proof.
  intros Hfg. induction s as [|a s IH]; simpl; [done|].
  intros [Ha Hs]%andb_prop. by rewrite (Hfg a Ha), IH.
Qed.

Lemma captureAt_class ps cls s c :
  captureAt ps cls s = Some c → c ≠ "" ∧ allClass cls c = true.
Proof.
  induction ps as [|p ps IH]; simpl; [done|].
  destruct (stripPrefix p s) as [t|]; [|done].
  destruct (takeClass cls t) eqn:E; [done|]. intros [= <-].
  split; [done|]. rewrite <-E. apply takeClass_allClass.
Qed.

(** A capture is never empty and holds characters of its class only. *)
Lemma capture_class ps cls s c :
  capture ps cls s = Some c → c ≠ "" ∧ allClass cls c = true.
Proof.
  induction s as [|a s IH]; simpl.
  - destruct (captureAt ps cls "") eqn:E; [|done].
    intros [= <-]. by eapply captureAt_class.
  - destruct (captureAt ps cls (String a s)) eqn:E; [|done].
    intros [= <-]. by eapply captureAt_class.
Qed.

Lemma wordChar_idChar a : wordChar a = true → idChar a = true.
Proof. destruct a as [[] [] [] [] [] [] [] []]; by vm_compute. Qed.

Lemma idChar_notQuestion a : idChar a = true → notQuestion a = true.
Proof. destruct a as [[] [] [] [] [] [] [] []]; by vm_compute. Qed.

Lemma bareId_class url i :
  bareId url = Some i → i ≠ "" ∧ allClass idChar i = true.
Proof.
  unfold bareId. case_match eqn:E; [|done]. intros [= <-].
  apply andb_prop in E as [Hl%bool_decide_eq_true Hc]. split.
  - by intros ->.
  - exact (allClass_impl wordChar idChar _ wordChar_idChar Hc).
Qed.

(** An id taken from what the user typed is never empty and holds none of
    the characters that end a parameter of a URL: ampersand, line feed,
    question mark and hash. *)
Lemma firstMatch_class ps url i :
  firstMatch ps url = Some i → i ≠ "" ∧ allClass idChar i = true.
Proof.
  unfold firstMatch. destruct (capture ps idChar url) as [c|] eqn:E.
  - intros [= <-]. by eapply capture_class.
  - apply bareId_class.
Qed.

(** The page's expression finds, in the [src] of a frame, the id the frame
    was made from. *)
Lemma embedId_src c q :
  c ≠ "" → allClass notQuestion c = true →
  embedId ("https://www.youtube.com/embed/" +:+ c +:+ "?" +:+ q) = Some c.
Proof.
  intros Hne Hc. unfold embedId. rewrite !append_String, !append_empty. simpl.
  rewrite (takeClass_app notQuestion c "?" q Hc eq_refl).
  by destruct c.
Qed.

Lemma firstMatch_embedId ps url i q :
  firstMatch ps url = Some i →
  embedId ("https://www.youtube.com/embed/" +:+ i +:+ "?" +:+ q) = Some i.
Proof.
  intros [Hne Hc]%firstMatch_class. apply embedId_src; [done|].
  exact (allClass_impl idChar notQuestion _ idChar_notQuestion Hc).
Qed.

(** ** Laws of the URL parser *)

Lemma allClass_app cls s t :
  allClass cls (s +:+ t) = allClass cls s && allClass cls t.
Proof.
  induction s as [|a s IH]; [done|].
  rewrite append_String. simpl. by rewrite IH, andb_assoc.
Qed.

Lemma append_assoc s t u : (s +:+ t) +:+ u = s +:+ t +:+ u.
Proof. induction s as [|b s IH]; [done|]. by rewrite !append_String, IH. Qed.

Lemma append_assoc_String s a t : (s +:+ String a "") +:+ t = s +:+ String a t.
Proof. by rewrite append_assoc. Qed.

Lemma append_empty_r s : s +:+ "" = s.
Proof. induction s as [|b s IH]; [done|]. by rewrite append_String, IH. Qed.

Lemma stripPrefix_app p r : stripPrefix p (p +:+ r) = Some r.
Proof.
  induction p as [|a p IH]; [by destruct r|].
  rewrite append_String. simpl. by rewrite bool_decide_eq_true_2.
Qed.

Lemma plainChar_visible a :
  Url.plainChar a = true → negb (Url.c0OrSpace a) = true.
Proof. destruct a as [[] [] [] [] [] [] [] []]; by vm_compute. Qed.

Lemma queryChar_visible a :
  Url.queryChar a = true → negb (Url.c0OrSpace a) = true.
Proof. destruct a as [[] [] [] [] [] [] [] []]; by vm_compute. Qed.

Lemma visible_not_tab a :
  negb (Url.c0OrSpace a) = true → negb (Url.tabOrNewline a) = true.
Proof. destruct a as [[] [] [] [] [] [] [] []]; by vm_compute. Qed.

Lemma plainChar_path a :
  Url.plainChar a = true →
  Url.oneOf [47; 92] a = false ∧ Url.oneOf [63] a = false ∧
  Url.oneOf [35] a = false ∧ Url.pathSet a = false.
Proof. destruct a as [[] [] [] [] [] [] [] []]; by vm_compute. Qed.

Lemma queryChar_query a :
  Url.queryChar a = true →
  Url.oneOf [35] a = false ∧ Url.specialQuerySet a = false.
Proof. destruct a as [[] [] [] [] [] [] [] []]; by vm_compute. Qed.

Lemma plainChar_notQuestion a : Url.plainChar a = true → notQuestion a = true.
Proof. destruct a as [[] [] [] [] [] [] [] []]; by vm_compute. Qed.

Lemma wordChar_plainChar a : wordChar a = true → Url.plainChar a = true.
Proof. destruct a as [[] [] [] [] [] [] [] []]; by vm_compute. Qed.

(** Stripping and removing a class leave a string without characters of
    the class as it is. *)
Lemma remove_id cls s :
  allClass (λ a, negb (cls a)) s = true → Url.remove cls s = s.
Proof.
  induction s as [|a s IH]; simpl; [done|].
  intros [Ha%negb_true_iff Hs]%andb_prop. by rewrite Ha, IH.
Qed.

Lemma stripStart_id cls s :
  allClass (λ a, negb (cls a)) s = true → Url.stripStart cls s = s.
Proof. destruct s as [|a s]; simpl; [done|]. by intros [->%negb_true_iff _]%andb_prop. Qed.

Lemma stripEnd_id cls s :
  allClass (λ a, negb (cls a)) s = true → Url.stripEnd cls s = s.
Proof.
  induction s as [|a s IH]; simpl; [done|].
  intros [Ha%negb_true_iff Hs]%andb_prop. rewrite IH, Ha by done. by destruct s.
Qed.

(** The input of the parser is the attribute itself when the attribute
    holds no control character and no space. *)
Lemma input_id s :
  allClass (λ a, negb (Url.c0OrSpace a)) s = true →
  Url.remove Url.tabOrNewline
    (Url.stripEnd Url.c0OrSpace (Url.stripStart Url.c0OrSpace s)) = s.
Proof.
  intros Hs. rewrite stripStart_id, stripEnd_id by done. apply remove_id.
  revert Hs. apply allClass_impl, visible_not_tab.
Qed.

(** A query of characters outside the percent-encode set is kept. *)
Lemma queryState_queryChar q :
  allClass Url.queryChar q = true → Url.queryState q = (q, None).
Proof.
  induction q as [|c q IH]; simpl; [done|].
  intros [[Hh He]%queryChar_query Hq]%andb_prop.
  rewrite Hh, (IH Hq). unfold Url.encode. by rewrite He.
Qed.

(** The path state reads a run of plain characters into its buffer. *)
Lemma pathState_plain w c rest buffer p :
  allClass Url.plainChar w = true →
  Url.pathState (w +:+ String c rest) buffer p
  = Url.pathState (String c rest) (buffer +:+ w) p.
Proof.
  revert buffer. induction w as [|a w IH]; intros buffer.
  - by rewrite append_empty, append_empty_r.
  - rewrite append_String. simpl.
    intros [(Hs & Hq & Hh & He)%plainChar_path Hw]%andb_prop.
    rewrite Hs, Hq, Hh, (IH _ Hw). unfold Url.encode.
    by rewrite He, append_assoc_String.
Qed.

(** The parser leaves an address of the frame as it is when the id is one
    plain segment and the query needs no encoding. *)
Lemma href_embed i q :
  Url.plain i = true → allClass Url.queryChar q = true →
  Url.href ("https://www.youtube.com/embed/" +:+ i +:+ "?" +:+ q)
  = Some ("https://www.youtube.com/embed/" +:+ i +:+ "?" +:+ q).
Proof.
  intros [Hi Hd%negb_true_iff]%andb_prop Hq. unfold Url.href.
  rewrite input_id.
  2:{ rewrite !allClass_app, (allClass_impl _ _ _ plainChar_visible Hi).
      by rewrite (allClass_impl _ _ _ queryChar_visible Hq). }
  change ("https://www.youtube.com/embed/" +:+ ?r)
    with (Url.origin +:+ String "/" ("embed" +:+ String "/" r)).
  rewrite stripPrefix_app. simpl. f_equal. f_equal.
  change (Url.endSegment _ true []) with ["embed"].
  change ("?" +:+ q) with (String "?" q).
  rewrite (pathState_plain i) by done.
  change (Url.pathState (String "?" q) ?b ?p)
    with (let '(q', f) := Url.queryState q in
          {| Url.path := Url.endSegment b false p; Url.query := Some q';
             Url.fragment := f |}).
  rewrite queryState_queryChar, append_empty by done.
  unfold Url.endSegment at 1. apply orb_false_elim in Hd as [-> ->].
  unfold Url.serialise. simpl. by rewrite !append_empty_r.
Qed.

(** An id of YouTube's alphabet is plain. *)
Lemma wordChar_plain i : allClass wordChar i = true → Url.plain i = true.
Proof.
  intros Hi. unfold Url.plain.
  rewrite (allClass_impl _ _ _ wordChar_plainChar Hi). simpl.
  apply negb_true_iff, orb_false_intro; apply bool_decide_eq_false_2;
    rewrite !elem_of_cons, elem_of_nil; intros Hd; destruct_or!; subst;
    by vm_compute in Hi.
Qed.

(** The page's expression applied to the address the browser makes of a
    frame finds the id, when the id is one plain segment. *)
Lemma readback_plain i q :
  i ≠ "" → Url.plain i = true → allClass Url.queryChar q = true →
  Url.href ("https://www.youtube.com/embed/" +:+ i +:+ "?" +:+ q) ≫= embedId
  = Some i.
Proof.
  intros Hne Hp Hq. rewrite href_embed by done. simpl.
  apply embedId_src; [done|]. apply andb_prop in Hp as [Hp _].
  exact (allClass_impl _ _ _ plainChar_notQuestion Hp).
Qed.

(** C37. An id that is one plain segment of a path, as the ids of YouTube
    are, comes back from the frame as the form accepted it: after a submit
    that extracts such an [i], the page's expression applied to
    [iframe.src], the rendered attribute parsed and serialised by the
    browser, gives [i] again. *)
Theorem live_roundtrip s i :
  Live.extractVideoId (Live.inputUrl s) = Some i →
  Url.plain i = true →
  Url.srcOf (Live.iframeSrc (Live.handleSubmit s)) ≫= embedId = Some i.
Proof.
  intros Hi Hp. unfold Url.srcOf, Live.handleSubmit, Live.iframeSrc.
  rewrite Hi. simpl. apply firstMatch_class in Hi as [Hne _].
  exact (readback_plain i "autoplay=1&mute=0&controls=1" Hne Hp eq_refl).
Qed.

Lemma live_roundtrip_witness :
  Live.extractVideoId (Live.inputUrl Live.typed) = Some "jfKfPfyJRdk" ∧
  Url.plain "jfKfPfyJRdk" = true ∧
  Url.srcOf (Live.iframeSrc (Live.handleSubmit Live.typed)) ≫= embedId
  = Some "jfKfPfyJRdk".
Proof.
  assert (Live.extractVideoId (Live.inputUrl Live.typed) = Some "jfKfPfyJRdk")
    as H by (by vm_compute).
  assert (Url.plain "jfKfPfyJRdk" = true) as Hp by (by vm_compute).
  split; [exact H|]. split; [exact Hp|]. exact (live_roundtrip _ _ H Hp).
Defined.

(** An id of YouTube's alphabet comes back as it was accepted, and so does
    every id typed bare: the second expression of the form accepts eleven
    characters of that alphabet only. *)
Theorem youtube_id_roundtrip s i :
  Live.extractVideoId (Live.inputUrl s) = Some i →
  allClass wordChar i = true →
  Url.srcOf (Live.iframeSrc (Live.handleSubmit s)) ≫= embedId = Some i.
Proof.
  intros Hi Hw%wordChar_plain. unfold Url.srcOf, Live.handleSubmit, Live.iframeSrc.
  rewrite Hi. simpl. apply firstMatch_class in Hi as [Hne _].
  exact (readback_plain i "autoplay=1&mute=0&controls=1" Hne Hw eq_refl).
Qed.

Lemma bareId_word url i : bareId url = Some i → allClass wordChar i = true.
Proof.
  unfold bareId. case_match eqn:E; [|done]. intros [= <-].
  by apply andb_prop in E as [_ ?].
Qed.

(** The start of an address is kept by the preparation of the input when
    it holds no control character and no space. *)
Lemma remove_app cls p r :
  Url.remove cls (p +:+ r) = Url.remove cls p +:+ Url.remove cls r.
Proof.
  induction p as [|a p IH]; [done|].
  rewrite append_String. simpl. rewrite IH. by destruct (cls a).
Qed.

Lemma stripStart_app cls a p r :
  cls a = false → Url.stripStart cls (String a p +:+ r) = String a p +:+ r.
Proof. intros Ha. rewrite append_String. simpl. by rewrite Ha. Qed.

Lemma stripEnd_app cls p r :
  allClass (λ a, negb (cls a)) p = true →
  Url.stripEnd cls (p +:+ r) = p +:+ Url.stripEnd cls r.
Proof.
  induction p as [|a p IH]; [done|].
  rewrite !append_String. simpl.
  intros [Ha%negb_true_iff Hp]%andb_prop. rewrite IH, Ha by done.
  by destruct (p +:+ Url.stripEnd cls r).
Qed.

(** Every address of a frame of YouTube is read by the parser, whatever
    follows [embed/]: the path starts with the segment [embed]. *)
Lemma href_frame r :
  Url.href ("https://www.youtube.com/embed/" +:+ r)
  = Some (Url.origin +:+
          Url.serialise
            (Url.pathState
               (Url.remove Url.tabOrNewline (Url.stripEnd Url.c0OrSpace r))
               "" ["embed"])).
Proof.
  unfold Url.href.
  rewrite stripStart_app, stripEnd_app, remove_app by done.
  change (Url.remove _ "https://www.youtube.com/embed/")
    with (Url.origin +:+ "/embed/").
  by rewrite append_assoc, stripPrefix_app.
Qed.

(** Every frame the live stream component renders has an address the
    parser reads. *)
Lemma live_href_defined s :
  is_Some (Live.iframeSrc s) → is_Some (Url.srcOf (Live.iframeSrc s)).
Proof.
  unfold Live.iframeSrc. destruct (Live.videoId s) as [i|]; [intros _|done].
  simpl. by rewrite href_frame.
Qed.

Lemma selector_href_defined s :
  is_Some (Selector.iframeSrc s) → is_Some (Url.srcOf (Selector.iframeSrc s)).
Proof.
  unfold Selector.iframeSrc.
  destruct (Selector.youtubeVideoId s) as [i|]; [intros _|done].
  simpl. by rewrite href_frame.
Qed.

(** The parser at work: an address without a path gets the path [/]; dot
    segments are resolved and cannot climb above the root; spaces around
    the address are dropped, a space inside is percent-encoded, and so is
    a quote in the query; another port or host is not read. *)
Example href_examples :
  Url.href "https://www.youtube.com" = Some "https://www.youtube.com/" ∧
  Url.href "https://www.youtube.com/embed/a/b/../c/."
  = Some "https://www.youtube.com/embed/a/c/" ∧
  Url.href "https://www.youtube.com/../../.." = Some "https://www.youtube.com/" ∧
  Url.href "https://www.youtube.com/embed/%2E%2e/x"
  = Some "https://www.youtube.com/x" ∧
  Url.href "  https://www.youtube.com/embed/a b?q='x'#c d  "
  = Some "https://www.youtube.com/embed/a%20b?q=%27x%27#c%20d" ∧
  Url.href "https://www.youtube.com.example/x" = None.
Proof. repeat split; by vm_compute. Qed.

(** What the form accepts and the parser changes: a space comes back
    percent-encoded, as does a character outside ASCII; a backslash comes
    back as a slash; a tab is lost; and an id that is a double-dot segment
    takes [embed] out of the path, so that the page finds no id in the
    frame it shows. *)
Example live_readback_changed :
  let back url :=
    Url.srcOf (Live.iframeSrc
                 (Live.run [Live.EInput url; Live.ESubmit] Live.init))
    ≫= embedId in
  back "youtu.be/my video" = Some "my%20video" ∧
  back (String.append "youtu.be/caf" (String (ascii_of_nat 195)
         (String (ascii_of_nat 169) ""))) = Some "caf%C3%A9" ∧
  back "youtu.be/a\b" = Some "a/b" ∧
  back (String.append "youtu.be/a" (String (ascii_of_nat 9) "b")) = Some "ab" ∧
  Live.extractVideoId "youtu.be/.." = Some ".." ∧
  back "youtu.be/.." = None ∧
  back "youtu.be/x/../../watch" = None.
Proof. repeat split; by vm_compute. Qed.

(** A submit of the video form either selects a video or alerts, never
    both: with an id in the text, the id is stored and [onVideoSelect] is
    called once with it; otherwise the state is kept and one alert is
    shown. *)
Theorem selector_submit s :
  let s' := Selector.handleYoutubeSubmit s in
  match Selector.extractYoutubeId (Selector.youtubeUrl s) with
  | Some i =>
      Selector.youtubeVideoId s' = Some i ∧
      Selector.onVideoSelect s' =
        (Selector.onVideoSelect s ++ [(i, TypeYoutube)])%list ∧
      Selector.alerts s' = Selector.alerts s ∧
      Selector.iframeSrc s' ≫= embedId = Some i
  | None =>
      Selector.youtubeVideoId s' = Selector.youtubeVideoId s ∧
      Selector.onVideoSelect s' = Selector.onVideoSelect s ∧
      Selector.alerts s' =
        (Selector.alerts s ++ ["Invalid YouTube URL. Please try again."])%list
  end.
Proof.
  unfold Selector.handleYoutubeSubmit, Selector.iframeSrc.
  destruct (Selector.extractYoutubeId _) as [i|] eqn:E; simpl; [|done].
  repeat split. exact (firstMatch_embedId _ _ _ "enablejsapi=1" E).
Qed.

(** The forms of a YouTube address the extraction accepts: a watch
    page with or without further parameters, a short link, an embed
    address, a bare id; the live form also takes the address of a live
    stream, which the video form refuses. *)
Theorem extract_examples :
  Selector.extractYoutubeId "https://www.youtube.com/watch?v=dQw4w9WgXcQ"
    = Some "dQw4w9WgXcQ" ∧
  Selector.extractYoutubeId "https://www.youtube.com/watch?v=dQw4w9WgXcQ&t=42s"
    = Some "dQw4w9WgXcQ" ∧
  Selector.extractYoutubeId "https://youtu.be/dQw4w9WgXcQ#top" = Some "dQw4w9WgXcQ" ∧
  Selector.extractYoutubeId "youtube.com/embed/dQw4w9WgXcQ?rel=0"
    = Some "dQw4w9WgXcQ" ∧
  Selector.extractYoutubeId "dQw4w9WgXcQ" = Some "dQw4w9WgXcQ" ∧
  Selector.extractYoutubeId "dQw4w9WgXc" = None ∧
  Live.extractVideoId "https://www.youtube.com/live/jfKfPfyJRdk"
    = Some "jfKfPfyJRdk" ∧
  Selector.extractYoutubeId "https://www.youtube.com/live/jfKfPfyJRdk" = None.
Proof. repeat split; by vm_compute. Qed.

(** The extraction is not a validation: a watch address whose [v] is
    not the first parameter is refused, and text that is no address of
    YouTube's gives an id as soon as it holds one of the prefixes. *)
Theorem extract_not_validation :
  Selector.extractYoutubeId "https://www.youtube.com/watch?list=PL1&v=dQw4w9WgXcQ"
    = None ∧
  Selector.extractYoutubeId "see notyoutu.be/not a video/at all"
    = Some "not a video/at all".
Proof. split; by vm_compute. Qed.
