(* ===== verification/Page.v ===== *)
(** * Page: the query form and the home page

    Models src/components/QueryInterface.tsx (module [Form]) and
    src/app/page.tsx (module [Home]).

    The form keeps the text of the question, the result or the error of
    the last query and a [searching] flag; [handleSubmit] is cut at its
    [await]: [handleSubmit] issues the query, [resolved] and [rejected] are
    its continuations.  The queries passed to [onQuery] are logged in the
    state, and the promise that is awaited is the list [pending].

    [Home.handleQuery] takes a frame from the current source, posts it with
    the question to the API and settles with the result.  What it reads
    from the document and from the network is a record [World]: the [src]
    of the embedded frame, the data URLs of the video elements, the
    thumbnail service and the API.  Its outcome is [Resolved], [Rejected]
    or [Pending], the promise that never settles. *)

From Stdlib Require Import ZArith Ascii String.
From stdpp Require Import base list strings.
From S2P Require Import Prelude Text Query Sources.

Module Form.

(** The component's state. *)
Record State := {
  query : string;
  result : option Api.QueryResult;
  error : option string;
  searching : bool;
  onQuery : list string;
  pending : list string;
}.

Definition init : State := {|
  query := ""; result := None; error := None; searching := false;
  onQuery := []; pending := [];
|}.

(** [suggestedQueries]; [sessionData] is the truthiness of the prop. *)
Definition suggestedQueries (sessionData : bool) : list string :=
  if sessionData then [
    "How many cars passed in the last 5 minutes?";
    "What was the most common object detected?";
    "How many people were detected total?";
    "What time had the most activity?";
    "Summarize the traffic patterns";
    "How many different types of vehicles?"
  ] else [
    "What do you see in this image?";
    "How many people are visible?";
    "What's the weather like?";
    "Describe the traffic conditions";
    "Are there any vehicles present?";
    "What time of day does it appear to be?"
  ].

(** [setQuery(value)] *)
Definition setQuery (value : string) (s : State) : State :=
  {| query := value; result := result s; error := error s;
     searching := searching s; onQuery := onQuery s; pending := pending s |}.

(** [handleSubmit], to its [await]. *)
Definition handleSubmit (s : State) : State :=
  if blank (query s) || searching s then s
  else {| query := query s; result := None; error := None; searching := true;
          onQuery := (onQuery s ++ [trim (query s)])%list;
          pending := (pending s ++ [trim (query s)])%list |}.

(** [handleSubmit], when [onQuery] resolves. *)
Definition resolved (response : option Api.QueryResult) (s : State) : State :=
  {| query := query s; result := response; error := error s;
     searching := false; onQuery := onQuery s; pending := tail (pending s) |}.

(** [handleSubmit], when [onQuery] rejects: [message] is the message of an
    [Error], or nothing for another value. *)
Definition rejected (message : option string) (s : State) : State :=
  {| query := query s; result := result s;
     error := Some (default "Failed to process query" message);
     searching := false; onQuery := onQuery s; pending := tail (pending s) |}.

(** The button that closes the result: [setResult(null)]. *)
Definition dismiss (s : State) : State :=
  {| query := query s; result := None; error := error s;
     searching := searching s; onQuery := onQuery s; pending := pending s |}.

Inductive Event :=
  | EInput (value : string)
  | ESuggested (i : nat)
  | ESubmit
  | EResolved (response : option Api.QueryResult)
  | ERejected (message : option string)
  | EDismiss.

(** One event; [None] when the control is disabled or not rendered, or no
    query is awaited. *)
Definition exec (sessionData : bool) (e : Event) (s : State) : option State :=
  match e with
  | EInput value => if searching s then None else Some (setQuery value s)
  | ESuggested i =>
      if bool_decide (is_Some (result s)) || searching s then None
      else suggested ← slice_first 3 (suggestedQueries sessionData) !! i;
           Some (setQuery suggested s)
  | ESubmit => Some (handleSubmit s)
  | EResolved response =>
      if pending s is _ :: _ then Some (resolved response s) else None
  | ERejected message =>
      if pending s is _ :: _ then Some (rejected message s) else None
  | EDismiss => if result s is Some _ then Some (dismiss s) else None
  end.

Fixpoint run (sessionData : bool) (es : list Event) (s : State)
  : option State :=
  match es with
  | [] => Some s
  | e :: es => s' ← exec sessionData e s; run sessionData es s'
  end.

(** At most one query is awaited, exactly while [searching] is set; while
    it is, neither a result nor an error is shown; they are never shown
    together; and every query asked was trimmed and is not blank. *)
Record Inv (s : State) : Prop := {
  inv_pending : searching s = bool_decide (pending s ≠ []);
  inv_one : length (pending s) ≤ 1;
  inv_clear : searching s = true → result s = None ∧ error s = None;
  inv_exclusive : result s = None ∨ error s = None;
  inv_asked : Forall (λ q, blank q = false ∧ trim q = q) (onQuery s);
}.

End Form.

Module Home.

(** ['video' | 'live' | 'webcam'] *)
Inductive SourceType := SVideo | SLive | SWebcam.

(** The page's state. *)
Record State := {
  sourceType : SourceType;
  videoInfo : option (string * VideoType);
}.

Definition init : State := {| sourceType := SLive; videoInfo := None |}.

(** [handleVideoSelect(url, type)] *)
Definition handleVideoSelect (url : string) (type : VideoType) (s : State)
  : State :=
  {| sourceType := sourceType s; videoInfo := Some (url, type) |}.

(** [setSourceType(t)] *)
Definition setSourceType (t : SourceType) (s : State) : State :=
  {| sourceType := t; videoInfo := videoInfo s |}.

(** [sourceType.toUpperCase()] *)
Definition upper (t : SourceType) : string :=
  match t with SVideo => "VIDEO" | SLive => "LIVE" | SWebcam => "WEBCAM" end.

(** What fetching and reading a thumbnail gives. *)
Inductive Thumbnail :=
  | FetchFailed (message : option string)
  | ReadFailed
  | DataUrl (url : string).

(** What the page reads from the document and the network: [embedFrame] is
    the [src] property of the frame of YouTube, the address the browser
    made of the attribute; [api] answers [None] when the fetch fails, and
    [fetchError] is the message of the [TypeError] it then throws. *)
Record World := {
  embedFrame : option string;
  autoplayVideo : option string;
  controlsVideo : option string;
  context2d : bool;
  thumbnail : string → Thumbnail;
  api : Api.Request → option Api.Response;
  fetchError : string;
}.

(** How the promise of [handleQuery] ends. *)
Inductive Settled :=
  | Resolved (result : option Api.QueryResult)
  | Rejected (message : option string)
  | Pending.

(** The outcome of a query, the requests posted and the console lines. *)
Record Outcome := {
  settled : Settled;
  posted : list Api.Request;
  console : list string;
}.

(** [dataUrl.split(',')[1]] *)
Fixpoint afterComma (url : string) : JsVal :=
  match url with
  | String a rest =>
      if bool_decide (a = ","%char)
      then JStr (takeClass (λ b, negb (bool_decide (b = ","%char))) rest)
      else afterComma rest
  | EmptyString => JUndefined
  end.

(** The body of a request. *)
Definition request (image : JsVal) (q camera : string) : Api.Request :=
  {| Api.imageData := image; Api.query := JStr q;
     Api.cameraName := JStr camera; Api.sessionData := JUndefined |}.

(** [error.error || 'Query failed'] *)
Definition errorOf (p : Api.Payload) : string :=
  match p with
  | Api.Failure e _ => if bool_decide (e = "") then "Query failed" else e
  | Api.Success _ => "Query failed"
  end.

(** [data.result]: [None] is [undefined]. *)
Definition resultOf (p : Api.Payload) : option Api.QueryResult :=
  match p with
  | Api.Success result => Some result
  | Api.Failure _ _ => None
  end.

(** [response.ok] *)
Definition isOk (r : Api.Response) : bool :=
  bool_decide (200 ≤ Api.status r < 300)%nat.

(** The [catch] of [handleQuery]: log and throw again. *)
Definition thrown (message : option string) (reqs : list Api.Request)
  : Outcome :=
  {| settled := Rejected message; posted := reqs; console := ["Query error:"] |}.

Section Query.
Context (w : World).

(** The post made inside [reader.onloadend]: an exception thrown there
    reaches nobody, and the promise is left pending. *)
Definition postInCallback (image : JsVal) (q camera : string) : Outcome :=
  let req := request image q camera in
  match api w req with
  | Some r =>
      if isOk r
      then {| settled := Resolved (resultOf (Api.payload r)); posted := [req];
              console := [] |}
      else {| settled := Pending; posted := [req]; console := [] |}
  | None => {| settled := Pending; posted := [req]; console := [] |}
  end.

(** The frame of a YouTube video: its thumbnail is fetched and read, and
    posted from the reader's callback. *)
Definition viaThumbnail (videoId q camera : string) : Outcome :=
  match thumbnail w videoId with
  | FetchFailed m => thrown m []
  | ReadFailed => {| settled := Rejected None; posted := []; console := [] |}
  | DataUrl url => postInCallback (afterComma url) q camera
  end.

(** The post at the end of [handleQuery], inside its [try]. *)
Definition postDirect (image : JsVal) (q camera : string) : Outcome :=
  let req := request image q camera in
  match api w req with
  | Some r =>
      if isOk r
      then {| settled := Resolved (resultOf (Api.payload r)); posted := [req];
              console := [] |}
      else thrown (Some (errorOf (Api.payload r))) [req]
  | None => thrown (Some (fetchError w)) [req]
  end.

(** The frame of a video element, drawn on a canvas. *)
Definition viaCanvas (video : option string) (missing q camera : string)
  : Outcome :=
  match video with
  | None => thrown (Some missing) []
  | Some frame =>
      if context2d w then postDirect (afterComma frame) q camera
      else thrown (Some "Failed to get canvas context") []
  end.

(** [handleQuery(query)] *)
Definition handleQuery (q : string) (s : State) : Outcome :=
  match sourceType s with
  | SLive =>
      match embedFrame w ≫= embedId with
      | Some videoId => viaThumbnail videoId q "Live YouTube Stream"
      | None =>
          thrown (Some "No live stream loaded. Please paste a YouTube URL first.")
                 []
      end
  | SWebcam =>
      viaCanvas (autoplayVideo w) "Webcam not active" q (upper (sourceType s))
  | SVideo =>
      match videoInfo s with
      | Some (url, TypeYoutube) => viaThumbnail url q "YouTube Video"
      | _ => viaCanvas (controlsVideo w) "No video loaded" q
               (upper (sourceType s))
      end
  end.

End Query.

End Home.

(** The API route as the page reaches it: the request is posted and the
    response of [Api.POST] comes back.  The clock of the samples is fixed. *)
Definition server (generate : Api.Prompt → Api.Outcome) (req : Api.Request)
  : option Api.Response :=
  Some (Api.response
          (Api.POST generate "2026-01-01T00:00:00.000Z" Api.jsonOf
             (Api.Parsed req))).

(** A world with a live stream and a webcam, and the route as API. *)
Definition studio (generate : Api.Prompt → Api.Outcome) : Home.World := {|
  Home.embedFrame :=
    Some "https://www.youtube.com/embed/jfKfPfyJRdk?autoplay=1&mute=0&controls=1";
  Home.autoplayVideo := Some "data:image/jpeg;base64,/9j/4AAQ";
  Home.controlsVideo := None;
  Home.context2d := true;
  Home.thumbnail := λ _, Home.DataUrl "data:image/jpeg;base64,/9j/2wBD";
  Home.api := server generate;
  Home.fetchError := "Failed to fetch";
|}.

(** The form after a question was typed and submitted. *)
Definition asking : list Form.Event :=
  [Form.EInput "  How many cars?  "; Form.ESubmit].

(** ** The form *)

Lemma form_init_Inv : Form.Inv Form.init.
Proof. split; simpl; try done; try lia; by left. Qed.

Lemma handleSubmit_Inv s : Form.Inv s → Form.Inv (Form.handleSubmit s).
Proof.
  intros HI. pose proof HI as [H1 H2 H3 H4 H5]. unfold Form.handleSubmit.
  destruct (blank (Form.query s)) eqn:Eb; simpl; [done|].
  destruct (Form.searching s) eqn:Es; [done|].
  symmetry in H1. apply bool_decide_eq_false in H1.
  assert (Form.pending s = []) as ->
    by (destruct (Form.pending s); [done|by destruct H1]).
  split; simpl; try done; try lia; [by left|].
  apply Forall_app. split; [done|]. repeat constructor.
  - apply trim_not_blank. intros Ht. unfold blank in Eb.
    by rewrite Ht, bool_decide_eq_false in Eb.
  - apply trim_idemp.
Qed.

(** When a query is awaited it is the only one, and nothing is shown. *)
Lemma settle_pending s :
  Form.Inv s → Form.pending s ≠ [] →
  tail (Form.pending s) = [] ∧ Form.result s = None ∧ Form.error s = None.
Proof.
  intros [H1 H2 H3 H4 H5] Hp.
  destruct (Form.pending s) as [|q [|q' l]] eqn:E; try done.
  - split; [done|]. apply H3. rewrite H1. by apply bool_decide_eq_true.
  - simpl in H2. lia.
Qed.

Lemma setQuery_Inv value s : Form.Inv s → Form.Inv (Form.setQuery value s).
Proof. intros []. by split. Qed.

Lemma resolved_Inv response s :
  Form.Inv s → Form.pending s ≠ [] → Form.Inv (Form.resolved response s).
Proof.
  intros HI Hp. destruct (settle_pending s HI Hp) as (Ht & Hr & He).
  destruct HI. split; simpl; rewrite ?Ht;
    [by rewrite bool_decide_eq_false_2; [|intros ?]|simpl; lia|done|by right|done].
Qed.

Lemma rejected_Inv message s :
  Form.Inv s → Form.pending s ≠ [] → Form.Inv (Form.rejected message s).
Proof.
  intros HI Hp. destruct (settle_pending s HI Hp) as (Ht & Hr & He).
  destruct HI. split; simpl; rewrite ?Ht;
    [by rewrite bool_decide_eq_false_2; [|intros ?]|simpl; lia|done|by left|done].
Qed.

Lemma dismiss_Inv s : Form.Inv s → Form.Inv (Form.dismiss s).
Proof.
  intros [H1 H2 H3 H4 H5]. split; simpl; try done; [|by left].
  intros Hs. by destruct (H3 Hs).
Qed.

Lemma form_exec_Inv sd e s s' : Form.exec sd e s = Some s' → Form.Inv s → Form.Inv s'.
Proof.
  intros He HI. destruct e; simpl in He.
  - case_match; simplify_eq. by apply setQuery_Inv.
  - case_match; simplify_option_eq. by apply setQuery_Inv.
  - simplify_eq. by apply handleSubmit_Inv.
  - destruct (Form.pending s) eqn:Ep; simplify_eq.
    apply resolved_Inv; [done|]. by rewrite Ep.
  - destruct (Form.pending s) eqn:Ep; simplify_eq.
    apply rejected_Inv; [done|]. by rewrite Ep.
  - case_match; simplify_eq. by apply dismiss_Inv.
Qed.

Lemma form_run_Inv sd es s s' : Form.run sd es s = Some s' → Form.Inv s → Form.Inv s'.
Proof.
  revert s. induction es as [|e es IH]; intros s Hr HI; simpl in Hr.
  - by simplify_eq.
  - destruct (Form.exec sd e s) as [s1|] eqn:E; [|done]. eauto using form_exec_Inv.
Qed.

(** C10. The form has at most one query under way, and [searching] is set
    exactly while one is; a result and an error are never shown together;
    and every question it passes to [onQuery] is trimmed and not blank. *)
Theorem form_one_query sd es s :
  Form.run sd es Form.init = Some s →
  length (Form.pending s) ≤ 1 ∧
  (Form.searching s = true ↔ Form.pending s ≠ []) ∧
  (Form.result s = None ∨ Form.error s = None) ∧
  Forall (λ q, q ≠ "" ∧ blank q = false ∧ trim q = q) (Form.onQuery s).
Proof.
  intros Hr. destruct (form_run_Inv sd es _ s Hr form_init_Inv) as [H1 H2 H3 H4 H5].
  split; [done|]. split; [by rewrite H1, bool_decide_eq_true|]. split; [done|].
  eapply Forall_impl; [done|]. intros q [Hb Ht]. split; [|done].
  by intros ->.
Qed.

Lemma form_one_query_witness :
  Form.run false asking Form.init =
    Some (default Form.init (Form.run false asking Form.init)) ∧
  let s := default Form.init (Form.run false asking Form.init) in
  length (Form.pending s) ≤ 1 ∧
  (Form.searching s = true ↔ Form.pending s ≠ []) ∧
  (Form.result s = None ∨ Form.error s = None) ∧
  Forall (λ q, q ≠ "" ∧ blank q = false ∧ trim q = q) (Form.onQuery s).
Proof.
  assert (Form.run false asking Form.init =
    Some (default Form.init (Form.run false asking Form.init))) as H
    by (by vm_compute).
  split; [exact H|]. exact (form_one_query false asking _ H).
Defined.

(** The question typed with spaces around it is asked without them. *)
Example asking_trimmed :
  Form.onQuery <$> Form.run false asking Form.init = Some ["How many cars?"].
Proof. by vm_compute. Qed.

(** ** The page *)

Section World.
Context (w : Home.World).

Lemma postInCallback_posted image q camera :
  Home.posted (Home.postInCallback w image q camera) =
    [Home.request image q camera].
Proof. unfold Home.postInCallback. by repeat case_match. Qed.

Lemma postDirect_posted image q camera :
  Home.posted (Home.postDirect w image q camera) =
    [Home.request image q camera].
Proof. unfold Home.postDirect. by repeat case_match. Qed.

(** A query of the page posts at most one request, with the question
    as typed and never with session data: the session analytics branch of
    the route cannot be reached from the page. *)
Theorem page_requests q s :
  length (Home.posted (Home.handleQuery w q s)) ≤ 1 ∧
  Forall (λ req, Api.query req = JStr q ∧ Api.sessionData req = JUndefined)
         (Home.posted (Home.handleQuery w q s)).
Proof.
  unfold Home.handleQuery, Home.viaThumbnail, Home.viaCanvas.
  repeat case_match; rewrite ?postInCallback_posted, ?postDirect_posted; simpl;
    (split; [lia|by repeat constructor]).
Qed.

(** C35. On a live stream, when the API answers with an error status the
    promise of [handleQuery] never settles: the exception is thrown inside
    the callback of the file reader, where nothing catches it, and nothing
    is logged. *)
Theorem api_error_hangs q s videoId url r :
  Home.sourceType s = Home.SLive →
  Home.embedFrame w ≫= embedId = Some videoId →
  Home.thumbnail w videoId = Home.DataUrl url →
  Home.api w (Home.request (Home.afterComma url) q "Live YouTube Stream")
    = Some r →
  Home.isOk r = false →
  Home.settled (Home.handleQuery w q s) = Home.Pending ∧
  Home.console (Home.handleQuery w q s) = [].
Proof.
  intros Hs Hf Ht Ha Hok.
  unfold Home.handleQuery, Home.viaThumbnail, Home.postInCallback.
  by rewrite Hs, Hf, Ht, Ha, Hok.
Qed.

(** On the webcam, the same answer rejects the promise with the error
    of the response, and the failure is logged. *)
Theorem api_error_rejects q s frame r :
  Home.sourceType s = Home.SWebcam → Home.autoplayVideo w = Some frame →
  Home.context2d w = true →
  Home.api w (Home.request (Home.afterComma frame) q "WEBCAM") = Some r →
  Home.isOk r = false →
  Home.settled (Home.handleQuery w q s) =
    Home.Rejected (Some (Home.errorOf (Api.payload r))) ∧
  Home.console (Home.handleQuery w q s) = ["Query error:"].
Proof.
  intros Hs Hf Hc Ha Hok.
  unfold Home.handleQuery, Home.viaCanvas, Home.postDirect.
  rewrite Hs, Hf, Hc. cbn [Home.upper]. by rewrite Ha, Hok.
Qed.

End World.

(** What the route answers to the request the page makes of an image. *)
Lemma server_image generate img q camera :
  img ≠ "" → blank q = false →
  server generate (Home.request (JStr img) q camera) =
    Some match generate (Api.ImagePrompt (Api.contextualQuery (JStr camera) q)
                           (JStr img) "image/jpeg") with
         | Api.Text a =>
             {| Api.status := 200;
                Api.payload := Api.Success
                  {| Api.answer := a; Api.confidence := "High";
                     Api.timestamp := "2026-01-01T00:00:00.000Z" |} |}
         | Api.Thrown _ =>
             {| Api.status := 500;
                Api.payload := Api.Failure "Failed to process query"
                                 (Some "Failed to analyze image with AI") |}
         end.
Proof.
  intros Hne Hb. unfold server.
  rewrite (Api.POST_query _ _ _ (Home.request (JStr img) q camera) q eq_refl Hb).
  unfold Api.dispatch, Api.analyzeImageWithContext, Api.analyzeImage. simpl.
  rewrite bool_decide_eq_false_2 by done. simpl. by destruct (generate _).
Qed.

(** C36. From the form to the model and back: a question typed in the form
    and asked on the webcam, with a frame that is not empty, passes the
    validation of the route; the page resolves with the answer of the model,
    or rejects with "Failed to process query" when the model fails. *)
Theorem webcam_end_to_end generate q0 frame img s :
  trim q0 ≠ "" → Home.afterComma frame = JStr img → img ≠ "" →
  Home.sourceType s = Home.SWebcam →
  ∀ w, Home.autoplayVideo w = Some frame → Home.context2d w = true →
       Home.api w = server generate →
  Home.settled (Home.handleQuery w (trim q0) s) =
    match generate (Api.ImagePrompt
                      (Api.contextualQuery (JStr "WEBCAM") (trim q0))
                      (JStr img) "image/jpeg") with
    | Api.Text a =>
        Home.Resolved (Some {| Api.answer := a; Api.confidence := "High";
                               Api.timestamp := "2026-01-01T00:00:00.000Z" |})
    | Api.Thrown _ => Home.Rejected (Some "Failed to process query")
    end.
Proof.
  intros Hq Hi Hne Hs w Hv Hc Ha.
  unfold Home.handleQuery, Home.viaCanvas, Home.postDirect.
  rewrite Hs, Hv, Hc, Ha, Hi. cbn [Home.upper].
  rewrite (server_image generate img (trim q0) "WEBCAM" Hne
             (trim_not_blank _ Hq)).
  by destruct (generate _).
Qed.

Lemma api_error_hangs_witness :
  Home.sourceType Home.init = Home.SLive ∧
  Home.embedFrame (studio Api.down) ≫= embedId = Some "jfKfPfyJRdk" ∧
  Home.thumbnail (studio Api.down) "jfKfPfyJRdk" =
    Home.DataUrl "data:image/jpeg;base64,/9j/2wBD" ∧
  Home.api (studio Api.down)
    (Home.request (Home.afterComma "data:image/jpeg;base64,/9j/2wBD")
       "How many cars?" "Live YouTube Stream") =
    Some {| Api.status := 500;
            Api.payload := Api.Failure "Failed to process query"
                             (Some "Failed to analyze image with AI") |} ∧
  Home.isOk {| Api.status := 500;
               Api.payload := Api.Failure "Failed to process query"
                                (Some "Failed to analyze image with AI") |}
    = false ∧
  Home.settled (Home.handleQuery (studio Api.down) "How many cars?" Home.init)
    = Home.Pending ∧
  Home.console (Home.handleQuery (studio Api.down) "How many cars?" Home.init)
    = [].
Proof.
  do 5 (split; [by vm_compute|]).
  exact (api_error_hangs (studio Api.down) "How many cars?" Home.init
           "jfKfPfyJRdk" "data:image/jpeg;base64,/9j/2wBD" _
           eq_refl eq_refl eq_refl eq_refl eq_refl).
Defined.

Lemma api_error_rejects_witness :
  Home.sourceType (Home.setSourceType Home.SWebcam Home.init) = Home.SWebcam ∧
  Home.autoplayVideo (studio Api.down) = Some "data:image/jpeg;base64,/9j/4AAQ" ∧
  Home.context2d (studio Api.down) = true ∧
  Home.api (studio Api.down)
    (Home.request (Home.afterComma "data:image/jpeg;base64,/9j/4AAQ")
       "How many cars?" "WEBCAM") =
    Some {| Api.status := 500;
            Api.payload := Api.Failure "Failed to process query"
                             (Some "Failed to analyze image with AI") |} ∧
  Home.isOk {| Api.status := 500;
               Api.payload := Api.Failure "Failed to process query"
                                (Some "Failed to analyze image with AI") |}
    = false ∧
  Home.settled (Home.handleQuery (studio Api.down) "How many cars?"
                  (Home.setSourceType Home.SWebcam Home.init)) =
    Home.Rejected (Some "Failed to process query") ∧
  Home.console (Home.handleQuery (studio Api.down) "How many cars?"
                  (Home.setSourceType Home.SWebcam Home.init)) =
    ["Query error:"].
Proof.
  do 5 (split; [by vm_compute|]).
  exact (api_error_rejects (studio Api.down) "How many cars?"
           (Home.setSourceType Home.SWebcam Home.init)
           "data:image/jpeg;base64,/9j/4AAQ" _
           eq_refl eq_refl eq_refl eq_refl eq_refl).
Defined.

Lemma webcam_end_to_end_witness :
  trim "  How many cars? " ≠ "" ∧
  Home.afterComma "data:image/jpeg;base64,/9j/4AAQ" = JStr "/9j/4AAQ" ∧
  "/9j/4AAQ" ≠ "" ∧
  Home.sourceType (Home.setSourceType Home.SWebcam Home.init) = Home.SWebcam ∧
  Home.settled (Home.handleQuery (studio Api.echo) (trim "  How many cars? ")
                  (Home.setSourceType Home.SWebcam Home.init)) =
    Home.Resolved (Some {| Api.answer := "Two cars."; Api.confidence := "High";
                           Api.timestamp := "2026-01-01T00:00:00.000Z" |}).
Proof.
  assert (trim "  How many cars? " ≠ "") as Hq by (by vm_compute).
  assert ("/9j/4AAQ" ≠ "") as Hi by done.
  split; [exact Hq|]. split; [by vm_compute|]. split; [exact Hi|].
  split; [done|].
  exact (webcam_end_to_end Api.echo "  How many cars? "
           "data:image/jpeg;base64,/9j/4AAQ" "/9j/4AAQ"
           (Home.setSourceType Home.SWebcam Home.init) Hq eq_refl Hi eq_refl
           (studio Api.echo) eq_refl eq_refl eq_refl).
Defined.

(** A frame taken before the video has dimensions is the data URL
    "data:,": the page posts an empty image, the route refuses the request
    for want of an image, and the form shows that message. *)
Theorem empty_frame_refused :
  let w := {| Home.embedFrame := None; Home.autoplayVideo := Some "data:,";
              Home.controlsVideo := None; Home.context2d := true;
              Home.thumbnail := λ _, Home.ReadFailed;
              Home.api := server Api.echo;
              Home.fetchError := "Failed to fetch" |} in
  let o := Home.handleQuery w "How many cars?"
             (Home.setSourceType Home.SWebcam Home.init) in
  Api.imageData <$> Home.posted o = [JStr ""] ∧
  Home.settled o =
    Home.Rejected (Some "Must provide either imageData or sessionData").
Proof. split; by vm_compute. Qed.

(** Without a source the page rejects at once, posting nothing. *)
Example no_source :
  let w := {| Home.embedFrame := None; Home.autoplayVideo := None;
              Home.controlsVideo := None; Home.context2d := true;
              Home.thumbnail := λ _, Home.ReadFailed;
              Home.api := server Api.echo;
              Home.fetchError := "Failed to fetch" |} in
  Home.settled <$>
    ((λ t, Home.handleQuery w "q" (Home.setSourceType t Home.init))
       <$> [Home.SLive; Home.SWebcam; Home.SVideo]) =
  [Home.Rejected
     (Some "No live stream loaded. Please paste a YouTube URL first.");
   Home.Rejected (Some "Webcam not active");
   Home.Rejected (Some "No video loaded")].
Proof. by vm_compute. Qed.
