(* ===== verification/Player.v ===== *)
(** * Player: the video player and the webcam

    Models src/components/VideoPlayer.tsx (module [Player]) and
    src/components/WebcamCapture.tsx (module [Webcam]).

    The player's state is its [useState] cells and the video element behind
    [videoRef], of which the model keeps what the handlers read and write:
    whether it is paused or muted, its position and its length.  Times are
    seconds, modelled as rationals that are not negative; the values NaN and
    Infinity that a duration can take are outside the model.

    The element is the browser's, not the component's.  [play()] can be
    refused, in which case the element stays paused and the promise the
    handler drops is rejected; and the browser pauses, resumes and mutes
    the element on its own (media keys, the controls of the context menu,
    an interruption), with events the component does not listen to.  The
    events [ETogglePlay false], [EBrowserPause], [EBrowserPlay] and
    [EBrowserMute] stand for these; the flags of the component follow the
    element only on the runs that hold none of them ([Player.quiet]).

    The webcam component is cut at the [await] of [getUserMedia].  Its
    [stopWebcam] reads the [stream] of the render it was created in: the
    button calls the one of the current render, the cleanup of the mount
    effect the one of the first render, which saw no stream.  The video
    element is rendered while there is no error, and a new element has no
    [srcObject].  The live tracks of the streams handed out by the browser
    are part of the state, so that theorems can say whether the camera is
    released.  A call of [getUserMedia] that settles after the unmount
    still opens the camera, but the updates of the state it makes are
    dropped ([Webcam.commit]). *)

From Stdlib Require Import ZArith QArith Qround Lia.
From stdpp Require Import base list strings sets.
From S2P Require Import Prelude Text.

Module Player.

(** The video element. *)
Record Element := {
  paused : bool;
  muted : bool;
  position : Q;
  length : Q;
}.

(** The component's state. *)
Record State := {
  videoRef : option Element;
  isPlaying : bool;
  isMuted : bool;
  currentTime : Q;
  duration : Q;
}.

(** The state before the element is mounted, and once it is. *)
Definition init : State :=
  {| videoRef := None; isPlaying := false; isMuted := false;
     currentTime := 0; duration := 0 |}.

Definition mount (len : Q) (s : State) : State :=
  {| videoRef := Some {| paused := true; muted := false; position := 0;
                         length := len |};
     isPlaying := isPlaying s; isMuted := isMuted s;
     currentTime := currentTime s; duration := duration s |}.

(** [video.pause()] *)
Definition pause (v : Element) : Element :=
  {| paused := true; muted := muted v; position := position v;
     length := length v |}.

(** [video.play()]: when the browser allows it the element is no longer
    paused, and starts again from the beginning when it had ended;
    otherwise the element is left as it is and the promise returned is
    rejected. *)
Definition play (allowed : bool) (v : Element) : Element :=
  if allowed then
    {| paused := false; muted := muted v;
       position := if Qle_bool (length v) (position v) then 0 else position v;
       length := length v |}
  else v.

(** [togglePlay]: [pause()] or [play()] on the element, then the flag,
    whatever became of the promise of [play()]. *)
Definition togglePlay (allowed : bool) (s : State) : State :=
  match videoRef s with
  | Some v =>
      {| videoRef := Some (if isPlaying s then pause v else play allowed v);
         isPlaying := negb (isPlaying s); isMuted := isMuted s;
         currentTime := currentTime s; duration := duration s |}
  | None => s
  end.

(** [video.muted = m] *)
Definition setMuted (m : bool) (v : Element) : Element :=
  {| paused := paused v; muted := m; position := position v;
     length := length v |}.

(** [toggleMute] *)
Definition toggleMute (s : State) : State :=
  match videoRef s with
  | Some v =>
      {| videoRef := Some (setMuted (negb (isMuted s)) v);
         isPlaying := isPlaying s; isMuted := negb (isMuted s);
         currentTime := currentTime s; duration := duration s |}
  | None => s
  end.

(** [handleTimeUpdate] *)
Definition handleTimeUpdate (s : State) : State :=
  match videoRef s with
  | Some v =>
      {| videoRef := videoRef s; isPlaying := isPlaying s; isMuted := isMuted s;
         currentTime := position v; duration := duration s |}
  | None => s
  end.

(** [handleLoadedMetadata] *)
Definition handleLoadedMetadata (s : State) : State :=
  match videoRef s with
  | Some v =>
      {| videoRef := videoRef s; isPlaying := isPlaying s; isMuted := isMuted s;
         currentTime := currentTime s; duration := length v |}
  | None => s
  end.

(** [handleSeek]: [time] is the parsed value of the slider. *)
Definition handleSeek (time : Q) (s : State) : State :=
  match videoRef s with
  | Some v =>
      {| videoRef := Some {| paused := paused v; muted := muted v;
                             position := time; length := length v |};
         isPlaying := isPlaying s; isMuted := isMuted s;
         currentTime := time; duration := duration s |}
  | None => s
  end.

(** [onEnded]: the element has stopped at its end. *)
Definition onEnded (s : State) : State :=
  {| videoRef := (λ v, {| paused := true; muted := muted v;
                          position := length v; length := length v |})
                 <$> videoRef s;
     isPlaying := false; isMuted := isMuted s;
     currentTime := currentTime s; duration := duration s |}.

(** The element plays on: its position moves. *)
Definition advance (time : Q) (s : State) : State :=
  {| videoRef := (λ v, {| paused := paused v; muted := muted v;
                          position := time; length := length v |})
                 <$> videoRef s;
     isPlaying := isPlaying s; isMuted := isMuted s;
     currentTime := currentTime s; duration := duration s |}.

(** The browser changes the element on its own: no handler runs, since the
    element is rendered without [onPause], [onPlay] and [onVolumeChange]. *)
Definition browser (change : Element → Element) (s : State) : State :=
  {| videoRef := change <$> videoRef s;
     isPlaying := isPlaying s; isMuted := isMuted s;
     currentTime := currentTime s; duration := duration s |}.

(** The [aria-label] of the two buttons. *)
Definition playLabel (s : State) : string :=
  if isPlaying s then "Pause" else "Play".

Definition muteLabel (s : State) : string :=
  if isMuted s then "Unmute" else "Mute".

(** [n.toString().padStart(2, '0')] *)
Definition pad2 (n : Z) : string :=
  if bool_decide (String.length (show_Z n) < 2) then "0" +:+ show_Z n
  else show_Z n.

(** [formatTime(time)], for a time that is not negative. *)
Definition formatTime (time : Q) : string :=
  let minutes := Qfloor (time / 60) in
  let seconds := Qfloor (time - inject_Z (60 * minutes)) in
  show_Z minutes +:+ ":" +:+ pad2 seconds.

Inductive Event :=
  | EMount (len : Q)
  | ETogglePlay (allowed : bool)
  | EToggleMute
  | ETimeUpdate
  | ELoadedMetadata
  | ESeek (time : Q)
  | EEnded
  | EAdvance (time : Q)
  | EBrowserPause
  | EBrowserPlay
  | EBrowserMute (m : bool).

(** One event; the element's own events need the element, it ends only
    while playing, and the browser pauses what plays and resumes what is
    paused. *)
Definition exec (e : Event) (s : State) : option State :=
  match e with
  | EMount len => if videoRef s is None then Some (mount len s) else None
  | ETogglePlay allowed => Some (togglePlay allowed s)
  | EToggleMute => Some (toggleMute s)
  | ETimeUpdate => Some (handleTimeUpdate s)
  | ELoadedMetadata => Some (handleLoadedMetadata s)
  | ESeek time => Some (handleSeek time s)
  | EEnded =>
      if videoRef s is Some v
      then (if paused v then None else Some (onEnded s)) else None
  | EAdvance time =>
      if videoRef s is Some v
      then (if paused v then None else Some (advance time s)) else None
  | EBrowserPause =>
      if videoRef s is Some v
      then (if paused v then None else Some (browser pause s)) else None
  | EBrowserPlay =>
      if videoRef s is Some v
      then (if paused v then Some (browser (play true) s) else None) else None
  | EBrowserMute m =>
      if videoRef s is Some v then Some (browser (setMuted m) s) else None
  end.

(** The events of a run in which the element changes only as the component
    asks or tells: every [play()] is allowed, and the browser does not
    pause, resume or mute the element on its own. *)
Definition quiet (e : Event) : bool :=
  match e with
  | ETogglePlay allowed => allowed
  | EBrowserPause | EBrowserPlay | EBrowserMute _ => false
  | _ => true
  end.

Fixpoint run (es : list Event) (s : State) : option State :=
  match es with
  | [] => Some s
  | e :: es => s' ← exec e s; run es s'
  end.

(** The flags of the component tell the state of the element. *)
Definition inSync (s : State) : Prop :=
  match videoRef s with
  | Some v => isPlaying s = negb (paused v) ∧ isMuted s = muted v
  | None => isPlaying s = false ∧ isMuted s = false
  end.

(** The samples: a video is played to its end and muted; a [play()] is
    refused; the browser pauses a playing video. *)
Definition watched : list Event :=
  [EMount 90; ETogglePlay true; EAdvance 90; EEnded; EToggleMute].

Definition refused : list Event := [EMount 90; ETogglePlay false].

Definition interrupted : list Event :=
  [EMount 90; ETogglePlay true; EAdvance 30; EBrowserPause].

Definition after (es : list Event) : State := default init (run es init).

End Player.

Module Webcam.

(** The component's state: its [useState] cells, the video element behind
    [videoRef] when it is rendered (with its [srcObject]), whether the
    component is mounted, the calls of [getUserMedia] that have not settled,
    the streams whose tracks are live, and the console. *)
Record State := {
  stream : option nat;
  error : option string;
  isActive : bool;
  sessionSummary : string;
  videoRef : option (option nat);
  mounted : bool;
  requests : nat;
  live : list nat;
  console : list string;
}.

(** The first render: no error, so the element is there. *)
Definition init : State := {|
  stream := None; error := None; isActive := false; sessionSummary := "";
  videoRef := Some None; mounted := true; requests := 0; live := [];
  console := [];
|}.

(** The render that follows a change of state: [{error ? ... : <video/>}]. *)
Definition render (s : State) : State :=
  {| stream := stream s; error := error s; isActive := isActive s;
     sessionSummary := sessionSummary s;
     videoRef := if mounted s && bool_decide (error s = None)
                 then Some (default None (videoRef s)) else None;
     mounted := mounted s; requests := requests s; live := live s;
     console := console s |}.

(** [startWebcam], to its [await]. *)
Definition startWebcam (s : State) : State :=
  {| stream := stream s; error := error s; isActive := isActive s;
     sessionSummary := sessionSummary s; videoRef := videoRef s;
     mounted := mounted s; requests := S (requests s); live := live s;
     console := console s |}.

(** What a component that was unmounted keeps of an update of its state:
    nothing, React drops it. *)
Definition commit (s s' : State) : State :=
  if mounted s then s'
  else {| stream := stream s; error := error s; isActive := isActive s;
          sessionSummary := sessionSummary s; videoRef := videoRef s';
          mounted := mounted s'; requests := requests s'; live := live s';
          console := console s' |}.

(** [startWebcam], when [getUserMedia] gives the stream [mediaStream]. *)
Definition granted (mediaStream : nat) (s : State) : State :=
  commit s (render
    {| stream := Some mediaStream; error := None; isActive := true;
       sessionSummary := sessionSummary s;
       videoRef := (λ _, Some mediaStream) <$> videoRef s;
       mounted := mounted s; requests := pred (requests s);
       live := live s ++ [mediaStream]; console := console s |}).

(** [startWebcam], when [getUserMedia] rejects. *)
Definition denied (s : State) : State :=
  commit s (render
    {| stream := stream s;
       error := Some "Unable to access webcam. Please check permissions.";
       isActive := false; sessionSummary := sessionSummary s;
       videoRef := videoRef s; mounted := mounted s;
       requests := pred (requests s); live := live s;
       console := console s ++ ["Webcam error:"] |}).

(** [stopWebcam], created in a render whose [stream] was [captured]. *)
Definition stopWebcam (captured : option nat) (s : State) : State :=
  match captured with
  | Some st =>
      {| stream := None; error := error s; isActive := false;
         sessionSummary := sessionSummary s; videoRef := videoRef s;
         mounted := mounted s; requests := requests s;
         live := filter (λ t, t ≠ st) (live s); console := console s |}
  | None => s
  end.

(** The cleanup of the mount effect: the [stopWebcam] of the first render,
    and the element goes. *)
Definition unmount (s : State) : State :=
  let s' := stopWebcam None s in
  {| stream := stream s'; error := error s'; isActive := isActive s';
     sessionSummary := sessionSummary s'; videoRef := None;
     mounted := false; requests := requests s'; live := live s';
     console := console s' |}.

(** [handleSessionSummary(summary)] *)
Definition handleSessionSummary (summary : string) (s : State) : State :=
  {| stream := stream s; error := error s; isActive := isActive s;
     sessionSummary := summary; videoRef := videoRef s;
     mounted := mounted s; requests := requests s; live := live s;
     console := console s |}.

(** [isActive && videoRef.current]: the session manager is rendered. *)
Definition managerShown (s : State) : bool :=
  isActive s && bool_decide (is_Some (videoRef s)).

Inductive Event :=
  | EMountEffect
  | EGranted (mediaStream : nat)
  | EDenied
  | EClickToggle
  | EClickRetry
  | ESummary (summary : string)
  | EUnmount.

(** One event.  The browser settles a pending call, with a stream that is
    new; the toggle button is rendered when there is no error and calls
    [stopWebcam] or [startWebcam] by [isActive]; the retry button is rendered
    when there is an error; the session manager publishes a summary when it
    is shown. *)
Definition exec (e : Event) (s : State) : option State :=
  match e with
  | EMountEffect => Some (startWebcam s)
  | EGranted mediaStream =>
      if bool_decide (0 < requests s ∧ mediaStream ∉ live s)
      then Some (granted mediaStream s) else None
  | EDenied => if bool_decide (0 < requests s) then Some (denied s) else None
  | EClickToggle =>
      if mounted s && bool_decide (error s = None)
      then Some (if isActive s then stopWebcam (stream s) s else startWebcam s)
      else None
  | EClickRetry =>
      if mounted s && negb (bool_decide (error s = None))
      then Some (startWebcam s) else None
  | ESummary summary =>
      if mounted s && managerShown s
      then Some (handleSessionSummary summary s) else None
  | EUnmount => if mounted s then Some (unmount s) else None
  end.

Fixpoint run (es : list Event) (s : State) : option State :=
  match es with
  | [] => Some s
  | e :: es => s' ← exec e s; run es s'
  end.

(** What holds of every state: an active component has a stream, and the
    stream of the state is live. *)
Record Inv (s : State) : Prop := {
  Inv_active : isActive s = true → is_Some (stream s);
  Inv_live : ∀ st, stream s = Some st → st ∈ live s;
}.

(** The camera is on, and the page is left. *)
Definition visit : list Event := [EMountEffect; EGranted 0; EUnmount].

(** The permission is refused, then given on the second attempt. *)
Definition retry : list Event :=
  [EMountEffect; EDenied; EClickRetry; EGranted 0].

(** The start button is clicked while the first call is pending. *)
Definition twice : list Event :=
  [EMountEffect; EClickToggle; EGranted 0; EGranted 1; EClickToggle].

Definition after (es : list Event) : State := default init (run es init).

End Webcam.

(** ** The player *)

Lemma Qfloor_div60 (time : Q) : Qfloor (time / 60) = (Qfloor time / 60)%Z.
Proof.
  destruct time as [a b]. unfold Qfloor, Qdiv, Qmult, Qinv. simpl.
  by rewrite Z.mul_1_r, Pos2Z.inj_mul, Z.div_div by lia.
Qed.

Lemma Qfloor_sub_Z (time : Q) (k : Z) :
  Qfloor (time - inject_Z k) = (Qfloor time - k)%Z.
Proof.
  destruct time as [a b]. unfold Qfloor, Qminus, Qplus, Qopp, inject_Z. simpl.
  rewrite Z.mul_1_r, Pos.mul_1_r, Z.mul_opp_l, Z.add_opp_r.
  replace (a - k * Z.pos b)%Z with (a + - k * Z.pos b)%Z by lia.
  rewrite Z.div_add by lia. lia.
Qed.

Lemma Qfloor_nonneg (time : Q) : (0 <= time)%Q → (0 ≤ Qfloor time)%Z.
Proof. intros H. by apply (Qfloor_resp_le 0 time) in H. Qed.

Lemma pad2_length (n : Z) :
  (0 ≤ n < 60)%Z → String.length (Player.pad2 n) = 2.
Proof.
  intros Hn.
  assert (H : forallb (λ k, String.length (Player.pad2 (Z.of_nat k)) =? 2)
                (seq 0 60) = true) by by vm_compute.
  rewrite forallb_forall in H. specialize (H (Z.to_nat n)).
  rewrite Z2Nat.id, Nat.eqb_eq in H by lia. apply H, in_seq. lia.
Qed.

(** The states of the player in which its flags tell the state of the
    element are closed under every handler, as long as the element changes
    only as the component asks. *)
Lemma player_exec_inSync e s s' :
  Player.quiet e = true →
  Player.exec e s = Some s' → Player.inSync s → Player.inSync s'.
Proof.
  unfold Player.inSync.
  destruct e, s as [[[]|] ? ? ? ?]; simpl; intros; simplify_option_eq;
    repeat case_match; naive_solver.
Qed.

Lemma player_run_inSync es s s' :
  Forall (λ e, Player.quiet e = true) es →
  Player.run es s = Some s' → Player.inSync s → Player.inSync s'.
Proof.
  intros Hq. revert s. induction Hq as [|e es He _ IH]; intros s H ?;
    simplify_option_eq; eauto using player_exec_inSync.
Qed.

(** C40. The time shown is the whole seconds of the time, split into minutes
    and seconds below sixty, the seconds on two digits. *)
Theorem formatTime_spec (time : Q) :
  (0 <= time)%Q →
  ∃ m sec : Z,
    (0 ≤ m)%Z ∧ (0 ≤ sec < 60)%Z ∧ Qfloor time = (60 * m + sec)%Z ∧
    Player.formatTime time = show_Z m +:+ ":" +:+ Player.pad2 sec ∧
    String.length (Player.pad2 sec) = 2.
Proof.
  intros Ht%Qfloor_nonneg. unfold Player.formatTime.
  rewrite Qfloor_sub_Z, Qfloor_div60.
  exists (Qfloor time / 60)%Z, (Qfloor time - 60 * (Qfloor time / 60))%Z.
  pose proof (Z.div_pos (Qfloor time) 60).
  pose proof (Z.mod_pos_bound (Qfloor time) 60).
  pose proof (Z.div_mod (Qfloor time) 60).
  split_and!; [lia..|done|apply pad2_length; lia].
Qed.

Lemma formatTime_spec_witness :
  ∃ m sec : Z,
    (0 ≤ m)%Z ∧ (0 ≤ sec < 60)%Z ∧ Qfloor (1255 # 10) = (60 * m + sec)%Z ∧
    Player.formatTime (1255 # 10) = show_Z m +:+ ":" +:+ Player.pad2 sec ∧
    String.length (Player.pad2 sec) = 2.
Proof. apply (formatTime_spec (1255 # 10)). by vm_compute. Defined.

(** Two minutes and five and a half seconds. *)
Example formatTime_sample : Player.formatTime (1255 # 10) = "2:05".
Proof. by vm_compute. Qed.

(** C39. As long as every [play()] is allowed and the browser does not
    pause, resume or mute the element on its own, the play and mute buttons
    show the state of the element, whatever is clicked and however the
    video plays: it plays exactly when [isPlaying] holds and is muted
    exactly when [isMuted] holds. *)
Theorem player_in_sync es s :
  Forall (λ e, Player.quiet e = true) es →
  Player.run es Player.init = Some s → Player.inSync s.
Proof. intros Hq H. by apply (player_run_inSync _ _ _ Hq H). Qed.

Lemma player_in_sync_witness : Player.inSync (Player.after Player.watched).
Proof.
  apply (player_in_sync Player.watched); [by repeat constructor|by vm_compute].
Defined.

(** A click brings the flag of its button back in step with the element,
    whatever happened before, unless it is a [play()] that is refused. *)
Theorem click_resyncs allowed s v :
  Player.videoRef s = Some v →
  (∀ v', Player.videoRef (Player.toggleMute s) = Some v' →
         Player.isMuted (Player.toggleMute s) = Player.muted v') ∧
  (Player.isPlaying s = true ∨ allowed = true →
   ∀ v', Player.videoRef (Player.togglePlay allowed s) = Some v' →
         Player.isPlaying (Player.togglePlay allowed s)
         = negb (Player.paused v')).
Proof.
  intros Hv. unfold Player.toggleMute, Player.togglePlay. rewrite Hv. simpl.
  split; [by intros ? [= <-]|]. intros Hp v' [= <-].
  destruct (Player.isPlaying s), allowed; naive_solver.
Qed.

Lemma click_resyncs_witness :
  Player.isPlaying (Player.togglePlay true (Player.after Player.interrupted))
  = false ∧
  Player.paused <$>
    Player.videoRef (Player.togglePlay true (Player.after Player.interrupted))
  = Some true.
Proof.
  destruct (click_resyncs true (Player.after Player.interrupted)
              {| Player.paused := true; Player.muted := false;
                 Player.position := 30; Player.length := 90 |} eq_refl)
    as [_ H].
  split; [|done]. by rewrite (H (or_introl eq_refl) _ eq_refl).
Defined.

(** A [play()] that is refused leaves the button showing "Pause" over a
    paused video; the next click calls [pause()], which does nothing, and
    shows "Play" again: the video needs a third click to start. *)
Example refused_play_desyncs :
  let s := Player.after Player.refused in
  Player.playLabel s = "Pause" ∧
  Player.paused <$> Player.videoRef s = Some true ∧
  ¬ Player.inSync s ∧
  Player.inSync (Player.togglePlay true s) ∧
  Player.playLabel (Player.togglePlay true s) = "Play".
Proof. vm_compute. naive_solver. Qed.

(** A video the browser paused keeps its "Pause" button, and a video the
    browser muted its "Mute" button. *)
Example browser_pause_desyncs :
  let s := Player.after Player.interrupted in
  Player.playLabel s = "Pause" ∧
  Player.paused <$> Player.videoRef s = Some true ∧
  Player.muteLabel (Player.after [Player.EMount 90; Player.EBrowserMute true])
  = "Mute" ∧
  Player.muted <$>
    Player.videoRef (Player.after [Player.EMount 90; Player.EBrowserMute true])
  = Some true.
Proof. by vm_compute. Qed.

(** ** The webcam *)

Lemma webcam_init_Inv : Webcam.Inv Webcam.init.
Proof. by split. Qed.

Lemma stopWebcam_Inv captured s :
  Webcam.Inv s → Webcam.Inv (Webcam.stopWebcam captured s).
Proof. intros []. destruct captured; [by split|by split]. Qed.

(** An update dropped by an unmounted component keeps the invariant when
    no track is stopped. *)
Lemma commit_Inv s s' :
  Webcam.Inv s → Webcam.Inv s' → Webcam.live s ⊆ Webcam.live s' →
  Webcam.Inv (Webcam.commit s s').
Proof.
  intros [Ha Hl] HI' Hsub. unfold Webcam.commit.
  destruct (Webcam.mounted s); [done|]. split; simpl; [done|].
  intros st Hst. apply Hsub. auto.
Qed.

(** The tracks after the browser settled a call, mounted or not. *)
Lemma granted_live st s :
  Webcam.live (Webcam.granted st s) = Webcam.live s ++ [st].
Proof. unfold Webcam.granted, Webcam.commit. by case_match. Qed.

Lemma denied_live s : Webcam.live (Webcam.denied s) = Webcam.live s.
Proof. unfold Webcam.denied, Webcam.commit. by case_match. Qed.

Lemma granted_Inv st s : Webcam.Inv s → Webcam.Inv (Webcam.granted st s).
Proof.
  intros HI. apply commit_Inv; [done| |simpl; set_solver].
  split; simpl; [done|]. intros ? [= <-]. set_solver.
Qed.

Lemma denied_Inv s : Webcam.Inv s → Webcam.Inv (Webcam.denied s).
Proof.
  intros HI. apply commit_Inv; [done| |done]. destruct HI. by split.
Qed.

Lemma webcam_exec_Inv e s s' :
  Webcam.exec e s = Some s' → Webcam.Inv s → Webcam.Inv s'.
Proof.
  intros H HI. pose proof (stopWebcam_Inv (Webcam.stream s) s HI).
  pose proof (granted_Inv) as Hg. pose proof (denied_Inv s HI) as Hd.
  destruct e; simpl in H; repeat case_match; simplify_eq; auto;
    destruct HI; by split.
Qed.

(** C38. In every state of the webcam component, an active component holds a
    stream, and the stream it holds is one whose tracks are live. *)
Theorem webcam_invariant es s :
  Webcam.run es Webcam.init = Some s → Webcam.Inv s.
Proof.
  intros H. cut (Webcam.Inv Webcam.init); [|apply webcam_init_Inv].
  revert H. generalize Webcam.init.
  induction es as [|e es IH]; intros s0 H ?; simplify_option_eq;
    eauto using webcam_exec_Inv.
Qed.

Lemma webcam_invariant_witness : Webcam.Inv (Webcam.after Webcam.twice).
Proof. by apply (webcam_invariant Webcam.twice). Defined.

(** The stop button releases the camera: the tracks of the stream the
    component held are stopped, and the component holds no stream. *)
Theorem stop_releases_camera s s' st :
  Webcam.isActive s = true → Webcam.stream s = Some st →
  Webcam.exec Webcam.EClickToggle s = Some s' →
  (st ∉ Webcam.live s') ∧
  Webcam.stream s' = None ∧ Webcam.isActive s' = false.
Proof.
  simpl. intros -> -> H. case_match; simplify_eq. simpl.
  split; [|done]. rewrite list_elem_of_filter. naive_solver.
Qed.

Lemma stop_releases_camera_witness :
  0 ∉ Webcam.live
        (Webcam.stopWebcam (Some 0)
           (Webcam.after [Webcam.EMountEffect; Webcam.EGranted 0])).
Proof.
  by apply (stop_releases_camera
    (Webcam.after [Webcam.EMountEffect; Webcam.EGranted 0]) _ 0).
Defined.

(** Leaving the page does not release the camera: the cleanup of the
    mount effect calls the [stopWebcam] of the first render, which saw no
    stream, so that every track that was live stays live. *)
Theorem unmount_keeps_camera s s' :
  Webcam.exec Webcam.EUnmount s = Some s' →
  Webcam.live s' = Webcam.live s ∧ Webcam.stream s' = Webcam.stream s.
Proof. simpl. intros. by case_match; simplify_eq. Qed.

Lemma unmount_keeps_camera_witness :
  Webcam.live (Webcam.after Webcam.visit) = [0] ∧
  Webcam.stream (Webcam.after Webcam.visit) = Some 0.
Proof.
  by apply (unmount_keeps_camera
    (Webcam.after [Webcam.EMountEffect; Webcam.EGranted 0])).
Defined.

(** When the permission is refused and then given on a second attempt,
    the camera is on and the session manager is shown, but the video element
    shows nothing: the element of the first render went with the error, and
    the stream was never attached to the new one. *)
Theorem retry_shows_nothing :
  let s := Webcam.after Webcam.retry in
  Webcam.isActive s = true ∧ Webcam.live s = [0] ∧
  Webcam.videoRef s = Some None ∧ Webcam.managerShown s = true.
Proof. repeat split; by vm_compute. Qed.

(** A click on the start button while the first call of [getUserMedia]
    is pending opens the camera twice; the stop button then releases the
    second stream only, and the component shows the camera as off. *)
Theorem double_start_leaks :
  let s := Webcam.after Webcam.twice in
  Webcam.isActive s = false ∧ Webcam.stream s = None ∧ Webcam.live s = [0].
Proof. repeat split; by vm_compute. Qed.
