(* ===== verification/App.v ===== *)
(** * App: the page with its children

    Models the JSX of [Home] in src/app/page.tsx (lines 146-205): the three
    source buttons, the child rendered for the source that is selected
    (src/components/VideoSelector.tsx, LiveYouTubeStream.tsx or
    WebcamCapture.tsx, modelled in Sources.v and Player.v) and the query
    form (src/components/QueryInterface.tsx, module [Form] of Page.v),
    whose [onQuery] is [handleQuery].

    A click on the button of another source unmounts the child and mounts
    the child of the new source: the state of the old child is lost, its
    cleanup runs, and the new child starts from its first render.  A webcam
    component that was unmounted is kept in [gone], with the tracks it left
    live and the calls of [getUserMedia] it left pending, which the browser
    still settles.

    An event of a child happens only when the child renders the control:
    [selectorView] and [liveView] are the returns of the two source
    components, [selectorOffers] and [liveOffers] the controls of each.

    What [handleQuery] reads of the document is no longer a record given
    from outside, as in Page.v: [document] derives it from the child that is
    rendered.  The frame of a video element, the thumbnails and the API
    remain parameters.  The promise of the query under way is kept in
    [promise] and settles the form when it settles. *)

From Stdlib Require Import ZArith QArith Ascii String.
From stdpp Require Import base list gmap strings.
From S2P Require Import Prelude Text Stats Query Sources Page Player.

#[local] Open Scope js_scope.

#[export] Instance SourceType_eq_dec : EqDecision Home.SourceType.
Proof. solve_decision. Defined.

Module App.

(** The child the page renders under the source buttons. *)
Inductive Child :=
  | CSelector (c : Selector.State)
  | CLive (c : Live.State)
  | CWebcam (c : Webcam.State).

(** The page, its child, its form, the promise of the query under way and
    the webcam components that were unmounted. *)
Record State := {
  home : Home.State;
  child : Child;
  form : Form.State;
  promise : option Home.Settled;
  gone : list Webcam.State;
}.

#[export] Instance set_home : Setter home := λ f s,
  Build_State (f (home s)) (child s) (form s) (promise s) (gone s).
#[export] Instance set_child : Setter child := λ f s,
  Build_State (home s) (f (child s)) (form s) (promise s) (gone s).
#[export] Instance set_form : Setter form := λ f s,
  Build_State (home s) (child s) (f (form s)) (promise s) (gone s).
#[export] Instance set_promise : Setter promise := λ f s,
  Build_State (home s) (child s) (form s) (f (promise s)) (gone s).
#[export] Instance set_gone : Setter gone := λ f s,
  Build_State (home s) (child s) (form s) (promise s) (f (gone s)).

(** [{sourceType === 'video' && <VideoSelector />}] and the two others: the
    first render of the child; the mount effect of the webcam asks for the
    camera. *)
Definition mountChild (t : Home.SourceType) : Child :=
  match t with
  | Home.SVideo => CSelector Selector.init
  | Home.SLive => CLive Live.init
  | Home.SWebcam => CWebcam (Webcam.startWebcam Webcam.init)
  end.

(** The child leaves the page: the cleanup of a webcam runs. *)
Definition unmountChild (c : Child) (gone : list Webcam.State)
    : list Webcam.State :=
  match c with
  | CWebcam w => gone ++ [Webcam.unmount w]
  | _ => gone
  end.

Definition init : State := {|
  home := Home.init; child := mountChild (Home.sourceType Home.init);
  form := Form.init; promise := None; gone := [];
|}.

(** [onClick={() => setSourceType(t)}]: nothing is rendered again when the
    source is the one selected. *)
Definition handleSource (t : Home.SourceType) (s : State) : State :=
  if decide (t = Home.sourceType (home s)) then s
  else s <| home ::= Home.setSourceType t |>
         <| gone ::= unmountChild (child s) |>
         <| child := mountChild t |>.

(** The calls of [onVideoSelect] reach [handleVideoSelect]. *)
Definition notify (calls : list (string * VideoType)) (h : Home.State)
    : Home.State :=
  foldl (λ h c, Home.handleVideoSelect c.1 c.2 h) h calls.

(** An event of the video selector, with the calls it makes. *)
Definition selectorEvent (e : Selector.Event) (c : Selector.State) (s : State)
    : State :=
  let c' := Selector.exec e c in
  s <| child := CSelector c' |>
    <| home ::= notify (drop (length (Selector.onVideoSelect c))
                             (Selector.onVideoSelect c')) |>.

(** What the video selector renders: the frame of the YouTube video, the
    player of the uploaded file, or the form in one of its two modes. *)
Inductive SelectorView :=
  | VFrame (src : string)
  | VFile (src : string)
  | VForm (mode : InputMode).

Definition selectorView (c : Selector.State) : SelectorView :=
  match Selector.iframeSrc c, Selector.uploadedVideo c with
  | Some src, _ => VFrame src
  | None, Some u => VFile u
  | None, None => VForm (Selector.inputMode c)
  end.

(** The controls of the selector that are rendered: the mode buttons and
    the input of the mode on the form, "Change Video" beside a video. *)
Definition selectorOffers (c : Selector.State) (e : Selector.Event) : bool :=
  match selectorView c, e with
  | VForm _, Selector.EMode _ => true
  | VForm ModeYoutube, (Selector.EInput _ | Selector.ESubmit) => true
  | VForm ModeUpload, Selector.EUpload _ => true
  | (VFrame _ | VFile _), Selector.EReset => true
  | _, _ => false
  end.

(** What the live stream component renders: the frame with its link to
    YouTube, or the form. *)
Inductive LiveView :=
  | LFrame (src href : string)
  | LForm.

Definition liveView (c : Live.State) : LiveView :=
  match Live.videoId c, Live.iframeSrc c with
  | Some i, Some src => LFrame src ("https://www.youtube.com/watch?v=" +:+ i)
  | _, _ => LForm
  end.

(** The controls of the live stream component that are rendered. *)
Definition liveOffers (c : Live.State) (e : Live.Event) : bool :=
  match liveView c, e with
  | LFrame _ _, Live.EReset => true
  | LForm, (Live.EInput _ | Live.ESubmit) => true
  | _, _ => false
  end.

(** The events of a mounted webcam that are not the page's: the mount
    effect and the cleanup run when the page mounts and unmounts it. *)
Definition owned (e : Webcam.Event) : bool :=
  match e with
  | Webcam.EMountEffect | Webcam.EUnmount => false
  | _ => true
  end.

(** What still happens to a webcam that was unmounted: the browser settles
    its calls of [getUserMedia]. *)
Definition settles (e : Webcam.Event) : bool :=
  match e with
  | Webcam.EGranted _ | Webcam.EDenied => true
  | _ => false
  end.

Section Document.
Context (frameOf : option nat → string) (fileFrame : string → string).
Context (context2d : bool) (thumbnail : string → Home.Thumbnail).
Context (api : Api.Request → option Api.Response).

(** What [handleQuery] finds in the document: the frame of the live stream
    or of the selected video, whose [src] is the rendered attribute as the
    browser parsed and serialised it ([Url.srcOf]), the video element of the
    webcam, with the frame [frameOf] of what it plays, and the video element
    of an uploaded file, which the selector renders when no YouTube video is
    selected.  A fetch that fails throws with the message of Chrome. *)
Definition document (s : State) : Home.World := {|
  Home.embedFrame :=
    match child s with
    | CLive c => Url.srcOf (Live.iframeSrc c)
    | CSelector c => Url.srcOf (Selector.iframeSrc c)
    | CWebcam _ => None
    end;
  Home.autoplayVideo :=
    match child s with
    | CWebcam w => frameOf <$> Webcam.videoRef w
    | _ => None
    end;
  Home.controlsVideo :=
    match child s with
    | CSelector c =>
        if Selector.youtubeVideoId c is Some _ then None
        else fileFrame <$> Selector.uploadedVideo c
    | _ => None
    end;
  Home.context2d := context2d;
  Home.thumbnail := thumbnail;
  Home.api := api;
  Home.fetchError := "Failed to fetch";
|}.

(** [handleQuery(query)] on the page as it is. *)
Definition ask (q : string) (s : State) : Home.Outcome :=
  Home.handleQuery (document s) q (home s).

(** [handleSubmit] of the form: when it passes its guard it calls
    [onQuery], and the promise it awaits is the one [handleQuery] returns. *)
Definition submit (s : State) : State :=
  let f := form s in
  if blank (Form.query f) || Form.searching f then s
  else s <| form ::= Form.handleSubmit |>
         <| promise := Some (Home.settled (ask (trim (Form.query f)) s)) |>.

(** The promise settles, if it ever does. *)
Definition settle (s : State) : option State :=
  match promise s with
  | Some (Home.Resolved result) =>
      Some (s <| form ::= Form.resolved result |> <| promise := None |>)
  | Some (Home.Rejected message) =>
      Some (s <| form ::= Form.rejected message |> <| promise := None |>)
  | Some Home.Pending | None => None
  end.

Inductive Event :=
  | ESource (t : Home.SourceType)
  | ESelector (e : Selector.Event)
  | ELive (e : Live.Event)
  | EWebcam (e : Webcam.Event)
  | ELate (i : nat) (e : Webcam.Event)
  | EForm (e : Form.Event)
  | ESettle.

(** One event, when it can happen: an event of a child needs the child to
    be the one rendered and to render the control; the form is settled by
    its promise only. *)
Definition exec (e : Event) (s : State) : option State :=
  match e with
  | ESource t => Some (handleSource t s)
  | ESelector e =>
      if child s is CSelector c then
        if selectorOffers c e then Some (selectorEvent e c s) else None
      else None
  | ELive e =>
      if child s is CLive c then
        if liveOffers c e
        then Some (s <| child := CLive (Live.exec e c) |>) else None
      else None
  | EWebcam e =>
      if child s is CWebcam w then
        if owned e
        then w' ← Webcam.exec e w; Some (s <| child := CWebcam w' |>)
        else None
      else None
  | ELate i e =>
      w ← gone s !! i;
      if settles e
      then w' ← Webcam.exec e w; Some (s <| gone ::= <[i := w']> |>)
      else None
  | EForm e =>
      match e with
      | Form.EResolved _ | Form.ERejected _ => None
      | Form.ESubmit => Some (submit s)
      | _ => f ← Form.exec false e (form s); Some (s <| form := f |>)
      end
  | ESettle => settle s
  end.

Fixpoint run (es : list Event) (s : State) : option State :=
  match es with
  | [] => Some s
  | e :: es => s' ← exec e s; run es s'
  end.

End Document.

(** The tracks that unmounted webcams left live. *)
Definition leaked (s : State) : list nat := gone s ≫= Webcam.live.

(** What holds of every state: the child is the child of the source; what
    the selector shows is what the page was told; the webcams are in states
    in which an active component holds a live stream; the form awaits a
    promise exactly while it is searching. *)
Record Inv (s : State) : Prop := {
  inv_child :
    match Home.sourceType (home s), child s with
    | Home.SVideo, CSelector _ | Home.SLive, CLive _
    | Home.SWebcam, CWebcam _ => True
    | _, _ => False
    end;
  inv_youtube : ∀ c i,
    child s = CSelector c → Selector.youtubeVideoId c = Some i →
    Home.videoInfo (home s) = Some (i, TypeYoutube);
  inv_file : ∀ c u,
    child s = CSelector c → Selector.youtubeVideoId c = None →
    Selector.uploadedVideo c = Some u →
    Home.videoInfo (home s) = Some (u, TypeFile);
  inv_webcam : ∀ w, child s = CWebcam w → Webcam.Inv w;
  inv_form : Form.Inv (form s);
  inv_promise : is_Some (promise s) ↔ Form.searching (form s) = true;
}.

(** The samples: a server that fails, a video is chosen and dismissed, the
    camera is on when the source is changed. *)
Definition failing (req : Api.Request) : option Api.Response :=
  server (λ _, Api.Thrown (Some "quota")) req.

Definition stills (id : string) : Home.Thumbnail :=
  Home.DataUrl "data:image/jpeg;base64,/9j/2wBD".

Definition chosen : list Event :=
  [ESource Home.SVideo;
   ESelector (Selector.EInput "https://youtu.be/jfKfPfyJRdk");
   ESelector Selector.ESubmit].

Definition dismissed : list Event := chosen ++ [ESelector Selector.EReset].

Definition filmed : list Event :=
  [ESource Home.SWebcam; EWebcam (Webcam.EGranted 7); ESource Home.SLive].

Definition stuck : list Event :=
  [ELive (Live.EInput "https://youtu.be/jfKfPfyJRdk"); ELive Live.ESubmit;
   EForm (Form.EInput "How many cars?"); EForm Form.ESubmit].

(** The frame of the camera and of an uploaded file, for the samples. *)
Definition cam (stream : option nat) : string :=
  "data:image/jpeg;base64,/9j/4AAQ".

Definition after (es : list Event) : State :=
  default init (run cam id true stills failing es init).

(** The selector after a video was chosen, and the webcam with the camera
    on. *)
Definition picked : Selector.State :=
  Selector.run [Selector.EInput "https://youtu.be/jfKfPfyJRdk";
                Selector.ESubmit] Selector.init.

Definition onAir : Webcam.State :=
  Webcam.granted 7 (Webcam.startWebcam Webcam.init).

End App.

(** ** The calls of the selector *)

Lemma notify_sourceType calls h :
  Home.sourceType (App.notify calls h) = Home.sourceType h.
Proof.
  revert h. induction calls as [|c calls IH]; intros h; simpl; [done|].
  by rewrite IH.
Qed.

Lemma notify_snoc calls c h :
  Home.videoInfo (App.notify (calls ++ [c]) h) = Some c.
Proof. unfold App.notify. rewrite foldl_app. by destruct c. Qed.

(** The calls an event of the selector adds: a submit that finds an id and
    an upload of a video add one, nothing else adds any. *)
Lemma selector_calls e c :
  drop (length (Selector.onVideoSelect c))
       (Selector.onVideoSelect (Selector.exec e c)) = [] ∧
    Selector.youtubeVideoId (Selector.exec e c) = None ∧
    Selector.uploadedVideo (Selector.exec e c) = None ∨
  drop (length (Selector.onVideoSelect c))
       (Selector.onVideoSelect (Selector.exec e c)) = [] ∧
    Selector.youtubeVideoId (Selector.exec e c) = Selector.youtubeVideoId c ∧
    Selector.uploadedVideo (Selector.exec e c) = Selector.uploadedVideo c ∨
  ∃ call, drop (length (Selector.onVideoSelect c))
               (Selector.onVideoSelect (Selector.exec e c)) = [call] ∧
          match call.2 with
          | TypeYoutube =>
              Selector.youtubeVideoId (Selector.exec e c) = Some call.1
          | TypeFile =>
              Selector.youtubeVideoId (Selector.exec e c) = None ∧
              Selector.uploadedVideo (Selector.exec e c) = Some call.1
          end.
Proof.
  destruct e as [url|m| |[[type url]|]|]; simpl;
    unfold Selector.handleYoutubeSubmit, Selector.handleFileUpload;
    repeat case_match; simpl;
    first [ right; right; eexists; split; [by rewrite drop_app_length|done]
          | right; left; by rewrite drop_all
          | left; by rewrite drop_all ].
Qed.

(** ** The invariant *)

Lemma AppInv_init : App.Inv App.init.
Proof. split; simpl; try done. apply form_init_Inv. Qed.

Lemma AppInv_handleSource t s : App.Inv s → App.Inv (App.handleSource t s).
Proof.
  intros [Hc Hy Hf Hw Hfo Hp]. unfold App.handleSource. case_decide; [done|].
  split; simpl; try done.
  - by destruct t.
  - intros c i Ht. by destruct t; simplify_eq/=.
  - intros c u Ht. by destruct t; simplify_eq/=.
  - intros w Ht. destruct t; simplify_eq/=.
    by apply (webcam_exec_Inv Webcam.EMountEffect Webcam.init), webcam_init_Inv.
Qed.

Lemma AppInv_selectorEvent e c s :
  App.child s = App.CSelector c → App.Inv s →
  App.Inv (App.selectorEvent e c s).
Proof.
  intros Hs [Hc Hy Hf Hw Hfo Hp]. unfold App.selectorEvent.
  split; simpl; try done.
  - rewrite notify_sourceType. by rewrite Hs in Hc.
  - intros ? i [= <-] Hi.
    destruct (selector_calls e c) as [(-> & ? & ?)|[(-> & Ey & ?)|(call & -> & Hcall)]];
      simpl; [congruence|rewrite Ey in Hi; eauto|].
    destruct call as [url []]; simpl in *; [naive_solver|congruence].
  - intros ? u [= <-] Hi Hu.
    destruct (selector_calls e c) as [(-> & ? & ?)|[(-> & Ey & Eu)|(call & -> & Hcall)]];
      simpl; [congruence|rewrite Ey in Hi; rewrite Eu in Hu; eauto|].
    destruct call as [url []]; simpl in *; [naive_solver|congruence].
Qed.

Section AppMachine.
Context (frameOf : option nat → string) (fileFrame : string → string).
Context (context2d : bool) (thumbnail : string → Home.Thumbnail).
Context (api : Api.Request → option Api.Response).
#[local] Abbreviation exec := (App.exec frameOf fileFrame context2d thumbnail api).
#[local] Abbreviation run := (App.run frameOf fileFrame context2d thumbnail api).
#[local] Abbreviation ask := (App.ask frameOf fileFrame context2d thumbnail api).
#[local] Abbreviation document :=
  (App.document frameOf fileFrame context2d thumbnail api).

Lemma AppInv_submit s :
  App.Inv s →
  App.Inv (App.submit frameOf fileFrame context2d thumbnail api s).
Proof.
  intros [Hc Hy Hf Hw Hfo Hp]. unfold App.submit.
  destruct (blank _ || Form.searching _) eqn:Hg; [done|].
  split; simpl; try done; [by apply handleSubmit_Inv|].
  unfold Form.handleSubmit. rewrite Hg. simpl. split; [done|by eexists].
Qed.

Lemma AppInv_settle s s' :
  App.settle s = Some s' → App.Inv s → App.Inv s'.
Proof.
  intros Hs [Hc Hy Hf Hw Hfo Hp]. unfold App.settle in Hs.
  assert (is_Some (App.promise s) → Form.pending (App.form s) ≠ []) as Hne.
  { intros Hsome%Hp. destruct Hfo as [H1 _ _ _ _]. rewrite H1 in Hsome.
    by apply bool_decide_eq_true in Hsome. }
  destruct (App.promise s) as [[r|m|]|]; simplify_eq; split; simpl; try done;
    [apply resolved_Inv|apply rejected_Inv]; eauto.
Qed.

(** The events of the form that are not its submit leave [searching]. *)
Lemma form_event_searching e f f' :
  Form.exec false e f = Some f' →
  match e with
  | Form.ESubmit | Form.EResolved _ | Form.ERejected _ => True
  | _ => Form.searching f' = Form.searching f
  end.
Proof. destruct e; simpl; intros; repeat case_match; by simplify_option_eq. Qed.

Lemma AppInv_form e f s :
  Form.exec false e (App.form s) = Some f →
  match e with
  | Form.ESubmit | Form.EResolved _ | Form.ERejected _ => False
  | _ => True
  end →
  App.Inv s → App.Inv (App.set_form (λ _, f) s).
Proof.
  intros E He [Hc Hy Hf Hw Hfo Hp].
  pose proof (form_event_searching _ _ _ E) as Hse.
  split; simpl; try done; [by eapply form_exec_Inv|].
  destruct e; try done; by rewrite Hse.
Qed.

#[local] Arguments Form.exec : simpl never.

Lemma AppInv_exec e s s' : exec e s = Some s' → App.Inv s → App.Inv s'.
Proof.
  destruct e as [t|e|e|e|i e|e|]; simpl; intros He HI.
  - simplify_eq. by apply AppInv_handleSource.
  - destruct (App.child s) as [c| |] eqn:Hs; [|done..].
    destruct (App.selectorOffers c e); simplify_eq.
    by apply AppInv_selectorEvent.
  - destruct (App.child s) as [|c|] eqn:Hs; try done.
    destruct (App.liveOffers c e); simplify_eq.
    destruct HI as [Hc Hy Hf Hw Hfo Hp]. rewrite Hs in Hc. by split.
  - destruct (App.child s) as [| |w] eqn:Hs; [done..|].
    destruct (App.owned e); [|done].
    destruct (Webcam.exec e w) as [w'|] eqn:E; simplify_eq/=.
    destruct HI as [Hc Hy Hf Hw Hfo Hp]. rewrite Hs in Hc.
    split; simpl; try done. intros ? [= <-]. eauto using webcam_exec_Inv.
  - destruct (App.gone s !! i) as [w|]; [|done].
    destruct (App.settles e); [|done]. simpl in He.
    destruct (Webcam.exec e w); simplify_eq/=. by destruct HI.
  - destruct e; try done; [..|by simplify_eq; apply AppInv_submit|];
      (destruct (Form.exec false _ (App.form s)) as [f|] eqn:E; [|done]);
      simplify_eq/=; by eapply AppInv_form.
  - by eapply AppInv_settle.
Qed.

Lemma AppInv_run es s s' : run es s = Some s' → App.Inv s → App.Inv s'.
Proof.
  revert s. induction es as [|e es IH]; intros s Hr ?; simplify_option_eq;
    eauto using AppInv_exec.
Qed.

End AppMachine.

(** ** The tracks that are left live *)

Lemma leaked_insert i w w' gone :
  gone !! i = Some w → Webcam.live w ⊆ Webcam.live w' →
  (gone ≫= Webcam.live) ⊆ (<[i:=w']> gone ≫= Webcam.live).
Proof.
  intros Hi Hsub x (y & Hx & [j Hj]%list_elem_of_lookup)%list_elem_of_bind.
  apply list_elem_of_bind. destruct (decide (i = j)) as [->|].
  - exists w'. split; [apply Hsub; congruence|].
    apply list_elem_of_lookup. exists j.
    apply list_lookup_insert_eq. by eapply lookup_lt_Some.
  - exists y. split; [done|]. apply list_elem_of_lookup. exists j.
    by rewrite list_lookup_insert_ne.
Qed.

(** When the browser settles a call of [getUserMedia], no track stops. *)
Lemma settles_live e w w' :
  App.settles e = true → Webcam.exec e w = Some w' →
  Webcam.live w ⊆ Webcam.live w'.
Proof.
  destruct e; try done; simpl; intros _ He; case_match; simplify_eq;
    rewrite ?granted_live, ?denied_live; set_solver.
Qed.

Section AppTheorems.
Context (frameOf : option nat → string) (fileFrame : string → string).
Context (context2d : bool) (thumbnail : string → Home.Thumbnail).
Context (api : Api.Request → option Api.Response).
#[local] Abbreviation exec := (App.exec frameOf fileFrame context2d thumbnail api).
#[local] Abbreviation run := (App.run frameOf fileFrame context2d thumbnail api).
#[local] Abbreviation ask := (App.ask frameOf fileFrame context2d thumbnail api).
#[local] Abbreviation document :=
  (App.document frameOf fileFrame context2d thumbnail api).

(** No event stops a track that an unmounted webcam left live. *)
Lemma leaked_mono e s s' : exec e s = Some s' → App.leaked s ⊆ App.leaked s'.
Proof.
  unfold App.leaked.
  destruct e as [t|e|e|e|i e|e|]; simpl; intros He; repeat case_match;
    simplify_option_eq; try done.
  - unfold App.handleSource. case_decide; [done|]. simpl.
    unfold App.unmountChild. case_match; try done. rewrite bind_app.
    set_solver.
  - eauto using leaked_insert, settles_live.
  - unfold App.submit. by case_match.
  - unfold App.settle in *. by repeat case_match; simplify_eq.
Qed.

Lemma leaked_run es s s' : run es s = Some s' → App.leaked s ⊆ App.leaked s'.
Proof.
  revert s. induction es as [|e es IH]; intros s Hr; simpl in Hr.
  { by simplify_eq. }
  destruct (exec e s) as [s1|] eqn:E; [|done].
  etrans; [by eapply leaked_mono|by apply IH].
Qed.

(** C21. What the video selector shows is what the page asks about: while a
    YouTube video is shown, a question fetches the thumbnail of that video;
    while an uploaded file is shown, a question takes the frame of its
    video element. *)
Theorem shown_video_is_asked es s c q :
  run es App.init = Some s → App.child s = App.CSelector c →
  match Selector.youtubeVideoId c, Selector.uploadedVideo c with
  | Some i, _ => ask q s = Home.viaThumbnail (document s) i q "YouTube Video"
  | None, Some u =>
      ask q s = Home.viaCanvas (document s) (Some (fileFrame u))
                  "No video loaded" q "VIDEO"
  | None, None => True
  end.
Proof.
  intros [Hc Hy Hf _ _ _]%AppInv_run Hs; [|apply AppInv_init].
  rewrite Hs in Hc. unfold App.ask, Home.handleQuery.
  destruct (Home.sourceType (App.home s)) eqn:Ht; try done.
  destruct (Selector.youtubeVideoId c) as [i|] eqn:Ey.
  - by rewrite (Hy c i Hs Ey).
  - destruct (Selector.uploadedVideo c) as [u|] eqn:Eu; [|done].
    rewrite (Hf c u Hs Ey Eu). simpl. by rewrite Hs, Ey, Eu.
Qed.

(** C22. A camera that is on when the user changes the source stays on: the
    cleanup of the webcam stops no track, and nothing that happens on the
    page afterwards stops it. *)
Theorem camera_stays_on es es' s s1 s2 w st t :
  run es App.init = Some s →
  App.child s = App.CWebcam w → Webcam.stream w = Some st →
  t ≠ Home.SWebcam → exec (App.ESource t) s = Some s1 →
  run es' s1 = Some s2 →
  st ∈ App.leaked s2.
Proof.
  intros [Hc _ _ Hw _ _]%AppInv_run Hs Hst Ht He Hr; [|apply AppInv_init].
  apply (leaked_run _ _ _ Hr). simpl in He. simplify_eq.
  destruct (Hw w Hs) as [_ Hl]. rewrite Hs in Hc.
  unfold App.handleSource, App.leaked. case_decide as Hd; simpl.
  { rewrite <-Hd in Hc. by destruct t. }
  rewrite Hs. simpl. rewrite bind_app. simpl. set_solver.
Qed.

(** The page never forgets a video it was told of: no event clears
    [videoInfo]. *)
Lemma videoInfo_kept e s s' :
  exec e s = Some s' → is_Some (Home.videoInfo (App.home s)) →
  is_Some (Home.videoInfo (App.home s')).
Proof.
  destruct e as [t|e|e|e|i e|e|]; simpl; intros He Hv; repeat case_match;
    simplify_option_eq; try done.
  - unfold App.handleSource. by case_decide.
  - destruct (selector_calls e c) as [(-> & _)|[(-> & _)|(call & -> & _)]];
      by simpl.
  - unfold App.submit. by case_match.
  - unfold App.settle in *. by repeat case_match; simplify_eq.
Qed.

(** A query that never settles freezes the form. *)
Lemma stuck_step e s s' :
  App.promise s = Some Home.Pending →
  Form.searching (App.form s) = true → Form.result (App.form s) = None →
  exec e s = Some s' →
  App.form s' = App.form s ∧ App.promise s' = Some Home.Pending.
Proof.
  intros Hp Hs Hr. destruct e as [t|e|e|e|i e|e|]; simpl; intros He.
  - simplify_eq. unfold App.handleSource. by case_decide.
  - by repeat case_match; simplify_eq.
  - by repeat case_match; simplify_eq.
  - destruct (App.child s) as [| |w]; try done. destruct (App.owned e); [|done].
    destruct (Webcam.exec e w); by simplify_eq/=.
  - destruct (App.gone s !! i) as [w|]; [|done].
    destruct (App.settles e); [|done]. simpl in He.
    destruct (Webcam.exec e w); by simplify_eq/=.
  - destruct e as [v|k| |r|m|]; try done; unfold Form.exec in He;
      simpl in He; rewrite ?Hs, ?Hr, ?orb_true_r in He; try done.
    simplify_eq. unfold App.submit. by rewrite Hs, orb_true_r.
  - unfold App.settle in He. by rewrite Hp in He.
Qed.

Lemma stuck_run es s s' :
  App.promise s = Some Home.Pending →
  Form.searching (App.form s) = true → Form.result (App.form s) = None →
  run es s = Some s' →
  App.form s' = App.form s ∧ App.promise s' = Some Home.Pending.
Proof.
  revert s. induction es as [|e es IH]; intros s Hp Hs Hr Hrun; simpl in Hrun.
  { by simplify_eq. }
  destruct (exec e s) as [s1|] eqn:E; [|done].
  destruct (stuck_step e s s1 Hp Hs Hr E) as [Ef Ep].
  destruct (IH s1) as [-> ->]; rewrite ?Ef; done.
Qed.

(** C23. When the promise of [handleQuery] never settles, the form never
    leaves its searching state: whatever happens on the page after the
    submit, the form is as the submit left it, with its input and its
    button disabled. *)
Theorem search_never_ends es s s1 s2 :
  Form.searching (App.form s) = false →
  blank (Form.query (App.form s)) = false →
  Home.settled (ask (trim (Form.query (App.form s))) s) = Home.Pending →
  exec (App.EForm Form.ESubmit) s = Some s1 → run es s1 = Some s2 →
  App.form s2 = Form.handleSubmit (App.form s) ∧
  Form.searching (App.form s2) = true.
Proof.
  intros Hs Hb Hp He Hr. simpl in He. unfold App.submit in He.
  rewrite Hb, Hs, Hp in He. simpl in He. simplify_eq.
  assert (Form.searching (Form.handleSubmit (App.form s)) = true ∧
          Form.result (Form.handleSubmit (App.form s)) = None) as [Hs' Hr'].
  { unfold Form.handleSubmit. by rewrite Hb, Hs. }
  apply stuck_run in Hr as [-> _]; done.
Qed.

End AppTheorems.

(** ** Samples *)

Lemma shown_video_is_asked_witness :
  App.ask App.cam id true App.stills App.failing "How many cars?"
    (App.after App.chosen)
  = Home.viaThumbnail
      (App.document App.cam id true App.stills App.failing
         (App.after App.chosen))
      "jfKfPfyJRdk" "How many cars?" "YouTube Video".
Proof.
  assert (App.run App.cam id true App.stills App.failing App.chosen App.init
          = Some (App.after App.chosen)) as H1 by (by vm_compute).
  assert (App.child (App.after App.chosen) = App.CSelector App.picked) as H2
    by (by vm_compute).
  exact (shown_video_is_asked App.cam id true App.stills App.failing
           App.chosen _ _ "How many cars?" H1 H2).
Defined.

Lemma camera_stays_on_witness : 7 ∈ App.leaked (App.after App.filmed).
Proof.
  apply (camera_stays_on App.cam id true App.stills App.failing
           [App.ESource Home.SWebcam; App.EWebcam (Webcam.EGranted 7)] []
           (App.after [App.ESource Home.SWebcam;
                       App.EWebcam (Webcam.EGranted 7)])
           (App.after App.filmed) (App.after App.filmed) App.onAir 7
           Home.SLive); try done; by vm_compute.
Defined.

Lemma search_never_ends_witness :
  App.form (App.after (App.stuck ++ [App.ESource Home.SWebcam]))
  = Form.handleSubmit (App.form (App.after (removelast App.stuck))) ∧
  Form.searching
    (App.form (App.after (App.stuck ++ [App.ESource Home.SWebcam]))) = true.
Proof.
  apply (search_never_ends App.cam id true App.stills App.failing
           [App.ESource Home.SWebcam] (App.after (removelast App.stuck))
           (App.after App.stuck)); by vm_compute.
Defined.

(** A video is chosen and dismissed with "Change Video": the selector is
    back at its form and shows no frame, and a question still fetches the
    thumbnail of the video that was dismissed. *)
Example dismissed_video_asked :
  let s := App.after App.dismissed in
  Home.embedFrame (App.document App.cam id true App.stills App.failing s)
  = None ∧
  App.child s = App.CSelector (Selector.handleReset App.picked) ∧
  App.ask App.cam id true App.stills App.failing "How many cars?" s
  = Home.viaThumbnail (App.document App.cam id true App.stills App.failing s)
      "jfKfPfyJRdk" "How many cars?" "YouTube Video".
Proof. by vm_compute. Qed.

(** A live stream whose id is a double-dot segment is shown, and a question
    about it is refused: the address of the frame has lost [embed], so that
    the page finds no id in it. *)
Example dotted_stream_refused :
  let s := App.after [App.ELive (Live.EInput "youtu.be/..");
                      App.ELive Live.ESubmit] in
  match App.child s with
  | App.CLive c =>
      App.liveView c
      = App.LFrame "https://www.youtube.com/embed/..?autoplay=1&mute=0&controls=1"
          "https://www.youtube.com/watch?v=.."
  | _ => False
  end ∧
  Home.settled
    (App.ask App.cam id true App.stills App.failing "How many cars?" s)
  = Home.Rejected
      (Some "No live stream loaded. Please paste a YouTube URL first.").
Proof. split; by vm_compute. Qed.

(** The same after a visit to another source: the selector is mounted
    again, in its first render. *)
Example returned_video_asked :
  let s := App.after (App.chosen ++ [App.ESource Home.SLive;
                                     App.ESource Home.SVideo]) in
  App.child s = App.CSelector Selector.init ∧
  App.ask App.cam id true App.stills App.failing "How many cars?" s
  = Home.viaThumbnail (App.document App.cam id true App.stills App.failing s)
      "jfKfPfyJRdk" "How many cars?" "YouTube Video".
Proof. by vm_compute. Qed.

(** On a live stream, when the model fails, the route answers 500, the
    promise never settles and the form stays in its searching state. *)
Example live_failure_sticks :
  App.promise (App.after App.stuck) = Some Home.Pending ∧
  Form.searching (App.form (App.after App.stuck)) = true ∧
  App.exec App.cam id true App.stills App.failing App.ESettle
    (App.after App.stuck) = None.
Proof. by vm_compute. Qed.
